(** * StarBoard: the data synchronisation layer of [script.js]

    A shallow embedding of the storage code of the StarBoard front-end
    controller (class [StarBoard] of [script.js], the Supabase-era copy) and
    of the two Netlify functions behind it ([netlify/functions/starboard.js]
    and [netlify/functions/supabase-starboard.js]).

    Conventions of the embedding.
    - Documents are the values [JSON.parse] yields.  A number is a double
      that is an integer, or one of the two infinities, which [JSON.parse]
      yields for a literal beyond the range of the doubles ([1e999]);
      fractions are not followed, and [-0] is not told from [0].  Additions
      round as the doubles do.  The embedding has no [NaN], no [undefined]
      stored inside a document and no functions.
    - An object is the list of its own properties in enumeration order, as
      [Object.entries] yields them.  A property read is an own-property
      lookup: members inherited from the prototypes are functions, and none
      of the fixed keys the code reads ([classes], [students], [name], ...)
      names one.
    - [undefined] is [None] at type [option value].
    - Every asynchronous method is run to completion: interleavings of
      pending promises are not part of the model. *)

From Stdlib Require Import ZArith Ascii String List Bool Lia.
From stdpp Require Import base option list strings pretty.

Local Open Scope string_scope.
Local Open Scope Z_scope.

(** ** Numbers *)

#[local] Set Warnings "-register-all".

Inductive number : Type :=
| Finite (z : Z)
| Infinity
| NegInfinity.

Coercion Finite : Z >-> number.

(** The double nearest to the integer [z], as long as the exponent fits:
    below [2^53] every integer is a double; above, the doubles between
    [2^(52+k)] and [2^(53+k)] are the multiples of [2^k], and an integer
    half way between two of them goes to the one whose 53-bit significand is
    even. *)
Definition round53 (z : Z) : Z :=
  let a := Z.abs z in
  if a <? 2 ^ 53 then z
  else
    let k := Z.log2 a - 52 in
    let q := a / 2 ^ k in
    let r := a mod 2 ^ k in
    let half := 2 ^ (k - 1) in
    let up := if r <? half then false
              else if half <? r then true
              else Z.odd q in
    Z.sgn z * ((if up then q + 1 else q) * 2 ^ k).

(** The number an exact integer result is delivered as: rounded, and an
    infinity when the rounded value does not fit ([2^1024] is the first
    power of two that is no double). *)
Definition of_integer (z : Z) : number :=
  let r := round53 z in
  if 2 ^ 1024 <=? r then Infinity
  else if r <=? - 2 ^ 1024 then NegInfinity
  else Finite r.

(** [a + k] for an integer [k]. *)
Definition add_int (a : number) (k : Z) : number :=
  match a with
  | Finite x => of_integer (x + k)
  | Infinity => Infinity
  | NegInfinity => NegInfinity
  end.

(** [a + b]; [None] is [NaN]. *)
Definition add (a b : number) : option number :=
  match a, b with
  | Finite x, Finite y => Some (of_integer (x + y))
  | Infinity, NegInfinity | NegInfinity, Infinity => None
  | Infinity, _ | _, Infinity => Some Infinity
  | NegInfinity, _ | _, NegInfinity => Some NegInfinity
  end.

(** [a < b] and [a <= b] *)
Definition below (a b : number) : bool :=
  match a, b with
  | Finite x, Finite y => x <? y
  | Finite _, Infinity => true
  | Finite _, NegInfinity => false
  | Infinity, _ => false
  | NegInfinity, NegInfinity => false
  | NegInfinity, _ => true
  end.

Definition at_most (a b : number) : bool := negb (below b a).

(** [Math.max(0, a)] *)
Definition max0 (a : number) : number :=
  if below a 0 then Finite 0 else a.

(** ToBoolean of a number *)
Definition nonzero (a : number) : bool :=
  match a with
  | Finite z => negb (z =? 0)
  | _ => true
  end.

(** *** The text of a number

    [Number.prototype.toString]: the decimal digits of the integer up to
    [2^53]; above, the shortest digits that still denote the double, filled
    up with zeros, and from [1e21] on the same digits with an exponent. *)

(** The number of decimal digits of a positive integer. *)
Definition digits (a : Z) : Z := Z.of_nat (String.length (pretty a)).

(** The integer of fewest significant digits that rounds to [a], the number
    of digits tried being those of [ks] in turn; of two with the same number
    of digits the nearer one, and the even one when they are as near. *)
Fixpoint shortest (a d : Z) (ks : list Z) : Z :=
  match ks with
  | [] => a
  | k :: rest =>
      let p := 10 ^ (d - k) in
      let low := a / p * p in
      let high := low + p in
      let low_ok := round53 low =? a in
      let high_ok := round53 high =? a in
      if low_ok && high_ok then
        (if a - low <? high - a then low
         else if high - a <? a - low then high
         else if Z.even (low / p) then low else high)
      else if low_ok then low
      else if high_ok then high
      else shortest a d rest
  end.

Fixpoint strip_zeros (reversed : list ascii) : list ascii :=
  match reversed with
  | "0"%char :: rest => strip_zeros rest
  | _ => reversed
  end.

(** The significant digits of [c], a point after the first. *)
Definition significand_text (c : Z) : string :=
  match rev (strip_zeros (rev (list_ascii_of_string (pretty c)))) with
  | [] => "0"
  | [first] => String first EmptyString
  | first :: more => String first (String "."%char (string_of_list_ascii more))
  end.

Definition positive_text (a : Z) : string :=
  if a <? 2 ^ 53 then pretty a
  else
    let c := shortest a (digits a)
               [1; 2; 3; 4; 5; 6; 7; 8; 9; 10; 11; 12; 13; 14; 15; 16; 17] in
    if digits c <=? 21 then pretty c
    else significand_text c ++ "e+" ++ pretty (digits c - 1).

Definition number_text (n : number) : string :=
  match n with
  | Finite z => if z <? 0 then "-" ++ positive_text (- z) else positive_text z
  | Infinity => "Infinity"
  | NegInfinity => "-Infinity"
  end.

(** ** JSON values *)

Inductive value : Type :=
| VNull
| VBool (b : bool)
| VNum (n : number)
| VStr (s : string)
| VArr (items : list value)
| VObj (fields : list (string * value)).

Inductive jstype : Type := TUndefined | TObject | TBoolean | TNumber | TString.

Definition jstype_eqb (a b : jstype) : bool :=
  match a, b with
  | TUndefined, TUndefined | TObject, TObject | TBoolean, TBoolean
  | TNumber, TNumber | TString, TString => true
  | _, _ => false
  end.

(** [typeof v]; [typeof null] is ["object"], and so is [typeof] of an array. *)
Definition typeof (v : option value) : jstype :=
  match v with
  | None => TUndefined
  | Some VNull => TObject
  | Some (VBool _) => TBoolean
  | Some (VNum _) => TNumber
  | Some (VStr _) => TString
  | Some (VArr _) => TObject
  | Some (VObj _) => TObject
  end.

(** ToBoolean: what [if (v)], [!v] and [v || w] test. *)
Definition truthy (v : option value) : bool :=
  match v with
  | None => false
  | Some VNull => false
  | Some (VBool b) => b
  | Some (VNum n) => nonzero n
  | Some (VStr s) => negb (s =? EmptyString)%string
  | Some (VArr _) => true
  | Some (VObj _) => true
  end.

(** ** Outcomes

    [Throw] is a JavaScript exception (or a rejected promise).  [Beyond]
    marks the few places where JavaScript would go on with a value that is
    not JSON ([NaN], the string form of an object, a named property on an
    array): the embedding makes no statement there. *)

Inductive outcome (A : Type) : Type :=
| Ret (a : A)
| Throw
| Beyond.
Arguments Ret {A} a.
Arguments Throw {A}.
Arguments Beyond {A}.

#[global] Instance outcome_ret : MRet outcome := fun _ a => Ret a.
#[global] Instance outcome_bind : MBind outcome := fun _ _ f m =>
  match m with
  | Ret a => f a
  | Throw => Throw
  | Beyond => Beyond
  end.

(** ** Property access *)

Fixpoint assoc (k : string) (fs : list (string * value)) : option value :=
  match fs with
  | [] => None
  | (k', v) :: rest => if (k =? k')%string then Some v else assoc k rest
  end.

(** The key of the [i]-th element of an array. *)
Definition index_key (i : nat) : string := pretty i.

(** The elements of an array with their keys, the first key being [i]. *)
Fixpoint indexed_from (i : nat) (items : list value) : list (string * value) :=
  match items with
  | [] => []
  | v :: rest => (index_key i, v) :: indexed_from (S i) rest
  end.

Definition indexed (items : list value) : list (string * value) :=
  indexed_from 0 items.

Definition chars (s : string) : list value :=
  map (fun c => VStr (String c EmptyString)) (list_ascii_of_string s).

(** The own properties [Object.entries] enumerates. *)
Definition own_entries (v : value) : list (string * value) :=
  match v with
  | VObj fs => fs
  | VArr items => indexed items
  | VStr s => indexed (chars s)
  | _ => []
  end.

(** [Object.entries(v)]: a [TypeError] on [null] and [undefined]. *)
Definition object_entries (v : option value) : outcome (list (string * value)) :=
  match v with
  | None | Some VNull => Throw
  | Some v => Ret (own_entries v)
  end.

Definition length_of (v : value) : option value :=
  match v with
  | VArr items => Some (VNum (Z.of_nat (length items)))
  | VStr s => Some (VNum (Z.of_nat (String.length s)))
  | _ => None
  end.

(** [v.k] and [v[k]]: a [TypeError] when [v] is [null] or [undefined],
    [undefined] when the property is missing. *)
Definition get (v : option value) (k : string) : outcome (option value) :=
  match v with
  | None | Some VNull => Throw
  | Some v =>
      match assoc k (own_entries v) with
      | Some x => Ret (Some x)
      | None => Ret (if (k =? "length")%string then length_of v else None)
      end
  end.

(** [v.hasOwnProperty(k)].  The method is found on [Object.prototype] unless
    the object has an own property of that name, which in a JSON document is
    never a function: calling it is a [TypeError]. *)
Definition hasOwnProperty (v : option value) (k : string) : outcome bool :=
  match v with
  | None | Some VNull => Throw
  | Some v =>
      match assoc "hasOwnProperty" (own_entries v) with
      | Some _ => Throw
      | None =>
          match assoc k (own_entries v), length_of v with
          | Some _, _ => Ret true
          | None, Some _ => Ret (k =? "length")%string
          | None, None => Ret false
          end
      end
  end.

(** ** The Schema Validator: [validateDataStructure] *)

Definition requiredProps : list string := ["classes"; "teachers"; "settings"].

(** The loop over [requiredProps]. *)
Fixpoint check_required (data : option value) (props : list string) : outcome bool :=
  match props with
  | [] => Ret true
  | prop :: rest =>
      own ← hasOwnProperty data prop;
      if negb own then Ret false
      else
        field ← get data prop;
        if negb (jstype_eqb (typeof field) TObject) then Ret false
        else check_required data rest
  end.

(** [student.stars < 0], reached only when [typeof student.stars] is
    ["number"]. *)
Definition negative (v : option value) : bool :=
  match v with
  | Some (VNum n) => below n 0
  | _ => false
  end.

(** The loop over [Object.entries(classData.students)]. *)
Fixpoint check_students (entries : list (string * value)) : outcome bool :=
  match entries with
  | [] => Ret true
  | (_, student) :: rest =>
      name ← get (Some student) "name";
      if negb (truthy name) then Ret false
      else
        stars ← get (Some student) "stars";
        if negb (jstype_eqb (typeof stars) TNumber) then Ret false
        else if negative stars then Ret false
        else check_students rest
  end.

(** The loop over [Object.entries(data.classes)]. *)
Fixpoint check_classes (entries : list (string * value)) : outcome bool :=
  match entries with
  | [] => Ret true
  | (_, classData) :: rest =>
      students ← get (Some classData) "students";
      if negb (truthy students) then Ret false
      else if negb (jstype_eqb (typeof students) TObject) then Ret false
      else
        es ← object_entries students;
        ok ← check_students es;
        if (ok : bool) then check_classes rest else Ret false
  end.

(** The loop over [Object.entries(data.teachers)]; [typeof username] is
    always ["string"], property keys being strings. *)
Fixpoint check_teachers (entries : list (string * value)) : outcome bool :=
  match entries with
  | [] => Ret true
  | (_, password) :: rest =>
      if negb (jstype_eqb (typeof (Some password)) TString) then Ret false
      else check_teachers rest
  end.

Definition validateDataStructure (data : option value) : outcome bool :=
  if negb (truthy data) then Ret false
  else if negb (jstype_eqb (typeof data) TObject) then Ret false
  else
    required ← check_required data requiredProps;
    if negb required then Ret false
    else
      classes ← get data "classes";
      classes_ok ←
        (if truthy classes
         then es ← object_entries classes; check_classes es
         else Ret true);
      if negb classes_ok then Ret false
      else
        teachers ← get data "teachers";
        teachers_ok ←
          (if truthy teachers
           then es ← object_entries teachers; check_teachers es
           else Ret true);
        if negb teachers_ok then Ret false
        else Ret true.

(** ** Writing a property *)

Fixpoint assoc_set (k : string) (x : value) (fs : list (string * value))
  : list (string * value) :=
  match fs with
  | [] => [(k, x)]
  | (k', v) :: rest =>
      if (k =? k')%string then (k, x) :: rest else (k', v) :: assoc_set k x rest
  end.

(** The position in [items] of the element whose key is [k], the first key
    being [i]. *)
Fixpoint position (i : nat) (k : string) (items : list value) : option nat :=
  match items with
  | [] => None
  | _ :: rest =>
      if (k =? index_key i)%string then Some 0%nat
      else S <$> position (S i) k rest
  end.

(** [v.k = x] in strict mode (class bodies are strict): a [TypeError] on
    [null], [undefined] and on primitives.  On an array only the replacement
    of an existing element stays within JSON. *)
Definition set (v : option value) (k : string) (x : value) : outcome value :=
  match v with
  | None | Some VNull => Throw
  | Some (VObj fs) => Ret (VObj (assoc_set k x fs))
  | Some (VArr items) =>
      match position 0 k items with
      | Some i => Ret (VArr (<[i := x]> items))
      | None => Beyond
      end
  | Some (VBool _) | Some (VNum _) | Some (VStr _) => Throw
  end.

(** ** The world: the page, the device stores and the two remote stores *)

(** A reference is an index into the heap. *)
Abbreviation loc := nat (only parsing).

(** A string that is meant to hold JSON: [Json v] is a text [JSON.parse]
    turns into [v]; [Garbled] is one it rejects. *)
Inductive text : Type :=
| Garbled
| Json (v : value).

Inductive tier : Type := Primary | Legacy.
Inductive verb : Type := GET | PUT.

(** The requests the page has sent. *)
Inductive event : Type := Fetch (t : tier) (m : verb).

Record state : Type := mkState {
  (** the objects of the page; a reference is an index, and a variable that
      holds [undefined] is a reference to nothing *)
  heap : list value;
  (** [this.memoryCache]; [None] is [null] *)
  memoryCache : option loc;
  (** [this.currentClass] *)
  currentClass : option string;
  (** IndexedDB [starboard_db], store [kv], key ['data'] *)
  idb : option value;
  (** [localStorage['starboard_data']] *)
  localStorage : option text;
  (** Supabase table [starboard_data], row ['main'], column [data] *)
  supabase : option value;
  (** Netlify blob store [starboard], key ['data.json'] *)
  blobs : option value;
  requests : list event
}.

Definition with_heap (h : list value) (s : state) : state :=
  mkState h (memoryCache s) (currentClass s) (idb s) (localStorage s)
    (supabase s) (blobs s) (requests s).
Definition with_memoryCache (m : option loc) (s : state) : state :=
  mkState (heap s) m (currentClass s) (idb s) (localStorage s)
    (supabase s) (blobs s) (requests s).
Definition with_idb (d : option value) (s : state) : state :=
  mkState (heap s) (memoryCache s) (currentClass s) d (localStorage s)
    (supabase s) (blobs s) (requests s).
Definition with_localStorage (t : option text) (s : state) : state :=
  mkState (heap s) (memoryCache s) (currentClass s) (idb s) t
    (supabase s) (blobs s) (requests s).
Definition with_supabase (d : option value) (s : state) : state :=
  mkState (heap s) (memoryCache s) (currentClass s) (idb s) (localStorage s)
    d (blobs s) (requests s).
Definition with_blobs (d : option value) (s : state) : state :=
  mkState (heap s) (memoryCache s) (currentClass s) (idb s) (localStorage s)
    (supabase s) d (requests s).
Definition with_requests (r : list event) (s : state) : state :=
  mkState (heap s) (memoryCache s) (currentClass s) (idb s) (localStorage s)
    (supabase s) (blobs s) r.

(** What the surroundings decide during one operation. *)
Inductive link : Type :=
| Unreachable                 (** [fetch] rejects *)
| Served (backend_ok : bool)  (** the function runs; its backing service
                                  works or raises *).

Record env : Type := mkEnv {
  now : string;           (** [new Date().toISOString()] in the page *)
  server_now : string;    (** the same in the functions *)
  primary : link;
  legacy : link;
  idb_open_ok : bool;     (** [indexedDB.open] succeeds *)
  idb_get_ok : bool;      (** [store.get] succeeds *)
  idb_put_ok : bool;      (** [store.put] succeeds *)
  ls_set_ok : bool;       (** [localStorage.setItem] does not raise *)
  redraw_ok : bool        (** the redrawing of the page in [modifyStars]
                              does not raise *)
}.

(** ** The monad of the page's methods: state and exceptions *)

Definition M (A : Type) : Type := state -> outcome A * state.

#[global] Instance M_ret : MRet M := fun _ a s => (Ret a, s).
#[global] Instance M_bind : MBind M := fun _ _ f m s =>
  match m s with
  | (Ret a, s') => f a s'
  | (Throw, s') => (Throw, s')
  | (Beyond, s') => (Beyond, s')
  end.

Definition throw {A : Type} : M A := fun s => (Throw, s).
Definition lift {A : Type} (o : outcome A) : M A := fun s => (o, s).
Definition gets {A : Type} (f : state -> A) : M A := fun s => (Ret (f s), s).
Definition modify (f : state -> state) : M unit := fun s => (Ret tt, f s).

(** [try { body } catch { handler }] *)
Definition try_catch {A : Type} (body handler : M A) : M A := fun s =>
  match body s with
  | (Throw, s') => handler s'
  | r => r
  end.

Definition alloc (v : value) : M loc := fun s =>
  (Ret (length (heap s)), with_heap (heap s ++ [v]) s).
Definition deref (l : loc) : M (option value) := gets (fun s => heap s !! l).
Definition store (l : loc) (v : value) : M unit :=
  modify (fun s => with_heap (<[l := v]> (heap s)) s).

(** ** The Netlify functions *)

Record request : Type := mkRequest {
  httpMethod : string;
  body : option text       (** [None]: no body, or the empty string *)
}.

(** An answer of a function: [payload] is the value whose JSON text is the
    body. *)
Record response : Type := mkResponse {
  statusCode : Z;
  payload : value
}.

Definition json (statusCode : Z) (body : value) : response :=
  mkResponse statusCode body.

(** [createDefaultData()], the same object in the page and in both
    functions, at clock reading [t]. *)
Definition default_document (t : string) : value :=
  VObj [("classes", VObj []);
        ("teachers", VObj [("teacher", VStr "starboard")]);
        ("settings", VObj [("theme", VStr "dark");
                           ("soundEnabled", VBool true);
                           ("autoBackup", VBool true)]);
        ("metadata", VObj [("version", VStr "2.0");
                           ("created", VStr t);
                           ("lastModified", VStr t);
                           ("backupCount", VNum 0)])].

(** The test of both PUT branches, negated:
    [!parsed || typeof parsed !== 'object' || !parsed.classes]. *)
Definition lightweight_invalid (parsed : value) : outcome bool :=
  if negb (truthy (Some parsed)) then Ret true
  else if negb (jstype_eqb (typeof (Some parsed)) TObject) then Ret true
  else
    classes ← get (Some parsed) "classes";
    Ret (negb (truthy classes)).

(** The body of a 500 answer carries the message of the exception, which is
    not modelled; the page never reads it. *)
Definition failure : value := VObj [("error", VStr "error")].

(** [event.body || '{}'] *)
Definition body_or_empty (event : request) : text :=
  match body event with
  | Some t => t
  | None => Json (VObj [])
  end.

(** [netlify/functions/starboard.js] *)
Module StarboardFn.

(** [handler(event)] over the blob [data.json]; [backend_ok = false] makes
    the calls to the blob store ([store.get], [store.setJSON]) raise. *)
Definition handler (backend_ok : bool) (t : string) (event : request)
    (blob : option value) : response * option value :=
  if (httpMethod event =? "GET")%string then
    if negb backend_ok then (json 500 failure, blob)
    else
      let data :=
        match blob with
        | Some value => if truthy (Some value) then value else default_document t
        | None => default_document t
        end in
      (json 200 data, blob)
  else if (httpMethod event =? "PUT")%string then
    match body_or_empty event with
    | Garbled => (json 500 failure, blob)
    | Json parsed =>
        match lightweight_invalid parsed with
        | Ret true => (json 400 (VObj [("error", VStr "Invalid data")]), blob)
        | Ret false =>
            if negb backend_ok then (json 500 failure, blob)
            else (json 200 (VObj [("ok", VBool true)]), Some parsed)
        | _ => (json 500 failure, blob)
        end
    end
  else (json 405 (VObj [("error", VStr "Method not allowed")]), blob).

End StarboardFn.

(** [netlify/functions/supabase-starboard.js] *)
Module SupabaseFn.

(** [handler(event)] over the row ['main'] of a function that has its
    configuration; [backend_ok = false] makes the Supabase client report an
    error other than "no row" on [select] and on [upsert].  (A function
    deployed without its configuration answers 500 to every request, which
    for GET and for a PUT the test lets through is the answer given here.) *)
Definition handler (backend_ok : bool) (t : string) (event : request)
    (row : option value) : response * option value :=
  if (httpMethod event =? "GET")%string then
    if negb backend_ok then (json 500 failure, row)
    else
      match row with
      | None => (json 200 (default_document t), Some (default_document t))
      | Some data =>
          (json 200 (if truthy (Some data) then data else default_document t),
           row)
      end
  else if (httpMethod event =? "PUT")%string then
    match body_or_empty event with
    | Garbled => (json 500 failure, row)
    | Json parsed =>
        match lightweight_invalid parsed with
        | Ret true =>
            (json 400 (VObj [("error", VStr "Invalid data structure")]), row)
        | Ret false =>
            if negb backend_ok then (json 500 failure, row)
            else (json 200 (VObj [("success", VBool true)]), Some parsed)
        | _ => (json 500 failure, row)
        end
    end
  else if (httpMethod event =? "OPTIONS")%string then (json 200 (VObj []), row)
  else (json 405 (VObj [("error", VStr "Method not allowed")]), row).

End SupabaseFn.

(** ** Properties named by the user

    A class name, a user name or a student id typed into a form can be the
    name of a member every object inherits.  [find] tells the three cases
    apart for an object; on an array, a string or a number the inherited
    names depend on the engine, and only the numerals are followed. *)

(** A text of decimal digits. *)
Definition is_digit (c : ascii) : bool :=
  (48 <=? nat_of_ascii c)%nat && (nat_of_ascii c <=? 57)%nat.

Fixpoint numeral (s : string) : bool :=
  match s with
  | EmptyString => true
  | String c rest => is_digit c && numeral rest
  end.

(** The names [Object.prototype] provides. *)
Definition object_prototype : list string :=
  ["constructor"; "__defineGetter__"; "__defineSetter__"; "hasOwnProperty";
   "__lookupGetter__"; "__lookupSetter__"; "isPrototypeOf";
   "propertyIsEnumerable"; "toString"; "valueOf"; "__proto__";
   "toLocaleString"].

Definition inherited (k : string) : bool :=
  existsb (String.eqb k) object_prototype.

Inductive found : Type :=
| Own (x : value)   (** an own property *)
| Inherited         (** a member of the prototype: a function, or the
                        prototype itself for [__proto__] *)
| Missing.          (** [undefined] *)

(** [v[k]] *)
Definition find (v : option value) (k : string) : outcome found :=
  match v with
  | None | Some VNull => Throw
  | Some c =>
      match assoc k (own_entries c), c with
      | Some x, _ => Ret (Own x)
      | None, VObj _ => Ret (if inherited k then Inherited else Missing)
      | None, _ =>
          match length_of c with
          | Some len =>
              if (k =? "length")%string then Ret (Own len)
              else if numeral k then Ret Missing else Beyond
          | None => if numeral k then Ret Missing else Beyond
          end
      end
  end.

(** ToBoolean of what was found; functions and prototypes are truthy. *)
Definition found_truthy (f : found) : bool :=
  match f with
  | Own x => truthy (Some x)
  | Inherited => true
  | Missing => false
  end.

(** [f === s] for a string [s]. *)
Definition found_is (f : found) (s : string) : bool :=
  match f with
  | Own (VStr t) => (t =? s)%string
  | _ => false
  end.

(** [v[k]] is a member that [v] inherits, or one the embedding does not
    follow. *)
Definition inherited_member (v : option value) (k : string) : bool :=
  match find v k with
  | Ret (Own _) | Ret Missing | Throw => false
  | Ret Inherited | Beyond => true
  end.

(** ** The page: class [StarBoard] *)

(** The string a value turns into when [+] meets it.  An array joins its
    elements with commas, [null] elements giving the empty string; an object
    is ["[object Object]"], unless an own [toString] property, which is not a
    function, hides the inherited method: then the conversion is a
    [TypeError]. *)
Fixpoint to_string (v : value) : outcome string :=
  match v with
  | VNull => Ret "null"
  | VBool b => Ret (if b then "true" else "false")
  | VNum n => Ret (number_text n)
  | VStr s => Ret s
  | VObj fs =>
      match assoc "toString" fs with
      | Some _ => Throw
      | None => Ret "[object Object]"
      end
  | VArr items =>
      (fix join (l : list value) : outcome string :=
         match l with
         | [] => Ret EmptyString
         | x :: rest =>
             first ← match x with VNull => Ret EmptyString | _ => to_string x end;
             match rest with
             | [] => Ret first
             | _ :: _ => others ← join rest; Ret (first ++ "," ++ others)
             end
         end) items
  end.

(** [operand + 1]: a number is incremented, [true] and [null] count as 1 and
    0, anything else is turned into a string and ["1"] is appended.
    [undefined + 1] is [NaN]. *)
Definition plus_one (operand : option value) : outcome value :=
  match operand with
  | Some (VNum n) => Ret (VNum (add_int n 1))
  | Some (VBool b) => Ret (VNum ((if b then 1 else 0) + 1))
  | Some VNull => Ret (VNum 1)
  | Some v => s ← to_string v; Ret (VStr (s ++ "1"))
  | None => Beyond
  end.

(** [(data.metadata?.backupCount || 0) + 1] *)
Definition next_backupCount (data : option value) : outcome value :=
  metadata ← get data "metadata";
  prior ←
    match metadata with
    | None | Some VNull => Ret None
    | Some _ => get metadata "backupCount"
    end;
  if truthy prior then plus_one prior else plus_one (Some (VNum 0)).

(** [Math.max(0, student.stars + amount)] for a numeric [amount]; a string,
    an object or [undefined] on the left gives a string or [NaN]. *)
Definition max0_plus (stars : option value) (amount : Z) : outcome value :=
  match stars with
  | Some (VNum s) => Ret (VNum (max0 (add_int s amount)))
  | Some VNull => Ret (VNum (max0 (add_int 0 amount)))
  | Some (VBool b) => Ret (VNum (max0 (add_int (if b then 1 else 0) amount)))
  | _ => Beyond
  end.

(** [JSON.parse(JSON.stringify(v))]: [JSON.stringify] writes [null] for a
    number that is not finite, so the round trip returns the value with
    [null] in the place of every infinity, and otherwise equal; the object
    is a new one, which [alloc] accounts for. *)
Fixpoint json_clone (v : value) : value :=
  match v with
  | VNum (Finite z) => VNum (Finite z)
  | VNum _ => VNull
  | VArr items => VArr (map json_clone items)
  | VObj fs => VObj (map (fun p => (fst p, json_clone (snd p))) fs)
  | _ => v
  end.

(** [JSON.stringify(v)] *)
Definition stringify (v : value) : text := Json (json_clone v).

(** [res.ok] *)
Definition res_ok (r : response) : bool :=
  (200 <=? statusCode r) && (statusCode r <=? 299).

Definition verb_name (m : verb) : string :=
  match m with GET => "GET" | PUT => "PUT" end.

(** [this.currentClass] as a property key. *)
Definition class_key (c : option string) : string :=
  match c with Some name => name | None => "null" end.

Section Page.

Variable e : env.

(** [fetch] of one of the two function endpoints: the request is recorded,
    then the function runs on its store, unless the network is down. *)
Definition fetch (t : tier) (m : verb) (content : option text) : M response :=
  modify (fun s => with_requests (requests s ++ [Fetch t m]) s);;
  match t with
  | Primary =>
      match primary e with
      | Unreachable => throw
      | Served ok => fun s =>
          let (r, row) :=
            SupabaseFn.handler ok (server_now e)
              (mkRequest (verb_name m) content) (supabase s) in
          (Ret r, with_supabase row s)
      end
  | Legacy =>
      match legacy e with
      | Unreachable => throw
      | Served ok => fun s =>
          let (r, blob) :=
            StarboardFn.handler ok (server_now e)
              (mkRequest (verb_name m) content) (blobs s) in
          (Ret r, with_blobs blob s)
      end
  end.

(** [createDefaultData()]; its two clock readings are taken to be one. *)
Definition createDefaultData : M loc := alloc (default_document (now e)).

Definition dbInit : M unit :=
  if idb_open_ok e then mret tt else throw.

(** [resolve(getReq.result || null)].  [dbLoad] and [dbSave] open the
    database without creating the store [kv], which [dbInit] does: the flags
    of [env] describe a database that has the store.  (On one that has not,
    the promise is never settled, which the embedding does not follow.) *)
Definition dbLoad : M (option loc) :=
  if idb_open_ok e && idb_get_ok e then
    record ← gets idb;
    match record with
    | Some v => if truthy (Some v) then l ← alloc v; mret (Some l) else mret None
    | None => mret None
    end
  else throw.

(** [store.put(data, 'data')] keeps a structured clone of [data]. *)
Definition dbSave (data : loc) : M bool :=
  if idb_open_ok e && idb_put_ok e then
    v ← deref data;
    modify (with_idb v);;
    mret true
  else throw.

(** [localStorage.setItem('starboard_data', JSON.stringify(data, null, 2))] *)
Definition setItem (data : loc) : M unit :=
  if ls_set_ok e then
    v ← deref data;
    modify (with_localStorage
              (Some match v with Some v => stringify v | None => Garbled end))
  else throw.

(** [res.json()] parses the body, which the function wrote with
    [JSON.stringify]. *)
Definition tryLoadFrom (t : tier) : M (option loc) :=
  try_catch
    (res ← fetch t GET None;
     if negb (res_ok res) then mret None
     else
       let parsed := json_clone (payload res) in
       valid ← lift (validateDataStructure (Some parsed));
       if (valid : bool) then data ← alloc parsed; mret (Some data)
       else mret None)
    (mret None).

Definition tryLoadFromSupabase : M (option loc) := tryLoadFrom Primary.
Definition tryLoadFromNetlify : M (option loc) := tryLoadFrom Legacy.

Definition trySaveTo (t : tier) (data : loc) : M bool :=
  try_catch
    (v ← deref data;
     res ← fetch t PUT (stringify <$> v);
     mret (res_ok res))
    (mret false).

Definition trySaveToSupabase : loc -> M bool := trySaveTo Primary.
Definition trySaveToNetlify : loc -> M bool := trySaveTo Legacy.

Definition getDataFromLocalStorage : M loc :=
  try_catch
    (data ← gets localStorage;
     match data with
     | None => createDefaultData
     | Some Garbled => throw
     | Some (Json parsedData) =>
         valid ← lift (validateDataStructure (Some parsedData));
         if negb valid then createDefaultData else alloc parsedData
     end)
    createDefaultData.

(** [getData()].  The write to IndexedDB it kicks off is not awaited; the
    model performs it at once and drops its failure, as [.catch] does. *)
Definition getData : M loc :=
  mc ← gets memoryCache;
  held ← match mc with Some l => deref l | None => mret (Some VNull) end;
  match mc with
  | Some l =>
      if truthy held then mret l
      else
        cached ← getDataFromLocalStorage;
        modify (with_memoryCache (Some cached));;
        try_catch (dbSave cached;; mret tt) (mret tt);;
        mret cached
  | None =>
      cached ← getDataFromLocalStorage;
      modify (with_memoryCache (Some cached));;
      try_catch (dbSave cached;; mret tt) (mret tt);;
      mret cached
  end.

(** The metadata [saveData] builds. *)
Definition stamp (count : value) : value :=
  VObj [("lastModified", VStr (now e));
        ("version", VStr "2.0");
        ("backupCount", count)].

(** [saveData(data)]; the value is the one the promise resolves to. *)
Definition saveData (data : loc) : M bool :=
  try_catch
    (doc ← deref data;
     valid ← lift (validateDataStructure doc);
     if negb valid then mret false
     else
       count ← lift (next_backupCount doc);
       stamped ← lift (set doc "metadata" (stamp count));
       store data stamped;;
       copy ← alloc (json_clone stamped);
       modify (with_memoryCache (Some copy));;
       saved ← try_catch (trySaveToSupabase copy) (mret false);
       saved ←
         (if negb saved then try_catch (trySaveToNetlify copy) (mret false)
          else mret saved);
       (if negb saved then dbSave copy else mret true);;
       setItem copy;;
       mret true)
    (mret false).

(** One of the two remote branches of [initializeDataStorage]: [true] when
    the branch returned from the method. *)
Definition adopt_from (load : M (option loc)) : M bool :=
  try_catch
    (loaded ← load;
     match loaded with
     | Some data =>
         modify (with_memoryCache (Some data));;
         dbInit;;
         dbSave data;;
         setItem data;;
         mret true
     | None => mret false
     end)
    (mret false).

Definition initializeDataStorage : M unit :=
  done ← adopt_from tryLoadFromSupabase;
  if (done : bool) then mret tt
  else
    done ← adopt_from tryLoadFromNetlify;
    if (done : bool) then mret tt
    else
      dbInit;;
      existing ← dbLoad;
      match existing with
      | Some record => modify (with_memoryCache (Some record))
      | None =>
          defaultData ← createDefaultData;
          modify (with_memoryCache (Some defaultData));;
          dbSave defaultData;;
          mret tt
      end.

(** *** Achievements: [checkAchievements] *)

(** The number a value counts as in a comparison with a number; [None] is
    [NaN].  Strings and objects are converted through their text, which the
    embedding does not follow. *)
Definition to_number (v : option value) : outcome (option number) :=
  match v with
  | None => Ret None
  | Some VNull => Ret (Some (Finite 0))
  | Some (VBool b) => Ret (Some (Finite (if b then 1 else 0)))
  | Some (VNum n) => Ret (Some n)
  | Some (VStr _) | Some (VArr _) | Some (VObj _) => Beyond
  end.

(** [a < m] and [a >= m]; both are false on [NaN]. *)
Definition less_than (a : option number) (m : Z) : bool :=
  match a with Some n => below n m | None => false end.

Definition at_least (a : option number) (m : Z) : bool :=
  match a with Some n => at_most m n | None => false end.

Definition milestones : list Z := [10; 25; 50].

(** [checkAchievements(oldStars, newStars, studentName)]: the milestones
    [showAchievementNotification] is called with, in order. *)
Definition checkAchievements (oldStars newStars : option value)
  : outcome (list Z) :=
  old ← to_number oldStars;
  new ← to_number newStars;
  Ret (List.filter
         (fun milestone => less_than old milestone && at_least new milestone)
         milestones).

(** [modifyStars(studentId, amount)]; the value is the list of milestones
    announced.  The student object sits inside the document [getData]
    returned, so the assignment to [student.stars] is a write into that
    document, and [student.stars], read again for [checkAchievements], is the
    count just written.  A student id that names a member every object
    inherits finds a function or the prototype, on which the count is then
    written: the embedding does not follow that.  [saveData] returns a
    promise, which is truthy: the branch under it always runs.  It redraws
    the page ([loadStudents], [updateLeaderboard], [updateClassStatistics],
    an animation and a sound), which changes no data but raises on a document
    or a page it does not expect ([redraw_ok] tells which), and then calls
    [checkAchievements] and shows a toast. *)
Definition modifyStars (studentId : string) (amount : Z) : M (list Z) :=
  data ← getData;
  doc ← deref data;
  key ← gets (fun s => class_key (currentClass s));
  classes ← lift (get doc "classes");
  classData ← lift (get classes key);
  students ← lift (get classData "students");
  student ← lift (get students studentId);
  if negb (truthy student) then
    (if inherited_member students studentId then lift Beyond else mret [])
  else
    oldStars ← lift (get student "stars");
    stars ← lift (max0_plus oldStars amount);
    student' ← lift (set student "stars" stars);
    students' ← lift (set students studentId student');
    classData' ← lift (set classData "students" students');
    classes' ← lift (set classes key classData');
    doc' ← lift (set doc "classes" classes');
    store data doc';;
    saveData data;;
    (if redraw_ok e then mret tt else throw);;
    lift (checkAchievements oldStars (Some stars)).

End Page.

(** ** Reading the model

    Auxiliary definitions used by the statements below. *)

(** What the page holds as authoritative: the value [this.memoryCache]
    refers to. *)
Definition authoritative (s : state) : option value :=
  match memoryCache s with
  | Some l => heap s !! l
  | None => Some VNull
  end.

(** [doc.metadata?.f] as an own-property read, for a document object. *)
Definition metadata_field (doc : value) (f : string) : option value :=
  match doc with
  | VObj fs =>
      match assoc "metadata" fs with
      | Some (VObj ms) => assoc f ms
      | _ => None
      end
  | _ => None
  end.

(** A top-level field of a document object. *)
Definition field (doc : value) (k : string) : option value :=
  match doc with
  | VObj fs => assoc k fs
  | _ => None
  end.

Definition stamped_fields : list string :=
  ["lastModified"; "version"; "backupCount"].

(** The save counter of a document whose [metadata.backupCount] is absent
    or a number.  [data.metadata?.backupCount] is [undefined] when there is
    no metadata, when it is [null] and when it has no such property, and
    [|| 0] makes that 0. *)
Definition backupCount_of (doc : value) : option number :=
  match doc with
  | VObj fs =>
      match assoc "metadata" fs with
      | None | Some VNull => Some (Finite 0)
      | Some metadata =>
          match assoc "backupCount" (own_entries metadata) with
          | None => Some (Finite 0)
          | Some (VNum n) => Some n
          | Some _ => None
          end
      end
  | _ => None
  end.

(** Two documents agree except for the stamped metadata fields. *)
Definition same_but_stamped (d d' : value) : Prop :=
  (forall k, k <> "metadata" -> field d' k = field d k) /\
  (forall f, ~ In f stamped_fields -> metadata_field d' f = metadata_field d f).

(** [saveData(data)] and then [getData()]. *)
Definition save_then_get (e : env) (data : loc) : M loc :=
  saveData e data;; getData e.

(** Start-up, and then [getData()]. *)
Definition startup_then_get (e : env) : M loc :=
  initializeDataStorage e;; getData e.

(** The student's star count in a document: the reads [modifyStars] makes. *)
Definition stars_at (doc : option value) (className studentId : string)
  : outcome (option value) :=
  classes ← get doc "classes";
  classData ← get classes className;
  students ← get classData "students";
  student ← get students studentId;
  get student "stars".

(** The Schema Validator as the specification words it: an object whose
    [classes], [teachers] and [settings] are objects; every class has a
    [students] object; every student has a non-empty string [name] and a
    numeric [stars >= 0]; every teacher entry has a string value. *)
Definition spec_student (student : value) : bool :=
  match field student "name", field student "stars" with
  | Some (VStr name), Some (VNum stars) =>
      negb (name =? EmptyString)%string && at_most 0 stars
  | _, _ => false
  end.

Definition spec_class (classData : value) : bool :=
  match field classData "students" with
  | Some (VObj students) => forallb (fun p => spec_student (snd p)) students
  | _ => false
  end.

Definition spec_teacher (password : value) : bool :=
  match password with VStr _ => true | _ => false end.

Definition spec_validate (candidate : option value) : bool :=
  match candidate with
  | Some (VObj fs) =>
      match assoc "classes" fs, assoc "teachers" fs, assoc "settings" fs with
      | Some (VObj classes), Some (VObj teachers), Some (VObj _) =>
          forallb (fun p => spec_class (snd p)) classes
          && forallb (fun p => spec_teacher (snd p)) teachers
      | _, _, _ => false
      end
  | _ => false
  end.

(** ** Auxiliary notions for the proofs *)

(** [s'] differs from [s] by copies of [v] written to stores, and by the
    request log; the page itself is as it was. *)
Definition wrote (v : value) (s s' : state) : Prop :=
  heap s' = heap s /\ memoryCache s' = memoryCache s
  /\ currentClass s' = currentClass s
  /\ (idb s' = idb s \/ idb s' = Some v)
  /\ (localStorage s' = localStorage s \/ localStorage s' = Some (Json v))
  /\ (supabase s' = supabase s \/ supabase s' = Some v)
  /\ (blobs s' = blobs s \/ blobs s' = Some v).

(** The part of [saveData] that follows the update of the memory cache. *)
Definition persist (e : env) (copy : loc) : M bool :=
  saved ← try_catch (trySaveToSupabase e copy) (mret false);
  saved ←
    (if negb saved then try_catch (trySaveToNetlify e copy) (mret false)
     else mret saved);
  (if negb saved then dbSave e copy else mret true);;
  setItem e copy;;
  mret true.

(** The local writes that end [saveData]: the IndexedDB write when no remote
    tier took the document, then the cache. *)
Definition local_writes (e : env) (saved : bool) (copy : loc) : M bool :=
  (if negb saved then dbSave e copy else mret true);;
  setItem e copy;;
  mret true.

(** The page once [saveData] has stamped the caller's document at [data] and
    taken the copy. *)
Definition stamped_page (s : state) (data : loc) (stamped : value) : state :=
  with_memoryCache (Some (length (heap s)))
    (with_heap (<[data := stamped]> (heap s) ++ [json_clone stamped]) s).

(** [s'] differs from [s] in the remote stores only, and by one more
    request. *)
Definition fetched (t : tier) (m : verb) (s s' : state) : Prop :=
  heap s' = heap s /\ memoryCache s' = memoryCache s
  /\ currentClass s' = currentClass s /\ idb s' = idb s
  /\ localStorage s' = localStorage s
  /\ requests s' = (requests s ++ [Fetch t m])%list.

Definition link_of (e : env) (t : tier) : link :=
  match t with Primary => primary e | Legacy => legacy e end.

(** What start-up adopts from the device when no remote tier answers with a
    document: the IndexedDB record if it is truthy, the default document
    otherwise. *)
Definition local_choice (e : env) (s : state) : value :=
  match idb s with
  | Some record => if truthy (Some record) then record else default_document (now e)
  | None => default_document (now e)
  end.

(** A store either kept what it held or now holds the value [v]. *)
Definition kept_or (v : value) (before after : option value) : Prop :=
  after = before \/ after = Some v.

(** ** Sample worlds *)

Definition empty_world : state :=
  mkState [] None None None None None None [].

(** A page that holds one document and nothing else. *)
Definition page_with (doc : value) : state :=
  mkState [doc] (Some 0%nat) None None None None None [].

Definition all_well : env :=
  mkEnv "2024-05-01T10:00:00.000Z" "2024-05-01T10:00:01.000Z"
    (Served true) (Served true) true true true true true.

Definition offline : env :=
  mkEnv "2024-05-01T10:00:00.000Z" "2024-05-01T10:00:01.000Z"
    Unreachable Unreachable true true true true true.

(** Off line, and IndexedDB cannot be opened. *)
Definition offline_no_idb : env :=
  mkEnv "2024-05-01T10:00:00.000Z" "2024-05-01T10:00:01.000Z"
    Unreachable Unreachable false true true true true.

(** On line, but IndexedDB cannot be opened. *)
Definition online_no_idb : env :=
  mkEnv "2024-05-01T10:00:00.000Z" "2024-05-01T10:00:01.000Z"
    (Served true) (Served true) false true true true true.

Definition first_document : value := default_document "2024-01-01T00:00:00.000Z".

(** A class with one student. *)
Definition class_of (name : value) (stars : value) : value :=
  VObj [("students", VObj [("s1", VObj [("name", name); ("stars", stars)])])].

Definition document_of (classes : value) : value :=
  VObj [("classes", classes); ("teachers", VObj []); ("settings", VObj [])].

(** A student whose name is the number 42. *)
Definition numeric_name : value :=
  document_of (VObj [("Math", class_of (VNum 42) (VNum 0))]).

(** A document with classes and nothing else, as an import may carry. *)
Definition classes_only : value := VObj [("classes", VObj [])].

(** A student with [1e999] stars, as a file may carry: [JSON.parse] makes
    that [Infinity]. *)
Definition infinite_stars : value :=
  document_of (VObj [("Math", class_of (VStr "Ada") (VNum Infinity))]).

(** The default document with an object for save counter that has a
    [toString] property of its own, and with the counter [2^53]. *)
Definition with_counter (count : value) : value :=
  VObj [("classes", VObj []);
        ("teachers", VObj [("teacher", VStr "starboard")]);
        ("settings", VObj []);
        ("metadata", VObj [("created", VStr "2024-01-01T00:00:00.000Z");
                           ("backupCount", count)])].

Definition opaque_counter : value :=
  with_counter (VObj [("toString", VNum 1)]).

Definition full_counter : value := with_counter (VNum (2 ^ 53)).

Definition math_class : value :=
  document_of (VObj [("Math", class_of (VStr "Ada") (VNum 3))]).

(** A fresh page in front of two remote stores that hold different valid
    documents. *)
Definition two_remotes : state :=
  mkState [] None None None None (Some math_class) (Some first_document) [].

(** ** Further notions: the functions on their own *)

(** A GET request and a PUT request as the page sends them. *)
Definition get_request : request := mkRequest "GET" None.
Definition put_request (content : option text) : request :=
  mkRequest "PUT" content.

(** The two functions behind one name. *)
Definition function_of (t : tier) (backend_ok : bool) (clock : string)
    (event : request) (stored : option value) : response * option value :=
  match t with
  | Primary => SupabaseFn.handler backend_ok clock event stored
  | Legacy => StarboardFn.handler backend_ok clock event stored
  end.

(** The body is the text of an object with a truthy [classes]. *)
Definition has_classes (content : option text) : Prop :=
  exists fs classes,
    content = Some (Json (VObj fs))
    /\ assoc "classes" fs = Some classes /\ truthy (Some classes) = true.

(** The function of tier [t] takes the document [v] when it is put: the tier
    is reachable, its backend works, and the lightweight test passes. *)
Definition accepts (e : env) (t : tier) (v : value) : bool :=
  match link_of e t, lightweight_invalid v with
  | Served true, Ret false => true
  | _, _ => false
  end.

(** IndexedDB can be opened and written. *)
Definition idb_writable (e : env) : bool := idb_open_ok e && idb_put_ok e.

(** The stamped form of the document [doc] at counter [count]. *)
Definition stamped_with (e : env) (count : number) (doc : value) : value :=
  match doc with
  | VObj fs => VObj (assoc_set "metadata" (stamp e (VNum count)) fs)
  | _ => doc
  end.

(** The copy [saveData] takes of the document [doc] whose counter is [n]. *)
Definition saved_copy (e : env) (n : number) (doc : value) : value :=
  json_clone (stamped_with e (add_int n 1) doc).

(** A page just loaded: no objects, no memory cache, no class selected; the
    stores are what they were. *)
Definition fresh_page (s : state) : state :=
  mkState [] None None (idb s) (localStorage s) (supabase s) (blobs s)
    (requests s).

(** The outcome [b] and the final state [s'] of the part of [saveData] that
    follows the stamp, for the stamped document [v] and the state [s] it
    starts from: the write protocol, tier by tier. *)
Definition routed (e : env) (v : value) (s s' : state) (b : bool) : Prop :=
  b = (accepts e Primary v || accepts e Legacy v || idb_writable e)
      && ls_set_ok e
  /\ heap s' = heap s /\ memoryCache s' = memoryCache s
  /\ currentClass s' = currentClass s
  /\ supabase s' = (if accepts e Primary v then Some v else supabase s)
  /\ blobs s'
     = (if negb (accepts e Primary v) && accepts e Legacy v then Some v
        else blobs s)
  /\ idb s'
     = (if negb (accepts e Primary v || accepts e Legacy v) && idb_writable e
        then Some v else idb s)
  /\ localStorage s' = (if b then Some (Json v) else localStorage s)
  /\ requests s'
     = (requests s
        ++ Fetch Primary PUT
           :: (if accepts e Primary v then [] else [Fetch Legacy PUT]))%list.

(** What is stored behind tier [t]. *)
Definition stored_at (t : tier) (s : state) : option value :=
  match t with Primary => supabase s | Legacy => blobs s end.

(** The payload of a 200 answer to GET, as the page reads it: what is
    stored if it is truthy, the default document of the function's clock
    otherwise, gone through the JSON text of the body. *)
Definition get_payload (e : env) (t : tier) (s : state) : value :=
  json_clone
    match stored_at t s with
    | Some d => if truthy (Some d) then d else default_document (server_now e)
    | None => default_document (server_now e)
    end.

(** The document a remote load of tier [t] delivers, if any: the function
    must answer, and its payload must pass the validator. *)
Definition delivered (e : env) (t : tier) (s : state) : option value :=
  match link_of e t with
  | Served true =>
      match validateDataStructure (Some (get_payload e t s)) with
      | Ret true => Some (get_payload e t s)
      | _ => None
      end
  | _ => None
  end.

(** The primary store after a GET: seeded with the default document if the
    function answered and found no row. *)
Definition seeded (e : env) (s : state) : option value :=
  match primary e, supabase s with
  | Served true, None => Some (default_document (server_now e))
  | _, _ => supabase s
  end.

(** A GET of tier [t] is answered with a default document made for the
    occasion and stored nowhere: the legacy function does so when its store
    holds nothing truthy, the primary one when its row holds nothing truthy
    (when there is no row, it stores the document it makes). *)
Definition makes_default (t : tier) (s : state) : bool :=
  match t with
  | Primary =>
      match supabase s with
      | Some d => negb (truthy (Some d))
      | None => false
      end
  | Legacy =>
      match blobs s with
      | Some d => negb (truthy (Some d))
      | None => true
      end
  end.

(** The same surroundings at another time. *)
Definition at_time (e : env) (page_clock function_clock : string) : env :=
  mkEnv page_clock function_clock (primary e) (legacy e)
    (idb_open_ok e) (idb_get_ok e) (idb_put_ok e) (ls_set_ok e) (redraw_ok e).

(** The first document the load protocol finds: the primary tier's, the
    legacy tier's, the IndexedDB record, the default document. *)
Definition startup_choice (e : env) (s : state) : value :=
  match delivered e Primary s, delivered e Legacy s with
  | Some d, _ => d
  | None, Some d => d
  | None, None => local_choice e s
  end.

(** All three local stores take what they are given. *)
Definition local_stores_work (e : env) : Prop :=
  idb_open_ok e = true /\ idb_get_ok e = true /\ idb_put_ok e = true
  /\ ls_set_ok e = true.

(** Between [s] and [s'] the page adopted nothing or a document that passes
    the validator, IndexedDB kept its record or got such a document, and no
    object of the page was touched. *)
Definition adopted_valid_or_nothing (s s' : state) : Prop :=
  (memoryCache s' = memoryCache s
   \/ validateDataStructure (authoritative s') = Ret true)
  /\ (idb s' = idb s
      \/ exists v, idb s' = Some v /\ validateDataStructure (Some v) = Ret true)
  /\ (forall l v, heap s !! l = Some v -> heap s' !! l = Some v).

(** ** What the validator accepts, said at once

    The condition [validateDataStructure] tests, without the order of the
    tests, the early returns and the exceptions. *)

Definition is_object_value (v : value) : bool :=
  match v with VObj _ | VArr _ => true | _ => false end.

(** An object with a truthy [name] and a number [stars >= 0]. *)
Definition passing_student (student : value) : bool :=
  match student with
  | VObj fs =>
      truthy (assoc "name" fs)
      && match assoc "stars" fs with
         | Some (VNum n) => at_most 0 n
         | _ => false
         end
  | _ => false
  end.

(** An object whose [students] is an object or an array of passing
    students. *)
Definition passing_class (classData : value) : bool :=
  match classData with
  | VObj cf =>
      match assoc "students" cf with
      | Some students =>
          is_object_value students
          && forallb (fun p => passing_student (snd p)) (own_entries students)
      | None => false
      end
  | _ => false
  end.

Definition is_string_value (v : value) : bool :=
  match v with VStr _ => true | _ => false end.

(** [null], or an object or array all of whose entries pass [f]. *)
Definition passing_entries (f : value -> bool) (v : value) : bool :=
  match v with
  | VNull => true
  | VObj _ | VArr _ => forallb (fun p => f (snd p)) (own_entries v)
  | _ => false
  end.

Definition passing (data : option value) : bool :=
  match data with
  | Some (VObj fs) =>
      match assoc "hasOwnProperty" fs, assoc "classes" fs,
            assoc "teachers" fs, assoc "settings" fs with
      | None, Some classes, Some teachers, Some settings =>
          passing_entries passing_class classes
          && passing_entries is_string_value teachers
          && jstype_eqb (typeof (Some settings)) TObject
      | _, _, _, _ => false
      end
  | _ => false
  end.

(** ** Achievement badges: [getAchievementBadges] *)

Inductive badge : Type := gold | silver | bronze.

(** The milestone printed on a badge. *)
Definition badge_milestone (b : badge) : Z :=
  match b with gold => 50 | silver => 25 | bronze => 10 end.

(** [getAchievementBadges(stars)]: the badges of the markup it returns, in
    order. *)
Definition getAchievementBadges (stars : option value) : outcome (list badge) :=
  n ← to_number stars;
  Ret ((if at_least n 50 then [gold]
        else if at_least n 25 then [silver] else [])
       ++ (if at_least n 10 then [bronze] else []))%list.

(** ** The welcome figures: [updateWelcomeStats] *)

(** [Object.values(v)] *)
Definition object_values (v : option value) : outcome (list value) :=
  es ← object_entries v; Ret (map snd es).

(** [v || 0] *)
Definition or_zero (v : option value) : option value :=
  if truthy v then v else Some (VNum 0).

(** [total += x] for a number [total]: a string or an object on the right
    makes it a concatenation of texts, [undefined] makes it [NaN], and so
    does an infinity added to the opposite one. *)
Definition add_to (total : number) (x : option value) : outcome number :=
  let sum (n : number) :=
    match add total n with Some r => Ret r | None => Beyond end in
  match x with
  | Some (VNum n) => sum n
  | Some (VBool b) => sum (Finite (if b then 1 else 0))
  | Some VNull => Ret total
  | _ => Beyond
  end.

(** [count++] for a counter that started at 0: it stops at [2^53]. *)
Definition increment (count : Z) : Z := round53 (count + 1).

(** The three counters of [updateWelcomeStats]. *)
Record stats : Type := mkStats {
  totalStudents : Z;
  totalStars : number;
  totalAchievements : Z
}.

(** The inner [forEach], over [Object.values(classData.students)]. *)
Fixpoint count_students (students : list value) (acc : stats) : outcome stats :=
  match students with
  | [] => Ret acc
  | student :: rest =>
      stars ← get (Some student) "stars";
      total ← add_to (totalStars acc) (or_zero stars);
      n ← to_number (or_zero stars);
      count_students rest
        (mkStats (increment (totalStudents acc)) total
           (if at_least n 10 then increment (totalAchievements acc)
            else totalAchievements acc))
  end.

(** The outer [forEach], over [Object.values(data.classes || {})]. *)
Fixpoint count_classes (classes : list value) (acc : stats) : outcome stats :=
  match classes with
  | [] => Ret acc
  | classData :: rest =>
      students ← get (Some classData) "students";
      acc' ← (if truthy students
              then vs ← object_values students; count_students vs acc
              else Ret acc);
      count_classes rest acc'
  end.

(** The figures [updateWelcomeStats] hands to [animateNumber]. *)
Definition welcome_stats (doc : option value) : outcome stats :=
  classes ← get doc "classes";
  vs ← (if truthy classes then object_values classes else Ret []);
  count_classes vs (mkStats 0 0 0).

Definition updateWelcomeStats (e : env) : M stats :=
  data ← getData e;
  doc ← deref data;
  lift (welcome_stats doc).

(** ** Authentication: [handleLogin] *)

(** [handleLogin(e)] with the contents of the two inputs; the value is
    whether the dashboard was opened. *)
Definition handleLogin (e : env) (username password : string) : M bool :=
  data ← getData e;
  doc ← deref data;
  teachers ← lift (get doc "teachers");
  entry ← lift (find teachers username);
  mret (found_truthy entry && found_is entry password).

(** ** The periodic sweep: [validateAndCleanupData]

    The sweep changes the document in place, student by student; when it
    raises, the changes made so far stay.  The loops therefore return the
    container as they leave it together with the way they ended. *)

(** The body of the inner loop for one student: the student as the loop
    leaves it ([None] when it was deleted) and whether [hasChanges] was
    set. *)
Definition sweep_student (student : value) : outcome (option value * bool) :=
  stars ← get (Some student) "stars";
  fixed ←
    (if negb (jstype_eqb (typeof stars) TNumber) || negative stars
     then student' ← set (Some student) "stars" (VNum 0); Ret (student', true)
     else Ret (student, false));
  name ← get (Some (fst fixed)) "name";
  if negb (truthy name) || negb (jstype_eqb (typeof name) TString)
  then Ret (None, true)
  else Ret (Some (fst fixed), snd fixed).

(** The inner loop, over [Object.keys(classData.students)]. *)
Fixpoint sweep_students (entries : list (string * value))
  : list (string * value) * outcome bool :=
  match entries with
  | [] => ([], Ret false)
  | (studentId, student) :: rest =>
      match sweep_student student with
      | Ret (kept, changed) =>
          let (rest', ended) := sweep_students rest in
          (match kept with
           | Some student' => (studentId, student') :: rest'
           | None => rest'
           end,
           later ← ended; Ret (changed || later))
      | Throw => (entries, Throw)
      | Beyond => (entries, Beyond)
      end
  end.

(** The container once its entries have been swept.  An array that lost an
    element has a hole, which is not JSON; a string or a number has no
    entries the loop could change. *)
Definition with_entries (container : value) (entries : list (string * value))
  : option value :=
  match container with
  | VObj _ => Some (VObj entries)
  | VArr items =>
      if (length entries =? length items)%nat
      then Some (VArr (map snd entries)) else None
  | _ => Some container
  end.

(** The body of the outer loop for one class.  [classData.students] is
    truthy only on an object that has it as an own property. *)
Definition sweep_class (classData : value) : value * outcome bool :=
  match classData with
  | VNull => (classData, Throw)
  | VObj cf =>
      match assoc "students" cf with
      | Some students =>
          if truthy (Some students) then
            let (entries, ended) := sweep_students (own_entries students) in
            match with_entries students entries with
            | Some students' => (VObj (assoc_set "students" students' cf), ended)
            | None => (classData, Beyond)
            end
          else (classData, Ret false)
      | None => (classData, Ret false)
      end
  | _ => (classData, Ret false)
  end.

(** The outer loop, over [Object.keys(data.classes)]. *)
Fixpoint sweep_classes (entries : list (string * value))
  : list (string * value) * outcome bool :=
  match entries with
  | [] => ([], Ret false)
  | (className, classData) :: rest =>
      match sweep_class classData with
      | (classData', Ret changed) =>
          let (rest', ended) := sweep_classes rest in
          ((className, classData') :: rest',
           later ← ended; Ret (changed || later))
      | (classData', ended) => ((className, classData') :: rest, ended)
      end
  end.

(** Both loops on a document: the document as they leave it, and
    [hasChanges].  [Object.keys] raises on [null] and [undefined]. *)
Definition sweep (doc : value) : value * outcome bool :=
  match doc with
  | VNull => (doc, Throw)
  | VObj fs =>
      match assoc "classes" fs with
      | None | Some VNull => (doc, Throw)
      | Some classes =>
          let (entries, ended) := sweep_classes (own_entries classes) in
          match with_entries classes entries with
          | Some classes' => (VObj (assoc_set "classes" classes' fs), ended)
          | None => (doc, Beyond)
          end
      end
  | _ => (doc, Throw)
  end.

Definition validateAndCleanupData (e : env) : M unit :=
  data ← getData e;
  doc ← deref data;
  match doc with
  | None => throw
  | Some d =>
      store data (fst (sweep d));;
      hasChanges ← lift (snd (sweep d));
      if (hasChanges : bool) then saveData e data;; mret tt else mret tt
  end.

(** A student the sweep has nothing to do with: a string for name, not
    empty, and a number of stars that is not negative. *)
Definition clean_student (student : value) : bool :=
  match student with
  | VObj sf =>
      match assoc "name" sf, assoc "stars" sf with
      | Some (VStr name), Some (VNum stars) =>
          negb (name =? EmptyString)%string && at_most 0 stars
      | _, _ => false
      end
  | _ => false
  end.

(** Every student of the class is clean; a class without students (none,
    or a falsy value) has none. *)
Definition clean_class (classData : value) : bool :=
  match field classData "students" with
  | Some students =>
      negb (truthy (Some students))
      || forallb (fun p => clean_student (snd p)) (own_entries students)
  | None => true
  end.

Definition clean_classes (doc : option value) : bool :=
  match doc with
  | Some d =>
      match field d "classes" with
      | Some classes =>
          forallb (fun p => clean_class (snd p)) (own_entries classes)
      | None => true
      end
  | None => true
  end.

(** What the model of the sweep does not follow: an array that loses an
    element keeps a hole, and one that is given a star count keeps a named
    property; JSON holds neither.  So: no array where the students of a
    class, or a student, are expected. *)
Definition not_array (v : value) : bool :=
  match v with VArr _ => false | _ => true end.

Definition no_student_array (classData : value) : bool :=
  match field classData "students" with
  | Some students =>
      not_array students
      && forallb (fun p => not_array (snd p)) (own_entries students)
  | None => true
  end.

Definition no_student_arrays (doc : value) : bool :=
  match field doc "classes" with
  | Some classes =>
      forallb (fun p => no_student_array (snd p)) (own_entries classes)
  | None => true
  end.

(** A class the sweep has work with: a student in order, one whose name is
    a number, one with a negative count. *)
Definition untidy : value :=
  document_of
    (VObj [("Math",
            VObj [("students",
                   VObj [("s1", VObj [("name", VStr "Ada"); ("stars", VNum 3)]);
                         ("s2", VObj [("name", VNum 42); ("stars", VNum 1)]);
                         ("s3", VObj [("name", VStr "Bob");
                                      ("stars", VNum (-2))])])])]).

(** ** The sweep on a document that passes the validator

    What is left for the sweep to do there: the students whose name is
    truthy without being a string. *)

Definition string_named (student : value) : bool :=
  match field student "name" with
  | Some (VStr _) => true
  | _ => false
  end.

(** The students of the class are held in an object. *)
Definition object_students (classData : value) : bool :=
  match field classData "students" with
  | Some (VObj _) => true
  | _ => false
  end.

(** The class without its students that have no string for name. *)
Definition tidy_class (classData : value) : value :=
  match classData with
  | VObj cf =>
      match assoc "students" cf with
      | Some (VObj sf) =>
          VObj (assoc_set "students"
                  (VObj (List.filter (fun p => string_named (snd p)) sf)) cf)
      | _ => classData
      end
  | _ => classData
  end.

Definition tidy_classes (classes : list (string * value))
  : list (string * value) :=
  map (fun p => (fst p, tidy_class (snd p))) classes.

Definition all_string_named (classes : list (string * value)) : bool :=
  forallb (fun p => forallb (fun q => string_named (snd q))
                      (own_entries
                         (default VNull (field (snd p) "students"))))
    classes.

(** ** Adding and deleting properties *)

Fixpoint digits_value (acc : N) (s : string) : N :=
  match s with
  | EmptyString => acc
  | String c rest => digits_value (acc * 10 + (N_of_ascii c - 48)) rest
  end.

(** The number a key stands for when it is an array index: a numeral in its
    shortest form, below [2^32 - 1].  An object lists such keys first, in
    ascending order, and the other keys after them in the order in which
    they were added. *)
Definition array_index (k : string) : option N :=
  let n := digits_value 0 k in
  if (pretty n =? k)%string && (n <? 4294967295)%N then Some n else None.

(** The place of a new key that is the array index [n]. *)
Fixpoint insert_index (n : N) (k : string) (x : value)
    (fs : list (string * value)) : list (string * value) :=
  match fs with
  | [] => [(k, x)]
  | (k', v) :: rest =>
      match array_index k' with
      | Some m =>
          if (m <? n)%N then (k', v) :: insert_index n k x rest
          else (k, x) :: fs
      | None => (k, x) :: fs
      end
  end.

Definition add_property (k : string) (x : value) (fs : list (string * value))
  : list (string * value) :=
  match array_index k with
  | Some n => insert_index n k x fs
  | None => (fs ++ [(k, x)])%list
  end.

(** [v[k] = x] for a key typed by the user.  An own property is replaced
    where it is; a new one is added, except [__proto__], which would replace
    the prototype. *)
Definition assign (v : option value) (k : string) (x : value) : outcome value :=
  match v with
  | None | Some VNull => Throw
  | Some (VObj fs) =>
      match assoc k fs with
      | Some _ => Ret (VObj (assoc_set k x fs))
      | None =>
          if (k =? "__proto__")%string then Beyond
          else Ret (VObj (add_property k x fs))
      end
  | Some (VArr items) =>
      match position 0 k items with
      | Some i => Ret (VArr (<[i := x]> items))
      | None => Beyond
      end
  | Some (VBool _) | Some (VNum _) | Some (VStr _) => Throw
  end.

(** [delete v[k]] in strict mode.  An array that loses an element has a
    hole; the characters and the length of a string, and the length of an
    array, cannot be deleted. *)
Definition remove (v : option value) (k : string) : outcome value :=
  match v with
  | None | Some VNull => Throw
  | Some (VObj fs) =>
      Ret (VObj (List.filter (fun p => negb (fst p =? k)%string) fs))
  | Some (VArr items) =>
      match assoc k (indexed items) with
      | Some _ => Beyond
      | None => if (k =? "length")%string then Throw else Ret (VArr items)
      end
  | Some (VStr s) =>
      match assoc k (indexed (chars s)) with
      | Some _ => Throw
      | None => if (k =? "length")%string then Throw else Ret (VStr s)
      end
  | Some c => Ret c
  end.

(** ** The teacher's operations

    Each of them changes the document [getData] returned, in place, and
    hands it to [saveData].  [saveData] returns a promise, which is truthy:
    the branch under it always runs; it redraws the page, which is not
    modelled, and in two places assigns [this.currentClass]: [renameClass]
    before it redraws, [deleteClass] after [loadClasses], which reads the
    names of the classes and nothing else.  ([modifyStars] alone does more
    with the document after redrawing: there the redrawing is followed.) *)

Definition with_currentClass (c : option string) (s : state) : state :=
  mkState (heap s) (memoryCache s) c (idb s) (localStorage s)
    (supabase s) (blobs s) (requests s).

(** [!this.currentClass] *)
Definition no_class (c : option string) : bool :=
  match c with
  | Some name => (name =? EmptyString)%string
  | None => true
  end.

(** [createClass()], [className] being the trimmed content of the input. *)
Definition createClass (e : env) (className : string) : M unit :=
  if (className =? EmptyString)%string then mret tt
  else
    data ← getData e;
    doc ← deref data;
    classes ← lift (get doc "classes");
    existing ← lift (find classes className);
    if found_truthy existing then mret tt
    else
      classes' ← lift (assign classes className
                         (VObj [("students", VObj []);
                                ("created", VStr (now e))]));
      doc' ← lift (set doc "classes" classes');
      store data doc';;
      saveData e data;;
      mret tt.

(** [renameClass()] with "Rename" pressed, [newName] being the trimmed
    content of the input.  When there is no class of the current name,
    [undefined] (or an inherited function) is stored under the new name,
    which is not JSON.  The class is first put under the new name, then
    deleted under the old one; the deletion can raise (on the length of an
    array), so the document is written back after each of the two steps. *)
Definition renameClass (e : env) (newName : string) : M unit :=
  current ← gets currentClass;
  if no_class current then mret tt
  else if (newName =? EmptyString)%string
          || (newName =? class_key current)%string then mret tt
  else
    data ← getData e;
    doc ← deref data;
    classes ← lift (get doc "classes");
    moved ← lift (find classes (class_key current));
    match moved with
    | Own classData =>
        classes1 ← lift (assign classes newName classData);
        doc1 ← lift (set doc "classes" classes1);
        store data doc1;;
        classes2 ← lift (remove (Some classes1) (class_key current));
        doc2 ← lift (set (Some doc1) "classes" classes2);
        store data doc2;;
        saveData e data;;
        modify (with_currentClass (Some newName))
    | _ => lift Beyond
    end.

(** [deleteClass()] with "Delete" pressed; [selectTeacherClass('')] ends
    it. *)
Definition deleteClass (e : env) : M unit :=
  current ← gets currentClass;
  if no_class current then mret tt
  else
    data ← getData e;
    doc ← deref data;
    classes ← lift (get doc "classes");
    classes' ← lift (remove classes (class_key current));
    doc' ← lift (set doc "classes" classes');
    store data doc';;
    saveData e data;;
    modify (with_currentClass (Some EmptyString)).

(** [data.classes[this.currentClass]] where the code goes on to read a
    property of it: [undefined] raises there, and so does an inherited
    member, whose [students] is [undefined]. *)
Definition class_of_page (classes : option value) (key : string)
  : outcome value :=
  entry ← find classes key;
  match entry with
  | Own classData => Ret classData
  | Inherited | Missing => Throw
  end.

(** [addStudent()], [studentName] being the trimmed content of the input and
    [studentId] what [generateId()] returns.  A class made on the spot has an
    empty [students] object, on which the steps that follow do not raise. *)
Definition addStudent (e : env) (studentName studentId : string) : M unit :=
  if (studentName =? EmptyString)%string then mret tt
  else
    current ← gets currentClass;
    if no_class current then mret tt
    else
      data ← getData e;
      doc ← deref data;
      classes ← lift (get doc "classes");
      existing ← lift (find classes (class_key current));
      classes1 ←
        lift (if found_truthy existing then Ret classes
              else c ← assign classes (class_key current)
                         (VObj [("students", VObj [])]);
                   Ret (Some c));
      classData ← lift (class_of_page classes1 (class_key current));
      students ← lift (get (Some classData) "students");
      students' ← lift (assign students studentId
                          (VObj [("name", VStr studentName);
                                 ("stars", VNum 0);
                                 ("created", VStr (now e))]));
      classData' ← lift (set (Some classData) "students" students');
      classes' ← lift (assign classes1 (class_key current) classData');
      doc' ← lift (set doc "classes" classes');
      store data doc';;
      saveData e data;;
      mret tt.

(** [data.classes[this.currentClass].students[studentId]], as [editStudent]
    and [removeStudent] read it. *)
Definition student_of_page (doc : option value) (key studentId : string)
  : outcome found :=
  classes ← get doc "classes";
  classData ← class_of_page classes key;
  students ← get (Some classData) "students";
  find students studentId.

(** [newName !== student.name] *)
Definition other_name (student : value) (newName : string) : outcome bool :=
  name ← get (Some student) "name";
  Ret (match name with
       | Some (VStr old) => negb (newName =? old)%string
       | _ => true
       end).

(** The document with the student of the current class replaced. *)
Definition put_student (doc : option value) (key studentId : string)
    (student' : value) : outcome value :=
  classes ← get doc "classes";
  classData ← class_of_page classes key;
  students ← get (Some classData) "students";
  students' ← assign students studentId student';
  classData' ← set (Some classData) "students" students';
  classes' ← assign classes key classData';
  set doc "classes" classes'.

(** [editStudent(studentId)] with "Save" pressed, [newName] being the
    trimmed content of the input.  An inherited member found for a student
    is a function or the prototype, whose [name] the embedding does not
    follow. *)
Definition editStudent (e : env) (studentId newName : string) : M unit :=
  data ← getData e;
  doc ← deref data;
  key ← gets (fun s => class_key (currentClass s));
  entry ← lift (student_of_page doc key studentId);
  match entry with
  | Missing => mret tt
  | Inherited => lift Beyond
  | Own student =>
      if negb (truthy (Some student)) then mret tt
      else if (newName =? EmptyString)%string then mret tt
      else
        differs ← lift (other_name student newName);
        if negb differs then mret tt
        else
          student' ← lift (set (Some student) "name" (VStr newName));
          doc' ← lift (put_student doc key studentId student');
          store data doc';;
          saveData e data;;
          mret tt
  end.

(** The document without the student of the current class. *)
Definition drop_student (doc : option value) (key studentId : string)
  : outcome value :=
  classes ← get doc "classes";
  classData ← class_of_page classes key;
  students ← get (Some classData) "students";
  students' ← remove students studentId;
  classData' ← set (Some classData) "students" students';
  classes' ← assign classes key classData';
  set doc "classes" classes'.

(** [removeStudent(studentId)] with "Remove" pressed. *)
Definition removeStudent (e : env) (studentId : string) : M unit :=
  data ← getData e;
  doc ← deref data;
  key ← gets (fun s => class_key (currentClass s));
  entry ← lift (student_of_page doc key studentId);
  if negb (found_truthy entry) then mret tt
  else
    doc' ← lift (drop_student doc key studentId);
    store data doc';;
    saveData e data;;
    mret tt.

(** [selectTeacherClass(className)]: the assignment to [this.currentClass];
    the rest shows or hides parts of the page. *)
Definition selectTeacherClass (className : string) : M unit :=
  modify (with_currentClass (Some className)).

(** ** Sessions

    What a teacher, and the timer of the sweep, can set off on the page. *)
Inductive action : Type :=
| SelectTeacherClass (className : string)
| CreateClass (className : string)
| RenameClass (newName : string)
| DeleteClass
| AddStudent (studentName studentId : string)
| ModifyStars (studentId : string) (amount : Z)
| EditStudent (studentId newName : string)
| RemoveStudent (studentId : string)
| Sweep.

Definition perform (e : env) (a : action) : M unit :=
  match a with
  | SelectTeacherClass className => selectTeacherClass className
  | CreateClass className => createClass e className
  | RenameClass newName => renameClass e newName
  | DeleteClass => deleteClass e
  | AddStudent studentName studentId => addStudent e studentName studentId
  | ModifyStars studentId amount => modifyStars e studentId amount;; mret tt
  | EditStudent studentId newName => editStudent e studentId newName
  | RemoveStudent studentId => removeStudent e studentId
  | Sweep => validateAndCleanupData e
  end.

(** One event after the other, each in the surroundings of its moment.  An
    exception ends the handler it is raised in, not the page: the next event
    finds the page as the exception left it. *)
Fixpoint session (steps : list (env * action)) (s : state)
  : outcome unit * state :=
  match steps with
  | [] => (Ret tt, s)
  | (e, a) :: rest =>
      match perform e a s with
      | (Beyond, s') => (Beyond, s')
      | (_, s') => session rest s'
      end
  end.

(** A morning at school. *)
Definition morning : list (env * action) :=
  [(all_well, SelectTeacherClass "Math");
   (all_well, AddStudent "Bob" "lq3x8k2f0a");
   (offline, ModifyStars "lq3x8k2f0a" 5);
   (offline, CreateClass "Art");
   (offline_no_idb, RenameClass "Maths");
   (all_well, EditStudent "s1" "Ada L.");
   (all_well, Sweep);
   (all_well, RemoveStudent "lq3x8k2f0a");
   (online_no_idb, SelectTeacherClass "Art");
   (all_well, DeleteClass)].

(** The classes of the authoritative document. *)
Definition classes_of (s : state) : option value :=
  match authoritative s with
  | Some doc => field doc "classes"
  | None => None
  end.

(** ** Export and import: [exportData], [handleFileImport] *)

(** [exportData()]: the text of the file offered for download. *)
Definition exportData (e : env) : M text :=
  data ← getData e;
  doc ← deref data;
  mret match doc with Some d => stringify d | None => Garbled end.

(** [handleFileImport(e)] once the file has been read, [content] being its
    text, and with "Import" pressed in the dialog that follows.  The value
    is whether the dialog was offered: whether the file is JSON with a
    truthy [classes] of type object.  Anything else ends in the toast
    "Invalid file format". *)
Definition handleFileImport (e : env) (content : text) : M bool :=
  try_catch
    (match content with
     | Garbled => throw
     | Json importedData =>
         classes ← lift (get (Some importedData) "classes");
         if negb (truthy classes)
            || negb (jstype_eqb (typeof classes) TObject)
         then throw
         else
           data ← alloc importedData;
           saveData e data;;
           mret true
     end)
    (mret false).

(** ** The figures of a class: [updateClassStatistics] *)

(** [student.stars > top.stars]; a text or an object on either side is
    compared through its text. *)
Definition more_stars (student top : value) : outcome bool :=
  a ← get (Some student) "stars";
  b ← get (Some top) "stars";
  x ← to_number a;
  y ← to_number b;
  Ret match x, y with
      | Some n, Some m => below m n
      | _, _ => false
      end.

(** [students.reduce((sum, student) => sum + student.stars, 0)] *)
Fixpoint sum_stars (students : list value) (sum : number) : outcome number :=
  match students with
  | [] => Ret sum
  | student :: rest =>
      stars ← get (Some student) "stars";
      sum' ← add_to sum stars;
      sum_stars rest sum'
  end.

(** [students.reduce((top, student) => student.stars > top.stars ? student :
    top, students[0])] *)
Fixpoint best_of (students : list value) (top : value) : outcome value :=
  match students with
  | [] => Ret top
  | student :: rest =>
      more ← more_stars student top;
      best_of rest (if (more : bool) then student else top)
  end.

Record class_figures : Type := mkFigures {
  figure_students : Z;           (** [totalStudents] *)
  figure_stars : number;         (** [totalStars] *)
  figure_top : option value      (** [topPerformer]; [None] is [null] *)
}.

(** The figures [updateClassStatistics] shows for the class [key], but for
    the average, which is [totalStars / totalStudents] printed with one
    decimal; [None] when it returns without showing any. *)
Definition class_statistics (doc : option value) (key : string)
  : outcome (option class_figures) :=
  classes ← get doc "classes";
  entry ← find classes key;
  match entry with
  | Missing | Inherited => Ret None
  | Own classData =>
      if negb (truthy (Some classData)) then Ret None
      else
        held ← get (Some classData) "students";
        if negb (truthy held) then Ret None
        else
          students ← object_values held;
          totalStars ← sum_stars students 0;
          topPerformer ←
            match students with
            | [] => Ret None
            | first :: _ => top ← best_of students first; Ret (Some top)
            end;
          Ret (Some (mkFigures (Z.of_nat (length students)) totalStars
                       topPerformer))
  end.

Definition updateClassStatistics (e : env) : M (option class_figures) :=
  current ← gets currentClass;
  if no_class current then mret None
  else
    data ← getData e;
    doc ← deref data;
    lift (class_statistics doc (class_key current)).

(** The stars of a student whose count is a number. *)
Definition stars_of (student : value) : number :=
  match field student "stars" with
  | Some (VNum n) => n
  | _ => Finite 0
  end.

(** The same for a count that is finite. *)
Definition whole_stars (student : value) : Z :=
  match stars_of student with
  | Finite z => z
  | _ => 0
  end.

(** The sum of the star counts, as an integer. *)
Definition stars_total (students : list value) : Z :=
  fold_right (fun student sum => whole_stars student + sum) 0 students.

(** ** The leaderboard: [updateLeaderboard] *)

(** [{...student, className: className, id: studentId}] *)
Definition leaderboard_entry (className studentId : string) (student : value)
  : value :=
  VObj (assoc_set "id" (VStr studentId)
          (assoc_set "className" (VStr className) (own_entries student))).

(** The inner [forEach] of either branch. *)
Definition entries_of_class (className : string) (held : value) : list value :=
  map (fun p => leaderboard_entry className (fst p) (snd p)) (own_entries held).

(** The outer [forEach] of the global branch, over
    [Object.entries(data.classes)]. *)
Fixpoint entries_of_classes (classes : list (string * value))
  : outcome (list value) :=
  match classes with
  | [] => Ret []
  | (className, classData) :: rest =>
      held ← get (Some classData) "students";
      later ← entries_of_classes rest;
      Ret ((match held with
            | Some h => if truthy held then entries_of_class className h else []
            | None => []
            end) ++ later)%list
  end.

(** [toLowerCase] and [includes], on texts in ASCII; the embedding does not
    follow the case rules of the other characters. *)
Definition lower (c : ascii) : ascii :=
  let n := nat_of_ascii c in
  if (65 <=? n)%nat && (n <=? 90)%nat then ascii_of_nat (n + 32) else c.

Fixpoint ascii_only (s : string) : bool :=
  match s with
  | EmptyString => true
  | String c rest => (nat_of_ascii c <? 128)%nat && ascii_only rest
  end.

Fixpoint lowered (s : string) : string :=
  match s with
  | EmptyString => EmptyString
  | String c rest => String (lower c) (lowered rest)
  end.

Definition toLowerCase (s : string) : outcome string :=
  if ascii_only s then Ret (lowered s) else Beyond.

Fixpoint includes (s part : string) : bool :=
  String.prefix part s
  || match s with
     | EmptyString => false
     | String _ rest => includes rest part
     end.

(** [students.filter(student =>
    student.name.toLowerCase().includes(this.searchQuery.toLowerCase()))]; a
    name that is no string has no [toLowerCase]. *)
Fixpoint search (query : string) (rows : list value) : outcome (list value) :=
  match rows with
  | [] => Ret []
  | row :: rest =>
      name ← get (Some row) "name";
      hit ← match name with
            | Some (VStr text) =>
                a ← toLowerCase text;
                b ← toLowerCase query;
                Ret (includes a b)
            | _ => Throw
            end;
      later ← search query rest;
      Ret (if (hit : bool) then row :: later else later)
  end.

(** The numbers [b.stars - a.stars] compares.  With [undefined] for a count
    the difference is [NaN], and the order then depends on the engine.  (The
    difference of two infinite counts of the same sign is [NaN] as well,
    which [sort] takes for 0: the two count as equal.) *)
Fixpoint star_keys (rows : list value) : outcome (list (number * value)) :=
  match rows with
  | [] => Ret []
  | row :: rest =>
      stars ← get (Some row) "stars";
      n ← to_number stars;
      match n with
      | Some k => later ← star_keys rest; Ret ((k, row) :: later)
      | None => Beyond
      end
  end.

(** [Array.prototype.sort] is stable: a row goes before the rows that are
    not above it, of those that come after it in the list. *)
Fixpoint place (x : number * value) (sorted : list (number * value))
  : list (number * value) :=
  match sorted with
  | [] => [x]
  | y :: rest =>
      if at_most (fst y) (fst x) then x :: sorted else y :: place x rest
  end.

(** [students.sort((a, b) => b.stars - a.stars)]; the comparison is not
    called on fewer than two rows. *)
Definition sort_by_stars (rows : list value) : outcome (list value) :=
  match rows with
  | [] | [_] => Ret rows
  | _ => keyed ← star_keys rows; Ret (map snd (fold_right place [] keyed))
  end.

(** The rows of the leaderboard, in order: row [i] is shown with rank
    [i + 1].  [None] stands for the notice shown in place of the rows when
    no class is selected or the class has no students object. *)
Definition leaderboard (doc : option value) (current : option string)
    (global : bool) (searchQuery : string) : outcome (option (list value)) :=
  collected ←
    (if global then
       classes ← get doc "classes";
       es ← object_entries classes;
       rows ← entries_of_classes es;
       Ret (Some rows)
     else if no_class current then Ret None
     else
       classes ← get doc "classes";
       entry ← find classes (class_key current);
       if negb (found_truthy entry) then Ret None
       else
         match entry with
         | Own classData =>
             held ← get (Some classData) "students";
             match held with
             | Some h =>
                 if truthy held
                 then Ret (Some (entries_of_class (class_key current) h))
                 else Ret None
             | None => Ret None
             end
         | Inherited | Missing => Ret None
         end);
  match collected with
  | None => Ret None
  | Some rows =>
      found_rows ← (if (searchQuery =? EmptyString)%string then Ret rows
                    else search searchQuery rows);
      sorted ← sort_by_stars found_rows;
      Ret (Some sorted)
  end.

(** [updateLeaderboard()], [global] telling whether [this.leaderboardType]
    is ['global']. *)
Definition updateLeaderboard (e : env) (global : bool) (searchQuery : string)
  : M (option (list value)) :=
  data ← getData e;
  doc ← deref data;
  current ← gets currentClass;
  lift (leaderboard doc current global searchQuery).

(** The same count. *)
Definition same_count (a b : number) : bool :=
  match a, b with
  | Finite x, Finite y => x =? y
  | Infinity, Infinity | NegInfinity, NegInfinity => true
  | _, _ => false
  end.

(** The star counts go down the list. *)
Fixpoint descending (keys : list number) : Prop :=
  match keys with
  | [] => True
  | k :: rest => Forall (fun k' => at_most k' k = true) rest /\ descending rest
  end.

(** A class of three, two of them with the same count. *)
Definition three_students : list (string * value) :=
  [("s1", VObj [("name", VStr "Ada"); ("stars", VNum 3)]);
   ("s2", VObj [("name", VStr "Bob"); ("stars", VNum 7)]);
   ("s3", VObj [("name", VStr "Cy"); ("stars", VNum 3)])].

Definition class_of_three : state :=
  mkState
    [document_of (VObj [("Math", VObj [("students", VObj three_students)])])]
    (Some 0%nat) (Some "Math") None None None None [].

(** The student that [addStudent] makes. *)
Definition new_student (e : env) (studentName : string) : value :=
  VObj [("name", VStr studentName); ("stars", VNum 0);
        ("created", VStr (now e))].

(** The students of a class of the authoritative document. *)
Definition students_at (s : state) (className : string) : option value :=
  match classes_of s with
  | Some classes =>
      match field classes className with
      | Some classData => field classData "students"
      | None => None
      end
  | None => None
  end.

(** ** Notions used by the further properties *)

(** Counters that fit together: no more achievements than students, neither
    past [2^53], where [count++] stops; a star total that is not negative
    and, as long as it is below [2^53], where sums are exact, no less than ten
    stars for each achievement. *)
Definition consistent (st : stats) : Prop :=
  0 <= totalAchievements st <= totalStudents st
  /\ totalStudents st <= 2 ^ 53
  /\ at_most 0 (totalStars st) = true
  /\ (below (totalStars st) (2 ^ 53) = true ->
      at_most (10 * totalAchievements st) (totalStars st) = true).

Definition all_pass (f : value -> bool) (entries : list (string * value)) : bool :=
  forallb (fun p => f (snd p)) entries.

(** The value holds finite numbers only: the copy through JSON is equal to
    it. *)
Fixpoint finite_value (v : value) : bool :=
  match v with
  | VNum (Finite _) => true
  | VNum _ => false
  | VArr items => forallb finite_value items
  | VObj fs => forallb (fun p => finite_value (snd p)) fs
  | _ => true
  end.

(** A student and a class as the operations of the page keep them: passing
    the validator, with finite numbers only, the students of the class held
    in an object. *)
Definition kept_student (student : value) : bool :=
  passing_student student && finite_value student.

Definition kept_class (classData : value) : bool :=
  passing_class classData && object_students classData
  && finite_value classData.

(** The classes are held in an object, and so are the students of each. *)
Definition object_classes (d : option value) : bool :=
  match d with
  | Some doc =>
      match field doc "classes" with
      | Some (VObj cf) => all_pass object_students cf
      | _ => false
      end
  | None => false
  end.

(** What the operations of the page keep: a document that passes the
    validator, holds finite numbers only, and has its classes and the
    students of each class in objects. *)
Definition kept (d : option value) : Prop :=
  validateDataStructure d = Ret true
  /\ json_clone <$> d = d
  /\ object_classes d = true.

Definition kept_page (s : state) : Prop := kept (authoritative s).

(** The class [className] of the authoritative document, if it has one. *)
Definition has_class (s : state) (className : string) : bool :=
  match classes_of s with
  | Some classes =>
      match field classes className with Some _ => true | None => false end
  | None => false
  end.

(** What an operation is given on the page [s], as far as the embedding
    follows it.  No class name or student id given is a name every object
    inherits ([constructor], [toString], [__proto__], ...); a class is
    renamed only while the document has it; no star count is raised beyond
    [2^53]. *)
Definition allowed (a : action) (s : state) : bool :=
  match a with
  | RenameClass newName =>
      negb (inherited newName)
      && (no_class (currentClass s)
          || has_class s (class_key (currentClass s)))
  | AddStudent _ studentId => negb (inherited studentId)
  | EditStudent studentId _ => negb (inherited studentId)
  | ModifyStars studentId amount =>
      negb (inherited studentId)
      && match stars_at (authoritative s) (class_key (currentClass s))
                 studentId with
         | Ret (Some (VNum (Finite z))) => z + amount <=? 2 ^ 53
         | _ => true
         end
  | _ => true
  end.

(** Every step of a session is allowed on the page it finds. *)
Fixpoint session_allowed (steps : list (env * action)) (s : state) : bool :=
  match steps with
  | [] => true
  | (e, a) :: rest =>
      allowed a s && session_allowed rest (snd (perform e a s))
  end.

(** What the page holds for a value an operation built: the value, or the
    copy through JSON that a save which went through has put in its place.
    The two differ only where the value holds an infinite number. *)
Definition up_to_json (held built : value) : Prop :=
  held = built \/ held = json_clone built.

Definition keyed_rows (rows : list value) : list (number * value) :=
  map (fun row => (stars_of row, row)) rows.

(** * Properties *)

(** ** Array keys are numerals *)

Lemma pretty_N_char_digit (x : N) : is_digit (pretty_N_char x) = true.
Proof. unfold pretty_N_char. repeat case_match; reflexivity. Qed.

Lemma pretty_N_go_numeral (x : N) :
  forall s, numeral s = true -> numeral (pretty_N_go x s) = true.
Proof.
  induction (N.lt_wf_0 x) as [x _ IH]; intros s Hs.
  destruct (decide (0 < x)%N) as [Hx|Hx].
  - rewrite pretty_N_go_step by done. apply IH.
    + apply N.div_lt; lia.
    + simpl. rewrite pretty_N_char_digit. exact Hs.
  - assert (x = 0%N) as -> by lia. rewrite pretty_N_go_0. exact Hs.
Qed.

Lemma index_key_numeral (i : nat) : numeral (index_key i) = true.
Proof.
  unfold index_key, pretty, pretty_nat, pretty, pretty_N.
  case_decide; [reflexivity|]. now apply pretty_N_go_numeral.
Qed.

Lemma assoc_indexed_numeral (k : string) (items : list value) :
  forall i x, assoc k (indexed_from i items) = Some x -> numeral k = true.
Proof.
  induction items as [|v items IH]; intros i x; simpl; [discriminate|].
  destruct (k =? index_key i)%string eqn:E.
  - apply String.eqb_eq in E. subst k. intros _. apply index_key_numeral.
  - apply IH.
Qed.

Lemma assoc_indexed_named (k : string) (items : list value) (i : nat) :
  numeral k = false -> assoc k (indexed_from i items) = None.
Proof.
  intros Hk. destruct (assoc k (indexed_from i items)) eqn:E; [|reflexivity].
  apply assoc_indexed_numeral in E. congruence.
Qed.

(** A named property is an own property of objects only. *)
Lemma own_entries_named (v : value) (k : string) :
  numeral k = false ->
  assoc k (own_entries v) = match v with VObj fs => assoc k fs | _ => None end.
Proof.
  intros Hk. destruct v; simpl; trivial; now apply assoc_indexed_named.
Qed.

(** ** The validator always answers within the model *)

#[local] Arguments get : simpl never.
#[local] Arguments hasOwnProperty : simpl never.
#[local] Arguments object_entries : simpl never.

Lemma bind_settled {A B : Type} (m : outcome A) (f : A -> outcome B) :
  m <> Beyond -> (forall a, f a <> Beyond) -> (m ≫= f) <> Beyond.
Proof. destruct m; simpl; auto. Qed.

Lemma get_settled (v : option value) (k : string) : get v k <> Beyond.
Proof. unfold get. repeat case_match; discriminate. Qed.

Lemma hasOwnProperty_settled (v : option value) (k : string) :
  hasOwnProperty v k <> Beyond.
Proof. unfold hasOwnProperty. repeat case_match; discriminate. Qed.

Lemma object_entries_settled (v : option value) : object_entries v <> Beyond.
Proof. unfold object_entries. repeat case_match; discriminate. Qed.

Create HintDb settled.
#[local] Hint Resolve get_settled hasOwnProperty_settled object_entries_settled
  : settled.

Ltac settle :=
  repeat first
    [ progress auto with settled
    | discriminate
    | apply bind_settled; [|intros ?]
    | match goal with
      | |- (if ?c then _ else _) <> Beyond => destruct c
      end ].

Lemma check_required_settled (data : option value) (props : list string) :
  check_required data props <> Beyond.
Proof. induction props as [|prop rest IH]; simpl; settle. Qed.

Lemma check_students_settled (entries : list (string * value)) :
  check_students entries <> Beyond.
Proof. induction entries as [|[k student] rest IH]; simpl; settle. Qed.

Lemma check_teachers_settled (entries : list (string * value)) :
  check_teachers entries <> Beyond.
Proof. induction entries as [|[k password] rest IH]; simpl; settle. Qed.

#[local] Hint Resolve check_required_settled check_students_settled
  check_teachers_settled : settled.

Lemma check_classes_settled (entries : list (string * value)) :
  check_classes entries <> Beyond.
Proof. induction entries as [|[k classData] rest IH]; simpl; settle. Qed.

#[local] Hint Resolve check_classes_settled : settled.

Lemma validateDataStructure_settled (data : option value) :
  validateDataStructure data <> Beyond.
Proof. unfold validateDataStructure. settle. Qed.

(** The validator answers [true], answers [false], or raises. *)
Lemma validateDataStructure_cases (data : option value) :
  validateDataStructure data = Ret true \/
  validateDataStructure data = Ret false \/
  validateDataStructure data = Throw.
Proof.
  pose proof (validateDataStructure_settled data) as H.
  destruct (validateDataStructure data) as [[|]| |]; auto. congruence.
Qed.

(** ** What a valid document looks like *)

Lemma validateDataStructure_object (data : option value) :
  validateDataStructure data = Ret true -> exists fs, data = Some (VObj fs).
Proof.
  destruct data as [[| b | n | s | items | fs]|]; try discriminate.
  - destruct b; discriminate.
  - unfold validateDataStructure. simpl. destruct (nonzero n); discriminate.
  - unfold validateDataStructure. simpl. destruct (s =? EmptyString)%string; discriminate.
  - unfold validateDataStructure. simpl. unfold hasOwnProperty. simpl.
    unfold indexed. rewrite !assoc_indexed_named by reflexivity. discriminate.
  - eauto.
Qed.

Lemma assoc_set_same (k : string) (x : value) (fs : list (string * value)) :
  assoc k (assoc_set k x fs) = Some x.
Proof.
  induction fs as [|[k' v] fs IH]; simpl.
  - now rewrite String.eqb_refl.
  - destruct (k =? k')%string eqn:E; simpl; rewrite ?String.eqb_refl, ?E; auto.
Qed.

Lemma assoc_set_other (k k' : string) (x : value) (fs : list (string * value)) :
  k <> k' -> assoc k (assoc_set k' x fs) = assoc k fs.
Proof.
  intros Hk. apply String.eqb_neq in Hk.
  induction fs as [|[k2 v] fs IH]; simpl.
  - now rewrite Hk.
  - destruct (k' =? k2)%string eqn:E; simpl.
    + apply String.eqb_eq in E. subst k2. now rewrite Hk.
    + now rewrite IH.
Qed.

(** The validator does not look at [metadata]. *)
Lemma validateDataStructure_set_metadata (x : value) (fs : list (string * value)) :
  validateDataStructure (Some (VObj (assoc_set "metadata" x fs)))
  = validateDataStructure (Some (VObj fs)).
Proof.
  unfold validateDataStructure, get, hasOwnProperty. simpl.
  unfold get, hasOwnProperty. simpl.
  now rewrite !assoc_set_other by discriminate.
Qed.

Lemma add_int_zero (n : number) : nonzero n = false -> n = Finite 0.
Proof.
  destruct n as [z| |]; try discriminate. simpl.
  destruct (Z.eqb_spec z 0) as [->|]; [reflexivity|discriminate].
Qed.

Lemma next_backupCount_typed (doc : value) (n : number) :
  backupCount_of doc = Some n ->
  next_backupCount (Some doc) = Ret (VNum (add_int n 1)).
Proof.
  unfold backupCount_of, next_backupCount, get.
  destruct doc as [| | | | |fs]; try discriminate. simpl.
  destruct (assoc "metadata" fs) as [metadata|]; simpl;
    [|intros [= <-]; reflexivity].
  destruct metadata as [| b | m | s | items | ms];
    try (intros [= <-]; reflexivity); unfold get;
    destruct (assoc "backupCount" _) as [[| | count | | |]|] eqn:E;
    simpl; try discriminate; intros [= <-]; rewrite ?E; simpl; trivial;
    unfold truthy; destruct (nonzero count) eqn:Hz; simpl; trivial;
    now rewrite (add_int_zero count Hz).
Qed.

(** ** The JSON round trip *)

Lemma value_nested_ind (P : value -> Prop) :
  P VNull -> (forall b, P (VBool b)) -> (forall n, P (VNum n)) ->
  (forall s, P (VStr s)) ->
  (forall items, Forall P items -> P (VArr items)) ->
  (forall fs, Forall (fun p => P (snd p)) fs -> P (VObj fs)) ->
  forall v, P v.
Proof.
  intros Hnull Hbool Hnum Hstr Harr Hobj.
  fix IH 1. intros [| b | n | s | items | fs].
  - exact Hnull.
  - apply Hbool.
  - apply Hnum.
  - apply Hstr.
  - apply Harr. revert items. fix IHitems 1. intros [|x items].
    + constructor.
    + constructor; [apply IH | apply IHitems].
  - apply Hobj. revert fs. fix IHfs 1. intros [|[k x] fs].
    + constructor.
    + constructor; [apply IH | apply IHfs].
Qed.

Lemma json_clone_idempotent (v : value) :
  json_clone (json_clone v) = json_clone v.
Proof.
  induction v as [| b | n | s | items IH | fs IH] using value_nested_ind;
    simpl; trivial.
  - now destruct n.
  - f_equal. rewrite map_map. induction IH as [|x items Hx _ IHitems];
      simpl; [reflexivity|]. now rewrite Hx, IHitems.
  - f_equal. induction IH as [|[k x] fs Hx _ IHfs];
      simpl; [reflexivity|]. simpl in Hx. now rewrite Hx, IHfs.
Qed.

(** ** One save, step by step *)

Ltac run :=
  unfold mbind, M_bind, mret, M_ret, try_catch, lift, gets, modify, throw,
    alloc, deref, store; simpl.

Lemma wrote_refl (v : value) (s : state) : wrote v s s.
Proof. unfold wrote; tauto. Qed.

Lemma wrote_trans (v : value) (s1 s2 s3 : state) :
  wrote v s1 s2 -> wrote v s2 s3 -> wrote v s1 s3.
Proof.
  unfold wrote.
  intros (H1 & H2 & H3 & H4 & H5 & H6 & H7) (K1 & K2 & K3 & K4 & K5 & K6 & K7).
  repeat split; try congruence.
  - destruct K4 as [->| ->]; auto.
  - destruct K5 as [->| ->]; auto.
  - destruct K6 as [->| ->]; auto.
  - destruct K7 as [->| ->]; auto.
Qed.

Lemma trySaveTo_wrote (e : env) (t : tier) (data : loc) (v : value) (s : state) :
  heap s !! data = Some v -> json_clone v = v ->
  exists b s', trySaveTo e t data s = (Ret b, s') /\ wrote v s s'.
Proof.
  intros Hv Hj. unfold trySaveTo, fetch, stringify. run. rewrite Hv. simpl.
  rewrite Hj. destruct t; simpl.
  - destruct (primary e) as [|ok]; simpl.
    + do 2 eexists; split; [reflexivity|]. unfold wrote; simpl; tauto.
    + unfold SupabaseFn.handler, body_or_empty. simpl.
      destruct (lightweight_invalid v) as [[|]| |]; simpl; destruct ok; simpl;
        (do 2 eexists; split; [reflexivity|]; unfold wrote; simpl; tauto).
  - destruct (legacy e) as [|ok]; simpl.
    + do 2 eexists; split; [reflexivity|]. unfold wrote; simpl; tauto.
    + unfold StarboardFn.handler, body_or_empty. simpl.
      destruct (lightweight_invalid v) as [[|]| |]; simpl; destruct ok; simpl;
        (do 2 eexists; split; [reflexivity|]; unfold wrote; simpl; tauto).
Qed.

Lemma wrote_heap (v : value) (s s' : state) (l : loc) :
  wrote v s s' -> heap s' !! l = heap s !! l.
Proof. intros (H & _). now rewrite H. Qed.

(** *** Running a computation one step at a time *)

Lemma bind_ret {A B : Type} (m : M A) (f : A -> M B) (s s' : state) (a : A) :
  m s = (Ret a, s') -> (m ≫= f) s = f a s'.
Proof. intros H. unfold mbind, M_bind. now rewrite H. Qed.

Lemma bind_throw {A B : Type} (m : M A) (f : A -> M B) (s s' : state) :
  m s = (Throw, s') -> (m ≫= f) s = (Throw, s').
Proof. intros H. unfold mbind, M_bind. now rewrite H. Qed.

Lemma bind_beyond {A B : Type} (m : M A) (f : A -> M B) (s s' : state) :
  m s = (Beyond, s') -> (m ≫= f) s = (Beyond, s').
Proof. intros H. unfold mbind, M_bind. now rewrite H. Qed.

Lemma try_catch_ret {A : Type} (body handler : M A) (s s' : state) (a : A) :
  body s = (Ret a, s') -> try_catch body handler s = (Ret a, s').
Proof. intros H. unfold try_catch. now rewrite H. Qed.

Lemma try_catch_throw {A : Type} (body handler : M A) (s s' : state) :
  body s = (Throw, s') -> try_catch body handler s = handler s'.
Proof. intros H. unfold try_catch. now rewrite H. Qed.

Lemma dbSave_run (e : env) (data : loc) (s : state) :
  dbSave e data s
  = if idb_open_ok e && idb_put_ok e
    then (Ret true, with_idb (heap s !! data) s)
    else (Throw, s).
Proof. unfold dbSave. now destruct (idb_open_ok e && idb_put_ok e). Qed.

Lemma setItem_run (e : env) (data : loc) (s : state) :
  setItem e data s
  = if ls_set_ok e
    then (Ret tt,
          with_localStorage
            (Some match heap s !! data with
                  | Some v => stringify v
                  | None => Garbled
                  end)
            s)
    else (Throw, s).
Proof. unfold setItem. now destruct (ls_set_ok e). Qed.

Lemma dbInit_run (e : env) (s : state) :
  dbInit e s = if idb_open_ok e then (Ret tt, s) else (Throw, s).
Proof. unfold dbInit. now destruct (idb_open_ok e). Qed.

Lemma local_writes_wrote (e : env) (saved : bool) (copy : loc) (v : value)
    (s0 s : state) :
  wrote v s0 s -> heap s0 !! copy = Some v -> json_clone v = v ->
  exists b s',
    try_catch (local_writes e saved copy) (mret false) s = (Ret b, s')
    /\ wrote v s0 s'
    /\ (ls_set_ok e = true -> idb_open_ok e && idb_put_ok e = true -> b = true)
    /\ (b = false ->
        ls_set_ok e = false \/ idb_open_ok e && idb_put_ok e = false).
Proof.
  intros W Hv Hj. unfold local_writes.
  assert (heap s !! copy = Some v) as Hs by now rewrite (wrote_heap v s0 s).
  assert (forall s1, wrote v s0 s1 ->
    exists b s',
      try_catch (setItem e copy;; mret true) (mret false) s1 = (Ret b, s')
      /\ wrote v s0 s'
      /\ (ls_set_ok e = true -> b = true)
      /\ (b = false -> ls_set_ok e = false)) as Hcache.
  { intros s1 W1. pose proof (setItem_run e copy s1) as E.
    rewrite (wrote_heap v s0 s1), Hv in E by trivial.
    unfold stringify in E. rewrite Hj in E.
    destruct (ls_set_ok e).
    - erewrite try_catch_ret by (erewrite bind_ret by exact E; reflexivity).
      do 2 eexists; split; [reflexivity|]. split; [|split; auto; discriminate].
      eapply wrote_trans; [exact W1|]. unfold wrote; simpl; tauto.
    - erewrite try_catch_throw by (erewrite bind_throw by exact E; reflexivity).
      do 2 eexists; split; [reflexivity|].
      split; [exact W1|]. split; [discriminate|reflexivity]. }
  destruct saved; simpl.
  - set (body := mret true ;; _).
    assert (forall s1, body s1 = (setItem e copy;; mret true) s1) as Hb
      by reflexivity.
    unfold try_catch. rewrite Hb.
    destruct (Hcache s W) as (b & s' & E & W' & T & F).
    unfold try_catch in E. rewrite E.
    do 2 eexists; split; [reflexivity|]. split; [exact W'|]. split; auto.
  - pose proof (dbSave_run e copy s) as E. rewrite Hs in E.
    destruct (idb_open_ok e && idb_put_ok e).
    + unfold try_catch. erewrite bind_ret by exact E.
      destruct (Hcache (with_idb (Some v) s)) as (b & s' & E' & W' & T & F).
      { eapply wrote_trans; [exact W|]. unfold wrote; simpl; tauto. }
      unfold try_catch in E'. rewrite E'.
      do 2 eexists; split; [reflexivity|]. split; [exact W'|]. split; auto.
    + erewrite try_catch_throw by (erewrite bind_throw by exact E; reflexivity).
      do 2 eexists; split; [reflexivity|]. split; [exact W|].
      split; [discriminate|]. auto.
Qed.

Lemma persist_wrote (e : env) (copy : loc) (v : value) (s : state) :
  heap s !! copy = Some v -> json_clone v = v ->
  exists b s',
    try_catch (persist e copy) (mret false) s = (Ret b, s')
    /\ wrote v s s'
    /\ (ls_set_ok e = true -> idb_open_ok e && idb_put_ok e = true -> b = true)
    /\ (b = false ->
        ls_set_ok e = false \/ idb_open_ok e && idb_put_ok e = false).
Proof.
  intros Hv Hj.
  unfold persist, trySaveToSupabase, trySaveToNetlify.
  destruct (trySaveTo_wrote e Primary copy v s Hv Hj) as (b1 & s1 & E1 & W1).
  assert (forall k : bool -> M bool,
    try_catch (try_catch (trySaveTo e Primary copy) (mret false) ≫= k)
      (mret false) s = try_catch (k b1) (mret false) s1) as Step1.
  { intros k. unfold try_catch at 1 3.
    erewrite bind_ret by (apply try_catch_ret; exact E1). reflexivity. }
  rewrite Step1. clear Step1.
  destruct b1; simpl.
  - assert (forall k : bool -> M bool,
      try_catch (mret true ≫= k) (mret false) s1
      = try_catch (k true) (mret false) s1) as -> by reflexivity.
    apply (local_writes_wrote e true copy v s s1 W1 Hv Hj).
  - destruct (trySaveTo_wrote e Legacy copy v s1) as (b2 & s2 & E2 & W2);
      [now rewrite (wrote_heap v s s1)|exact Hj|].
    assert (forall k : bool -> M bool,
      try_catch (try_catch (trySaveTo e Legacy copy) (mret false) ≫= k)
        (mret false) s1 = try_catch (k b2) (mret false) s2) as ->.
    { intros k. unfold try_catch at 1 3.
      erewrite bind_ret by (apply try_catch_ret; exact E2). reflexivity. }
    apply (local_writes_wrote e b2 copy v s s2); eauto using wrote_trans.
Qed.

(** *** The save counter is always computed within the model *)

Lemma to_string_settled (v : value) : to_string v <> Beyond.
Proof.
  induction v as [| b | n | s | items IH | fs _] using value_nested_ind;
    simpl; try discriminate.
  - induction IH as [|x items Hx _ IHitems]; [discriminate|].
    apply bind_settled.
    + destruct x; try discriminate; exact Hx.
    + intros first. destruct items; [discriminate|].
      apply bind_settled; [exact IHitems | discriminate].
  - destruct (assoc "toString" fs); discriminate.
Qed.

Lemma next_backupCount_settled (data : option value) :
  next_backupCount data <> Beyond.
Proof.
  unfold next_backupCount. apply bind_settled; [apply get_settled|].
  intros metadata. apply bind_settled.
  - destruct metadata as [[]|]; try discriminate; apply get_settled.
  - intros prior. destruct prior as [[| b | n | s | items | fs]|]; simpl;
      try discriminate.
    + destruct b; discriminate.
    + destruct (nonzero n); discriminate.
    + destruct (s =? EmptyString)%string; discriminate.
    + apply bind_settled; [apply (to_string_settled (VArr items))|discriminate].
    + apply bind_settled; [apply (to_string_settled (VObj fs))|discriminate].
Qed.

(** *** The whole of [saveData] *)

Lemma saveData_rejects (e : env) (data : loc) (s : state) :
  validateDataStructure (heap s !! data) <> Ret true ->
  saveData e data s = (Ret false, s).
Proof.
  intros H. unfold saveData. run.
  destruct (validateDataStructure_cases (heap s !! data)) as [E|[E|E]];
    [congruence | |]; now rewrite E.
Qed.

Lemma saveData_stamps (e : env) (data : loc) (s : state)
    (fs : list (string * value)) (count : value) :
  heap s !! data = Some (VObj fs) ->
  validateDataStructure (Some (VObj fs)) = Ret true ->
  next_backupCount (Some (VObj fs)) = Ret count ->
  saveData e data s
  = try_catch (persist e (length (heap s))) (mret false)
      (stamped_page s data (VObj (assoc_set "metadata" (stamp e count) fs))).
Proof.
  intros Hd Hv Hc. unfold saveData, persist, stamped_page. run.
  rewrite Hd, Hv. simpl. rewrite Hc. simpl.
  now rewrite length_insert.
Qed.

(** Every run of [saveData]: either nothing happens and the answer is
    [false], or the document was valid, the page is stamped, and copies of
    the stamped document went to some of the stores. *)
Lemma saveData_runs (e : env) (data : loc) (s : state) :
  saveData e data s = (Ret false, s)
  \/ exists fs count b s',
       heap s !! data = Some (VObj fs)
       /\ validateDataStructure (Some (VObj fs)) = Ret true
       /\ next_backupCount (Some (VObj fs)) = Ret count
       /\ saveData e data s = (Ret b, s')
       /\ wrote (json_clone (VObj (assoc_set "metadata" (stamp e count) fs)))
            (stamped_page s data (VObj (assoc_set "metadata" (stamp e count) fs)))
            s'
       /\ (ls_set_ok e = true -> idb_open_ok e && idb_put_ok e = true ->
           b = true)
       /\ (b = false ->
           ls_set_ok e = false \/ idb_open_ok e && idb_put_ok e = false).
Proof.
  destruct (validateDataStructure_cases (heap s !! data)) as [E|E].
  2: { left. apply saveData_rejects. destruct E; congruence. }
  destruct (validateDataStructure_object _ E) as (fs & Hd). rewrite Hd in E.
  destruct (next_backupCount (Some (VObj fs))) as [count| |] eqn:Hc.
  - right. exists fs, count.
    destruct (persist_wrote e (length (heap s))
                (json_clone (VObj (assoc_set "metadata" (stamp e count) fs)))
                (stamped_page s data
                   (VObj (assoc_set "metadata" (stamp e count) fs))))
      as (b & s' & Hp & W & T & F); [|apply json_clone_idempotent|].
    { unfold stamped_page. simpl.
      rewrite lookup_app_r, length_insert by (rewrite length_insert; lia).
      now rewrite Nat.sub_diag. }
    exists b, s'. rewrite (saveData_stamps e data s fs count) by assumption.
    auto 10.
  - left. unfold saveData. run. rewrite Hd, E. simpl. now rewrite Hc.
  - now apply next_backupCount_settled in Hc.
Qed.

Lemma getData_cached (e : env) (s : state) (l : loc) :
  memoryCache s = Some l -> truthy (heap s !! l) = true ->
  getData e s = (Ret l, s).
Proof. intros Hm Ht. unfold getData. run. rewrite Hm. simpl. now rewrite Ht. Qed.

Lemma stamped_page_alias (s : state) (data : loc) (stamped d : value) :
  heap s !! data = Some d ->
  heap (stamped_page s data stamped) !! data = Some stamped
  /\ heap (stamped_page s data stamped) !! length (heap s)
     = Some (json_clone stamped)
  /\ length (heap s) <> data.
Proof.
  intros Hd. pose proof (lookup_lt_Some _ _ _ Hd) as Hlt.
  unfold stamped_page. simpl. repeat split.
  - rewrite lookup_app_l by (rewrite length_insert; lia).
    now apply list_lookup_insert_eq.
  - rewrite lookup_app_r, length_insert by (rewrite length_insert; lia).
    now rewrite Nat.sub_diag.
  - lia.
Qed.

(** After a save of a valid document whose counter could be incremented:
    the caller's object is the stamped document, and the new authoritative
    copy is its JSON round trip. *)
Lemma saveData_counted (e : env) (data : loc) (s : state)
    (fs : list (string * value)) (count : value) :
  heap s !! data = Some (VObj fs) ->
  validateDataStructure (Some (VObj fs)) = Ret true ->
  next_backupCount (Some (VObj fs)) = Ret count ->
  exists b s',
    saveData e data s = (Ret b, s')
    /\ heap s' !! data = Some (VObj (assoc_set "metadata" (stamp e count) fs))
    /\ heap s' !! length (heap s)
       = Some (json_clone (VObj (assoc_set "metadata" (stamp e count) fs)))
    /\ memoryCache s' = Some (length (heap s))
    /\ length (heap s) <> data
    /\ (ls_set_ok e = true -> idb_open_ok e && idb_put_ok e = true -> b = true)
    /\ (b = false ->
        ls_set_ok e = false \/ idb_open_ok e && idb_put_ok e = false).
Proof.
  intros Hd Hv Hn.
  rewrite (saveData_stamps e data s fs _ Hd Hv Hn).
  set (stamped := VObj (assoc_set "metadata" (stamp e count) fs)).
  destruct (stamped_page_alias s data stamped _ Hd) as (H1 & H2 & H3).
  destruct (persist_wrote e (length (heap s)) (json_clone stamped)
              (stamped_page s data stamped) H2 (json_clone_idempotent _))
    as (b & s' & Hp & W & T & F).
  exists b, s'. split; [exact Hp|].
  rewrite !(wrote_heap _ _ _ _ W). destruct W as (_ & Hm & _).
  rewrite Hm. auto 10.
Qed.

(** The same for a counter that is absent or the number [n]. *)
Lemma saveData_valid (e : env) (data : loc) (s : state)
    (fs : list (string * value)) (n : number) :
  heap s !! data = Some (VObj fs) ->
  validateDataStructure (Some (VObj fs)) = Ret true ->
  backupCount_of (VObj fs) = Some n ->
  exists b s',
    saveData e data s = (Ret b, s')
    /\ heap s' !! data = Some (stamped_with e (add_int n 1) (VObj fs))
    /\ heap s' !! length (heap s) = Some (saved_copy e n (VObj fs))
    /\ memoryCache s' = Some (length (heap s))
    /\ length (heap s) <> data
    /\ (ls_set_ok e = true -> idb_open_ok e && idb_put_ok e = true -> b = true)
    /\ (b = false ->
        ls_set_ok e = false \/ idb_open_ok e && idb_put_ok e = false).
Proof.
  intros Hd Hv Hn. apply next_backupCount_typed in Hn.
  exact (saveData_counted e data s fs _ Hd Hv Hn).
Qed.

(** When the counter cannot be incremented, nothing happens. *)
Lemma saveData_counter_raises (e : env) (data : loc) (s : state) :
  next_backupCount (heap s !! data) = Throw ->
  saveData e data s = (Ret false, s).
Proof.
  intros Hc. unfold saveData. run.
  destruct (validateDataStructure_cases (heap s !! data)) as [E|[E|E]];
    rewrite E; simpl; trivial.
  now rewrite Hc.
Qed.

(** ** The claims *)

(** C2 (the code departs from the claim).  [validateDataStructure] accepts a
    document in which a student's name is the number 42, which the validator
    as specified (a non-empty string name) rejects: the test on the name is
    [!student.name], a test of truthiness only. *)
Theorem validate_accepts_numeric_name :
  validateDataStructure (Some numeric_name) = Ret true
  /\ spec_validate (Some numeric_name) = false.
Proof. split; reflexivity. Qed.

(** C3.  For every document that fails the Schema Validator (the validator
    answers false or raises), [saveData] resolves to false and has no effect:
    the page's objects, the authoritative copy, IndexedDB, the cache, both
    remote stores and the request log are as before. *)
Theorem saveData_invalid_no_effect (e : env) (s : state) (data : loc) :
  validateDataStructure (heap s !! data) <> Ret true ->
  saveData e data s = (Ret false, s).
Proof. apply saveData_rejects. Qed.

Lemma saveData_invalid_no_effect_witness :
  validateDataStructure (heap (page_with classes_only) !! 0%nat) <> Ret true
  /\ saveData all_well 0%nat (page_with classes_only)
     = (Ret false, page_with classes_only).
Proof.
  split.
  - vm_compute. discriminate.
  - apply saveData_invalid_no_effect. vm_compute. discriminate.
Defined.

(** C1, as stated, fails: the first save of the default document, which
    carries [metadata.created], followed by [getData], returns a document
    without that field, and the field is not among the stamped ones. *)
Lemma saveData_drops_created :
  validateDataStructure (Some first_document) = Ret true
  /\ exists l s' d',
       save_then_get all_well 0%nat (page_with first_document) = (Ret l, s')
       /\ heap s' !! l = Some d'
       /\ ~ same_but_stamped first_document d'.
Proof.
  split; [reflexivity|]. do 3 eexists.
  split; [vm_compute; reflexivity|]. split; [reflexivity|].
  intros [_ H]. specialize (H "created"). simpl in H.
  assert (None = Some (VStr "2024-01-01T00:00:00.000Z")) as E; [|discriminate E].
  apply H. intros [E|[E|[E|[]]]]; discriminate E.
Qed.

(** The safe integers, and the first step beyond them. *)
Lemma round53_safe (z : Z) : - 2 ^ 53 <= z <= 2 ^ 53 -> round53 z = z.
Proof.
  intros H. unfold round53.
  destruct (Z.ltb_spec (Z.abs z) (2 ^ 53)) as [Hlt|Hge]; [reflexivity|].
  assert (z = 2 ^ 53 \/ z = - 2 ^ 53) as [->| ->] by lia; reflexivity.
Qed.

Lemma of_integer_safe (z : Z) :
  - 2 ^ 53 <= z <= 2 ^ 53 -> of_integer z = Finite z.
Proof.
  intros H. unfold of_integer. rewrite (round53_safe z H).
  assert (2 ^ 53 < 2 ^ 1024) by (apply Z.pow_lt_mono_r; lia).
  destruct (Z.leb_spec (2 ^ 1024) z); [lia|].
  destruct (Z.leb_spec z (- 2 ^ 1024)); [lia|]. reflexivity.
Qed.

(** At [2^53] the counter stops: [2^53 + 1] is no double, and rounds back. *)
Lemma counter_stops :
  backupCount_of full_counter = Some (Finite (2 ^ 53))
  /\ next_backupCount (Some full_counter) = Ret (VNum (2 ^ 53)).
Proof. split; reflexivity. Qed.

Lemma field_json_clone (doc : value) (k : string) :
  field (json_clone doc) k = json_clone <$> field doc k.
Proof.
  destruct doc as [| b | n | s | items | fs]; trivial; [now destruct n|].
  simpl. induction fs as [|[k' x] fs IH]; simpl; [reflexivity|].
  destruct (k =? k')%string; [reflexivity|exact IH].
Qed.

Lemma metadata_field_field (doc : value) (f : string) :
  metadata_field doc f
  = match field doc "metadata" with
    | Some (VObj ms) => assoc f ms
    | _ => None
    end.
Proof. now destruct doc. Qed.

Lemma unstamped_fields (f : string) :
  ~ In f stamped_fields ->
  (f =? "lastModified")%string = false /\ (f =? "version")%string = false
  /\ (f =? "backupCount")%string = false.
Proof.
  intros Hf. repeat split; apply String.eqb_neq; intros ->; apply Hf;
    simpl; auto.
Qed.

(** C1, amended.  For every document that passes the Schema Validator and
    whose save counter is absent or a number [n], [saveData] followed by
    [getData] returns the JSON round trip of the argument with fresh
    metadata.  Its fields other than [metadata] are those of the argument
    with [null] in the place of every number that is not finite: they are
    equal to those of the argument when it holds finite numbers only.  Its
    [metadata] is exactly [lastModified] (the clock reading), [version]
    "2.0" and [backupCount], the counter plus 1 as the doubles add: [n + 1]
    for an integer [n] from [-2^53] to [2^53 - 1].  Other metadata fields of
    the argument, such as [created], are not kept. *)
Theorem saveData_then_getData (e : env) (s : state) (data : loc)
    (doc : value) (n : number) :
  heap s !! data = Some doc ->
  validateDataStructure (Some doc) = Ret true ->
  backupCount_of doc = Some n ->
  exists l s' doc',
    save_then_get e data s = (Ret l, s')
    /\ heap s' !! l = Some doc'
    /\ (forall k, k <> "metadata" -> field doc' k = json_clone <$> field doc k)
    /\ (json_clone doc = doc ->
        forall k, k <> "metadata" -> field doc' k = field doc k)
    /\ field doc' "metadata"
       = Some (VObj [("lastModified", VStr (now e));
                     ("version", VStr "2.0");
                     ("backupCount", json_clone (VNum (add_int n 1)))])
    /\ (forall z, n = Finite z -> - 2 ^ 53 <= z < 2 ^ 53 ->
        metadata_field doc' "backupCount" = Some (VNum (z + 1)))
    /\ (forall f, ~ In f stamped_fields -> metadata_field doc' f = None).
Proof.
  intros Hd Hv Hn.
  destruct (validateDataStructure_object _ Hv) as (fs & [= ->]).
  destruct (saveData_valid e data s fs n Hd Hv Hn)
    as (b & s' & E & _ & Hcopy & Hm & _).
  exists (length (heap s)), s', (saved_copy e n (VObj fs)).
  split; [|split; [exact Hcopy|]].
  - unfold save_then_get. erewrite bind_ret by exact E.
    apply getData_cached; [exact Hm|]. now rewrite Hcopy.
  - assert (forall k, k <> "metadata" ->
              field (saved_copy e n (VObj fs)) k
              = json_clone <$> field (VObj fs) k) as Hother.
    { intros k Hk. unfold saved_copy. rewrite field_json_clone. simpl.
      now rewrite assoc_set_other. }
    assert (field (saved_copy e n (VObj fs)) "metadata"
            = Some (VObj [("lastModified", VStr (now e));
                          ("version", VStr "2.0");
                          ("backupCount", json_clone (VNum (add_int n 1)))]))
      as Hmeta.
    { unfold saved_copy. rewrite field_json_clone. simpl.
      now rewrite assoc_set_same. }
    split; [exact Hother|]. split; [|split; [exact Hmeta|split]].
    + intros Hj k Hk. rewrite (Hother k Hk), <- field_json_clone. now rewrite Hj.
    + intros z -> Hz. rewrite metadata_field_field, Hmeta. simpl.
      now rewrite of_integer_safe by lia.
    + intros f Hf. destruct (unstamped_fields f Hf) as (E1 & E2 & E3).
      rewrite metadata_field_field, Hmeta. simpl. now rewrite E1, E2, E3.
Qed.

Lemma saveData_then_getData_witness :
  exists l s' doc',
    save_then_get all_well 0%nat (page_with first_document) = (Ret l, s')
    /\ heap s' !! l = Some doc'
    /\ (forall k, k <> "metadata" ->
        field doc' k = json_clone <$> field first_document k)
    /\ (json_clone first_document = first_document ->
        forall k, k <> "metadata" -> field doc' k = field first_document k)
    /\ field doc' "metadata"
       = Some (VObj [("lastModified", VStr (now all_well));
                     ("version", VStr "2.0");
                     ("backupCount", json_clone (VNum (add_int 0 1)))])
    /\ (forall z, Finite 0 = Finite z -> - 2 ^ 53 <= z < 2 ^ 53 ->
        metadata_field doc' "backupCount" = Some (VNum (z + 1)))
    /\ (forall f, ~ In f stamped_fields -> metadata_field doc' f = None).
Proof.
  apply (saveData_then_getData all_well (page_with first_document) 0%nat
           first_document 0); reflexivity.
Defined.

(** C10, as stated, fails: a document whose save counter is an object with
    a [toString] property of its own passes the validator, yet [saveData]
    returns false and leaves the argument as it was, [metadata.created]
    included: the increment of the counter raises before the metadata is
    replaced. *)
Lemma saveData_keeps_metadata :
  validateDataStructure (Some opaque_counter) = Ret true
  /\ saveData all_well 0%nat (page_with opaque_counter)
     = (Ret false, page_with opaque_counter)
  /\ metadata_field opaque_counter "created"
     = Some (VStr "2024-01-01T00:00:00.000Z").
Proof. repeat split. Qed.

(** C10, amended.  For every valid document argument whose save counter can
    be incremented ([(data.metadata?.backupCount || 0) + 1] does not raise),
    [saveData] writes into the caller's object before it copies it: after
    the call the argument's [metadata] is a freshly built object holding
    [lastModified] (the clock reading), [version] "2.0" and [backupCount]
    (the incremented counter) and nothing else, so that any other metadata
    field ([created], say) is gone from the argument and from the stored
    copy; the other fields of the argument are untouched, and the stored
    copy is a distinct object, the JSON round trip of the argument as it now
    is.  When the increment raises, [saveData] returns false and changes
    nothing.  The increment does one or the other. *)
Theorem saveData_replaces_metadata (e : env) (s : state) (data : loc)
    (doc : value) :
  heap s !! data = Some doc ->
  validateDataStructure (Some doc) = Ret true ->
  (forall count, next_backupCount (Some doc) = Ret count ->
     exists argument copy,
       heap (snd (saveData e data s)) !! data = Some argument
       /\ memoryCache (snd (saveData e data s)) = Some copy
       /\ copy <> data
       /\ heap (snd (saveData e data s)) !! copy = Some (json_clone argument)
       /\ field argument "metadata"
          = Some (VObj [("lastModified", VStr (now e));
                        ("version", VStr "2.0");
                        ("backupCount", count)])
       /\ (forall n, backupCount_of doc = Some n -> count = VNum (add_int n 1))
       /\ (forall f, ~ In f stamped_fields ->
             metadata_field argument f = None
             /\ metadata_field (json_clone argument) f = None)
       /\ (forall k, k <> "metadata" -> field argument k = field doc k))
  /\ (next_backupCount (Some doc) = Throw ->
      saveData e data s = (Ret false, s))
  /\ ((exists count, next_backupCount (Some doc) = Ret count)
      \/ next_backupCount (Some doc) = Throw).
Proof.
  intros Hd Hv. split; [|split].
  3: { pose proof (next_backupCount_settled (Some doc)) as Hs.
       destruct (next_backupCount (Some doc)) as [count| |]; eauto.
       now elim Hs. }
  - intros count Hc.
    destruct (validateDataStructure_object _ Hv) as (fs & [= ->]).
    destruct (saveData_counted e data s fs count Hd Hv Hc)
      as (b & s' & E & Harg & Hcopy & Hm & Hne & _).
    rewrite E. simpl. eexists. exists (length (heap s)).
    split; [exact Harg|]. split; [exact Hm|]. split; [exact Hne|].
    split; [exact Hcopy|]. split; [apply assoc_set_same|]. split; [|split].
    + intros n Hn. pose proof (next_backupCount_typed (VObj fs) n Hn).
      congruence.
    + intros f Hf. destruct (unstamped_fields f Hf) as (E1 & E2 & E3).
      rewrite !metadata_field_field, field_json_clone. simpl.
      rewrite assoc_set_same. simpl. now rewrite E1, E2, E3.
    + intros k Hk. now apply assoc_set_other.
  - intros Hc. apply saveData_counter_raises. now rewrite Hd.
Qed.

Lemma saveData_replaces_metadata_witness :
  (forall count, next_backupCount (Some first_document) = Ret count ->
     exists argument copy,
       heap (snd (saveData offline 0%nat (page_with first_document))) !! 0%nat
       = Some argument
       /\ memoryCache (snd (saveData offline 0%nat (page_with first_document)))
          = Some copy
       /\ copy <> 0%nat
       /\ heap (snd (saveData offline 0%nat (page_with first_document))) !! copy
          = Some (json_clone argument)
       /\ field argument "metadata"
          = Some (VObj [("lastModified", VStr (now offline));
                        ("version", VStr "2.0");
                        ("backupCount", count)])
       /\ (forall n, backupCount_of first_document = Some n ->
             count = VNum (add_int n 1))
       /\ (forall f, ~ In f stamped_fields ->
             metadata_field argument f = None
             /\ metadata_field (json_clone argument) f = None)
       /\ (forall k, k <> "metadata" ->
             field argument k = field first_document k))
  /\ (next_backupCount (Some first_document) = Throw ->
      saveData offline 0%nat (page_with first_document)
      = (Ret false, page_with first_document))
  /\ ((exists count, next_backupCount (Some first_document) = Ret count)
      \/ next_backupCount (Some first_document) = Throw).
Proof.
  apply (saveData_replaces_metadata offline (page_with first_document) 0%nat
           first_document); reflexivity.
Defined.

(** ** Reading *)

Lemma default_document_valid (t : string) :
  validateDataStructure (Some (default_document t)) = Ret true.
Proof. reflexivity. Qed.

(** The cache read always yields a fresh object that passes the validator:
    the parsed entry, or the default document. *)
Lemma getDataFromLocalStorage_runs (e : env) (s : state) :
  exists v,
    getDataFromLocalStorage e s
    = (Ret (length (heap s)), with_heap (heap s ++ [v]) s)
    /\ validateDataStructure (Some v) = Ret true.
Proof.
  unfold getDataFromLocalStorage, createDefaultData. run.
  destruct (localStorage s) as [[|v]|]; simpl;
    try (exists (default_document (now e)); split; reflexivity).
  destruct (validateDataStructure_cases (Some v)) as [E|[E|E]]; rewrite E; simpl.
  - exists v. auto.
  - exists (default_document (now e)). split; reflexivity.
  - exists (default_document (now e)). split; reflexivity.
Qed.

Lemma valid_truthy (v : option value) :
  validateDataStructure v = Ret true -> truthy v = true.
Proof. intros H. now destruct (validateDataStructure_object _ H) as (fs & ->). Qed.

(** [getData] always returns, and what it returns is the reference the
    memory cache holds. *)
Lemma getData_runs (e : env) (s : state) :
  exists l s',
    getData e s = (Ret l, s')
    /\ memoryCache s' = Some l
    /\ truthy (heap s' !! l) = true.
Proof.
  assert (exists l s',
    (getDataFromLocalStorage e ≫= fun cached =>
       modify (with_memoryCache (Some cached));;
       try_catch (dbSave e cached;; mret tt) (mret tt);;
       mret cached) s = (Ret l, s')
    /\ memoryCache s' = Some l /\ truthy (heap s' !! l) = true) as Hfall.
  { destruct (getDataFromLocalStorage_runs e s) as (v & E & Hv).
    erewrite bind_ret by exact E.
    assert ((with_heap (heap s ++ [v]) s).(heap) !! length (heap s) = Some v)
      as Hl by (simpl; rewrite lookup_app_r, Nat.sub_diag by lia; reflexivity).
    unfold dbSave. destruct (idb_open_ok e && idb_put_ok e); run;
      do 2 eexists; (split; [reflexivity|]); simpl; split; trivial;
      simpl in Hl; rewrite Hl; apply (valid_truthy _ Hv). }
  destruct (memoryCache s) as [l|] eqn:Hm.
  - destruct (truthy (heap s !! l)) eqn:Ht.
    + exists l, s. rewrite (getData_cached e s l Hm Ht). auto.
    + destruct Hfall as (l' & s' & E & H). exists l', s'. split; [|exact H].
      rewrite <- E. unfold getData. run. rewrite Hm. simpl. now rewrite Ht.
  - destruct Hfall as (l' & s' & E & H). exists l', s'. split; [|exact H].
    rewrite <- E. unfold getData. run. now rewrite Hm.
Qed.

(** C9.  [getData] returns the authoritative copy itself, not a copy of it:
    the reference it returns is the one the memory cache holds.  So whatever
    the caller then makes of the object behind that reference (an object
    stays truthy whatever is written into it) is at once the authoritative
    state, and the next [getData] returns the same object, changed; no
    [saveData] is involved. *)
Theorem getData_returns_alias (e : env) (s : state) :
  exists l s1,
    getData e s = (Ret l, s1)
    /\ memoryCache s1 = Some l
    /\ forall doc : value,
         truthy (Some doc) = true ->
         authoritative (snd (store l doc s1)) = Some doc
         /\ forall e', getData e' (snd (store l doc s1))
                       = (Ret l, snd (store l doc s1)).
Proof.
  destruct (getData_runs e s) as (l & s1 & E & Hm & Ht).
  exists l, s1. split; [exact E|]. split; [exact Hm|].
  intros doc Hdoc.
  assert (l < length (heap s1))%nat as Hlt.
  { destruct (heap s1 !! l) eqn:Hl; [|discriminate Ht].
    eapply lookup_lt_Some, Hl. }
  assert (heap (snd (store l doc s1)) !! l = Some doc) as Hl
    by (simpl; now apply list_lookup_insert_eq).
  split.
  - unfold authoritative. simpl. rewrite Hm. exact Hl.
  - intros e'. apply getData_cached; [exact Hm|]. now rewrite Hl.
Qed.

(** ** Start-up *)

(** A function whose backend fails answers the page's requests with an
    error, and stores nothing. *)
Lemma failing_backend (t : tier) (clock : string) (m : verb)
    (content : option text) (stored : option value) :
  exists r,
    match t with
    | Primary => SupabaseFn.handler false clock (mkRequest (verb_name m) content)
                   stored
    | Legacy => StarboardFn.handler false clock (mkRequest (verb_name m) content)
                  stored
    end = (r, stored)
    /\ res_ok r = false.
Proof.
  unfold SupabaseFn.handler, StarboardFn.handler, body_or_empty.
  destruct t, m; simpl; try (eexists; split; reflexivity);
    destruct content as [[|parsed]|]; simpl;
    try (eexists; split; reflexivity);
    destruct (lightweight_invalid parsed) as [[|]| |]; simpl;
    eexists; split; reflexivity.
Qed.

Lemma fetch_runs (e : env) (t : tier) (m : verb) (content : option text)
    (s : state) :
  exists o s', fetch e t m content s = (o, s') /\ fetched t m s s'
               /\ o <> Beyond
               /\ (link_of e t <> Served true ->
                   (o = Throw \/ exists r, o = Ret r /\ res_ok r = false)
                   /\ supabase s' = supabase s /\ blobs s' = blobs s).
Proof.
  unfold fetch, fetched. run. destruct t; simpl.
  - destruct (primary e) as [|[|]]; simpl.
    + do 2 eexists. split; [reflexivity|]. simpl. auto 10.
    + destruct (SupabaseFn.handler true (server_now e) _ (supabase s))
        as [r row].
      do 2 eexists. split; [reflexivity|]. simpl.
      repeat split; try discriminate; congruence.
    + destruct (failing_backend Primary (server_now e) m content (supabase s))
        as (r & -> & Hr).
      do 2 eexists. split; [reflexivity|]. simpl.
      repeat split; try discriminate. eauto.
  - destruct (legacy e) as [|[|]]; simpl.
    + do 2 eexists. split; [reflexivity|]. simpl. auto 10.
    + destruct (StarboardFn.handler true (server_now e) _ (blobs s))
        as [r blob].
      do 2 eexists. split; [reflexivity|]. simpl.
      repeat split; try discriminate; congruence.
    + destruct (failing_backend Legacy (server_now e) m content (blobs s))
        as (r & -> & Hr).
      do 2 eexists. split; [reflexivity|]. simpl.
      repeat split; try discriminate. eauto.
Qed.

(** A remote load always returns: nothing, or a fresh object that passes the
    validator. *)
Lemma tryLoadFrom_runs (e : env) (t : tier) (s : state) :
  exists r s',
    tryLoadFrom e t s = (Ret r, s')
    /\ memoryCache s' = memoryCache s /\ currentClass s' = currentClass s
    /\ idb s' = idb s /\ localStorage s' = localStorage s
    /\ requests s' = (requests s ++ [Fetch t GET])%list
    /\ match r with
       | None => heap s' = heap s
       | Some l =>
           exists doc, l = length (heap s) /\ heap s' = (heap s ++ [doc])%list
                       /\ validateDataStructure (Some doc) = Ret true
                       /\ json_clone doc = doc
       end
    /\ (link_of e t <> Served true ->
        r = None /\ supabase s' = supabase s /\ blobs s' = blobs s).
Proof.
  destruct (fetch_runs e t GET None s)
    as (o & s1 & E & (F1 & F2 & F3 & F4 & F5 & F6) & Ho & Hdown).
  unfold tryLoadFrom. destruct o as [res| |]; [| |congruence].
  - destruct (res_ok res) eqn:Hok.
    + assert (link_of e t <> Served true -> False) as Hup.
      { intros H. destruct (Hdown H) as ([|(r & [= <-] & Hr)] & _); congruence. }
      destruct (validateDataStructure_cases (Some (json_clone (payload res))))
        as [V|[V|V]].
      * exists (Some (length (heap s1))),
          (with_heap (heap s1 ++ [json_clone (payload res)]) s1).
        split.
        { apply try_catch_ret. erewrite bind_ret by exact E.
          rewrite Hok. simpl. unfold lift. run. now rewrite V. }
        simpl. rewrite F1. repeat split; auto; try tauto.
        eauto using json_clone_idempotent.
      * exists None, s1. split.
        { apply try_catch_ret. erewrite bind_ret by exact E.
          rewrite Hok. simpl. run. now rewrite V. }
        repeat split; auto; tauto.
      * exists None, s1. split.
        { erewrite try_catch_throw; [reflexivity|].
          erewrite bind_ret by exact E. rewrite Hok. simpl. run. now rewrite V. }
        repeat split; auto; tauto.
    + exists None, s1. split.
      { apply try_catch_ret. erewrite bind_ret by exact E. now rewrite Hok. }
      repeat split; auto; now apply Hdown.
  - exists None, s1. split.
    { erewrite try_catch_throw; [reflexivity|]. now apply bind_throw. }
    repeat split; auto; now apply Hdown.
Qed.

Lemma adopt_from_none (e : env) (load : M (option loc)) (s s1 : state) :
  load s = (Ret None, s1) -> adopt_from e load s = (Ret false, s1).
Proof. intros H. unfold adopt_from. run. now rewrite H. Qed.

Lemma adopt_from_some (e : env) (load : M (option loc)) (s s1 : state)
    (l : loc) (doc : value) :
  load s = (Ret (Some l), s1) -> heap s1 !! l = Some doc ->
  json_clone doc = doc ->
  idb_open_ok e = true -> idb_put_ok e = true -> ls_set_ok e = true ->
  adopt_from e load s
  = (Ret true,
     with_localStorage (Some (Json doc))
       (with_idb (Some doc) (with_memoryCache (Some l) s1))).
Proof.
  intros H Hl Hj H1 H2 H3.
  unfold adopt_from, dbInit, dbSave, setItem, stringify. run.
  rewrite H. simpl. rewrite H1, H2, H3. simpl. now rewrite Hl, Hj.
Qed.

(** C5, as stated, fails: with IndexedDB unavailable the mirror write of the
    primary tier's valid document raises inside the [try] block, the legacy
    tier is consulted after all, and its document ends up authoritative. *)
Lemma legacy_consulted_after_valid_primary :
  (exists l s1,
     tryLoadFromSupabase online_no_idb two_remotes = (Ret (Some l), s1)
     /\ heap s1 !! l = Some math_class
     /\ validateDataStructure (Some math_class) = Ret true)
  /\ In (Fetch Legacy GET)
       (requests (snd (initializeDataStorage online_no_idb two_remotes)))
  /\ authoritative (snd (initializeDataStorage online_no_idb two_remotes))
     = Some first_document.
Proof.
  split; [|split].
  - do 2 eexists. split; [vm_compute; reflexivity|]. split; reflexivity.
  - vm_compute. auto.
  - reflexivity.
Qed.

(** C5, amended.  If the primary tier returns a document that passes the
    validator and the mirror writes succeed (IndexedDB can be opened and
    written, the cache can be written), that document is adopted, IndexedDB
    and the cache hold it, and the only request start-up makes is the one to
    the primary tier: the legacy tier is not consulted, whatever it holds. *)
Theorem primary_wins (e : env) (s s1 : state) (l : loc) :
  tryLoadFromSupabase e s = (Ret (Some l), s1) ->
  idb_open_ok e = true -> idb_put_ok e = true -> ls_set_ok e = true ->
  exists doc s',
    initializeDataStorage e s = (Ret tt, s')
    /\ heap s1 !! l = Some doc
    /\ validateDataStructure (Some doc) = Ret true
    /\ authoritative s' = Some doc
    /\ idb s' = Some doc
    /\ localStorage s' = Some (Json doc)
    /\ requests s' = (requests s ++ [Fetch Primary GET])%list
    /\ blobs s' = blobs s.
Proof.
  intros H H1 H2 H3.
  destruct (tryLoadFrom_runs e Primary s) as (r & s1' & E & _ & _ & _ & _ & R & D & _).
  unfold tryLoadFromSupabase in H. rewrite H in E. injection E as <- <-.
  destruct D as (doc & -> & Hh & V & Hj).
  assert (heap s1 !! length (heap s) = Some doc) as Hl.
  { rewrite Hh, lookup_app_r, Nat.sub_diag by lia. reflexivity. }
  exists doc. eexists. split.
  { unfold initializeDataStorage.
    erewrite bind_ret
      by (apply (adopt_from_some e (tryLoadFromSupabase e) s s1
                   (length (heap s)) doc); assumption).
    reflexivity. }
  split; [exact Hl|]. split; [exact V|]. unfold authoritative. simpl.
  repeat split; auto.
  revert H. unfold tryLoadFrom, fetch. run.
  destruct (primary e) as [|ok]; simpl; [discriminate|].
  destruct (SupabaseFn.handler ok (server_now e) _ (supabase s)) as [res row].
  simpl. destruct (res_ok res); simpl; [|discriminate].
  destruct (validateDataStructure (Some (json_clone (payload res))))
    as [[|]| |]; simpl; try discriminate; now intros [= <-].
Qed.

Lemma primary_wins_witness :
  exists doc s',
    initializeDataStorage all_well two_remotes = (Ret tt, s')
    /\ heap (snd (tryLoadFromSupabase all_well two_remotes)) !! 0%nat = Some doc
    /\ validateDataStructure (Some doc) = Ret true
    /\ authoritative s' = Some doc
    /\ idb s' = Some doc
    /\ localStorage s' = Some (Json doc)
    /\ requests s' = (requests two_remotes ++ [Fetch Primary GET])%list
    /\ blobs s' = blobs two_remotes.
Proof.
  apply (primary_wins all_well two_remotes
           (snd (tryLoadFromSupabase all_well two_remotes)) 0%nat);
    reflexivity.
Defined.

#[local] Arguments truthy : simpl never.

Lemma startup_without_remote (e : env) (s : state) :
  link_of e Primary <> Served true -> link_of e Legacy <> Served true ->
  idb_open_ok e = true -> idb_get_ok e = true -> idb_put_ok e = true ->
  exists s',
    initializeDataStorage e s = (Ret tt, s')
    /\ memoryCache s' = Some (length (heap s))
    /\ heap s' = (heap s ++ [local_choice e s])%list
    /\ idb s' = Some (local_choice e s)
    /\ supabase s' = supabase s /\ blobs s' = blobs s
    /\ localStorage s' = localStorage s.
Proof.
  intros Hp Hl H1 H2 H3.
  destruct (tryLoadFrom_runs e Primary s)
    as (r1 & s1 & E1 & M1 & C1 & I1 & L1 & R1 & D1 & Down1).
  destruct (Down1 Hp) as (-> & S1 & B1).
  destruct (tryLoadFrom_runs e Legacy s1)
    as (r2 & s2 & E2 & M2 & C2 & I2 & L2 & R2 & D2 & Down2).
  destruct (Down2 Hl) as (-> & S2 & B2).
  unfold initializeDataStorage, tryLoadFromSupabase, tryLoadFromNetlify.
  erewrite bind_ret by (apply adopt_from_none; exact E1). simpl.
  erewrite bind_ret by (apply adopt_from_none; exact E2). simpl.
  unfold dbInit, dbLoad, createDefaultData, dbSave, local_choice. run.
  rewrite H1, H2, H3. simpl. rewrite I2, I1.
  destruct (idb s) as [record|] eqn:Hrec; simpl.
  - destruct (truthy (Some record)) eqn:Ht; simpl.
    + eexists. split; [reflexivity|]. simpl.
      rewrite D2, D1, L2, L1, S2, S1, B2, B1, I2, I1. auto 10.
    + rewrite lookup_app_r, Nat.sub_diag by lia. simpl.
      eexists. split; [reflexivity|]. simpl.
      rewrite D2, D1, L2, L1, S2, S1, B2, B1. auto 10.
  - rewrite lookup_app_r, Nat.sub_diag by lia. simpl.
    eexists. split; [reflexivity|]. simpl.
    rewrite D2, D1, L2, L1, S2, S1, B2, B1. auto 10.
Qed.

(** C6.  If neither remote tier delivers (the network is down, or the
    function answers with an error) and IndexedDB works and holds no record,
    then after start-up [getData] returns the default document: no classes,
    the teacher [teacher] with password [starboard], settings present; and
    IndexedDB now holds that document. *)
Theorem startup_falls_back_to_default (e : env) (s : state) :
  primary e <> Served true -> legacy e <> Served true ->
  idb s = None ->
  idb_open_ok e = true -> idb_get_ok e = true -> idb_put_ok e = true ->
  exists l s' doc,
    startup_then_get e s = (Ret l, s')
    /\ heap s' !! l = Some doc
    /\ doc = default_document (now e)
    /\ field doc "classes" = Some (VObj [])
    /\ field doc "teachers" = Some (VObj [("teacher", VStr "starboard")])
    /\ is_Some (field doc "settings")
    /\ idb s' = Some doc.
Proof.
  intros Hp Hl Hempty H1 H2 H3.
  destruct (startup_without_remote e s Hp Hl H1 H2 H3)
    as (s' & E & Hm & Hh & Hi & _).
  unfold local_choice in *. rewrite Hempty in *.
  assert (heap s' !! length (heap s) = Some (default_document (now e))) as Hd.
  { rewrite Hh, lookup_app_r, Nat.sub_diag by lia. reflexivity. }
  exists (length (heap s)), s', (default_document (now e)).
  split.
  { unfold startup_then_get. erewrite bind_ret by exact E.
    apply getData_cached; [exact Hm|]. now rewrite Hd. }
  repeat split; eauto.
Qed.

Lemma startup_falls_back_to_default_witness :
  exists l s' doc,
    startup_then_get offline empty_world = (Ret l, s')
    /\ heap s' !! l = Some doc
    /\ doc = default_document (now offline)
    /\ field doc "classes" = Some (VObj [])
    /\ field doc "teachers" = Some (VObj [("teacher", VStr "starboard")])
    /\ is_Some (field doc "settings")
    /\ idb s' = Some doc.
Proof.
  apply (startup_falls_back_to_default offline empty_world);
    solve [reflexivity | discriminate].
Defined.

(** ** Where the validator stands guard *)

(** C8, as stated, fails: both remote save handlers store a document that
    has classes and nothing else, which the Schema Validator rejects. *)
Lemma handlers_store_unvalidated :
  validateDataStructure (Some classes_only) = Ret false
  /\ snd (SupabaseFn.handler true "2024-05-01T10:00:01.000Z"
            (mkRequest "PUT" (Some (Json classes_only))) None)
     = Some classes_only
  /\ snd (StarboardFn.handler true "2024-05-01T10:00:01.000Z"
            (mkRequest "PUT" (Some (Json classes_only))) None)
     = Some classes_only.
Proof. repeat split. Qed.

Lemma json_clone_assoc_set (k : string) (x : value)
    (fs : list (string * value)) :
  map (fun p => (fst p, json_clone (snd p))) (assoc_set k x fs)
  = assoc_set k (json_clone x) (map (fun p => (fst p, json_clone (snd p))) fs).
Proof.
  induction fs as [|[k' v] fs IH]; simpl; [reflexivity|].
  destruct (k =? k')%string; simpl; [reflexivity|]. now rewrite IH.
Qed.

(** The copy of a stamped document that holds finite numbers only passes the
    validator as the document does. *)
Lemma finite_copy_valid (x : value) (fs : list (string * value)) :
  json_clone (VObj fs) = VObj fs ->
  validateDataStructure
    (Some (json_clone (VObj (assoc_set "metadata" x fs))))
  = validateDataStructure (Some (VObj fs)).
Proof.
  intros Hj. simpl in Hj |- *. injection Hj as Hj.
  now rewrite json_clone_assoc_set, Hj, validateDataStructure_set_metadata.
Qed.

(** The copy of a document that passes the validator can fail it: a star
    count that is not finite passes, and is [null] in the copy, which
    [saveData] makes authoritative and sends to the stores all the same. *)
Lemma saveData_copy_can_fail :
  validateDataStructure (Some infinite_stars) = Ret true
  /\ exists s' copy,
       saveData all_well 0%nat (page_with infinite_stars) = (Ret true, s')
       /\ authoritative s' = Some copy
       /\ supabase s' = Some copy
       /\ localStorage s' = Some (Json copy)
       /\ validateDataStructure (Some copy) = Ret false.
Proof.
  split; [reflexivity|]. do 2 eexists.
  split; [vm_compute; reflexivity|]. repeat split.
Qed.

(** C8, amended.  The Schema Validator gates the page's own paths:
    - [saveData] of a document that fails it changes nothing;
    - whatever [saveData] writes to IndexedDB, to the cache or to a remote
      store, and whatever it makes authoritative, is the JSON round trip of
      a document that passes it (the argument, stamped), and passes it as
      well when the argument holds finite numbers only; a number that is
      not finite is [null] in the round trip, which then can fail;
    - a remote load and the cache read return only documents that pass it.
    It does not gate the two remote save handlers, which store any object
    with a truthy [classes], nor the IndexedDB read of start-up, which
    adopts any truthy record. *)
Theorem validator_gates_the_page :
  (forall e s data,
     validateDataStructure (heap s !! data) <> Ret true ->
     saveData e data s = (Ret false, s))
  /\ (forall e s data,
        snd (saveData e data s) = s
        \/ exists stamped,
             validateDataStructure (Some stamped) = Ret true
             /\ heap (snd (saveData e data s)) !! data = Some stamped
             /\ authoritative (snd (saveData e data s))
                = Some (json_clone stamped)
             /\ kept_or (json_clone stamped)
                  (idb s) (idb (snd (saveData e data s)))
             /\ kept_or (json_clone stamped)
                  (supabase s) (supabase (snd (saveData e data s)))
             /\ kept_or (json_clone stamped)
                  (blobs s) (blobs (snd (saveData e data s)))
             /\ (localStorage (snd (saveData e data s)) = localStorage s
                 \/ localStorage (snd (saveData e data s))
                    = Some (Json (json_clone stamped)))
             /\ (forall doc, heap s !! data = Some doc ->
                   json_clone doc = doc ->
                   validateDataStructure (Some (json_clone stamped))
                   = Ret true))
  /\ (forall e t s l s',
        tryLoadFrom e t s = (Ret (Some l), s') ->
        validateDataStructure (heap s' !! l) = Ret true)
  /\ (forall e s l s',
        getDataFromLocalStorage e s = (Ret l, s') ->
        validateDataStructure (heap s' !! l) = Ret true)
  /\ (forall t row fs classes,
        assoc "classes" fs = Some classes -> truthy (Some classes) = true ->
        snd (SupabaseFn.handler true t
               (mkRequest "PUT" (Some (Json (VObj fs)))) row) = Some (VObj fs)
        /\ snd (StarboardFn.handler true t
                  (mkRequest "PUT" (Some (Json (VObj fs)))) row)
           = Some (VObj fs))
  /\ (forall e s record,
        primary e <> Served true -> legacy e <> Served true ->
        idb_open_ok e = true -> idb_get_ok e = true -> idb_put_ok e = true ->
        idb s = Some record -> truthy (Some record) = true ->
        authoritative (snd (initializeDataStorage e s)) = Some record).
Proof.
  split; [intros e s data; apply saveData_rejects|].
  split; [|split; [|split; [|split]]].
  - intros e s data. unfold kept_or.
    destruct (saveData_runs e data s)
      as [E|(fs & count & b & s' & Hd & Hv & Hc & E & W & _)].
    { rewrite E. simpl. auto. }
    rewrite E. simpl. right.
    exists (VObj (assoc_set "metadata" (stamp e count) fs)).
    split; [now rewrite validateDataStructure_set_metadata|].
    destruct (stamped_page_alias s data
                (VObj (assoc_set "metadata" (stamp e count) fs)) _ Hd)
      as (Harg & Hcopy & _).
    pose proof (wrote_heap _ _ _ (length (heap s)) W) as Hh.
    pose proof (wrote_heap _ _ _ data W) as Hh'.
    destruct W as (_ & Hm & _ & Hi & Hl & Hr & Hb).
    split; [now rewrite Hh', Harg|].
    split; [unfold authoritative; rewrite Hm; simpl memoryCache; cbv iota;
            now rewrite Hh, Hcopy|].
    repeat split; trivial.
    intros doc Hdoc Hj. rewrite Hd in Hdoc. injection Hdoc as <-.
    now rewrite finite_copy_valid.
  - intros e t s l s' H.
    destruct (tryLoadFrom_runs e t s) as (r & s1 & E & _ & _ & _ & _ & _ & D & _).
    rewrite H in E. injection E as <- <-. destruct D as (doc & -> & Hh & V & _).
    rewrite Hh, lookup_app_r, Nat.sub_diag by lia. exact V.
  - intros e s l s' H.
    destruct (getDataFromLocalStorage_runs e s) as (v & E & V).
    rewrite H in E. injection E as -> ->. simpl.
    rewrite lookup_app_r, Nat.sub_diag by lia. exact V.
  - intros t row fs classes Hc Ht.
    unfold SupabaseFn.handler, StarboardFn.handler, body_or_empty,
      lightweight_invalid, get. simpl. rewrite Hc. simpl. rewrite Ht. auto.
  - intros e s record Hp Hl H1 H2 H3 Hr Ht.
    destruct (startup_without_remote e s Hp Hl H1 H2 H3)
      as (s' & E & Hm & Hh & _).
    rewrite E. unfold authoritative. simpl. rewrite Hm, Hh.
    rewrite lookup_app_r, Nat.sub_diag by lia. unfold local_choice.
    now rewrite Hr, Ht.
Qed.

(** ** Stars *)

Lemma outcome_bind_inv {A B : Type} (m : outcome A) (f : A -> outcome B) (r : B) :
  (m ≫= f) = Ret r -> exists a, m = Ret a /\ f a = Ret r.
Proof. destruct m; simpl; [eauto | discriminate | discriminate]. Qed.

Lemma get_some_inv (v : option value) (k : string) (x : option value) :
  get v k = Ret x -> exists c, v = Some c.
Proof. destruct v; [eauto | discriminate]. Qed.

(** A named property that is found belongs to an object. *)
Lemma get_named (c : value) (k : string) (x : value) :
  numeral k = false -> (k =? "length")%string = false ->
  get (Some c) k = Ret (Some x) ->
  exists fs, c = VObj fs /\ assoc k fs = Some x.
Proof.
  intros Hk Hlen. unfold get. rewrite own_entries_named, Hlen by exact Hk.
  destruct c; try discriminate.
  destruct (assoc k fields) eqn:E; [|discriminate]. intros [= ->]. eauto.
Qed.

Lemma get_object (fs : list (string * value)) (k : string) (x : value) :
  assoc k fs = Some x -> get (Some (VObj fs)) k = Ret (Some x).
Proof. intros H. unfold get. simpl. now rewrite H. Qed.

Lemma assoc_chars_string (k : string) (s : string) :
  forall i x, assoc k (indexed_from i (chars s)) = Some x ->
              exists c, x = VStr c.
Proof.
  unfold chars. induction (list_ascii_of_string s) as [|a l IH]; intros i x;
    simpl; [discriminate|].
  destruct (k =? index_key i)%string; [intros [= <-]; eauto | apply IH].
Qed.

Lemma assoc_position (k : string) (y : value) (items : list value) :
  forall i x,
    assoc k (indexed_from i items) = Some x ->
    exists j, position i k items = Some j
              /\ assoc k (indexed_from i (<[j := y]> items)) = Some y.
Proof.
  induction items as [|v items IH]; intros i x; simpl; [discriminate|].
  destruct (k =? index_key i)%string eqn:E.
  - intros _. exists 0%nat. simpl. now rewrite E.
  - intros H. destruct (IH _ _ H) as (j & Hj & Ha).
    exists (S j). rewrite Hj. simpl. now rewrite E.
Qed.

(** Replacing an element that is an object, in an object or in an array. *)
Lemma get_set_object (c : value) (k : string) (fs : list (string * value))
    (y : value) :
  get (Some c) k = Ret (Some (VObj fs)) ->
  exists c', set (Some c) k y = Ret c' /\ get (Some c') k = Ret (Some y).
Proof.
  unfold get. destruct c as [| b | n | s | items | fs0]; simpl; try discriminate.
  - destruct (k =? "length")%string; discriminate.
  - destruct (k =? "length")%string; discriminate.
  - destruct (assoc k (indexed (chars s))) eqn:E.
    + intros [= ->]. apply assoc_chars_string in E as (c & [=]).
    + destruct (k =? "length")%string; discriminate.
  - destruct (assoc k (indexed items)) eqn:E.
    + intros _. destruct (assoc_position k y items _ _ E) as (j & Hj & Ha).
      rewrite Hj. eexists. split; [reflexivity|]. simpl.
      unfold indexed. now rewrite Ha.
    + destruct (k =? "length")%string; discriminate.
  - destruct (assoc k fs0) eqn:E; [|destruct (k =? "length")%string; discriminate].
    intros _. eexists. split; [reflexivity|]. simpl. now rewrite assoc_set_same.
Qed.

(** The chain of reads and writes [modifyStars] makes on a document in which
    the student is found with a numeric star count. *)
Lemma stars_path (doc : option value) (key studentId : string)
    (stars : number) (new : value) :
  stars_at doc key studentId = Ret (Some (VNum stars)) ->
  exists fs classes classData students student student' students' classData'
         classes',
    doc = Some (VObj fs)
    /\ get doc "classes" = Ret (Some classes)
    /\ get (Some classes) key = Ret (Some classData)
    /\ get (Some classData) "students" = Ret (Some students)
    /\ get (Some students) studentId = Ret (Some student)
    /\ truthy (Some student) = true
    /\ get (Some student) "stars" = Ret (Some (VNum stars))
    /\ set (Some student) "stars" new = Ret student'
    /\ set (Some students) studentId student' = Ret students'
    /\ set (Some classData) "students" students' = Ret classData'
    /\ set (Some classes) key classData' = Ret classes'
    /\ set doc "classes" classes' = Ret (VObj (assoc_set "classes" classes' fs))
    /\ stars_at (Some (VObj (assoc_set "classes" classes' fs))) key studentId
       = Ret (Some new).
Proof.
  unfold stars_at. intros H.
  apply outcome_bind_inv in H as (o1 & G1 & H).
  apply outcome_bind_inv in H as (o2 & G2 & H).
  apply outcome_bind_inv in H as (o3 & G3 & H).
  apply outcome_bind_inv in H as (o4 & G4 & G5).
  destruct (get_some_inv _ _ _ G5) as (student & ->).
  destruct (get_some_inv _ _ _ G4) as (students & ->).
  destruct (get_some_inv _ _ _ G3) as (classData & ->).
  destruct (get_some_inv _ _ _ G2) as (classes & ->).
  destruct (get_some_inv _ _ _ G1) as (d & ->).
  apply get_named in G5 as (sf & -> & A5); [|reflexivity..].
  apply get_named in G3 as (cf & -> & A3); [|reflexivity..].
  apply get_named in G1 as (fs & -> & A1); [|reflexivity..].
  destruct (get_set_object students studentId sf
              (VObj (assoc_set "stars" new sf)) G4) as (students' & S4 & G4').
  destruct (get_set_object classes key cf
              (VObj (assoc_set "students" students' cf)) G2)
    as (classes' & S2 & G2').
  exists fs, classes, (VObj cf), students, (VObj sf),
    (VObj (assoc_set "stars" new sf)), students',
    (VObj (assoc_set "students" students' cf)), classes'.
  repeat split; auto using get_object.
  rewrite (get_object _ "classes" classes') by apply assoc_set_same. simpl.
  rewrite G2'. simpl.
  rewrite (get_object _ "students" students') by apply assoc_set_same. simpl.
  rewrite G4'. simpl.
  apply get_object, assoc_set_same.
Qed.

Lemma stars_at_set_metadata (x : value) (fs : list (string * value))
    (key studentId : string) :
  stars_at (Some (VObj (assoc_set "metadata" x fs))) key studentId
  = stars_at (Some (VObj fs)) key studentId.
Proof.
  unfold stars_at, get at 1 5. simpl.
  now rewrite assoc_set_other by discriminate.
Qed.

(** *** Reading in a copy *)

Lemma assoc_map_clone (k : string) (fs : list (string * value)) :
  assoc k (map (fun p => (fst p, json_clone (snd p))) fs)
  = json_clone <$> assoc k fs.
Proof.
  induction fs as [|[k' x] fs IH]; simpl; [reflexivity|].
  destruct (k =? k')%string; [reflexivity|exact IH].
Qed.

Lemma assoc_indexed_clone (k : string) (items : list value) :
  forall i, assoc k (indexed_from i (map json_clone items))
            = json_clone <$> assoc k (indexed_from i items).
Proof.
  induction items as [|x items IH]; intros i; simpl; [reflexivity|].
  destruct (k =? index_key i)%string; [reflexivity|apply IH].
Qed.

Lemma assoc_chars_clone (k : string) (s : string) :
  json_clone <$> assoc k (indexed (chars s)) = assoc k (indexed (chars s)).
Proof.
  destruct (assoc k (indexed (chars s))) as [x|] eqn:E; [|reflexivity].
  apply assoc_chars_string in E as (c & ->). reflexivity.
Qed.

Lemma own_entries_clone (c : value) (k : string) :
  assoc k (own_entries (json_clone c)) = json_clone <$> assoc k (own_entries c).
Proof.
  destruct c as [| b | n | s | items | fs]; simpl; trivial.
  - now destruct n.
  - now rewrite assoc_chars_clone.
  - apply assoc_indexed_clone.
  - apply assoc_map_clone.
Qed.

(** What a read finds in a document, it finds in the copy, copied. *)
Lemma get_json_clone (c : value) (k : string) (x : value) :
  get (Some c) k = Ret (Some x) ->
  get (Some (json_clone c)) k = Ret (Some (json_clone x)).
Proof.
  unfold get. intros H.
  assert (c <> VNull) as Hc by (intros ->; discriminate H).
  assert (forall n, c = VNum n -> False) as Hn
    by (intros n ->; simpl in H; destruct (k =? "length")%string; discriminate).
  destruct (json_clone c) eqn:Ec;
    try (destruct c as [| | []| | |]; try discriminate Ec; try (now elim Hc);
         now elim (Hn _ eq_refl)).
  all: rewrite <- Ec, own_entries_clone.
  all: destruct (assoc k (own_entries c)) as [y|] eqn:Ey; simpl;
    [destruct c; try discriminate H; injection H as <-; reflexivity|].
  all: destruct c as [| | | s0 | items0 | fs0]; try discriminate Ec;
    destruct (k =? "length")%string; simpl in H |- *; try discriminate H;
    injection H as <-; simpl; rewrite ?length_map; reflexivity.
Qed.

Lemma stars_at_json_clone (d : value) (key studentId : string) (x : value) :
  stars_at (Some d) key studentId = Ret (Some x) ->
  stars_at (Some (json_clone d)) key studentId = Ret (Some (json_clone x)).
Proof.
  unfold stars_at. intros H.
  apply outcome_bind_inv in H as (o1 & G1 & H).
  apply outcome_bind_inv in H as (o2 & G2 & H).
  apply outcome_bind_inv in H as (o3 & G3 & H).
  apply outcome_bind_inv in H as (o4 & G4 & G5).
  destruct (get_some_inv _ _ _ G5) as (student & ->).
  destruct (get_some_inv _ _ _ G4) as (students & ->).
  destruct (get_some_inv _ _ _ G3) as (classData & ->).
  destruct (get_some_inv _ _ _ G2) as (classes & ->).
  rewrite (get_json_clone _ _ _ G1). simpl.
  rewrite (get_json_clone _ _ _ G2). simpl.
  rewrite (get_json_clone _ _ _ G3). simpl.
  rewrite (get_json_clone _ _ _ G4). simpl.
  exact (get_json_clone _ _ _ G5).
Qed.

(** *** Rounding keeps the sign *)

Lemma round53_negative (z : Z) : z < 0 -> round53 z < 0.
Proof.
  intros Hz. unfold round53.
  destruct (Z.ltb_spec (Z.abs z) (2 ^ 53)) as [Hlt|Hge]; [exact Hz|].
  set (a := Z.abs z) in *. set (k := Z.log2 a - 52).
  assert (0 < a) as Ha by (unfold a; lia).
  destruct (Z.log2_spec a Ha) as [Hlow _].
  assert (53 <= Z.log2 a) as Hlog
    by (apply Z.log2_le_pow2; [exact Ha|exact Hge]).
  assert (0 < 2 ^ k) as Hk by (apply Z.pow_pos_nonneg; unfold k; lia).
  assert (2 ^ k <= a) as Hka.
  { etransitivity; [|exact Hlow]. apply Z.pow_le_mono_r; unfold k; lia. }
  assert (0 < a / 2 ^ k) as Hq by (apply Z.div_str_pos; lia).
  assert (Z.sgn z = -1) as -> by (apply Z.sgn_neg; exact Hz).
  destruct (if a mod 2 ^ k <? 2 ^ (k - 1) then false
            else if 2 ^ (k - 1) <? a mod 2 ^ k then true
                 else Z.odd (a / 2 ^ k)); nia.
Qed.

Lemma of_integer_negative (z : Z) : z < 0 -> below (of_integer z) 0 = true.
Proof.
  intros Hz. pose proof (round53_negative z Hz) as Hr. unfold of_integer.
  assert (0 < 2 ^ 1024) by (apply Z.pow_pos_nonneg; lia).
  destruct (Z.leb_spec (2 ^ 1024) (round53 z)); [lia|].
  destruct (Z.leb_spec (round53 z) (- 2 ^ 1024)); [reflexivity|].
  simpl. now apply Z.ltb_lt.
Qed.

Lemma max0_not_negative (a : number) : below (max0 a) 0 = false.
Proof. unfold max0. destruct (below a 0) eqn:E; [reflexivity|exact E]. Qed.

(** C7, as stated, fails: the difference is computed in doubles.  A student
    with [2^53 + 2] stars who loses one is left with [2^53] stars, not with
    [2^53 + 1], which is no double. *)
Lemma modifyStars_rounds :
  let s := mkState
             [document_of
                (VObj [("Math", class_of (VStr "Ada") (VNum (2 ^ 53 + 2)))])]
             (Some 0%nat) (Some "Math") None None None None [] in
  stars_at (authoritative s) "Math" "s1" = Ret (Some (VNum (2 ^ 53 + 2)))
  /\ stars_at (authoritative (snd (modifyStars offline "s1" (-1) s)))
       "Math" "s1"
     = Ret (Some (VNum (2 ^ 53)))
  /\ Z.max 0 (2 ^ 53 + 2 - 1) <> 2 ^ 53.
Proof. repeat split. discriminate. Qed.

(** C7, amended.  For every student found in the current class of the
    authoritative document with a number [stars] for star count,
    [modifyStars] with any [amount] (a decrement of magnitude [d] is
    [amount = -d]) returns and leaves the student with
    [Math.max(0, stars + amount)] as the doubles compute it (in the copy
    [saveData] makes authoritative, an infinite count is [null]).  That is
    [max 0 (stars - d)] exactly when [stars] and [d] are integers and
    [stars - d] lies between [-2^53] and [2^53]; beyond, the difference is
    rounded.  The count is 0 whenever the decrement exceeds it, and it is
    never negative.  All this holds whether or not the redrawing of the
    page that follows the save completes; when it does, [modifyStars]
    returns, having had [checkAchievements] announce the milestones between
    the old count and the new one, and when it does not, [modifyStars]
    raises. *)
Theorem modifyStars_clamps (e : env) (s : state) (studentId : string)
    (stars : number) (amount : Z) :
  stars_at (authoritative s) (class_key (currentClass s)) studentId
  = Ret (Some (VNum stars)) ->
  exists o s' after announced,
    modifyStars e studentId amount s = (o, s')
    /\ checkAchievements (Some (VNum stars))
         (Some (VNum (max0 (add_int stars amount)))) = Ret announced
    /\ o = (if redraw_ok e then Ret announced else Throw)
    /\ stars_at (authoritative s') (class_key (currentClass s')) studentId
       = Ret (Some after)
    /\ (after = VNum (max0 (add_int stars amount))
        \/ after = json_clone (VNum (max0 (add_int stars amount))))
    /\ negative (Some after) = false
    /\ (forall z d, stars = Finite z -> amount = - d ->
        (- 2 ^ 53 <= z - d <= 2 ^ 53 -> after = VNum (Z.max 0 (z - d)))
        /\ (d > z -> after = VNum 0)).
Proof.
  intros H. remember (authoritative s) as doc eqn:Hdoc.
  set (new := max0 (add_int stars amount)).
  destruct (stars_path doc _ _ _ (VNum new) H)
    as (fs & classes & classData & students & student & student' & students'
        & classData' & classes' & -> & G1 & G2 & G3 & G4 & Ht & G5
        & S5 & S4 & S3 & S2 & S1 & Hnew).
  unfold authoritative in Hdoc. destruct (memoryCache s) as [l|] eqn:Hm;
    [|discriminate]. symmetry in Hdoc.
  assert (l < length (heap s))%nat as Hlt by (eapply lookup_lt_Some, Hdoc).
  set (doc' := VObj (assoc_set "classes" classes' fs)) in *.
  set (s1 := with_heap (<[l := doc']> (heap s)) s).
  assert (heap s1 !! l = Some doc') as Hl1
    by (simpl; now apply list_lookup_insert_eq).
  set (announced := List.filter
                      (fun milestone => less_than (Some stars) milestone
                                        && at_least (Some new) milestone)
                      milestones).
  assert (modifyStars e studentId amount s
          = (saveData e l;;
             (if redraw_ok e then mret tt else throw);;
             mret announced) s1) as Hrun.
  { unfold modifyStars.
    erewrite bind_ret by (apply getData_cached; [exact Hm|now rewrite Hdoc]).
    unfold mbind at 1 2 3 4 5 6, M_bind, deref, gets, lift. rewrite Hdoc.
    rewrite G1, G2, G3, G4, Ht. change (negb true) with false. cbv iota.
    unfold mbind at 1 2 3 4 5 6 7, M_bind, lift. rewrite G5.
    change (max0_plus (Some (VNum stars)) amount) with (Ret (VNum new)).
    cbv beta iota. rewrite S5, S4, S3, S2, S1.
    unfold mbind at 1, M_bind, store, modify. reflexivity. }
  assert (forall after,
            after = VNum new \/ after = json_clone (VNum new) ->
            negative (Some after) = false
            /\ (forall z d, stars = Finite z -> amount = - d ->
                (- 2 ^ 53 <= z - d <= 2 ^ 53 -> after = VNum (Z.max 0 (z - d)))
                /\ (d > z -> after = VNum 0))) as Hfacts.
  { intros after Hafter. split.
    - destruct Hafter as [->| ->]; simpl.
      + apply max0_not_negative.
      + pose proof (max0_not_negative (add_int stars amount)) as Hp.
        fold new in Hp. now destruct new.
    - intros z d Hs Ha.
      assert (new = max0 (of_integer (z - d))) as Hnew'.
      { unfold new. rewrite Hs, Ha. simpl.
        now replace (z + - d) with (z - d) by lia. }
      split.
      + intros Hsafe. rewrite (of_integer_safe _ Hsafe) in Hnew'.
        assert (new = Finite (Z.max 0 (z - d))) as Hn.
        { rewrite Hnew'. unfold max0. simpl.
          destruct (Z.ltb_spec (z - d) 0); f_equal; lia. }
        destruct Hafter as [->| ->]; rewrite Hn; reflexivity.
      + intros Hd. assert (new = Finite 0) as Hn.
        { rewrite Hnew'. unfold max0. now rewrite of_integer_negative by lia. }
        destruct Hafter as [->| ->]; rewrite Hn; reflexivity. }
  rewrite Hrun.
  destruct (saveData_runs e l s1)
    as [E|(fs' & count & b & s' & Hd & Hv & Hc & E & W & _)].
  - exists (if redraw_ok e then Ret announced else Throw), s1, (VNum new),
      announced.
    split; [erewrite bind_ret by exact E; now destruct (redraw_ok e)|].
    split; [reflexivity|]. split; [reflexivity|].
    split; [|split; [now left|apply Hfacts; now left]].
    unfold authoritative. simpl memoryCache. rewrite Hm, Hl1. exact Hnew.
  - exists (if redraw_ok e then Ret announced else Throw), s',
      (json_clone (VNum new)), announced.
    split; [erewrite bind_ret by exact E; now destruct (redraw_ok e)|].
    split; [reflexivity|]. split; [reflexivity|].
    split; [|split; [now right|apply Hfacts; now right]].
    rewrite Hl1 in Hd. injection Hd as <-.
    destruct (stamped_page_alias s1 l
                (VObj (assoc_set "metadata" (stamp e count)
                         (assoc_set "classes" classes' fs))) _ Hl1)
      as (_ & Hcopy & _).
    pose proof (wrote_heap _ _ _ (length (heap s1)) W) as Hh.
    destruct W as (_ & Hm' & Hc' & _). unfold authoritative.
    assert (memoryCache s' = Some (length (heap s1))) as -> by now rewrite Hm'.
    assert (currentClass s' = currentClass s) as -> by now rewrite Hc'.
    rewrite Hh, Hcopy. apply stars_at_json_clone.
    rewrite stars_at_set_metadata. exact Hnew.
Qed.

Lemma modifyStars_clamps_witness :
  exists o s' after announced,
    modifyStars offline "s1" (-5) (mkState [math_class] (Some 0%nat)
                                     (Some "Math") None None None None [])
    = (o, s')
    /\ checkAchievements (Some (VNum 3))
         (Some (VNum (max0 (add_int 3 (-5))))) = Ret announced
    /\ o = (if redraw_ok offline then Ret announced else Throw)
    /\ stars_at (authoritative s') (class_key (currentClass s')) "s1"
       = Ret (Some after)
    /\ (after = VNum (max0 (add_int 3 (-5)))
        \/ after = json_clone (VNum (max0 (add_int 3 (-5)))))
    /\ negative (Some after) = false
    /\ (forall z d, Finite 3 = Finite z -> -5 = - d ->
        (- 2 ^ 53 <= z - d <= 2 ^ 53 -> after = VNum (Z.max 0 (z - d)))
        /\ (d > z -> after = VNum 0)).
Proof.
  apply (modifyStars_clamps offline
           (mkState [math_class] (Some 0%nat) (Some "Math") None None None
              None [])
           "s1" 3 (-5)).
  reflexivity.
Defined.

(** ** The validator against its specification *)

Lemma spec_students_accepted (students : list (string * value)) :
  forallb (fun p => spec_student (snd p)) students = true ->
  check_students students = Ret true.
Proof.
  induction students as [|[k student] rest IH]; simpl; [reflexivity|].
  intros H. apply andb_prop in H as [Hs Hrest]. unfold spec_student in Hs.
  destruct student as [| | | | |sf]; try discriminate. simpl in Hs.
  destruct (assoc "name" sf) as [[| | |name| |]|] eqn:Hn; try discriminate.
  destruct (assoc "stars" sf) as [[| |n| | |]|] eqn:Hstars; try discriminate.
  apply andb_prop in Hs as [Hname Hpos].
  rewrite (get_object _ _ _ Hn). simpl. unfold truthy. rewrite Hname. simpl.
  rewrite (get_object _ _ _ Hstars). simpl.
  assert (below n 0 = false) as ->
    by (unfold at_most in Hpos; now apply negb_true_iff in Hpos).
  now apply IH.
Qed.

Lemma spec_classes_accepted (classes : list (string * value)) :
  forallb (fun p => spec_class (snd p)) classes = true ->
  check_classes classes = Ret true.
Proof.
  induction classes as [|[k classData] rest IH]; simpl; [reflexivity|].
  intros H. apply andb_prop in H as [Hc Hrest]. unfold spec_class in Hc.
  destruct classData as [| | | | |cf]; try discriminate. simpl in Hc.
  destruct (assoc "students" cf) as [[| | | | |students]|] eqn:Hs;
    try discriminate.
  rewrite (get_object _ _ _ Hs). simpl.
  rewrite (spec_students_accepted _ Hc). simpl. now apply IH.
Qed.

Lemma spec_teachers_accepted (teachers : list (string * value)) :
  forallb (fun p => spec_teacher (snd p)) teachers = true ->
  check_teachers teachers = Ret true.
Proof.
  induction teachers as [|[k password] rest IH]; simpl; [reflexivity|].
  intros H. apply andb_prop in H as [Hp Hrest].
  destruct password; try discriminate. simpl. now apply IH.
Qed.

(** One direction of the specified equivalence holds: a document that is
    valid in the words of the specification is accepted, as long as it has
    no property named [hasOwnProperty] of its own (with one, the validator
    raises).  The other direction fails: a truthy name that is not a string
    is accepted. *)
Lemma spec_validate_accepted (fs : list (string * value)) :
  spec_validate (Some (VObj fs)) = true ->
  assoc "hasOwnProperty" fs = None ->
  validateDataStructure (Some (VObj fs)) = Ret true.
Proof.
  unfold spec_validate. intros H Hown.
  destruct (assoc "classes" fs) as [[| | | | |classes]|] eqn:Hc;
    try discriminate.
  destruct (assoc "teachers" fs) as [[| | | | |teachers]|] eqn:Ht;
    try discriminate.
  destruct (assoc "settings" fs) as [[| | | | |settings]|] eqn:Hs;
    try discriminate.
  apply andb_prop in H as [Hclasses Hteachers].
  unfold validateDataStructure. simpl. unfold hasOwnProperty. simpl.
  rewrite Hown, Hc, Ht, Hs. simpl.
  rewrite !(get_object _ _ _ Hc), !(get_object _ _ _ Ht),
    !(get_object _ _ _ Hs). simpl.
  rewrite (spec_classes_accepted _ Hclasses). simpl.
  now rewrite (spec_teachers_accepted _ Hteachers).
Qed.

(** * Further properties *)

(** ** The two functions *)

(** The lightweight test of the PUT branches never raises, and lets through
    exactly the objects with a truthy [classes]. *)
Lemma lightweight_invalid_false (parsed : value) :
  lightweight_invalid parsed = Ret false
  <-> exists fs classes,
        parsed = VObj fs
        /\ assoc "classes" fs = Some classes /\ truthy (Some classes) = true.
Proof.
  unfold lightweight_invalid. split.
  - destruct (truthy (Some parsed)) eqn:Ht; simpl; [|discriminate].
    destruct parsed as [| b | n | s | items | fs]; simpl; try discriminate.
    + unfold get. rewrite own_entries_named by reflexivity. simpl.
      discriminate.
    + unfold get. simpl. destruct (assoc "classes" fs) as [c|] eqn:Hc; simpl.
      * destruct (truthy (Some c)) eqn:Hc'; [eauto|discriminate].
      * discriminate.
  - intros (fs & c & -> & Hc & Ht). simpl.
    rewrite (get_object _ _ _ Hc). simpl. now rewrite Ht.
Qed.

Lemma lightweight_invalid_cases (parsed : value) :
  lightweight_invalid parsed = Ret false \/ lightweight_invalid parsed = Ret true.
Proof.
  unfold lightweight_invalid.
  destruct (truthy (Some parsed)) eqn:Ht; simpl; [|auto].
  destruct parsed as [| b | n | s | items | fs]; simpl; auto; unfold get; simpl.
  - discriminate Ht.
  - destruct (assoc "classes" (indexed items)) as [c|]; simpl; auto.
    destruct (truthy (Some c)); auto.
  - destruct (assoc "classes" fs) as [c|]; simpl; auto.
    destruct (truthy (Some c)); auto.
Qed.

(** X1.  What a PUT does, for both functions with a working backend: the
    answer is 200 exactly when the body is the JSON text of an object with a
    truthy [classes]; then the body replaces whatever was stored; in every
    other case (no body, text that is not JSON, an array, a scalar, an
    object without classes) the store is left as it was. *)
Theorem put_stores_exactly_objects_with_classes (t : tier) (clock : string)
    (content : option text) (stored : option value) :
  (statusCode (fst (function_of t true clock (put_request content) stored)) = 200
   <-> has_classes content)
  /\ (has_classes content ->
      exists parsed, content = Some (Json parsed)
        /\ snd (function_of t true clock (put_request content) stored)
           = Some parsed)
  /\ (~ has_classes content ->
      snd (function_of t true clock (put_request content) stored) = stored).
Proof.
  assert (forall parsed,
            lightweight_invalid parsed = Ret false
            <-> has_classes (Some (Json parsed))) as Hiff.
  { intros parsed. rewrite lightweight_invalid_false. unfold has_classes.
    split.
    - intros (fs & c & -> & H). eauto.
    - intros (fs & c & [= ->] & H). eauto. }
  assert (~ has_classes None /\ ~ has_classes (Some Garbled)
          /\ ~ has_classes (Some (Json (VObj [])))) as (N1 & N2 & N3).
  { unfold has_classes. repeat split; intros (fs & c & E & H & _);
      try discriminate. injection E as <-. discriminate. }
  assert (forall r : response * option value,
            statusCode (fst r) <> 200 -> snd r = stored ->
            ~ has_classes content ->
            (statusCode (fst r) = 200 <-> has_classes content)
            /\ (has_classes content ->
                exists parsed, content = Some (Json parsed)
                               /\ snd r = Some parsed)
            /\ (~ has_classes content -> snd r = stored)) as Hno
    by (intros r H1 H2 H3; tauto).
  unfold function_of, put_request, SupabaseFn.handler, StarboardFn.handler,
    body_or_empty.
  destruct content as [[|parsed]|].
  - destruct t; apply Hno; simpl; auto; discriminate.
  - pose proof (Hiff parsed) as Hp.
    destruct (lightweight_invalid_cases parsed) as [E|E].
    + assert (has_classes (Some (Json parsed))) as Hc by now apply Hp.
      destruct t; simpl; rewrite E; simpl; (split; [tauto|split; [eauto|tauto]]).
    + assert (~ has_classes (Some (Json parsed))) as Hc
        by (rewrite <- Hp; congruence).
      destruct t; apply Hno; simpl; rewrite ?E; simpl; auto; discriminate.
  - destruct t; apply Hno; simpl; auto; discriminate.
Qed.



(** X3.  The store of either function changes in two ways only: by a PUT
    whose body is an object with a truthy [classes], and, for the primary
    function, by the GET that finds no row and seeds the default document.
    Every other request (another method, a failing backend, a rejected or
    unreadable body, a GET of the legacy function, a later GET of the primary
    one) leaves the store as it was. *)
Theorem store_changes_only_by_put_or_seed (t : tier) (backend_ok : bool)
    (clock : string) (event : request) (stored : option value) :
  snd (function_of t backend_ok clock event stored) = stored
  \/ (backend_ok = true /\ httpMethod event = "PUT" /\ has_classes (body event))
  \/ (backend_ok = true /\ t = Primary /\ httpMethod event = "GET"
      /\ stored = None
      /\ snd (function_of t backend_ok clock event stored)
         = Some (default_document clock)).
Proof.
  unfold function_of, SupabaseFn.handler, StarboardFn.handler.
  destruct (httpMethod event =? "GET")%string eqn:Eg.
  - apply String.eqb_eq in Eg.
    destruct backend_ok; simpl; [|destruct t; auto].
    destruct t; simpl; auto. destruct stored; simpl; auto 10.
  - destruct (httpMethod event =? "PUT")%string eqn:Ep.
    + apply String.eqb_eq in Ep. unfold body_or_empty.
      destruct (body event) as [[|parsed]|] eqn:Eb; simpl;
        try (destruct t; simpl; auto; fail).
      destruct (lightweight_invalid_cases parsed) as [E|E].
      * destruct backend_ok; [|left; destruct t; simpl; now rewrite E].
        right. left. repeat split; auto.
        apply lightweight_invalid_false in E as (fs & c & -> & H).
        exists fs, c. auto.
      * left. destruct t; simpl; now rewrite E.
    + destruct t; simpl; auto.
      destruct (httpMethod event =? "OPTIONS")%string; auto.
Qed.

(** X4.  GET of the primary function is repeatable: when the row is absent
    or holds a truthy document, a second GET, at any later clock reading,
    gives the very answer of the first and leaves the row as the first left
    it; in particular the default document seeded into an empty table keeps
    its timestamps.  The legacy function stores nothing on GET, so on an
    empty store two GETs at different moments answer different documents. *)
Theorem primary_get_repeatable (clock clock' : string) (stored : option value) :
  (forall d, stored = Some d -> truthy (Some d) = true) ->
  SupabaseFn.handler true clock' get_request
    (snd (SupabaseFn.handler true clock get_request stored))
  = SupabaseFn.handler true clock get_request stored
  /\ (stored = None -> clock <> clock' ->
      fst (StarboardFn.handler true clock' get_request
             (snd (StarboardFn.handler true clock get_request stored)))
      <> fst (StarboardFn.handler true clock get_request stored)).
Proof.
  intros H. split.
  - destruct stored as [d|]; [|reflexivity].
    unfold SupabaseFn.handler, get_request. simpl. now rewrite (H d eq_refl).
  - intros -> Hne [= E]. now symmetry in E.
Qed.

Lemma primary_get_repeatable_witness :
  SupabaseFn.handler true "2024-05-01T10:00:05.000Z" get_request
    (snd (SupabaseFn.handler true "2024-05-01T10:00:01.000Z" get_request None))
  = SupabaseFn.handler true "2024-05-01T10:00:01.000Z" get_request None
  /\ (@None value = None ->
      "2024-05-01T10:00:01.000Z" <> "2024-05-01T10:00:05.000Z" ->
      fst (StarboardFn.handler true "2024-05-01T10:00:05.000Z" get_request
             (snd (StarboardFn.handler true "2024-05-01T10:00:01.000Z"
                     get_request None)))
      <> fst (StarboardFn.handler true "2024-05-01T10:00:01.000Z"
                get_request None)).
Proof.
  apply (primary_get_repeatable _ _ None). intros d H. discriminate H.
Defined.

(** ** Where a save goes *)

Lemma with_supabase_same (s : state) : with_supabase (supabase s) s = s.
Proof. now destruct s. Qed.

Lemma with_blobs_same (s : state) : with_blobs (blobs s) s = s.
Proof. now destruct s. Qed.

Lemma trySaveTo_exact (e : env) (t : tier) (data : loc) (v : value) (s : state) :
  heap s !! data = Some v -> json_clone v = v ->
  exists s',
    trySaveTo e t data s = (Ret (accepts e t v), s')
    /\ heap s' = heap s /\ memoryCache s' = memoryCache s
    /\ currentClass s' = currentClass s /\ idb s' = idb s
    /\ localStorage s' = localStorage s
    /\ requests s' = (requests s ++ [Fetch t PUT])%list
    /\ supabase s'
       = (if accepts e t v
          then match t with Primary => Some v | Legacy => supabase s end
          else supabase s)
    /\ blobs s'
       = (if accepts e t v
          then match t with Primary => blobs s | Legacy => Some v end
          else blobs s).
Proof.
  intros Hv Hj. unfold trySaveTo, fetch, accepts, link_of, stringify. run.
  rewrite Hv. simpl. rewrite Hj. destruct t; simpl.
  - destruct (primary e) as [|[|]]; simpl.
    + eexists. split; [reflexivity|]. simpl. auto 10.
    + unfold SupabaseFn.handler, body_or_empty. simpl.
      destruct (lightweight_invalid_cases v) as [E|E]; rewrite E; simpl;
        (eexists; split; [reflexivity|]; simpl; auto 10).
    + destruct (failing_backend Primary (server_now e) PUT (Some (Json v))
                  (supabase s)) as (r & Hr & Hok).
      simpl in Hr. rewrite Hr. simpl. rewrite Hok.
      eexists. split; [reflexivity|]. simpl. auto 10.
  - destruct (legacy e) as [|[|]]; simpl.
    + eexists. split; [reflexivity|]. simpl. auto 10.
    + unfold StarboardFn.handler, body_or_empty. simpl.
      destruct (lightweight_invalid_cases v) as [E|E]; rewrite E; simpl;
        (eexists; split; [reflexivity|]; simpl; auto 10).
    + destruct (failing_backend Legacy (server_now e) PUT (Some (Json v))
                  (blobs s)) as (r & Hr & Hok).
      simpl in Hr. rewrite Hr. simpl. rewrite Hok.
      eexists. split; [reflexivity|]. simpl. auto 10.
Qed.

Lemma local_writes_exact (e : env) (saved : bool) (copy : loc) (v : value)
    (s : state) :
  heap s !! copy = Some v -> json_clone v = v ->
  exists b s',
    try_catch (local_writes e saved copy) (mret false) s = (Ret b, s')
    /\ b = (saved || idb_writable e) && ls_set_ok e
    /\ heap s' = heap s /\ memoryCache s' = memoryCache s
    /\ currentClass s' = currentClass s
    /\ supabase s' = supabase s /\ blobs s' = blobs s
    /\ requests s' = requests s
    /\ idb s' = (if negb saved && idb_writable e then Some v else idb s)
    /\ localStorage s' = (if b then Some (Json v) else localStorage s).
Proof.
  intros Hv Hj. unfold local_writes, dbSave, setItem, idb_writable, stringify.
  run.
  destruct saved, (idb_open_ok e && idb_put_ok e), (ls_set_ok e); simpl;
    rewrite ?Hv; simpl; rewrite ?Hj;
    do 2 eexists; (split; [reflexivity|]); simpl; auto 10.
Qed.

Lemma persist_routed (e : env) (copy : loc) (v : value) (s : state) :
  heap s !! copy = Some v -> json_clone v = v ->
  exists b s',
    try_catch (persist e copy) (mret false) s = (Ret b, s')
    /\ routed e v s s' b.
Proof.
  intros Hv Hj. unfold persist, trySaveToSupabase, trySaveToNetlify.
  destruct (trySaveTo_exact e Primary copy v s Hv Hj)
    as (s1 & E1 & H1 & M1 & C1 & I1 & L1 & R1 & S1 & B1).
  assert (forall k : bool -> M bool,
    try_catch (try_catch (trySaveTo e Primary copy) (mret false) ≫= k)
      (mret false) s
    = try_catch (k (accepts e Primary v)) (mret false) s1) as ->.
  { intros k. unfold try_catch at 1 3.
    erewrite bind_ret by (apply try_catch_ret; exact E1). reflexivity. }
  assert (heap s1 !! copy = Some v) as Hv1 by now rewrite H1.
  destruct (accepts e Primary v) eqn:A1; simpl.
  - assert (forall k : bool -> M bool,
      try_catch (mret true ≫= k) (mret false) s1
      = try_catch (k true) (mret false) s1) as -> by reflexivity.
    destruct (local_writes_exact e true copy v s1 Hv1 Hj)
      as (b & s' & E & Hb & H2 & M2 & C2 & S2 & B2 & R2 & I2 & L2).
    exists b, s'. split; [exact E|]. unfold routed. rewrite A1. simpl in *.
    rewrite H2, M2, C2, S2, B2, R2, I2, L2, H1, M1, C1, I1, L1, R1, S1, B1.
    repeat split; congruence.
  - destruct (trySaveTo_exact e Legacy copy v s1 Hv1 Hj)
      as (s2 & E2 & H2 & M2 & C2 & I2 & L2 & R2 & S2 & B2).
    assert (forall k : bool -> M bool,
      try_catch (try_catch (trySaveTo e Legacy copy) (mret false) ≫= k)
        (mret false) s1 = try_catch (k (accepts e Legacy v)) (mret false) s2)
      as ->.
    { intros k. unfold try_catch at 1 3.
      erewrite bind_ret by (apply try_catch_ret; exact E2). reflexivity. }
    assert (heap s2 !! copy = Some v) as Hv2 by now rewrite H2.
    destruct (local_writes_exact e (accepts e Legacy v) copy v s2 Hv2 Hj)
      as (b & s' & E & Hb & H3 & M3 & C3 & S3 & B3 & R3 & I3 & L3).
    exists b, s'. split; [exact E|]. unfold routed. rewrite A1. simpl in *.
    rewrite H3, M3, C3, S3, B3, R3, I3, L3, H2, M2, C2, I2, L2, R2, S2, B2,
      H1, M1, C1, I1, L1, R1, S1, B1, <- app_assoc.
    destruct (accepts e Legacy v); simpl in *; repeat split; congruence.
Qed.

(** What the validator's loop over the required properties establishes. *)
Lemma valid_required (fs : list (string * value)) :
  validateDataStructure (Some (VObj fs)) = Ret true ->
  assoc "hasOwnProperty" fs = None
  /\ exists classes teachers settings,
       assoc "classes" fs = Some classes /\ typeof (Some classes) = TObject
       /\ assoc "teachers" fs = Some teachers /\ typeof (Some teachers) = TObject
       /\ assoc "settings" fs = Some settings /\ typeof (Some settings) = TObject.
Proof.
  unfold validateDataStructure. simpl. unfold hasOwnProperty, get. simpl.
  destruct (assoc "hasOwnProperty" fs); simpl; [discriminate|].
  destruct (assoc "classes" fs) as [[]|]; simpl; try discriminate;
    destruct (assoc "teachers" fs) as [[]|]; simpl; try discriminate;
    destruct (assoc "settings" fs) as [[]|]; simpl; try discriminate;
    intros _; (split; [reflexivity|]); do 3 eexists; repeat split; reflexivity.
Qed.

(** The copy of a valid document is taken by a function exactly when the
    function is reachable and works and the document's [classes] is not
    [null]. *)
Lemma accepts_valid (e : env) (t : tier) (fs : list (string * value))
    (x : value) :
  validateDataStructure (Some (VObj fs)) = Ret true ->
  (accepts e t (json_clone (VObj (assoc_set "metadata" x fs))) = true
   <-> link_of e t = Served true /\ assoc "classes" fs <> Some VNull).
Proof.
  intros Hv. destruct (valid_required fs Hv) as (_ & c & _ & _ & Hc & Tc & _).
  unfold accepts.
  assert (lightweight_invalid
            (json_clone (VObj (assoc_set "metadata" x fs))) = Ret false
          <-> assoc "classes" fs <> Some VNull) as Hl.
  { rewrite lightweight_invalid_false. simpl json_clone. split.
    - intros (fs' & c' & [= <-] & Hc' & Ht).
      rewrite assoc_map_clone, assoc_set_other, Hc in Hc' by discriminate.
      injection Hc' as <-. rewrite Hc. intros [= ->]. discriminate Ht.
    - intros Hn. eexists _, (json_clone c). split; [reflexivity|].
      rewrite assoc_map_clone, assoc_set_other, Hc by discriminate.
      split; [reflexivity|].
      rewrite Hc in Hn. destruct c; try discriminate Tc; trivial. congruence. }
  destruct (link_of e t) as [|[|]].
  - split; [discriminate|intros [H _]; discriminate H].
  - destruct (lightweight_invalid_cases
                (json_clone (VObj (assoc_set "metadata" x fs))))
      as [E|E]; rewrite E.
    + split; [|reflexivity]. intros _. split; [reflexivity|]. now apply Hl.
    + split; [discriminate|]. intros [_ H]. apply Hl in H. congruence.
  - split; [discriminate|intros [H _]; discriminate H].
Qed.

Lemma saveData_routed (e : env) (s : state) (data : loc)
    (fs : list (string * value)) (n : number) :
  heap s !! data = Some (VObj fs) ->
  validateDataStructure (Some (VObj fs)) = Ret true ->
  backupCount_of (VObj fs) = Some n ->
  exists b s',
    saveData e data s = (Ret b, s')
    /\ routed e (saved_copy e n (VObj fs))
         (stamped_page s data (stamped_with e (add_int n 1) (VObj fs))) s' b.
Proof.
  intros Hd Hv Hn. apply next_backupCount_typed in Hn.
  rewrite (saveData_stamps e data s fs _ Hd Hv Hn). unfold saved_copy.
  apply persist_routed; [|apply json_clone_idempotent].
  now destruct (stamped_page_alias s data
                  (stamped_with e (add_int n 1) (VObj fs)) _ Hd)
    as (_ & H & _).
Qed.

(** C4, as stated, fails: off line and with IndexedDB unavailable, the save
    of a valid document resolves to false. *)
Lemma saveData_valid_yet_false :
  validateDataStructure (heap (page_with math_class) !! 0%nat) = Ret true
  /\ fst (saveData offline_no_idb 0%nat (page_with math_class)) = Ret false.
Proof. split; reflexivity. Qed.

(** C4, amended.  For every document that passes the Schema Validator (its
    save counter absent or a number), [saveData] resolves to true whatever
    the two remote tiers do, provided the local writes it performs succeed:
    the write to IndexedDB, which it performs only when neither remote tier
    took the copy, and the write to the cache.  When it resolves to false,
    one of these two writes failed: no remote tier had taken the copy and
    IndexedDB could not be written, or the cache could not be written. *)
Theorem saveData_true_unless_local_failure (e : env) (s : state) (data : loc)
    (doc : value) (n : number) :
  heap s !! data = Some doc ->
  validateDataStructure (Some doc) = Ret true ->
  backupCount_of doc = Some n ->
  exists b s' taken,
    saveData e data s = (Ret b, s')
    /\ taken = accepts e Primary (saved_copy e n doc)
               || accepts e Legacy (saved_copy e n doc)
    /\ idb s' = (if negb taken && idb_writable e
                 then Some (saved_copy e n doc) else idb s)
    /\ ((taken = true \/ idb_writable e = true) -> ls_set_ok e = true ->
        b = true)
    /\ (b = false ->
        (taken = false /\ idb_writable e = false) \/ ls_set_ok e = false).
Proof.
  intros Hd Hv Hn.
  destruct (validateDataStructure_object _ Hv) as (fs & [= ->]).
  destruct (saveData_routed e s data fs n Hd Hv Hn)
    as (b & s' & E & Hb & _ & _ & _ & _ & _ & Hi & _).
  exists b, s', (accepts e Primary (saved_copy e n (VObj fs))
                 || accepts e Legacy (saved_copy e n (VObj fs))).
  split; [exact E|]. split; [reflexivity|]. split; [exact Hi|].
  rewrite Hb.
  destruct (accepts e Primary _ || accepts e Legacy _), (idb_writable e),
    (ls_set_ok e); simpl; intuition discriminate.
Qed.

Lemma saveData_true_unless_local_failure_witness :
  exists b s' taken,
    saveData online_no_idb 0%nat (page_with math_class) = (Ret b, s')
    /\ taken = accepts online_no_idb Primary
                 (saved_copy online_no_idb 0 math_class)
               || accepts online_no_idb Legacy
                    (saved_copy online_no_idb 0 math_class)
    /\ idb s' = (if negb taken && idb_writable online_no_idb
                 then Some (saved_copy online_no_idb 0 math_class)
                 else idb (page_with math_class))
    /\ ((taken = true \/ idb_writable online_no_idb = true) ->
        ls_set_ok online_no_idb = true -> b = true)
    /\ (b = false ->
        (taken = false /\ idb_writable online_no_idb = false)
        \/ ls_set_ok online_no_idb = false).
Proof.
  apply (saveData_true_unless_local_failure online_no_idb
           (page_with math_class) 0%nat math_class 0); reflexivity.
Defined.

(** X5.  The write protocol of [saveData] for a valid document (save
    counter absent or a number).  The stamped copy is put to the primary
    function first; the legacy function is contacted only if the primary one
    did not take it; IndexedDB is written only if neither took it.  A
    function takes the copy exactly when it is reachable, its backend works
    and the document's [classes] is not [null] (which the page's validator
    allows and the functions refuse). *)
Theorem saveData_write_protocol (e : env) (s : state) (data : loc)
    (doc : value) (n : number) :
  heap s !! data = Some doc ->
  validateDataStructure (Some doc) = Ret true ->
  backupCount_of doc = Some n ->
  exists b s',
    saveData e data s = (Ret b, s')
    /\ supabase s'
       = (if accepts e Primary (saved_copy e n doc)
          then Some (saved_copy e n doc) else supabase s)
    /\ blobs s'
       = (if negb (accepts e Primary (saved_copy e n doc))
             && accepts e Legacy (saved_copy e n doc)
          then Some (saved_copy e n doc) else blobs s)
    /\ idb s'
       = (if negb (accepts e Primary (saved_copy e n doc)
                   || accepts e Legacy (saved_copy e n doc))
             && idb_writable e
          then Some (saved_copy e n doc) else idb s)
    /\ requests s'
       = (requests s
          ++ Fetch Primary PUT
             :: (if accepts e Primary (saved_copy e n doc) then []
                 else [Fetch Legacy PUT]))%list
    /\ (forall t,
          accepts e t (saved_copy e n doc) = true
          <-> link_of e t = Served true /\ field doc "classes" <> Some VNull).
Proof.
  intros Hd Hv Hn.
  destruct (validateDataStructure_object _ Hv) as (fs & [= ->]).
  destruct (saveData_routed e s data fs n Hd Hv Hn)
    as (b & s' & E & _ & _ & _ & _ & Hs & Hb & Hi & _ & Hr).
  exists b, s'. split; [exact E|]. split; [exact Hs|]. split; [exact Hb|].
  split; [exact Hi|]. split; [exact Hr|].
  intros t. exact (accepts_valid e t fs (stamp e (VNum (add_int n 1))) Hv).
Qed.

Lemma saveData_write_protocol_witness :
  exists b s',
    saveData offline 0%nat (page_with math_class) = (Ret b, s')
    /\ supabase s'
       = (if accepts offline Primary (saved_copy offline 0 math_class)
          then Some (saved_copy offline 0 math_class)
          else supabase (page_with math_class))
    /\ blobs s'
       = (if negb (accepts offline Primary (saved_copy offline 0 math_class))
             && accepts offline Legacy (saved_copy offline 0 math_class)
          then Some (saved_copy offline 0 math_class)
          else blobs (page_with math_class))
    /\ idb s'
       = (if negb (accepts offline Primary (saved_copy offline 0 math_class)
                   || accepts offline Legacy
                        (saved_copy offline 0 math_class))
             && idb_writable offline
          then Some (saved_copy offline 0 math_class)
          else idb (page_with math_class))
    /\ requests s'
       = (requests (page_with math_class)
          ++ Fetch Primary PUT
             :: (if accepts offline Primary (saved_copy offline 0 math_class)
                 then []
                 else [Fetch Legacy PUT]))%list
    /\ (forall t,
          accepts offline t (saved_copy offline 0 math_class) = true
          <-> link_of offline t = Served true
              /\ field math_class "classes" <> Some VNull).
Proof.
  apply (saveData_write_protocol offline (page_with math_class) 0%nat
           math_class 0); reflexivity.
Defined.

(** X6.  The verdict and the cache.  For a valid document, [saveData]
    resolves to true exactly when some tier took the copy (a remote function
    or IndexedDB) and the cache could be written, and the cache is refreshed
    with the stamped copy in exactly that case: when both functions refuse
    and IndexedDB rejects the write, the cache keeps its old entry. *)
Theorem saveData_verdict_and_cache (e : env) (s : state) (data : loc)
    (doc : value) (n : number) :
  heap s !! data = Some doc ->
  validateDataStructure (Some doc) = Ret true ->
  backupCount_of doc = Some n ->
  exists b s',
    saveData e data s = (Ret b, s')
    /\ b = (accepts e Primary (saved_copy e n doc)
            || accepts e Legacy (saved_copy e n doc)
            || idb_writable e) && ls_set_ok e
    /\ (b = true -> localStorage s' = Some (Json (saved_copy e n doc)))
    /\ (b = false -> localStorage s' = localStorage s).
Proof.
  intros Hd Hv Hn.
  destruct (validateDataStructure_object _ Hv) as (fs & [= ->]).
  destruct (saveData_routed e s data fs n Hd Hv Hn)
    as (b & s' & E & Hb & _ & _ & _ & _ & _ & _ & Hl & _).
  exists b, s'. split; [exact E|]. split; [exact Hb|].
  split; intros ->; exact Hl.
Qed.

Lemma saveData_verdict_and_cache_witness :
  exists b s',
    saveData offline_no_idb 0%nat (page_with math_class) = (Ret b, s')
    /\ b = (accepts offline_no_idb Primary
              (saved_copy offline_no_idb 0 math_class)
            || accepts offline_no_idb Legacy
                 (saved_copy offline_no_idb 0 math_class)
            || idb_writable offline_no_idb) && ls_set_ok offline_no_idb
    /\ (b = true ->
        localStorage s'
        = Some (Json (saved_copy offline_no_idb 0 math_class)))
    /\ (b = false -> localStorage s' = localStorage (page_with math_class)).
Proof.
  apply (saveData_verdict_and_cache offline_no_idb (page_with math_class)
           0%nat math_class 0); reflexivity.
Defined.

(** ** Reading back *)

Lemma stamped_with_valid (e : env) (count : number) (doc : value) :
  validateDataStructure (Some doc) = Ret true ->
  validateDataStructure (Some (stamped_with e count doc)) = Ret true.
Proof.
  intros Hv. destruct (validateDataStructure_object _ Hv) as (fs & [= ->]).
  simpl. now rewrite validateDataStructure_set_metadata.
Qed.

(** The copy of a valid document that holds finite numbers only: it is the
    stamped document when the new counter is finite as well, and it passes
    the validator. *)
Lemma saved_copy_valid (e : env) (n : number) (doc : value) :
  validateDataStructure (Some doc) = Ret true ->
  json_clone doc = doc ->
  validateDataStructure (Some (saved_copy e n doc)) = Ret true.
Proof.
  intros Hv Hj. destruct (validateDataStructure_object _ Hv) as (fs & [= ->]).
  unfold saved_copy, stamped_with. now rewrite finite_copy_valid.
Qed.

Lemma saved_copy_finite (e : env) (z : Z) (fs : list (string * value)) :
  json_clone (VObj fs) = VObj fs ->
  - 2 ^ 53 <= z < 2 ^ 53 ->
  saved_copy e z (VObj fs)
  = VObj (assoc_set "metadata" (stamp e (VNum (z + 1))) fs).
Proof.
  intros Hj Hz. unfold saved_copy, stamped_with. simpl in Hj |- *.
  injection Hj as Hj.
  rewrite json_clone_assoc_set, Hj. simpl.
  now rewrite of_integer_safe by lia.
Qed.

(** X7.  Round trip through the cache.  After a [saveData] of a valid
    document (save counter absent or a number) that resolved to true, a page
    that starts afresh (nothing in memory) and calls [getData] before any
    start-up reads the cache alone: no request is sent, whatever the state
    of the network and of IndexedDB then.  It gets the copy that was saved
    when that copy passes the validator, as it does when the document held
    finite numbers only; a copy that fails the validator (an infinite star
    count is [null] in it) is dropped, and [getData] returns the default
    document. *)
Theorem reload_reads_back_the_save (e e' : env) (s : state) (data : loc)
    (doc : value) (n : number) :
  heap s !! data = Some doc ->
  validateDataStructure (Some doc) = Ret true ->
  backupCount_of doc = Some n ->
  fst (saveData e data s) = Ret true ->
  exists l s' back,
    getData e' (fresh_page (snd (saveData e data s))) = (Ret l, s')
    /\ heap s' !! l = Some back
    /\ memoryCache s' = Some l
    /\ requests s' = requests (snd (saveData e data s))
    /\ back = (match validateDataStructure (Some (saved_copy e n doc)) with
               | Ret true => saved_copy e n doc
               | _ => default_document (now e')
               end)
    /\ (json_clone doc = doc -> back = saved_copy e n doc).
Proof.
  intros Hd Hv Hn Hb.
  destruct (validateDataStructure_object _ Hv) as (fs & [= ->]).
  destruct (saveData_routed e s data fs n Hd Hv Hn)
    as (b & s1 & E & _ & _ & _ & _ & _ & _ & _ & Hl & _).
  rewrite E in *. simpl in Hb. injection Hb as ->. simpl snd.
  assert (json_clone (VObj fs) = VObj fs ->
          match validateDataStructure (Some (saved_copy e n (VObj fs))) with
          | Ret true => saved_copy e n (VObj fs)
          | _ => default_document (now e')
          end = saved_copy e n (VObj fs)) as Hfinite
    by (intros Hj; now rewrite (saved_copy_valid e n _ Hv Hj)).
  unfold getData, getDataFromLocalStorage, dbSave, createDefaultData. run.
  rewrite Hl. simpl.
  destruct (validateDataStructure_cases (Some (saved_copy e n (VObj fs))))
    as [V|[V|V]]; rewrite V in *; simpl;
    destruct (idb_open_ok e' && idb_put_ok e'); simpl;
    do 3 eexists; (split; [reflexivity|]); (split; [reflexivity|]);
    simpl; auto 10.
Qed.

Lemma reload_reads_back_the_save_witness :
  exists l s' back,
    getData offline_no_idb
      (fresh_page (snd (saveData all_well 0%nat (page_with math_class))))
    = (Ret l, s')
    /\ heap s' !! l = Some back
    /\ memoryCache s' = Some l
    /\ requests s'
       = requests (snd (saveData all_well 0%nat (page_with math_class)))
    /\ back = (match validateDataStructure
                       (Some (saved_copy all_well 0 math_class)) with
               | Ret true => saved_copy all_well 0 math_class
               | _ => default_document (now offline_no_idb)
               end)
    /\ (json_clone math_class = math_class ->
        back = saved_copy all_well 0 math_class).
Proof.
  apply (reload_reads_back_the_save all_well offline_no_idb
           (page_with math_class) 0%nat math_class 0); reflexivity.
Defined.

(** X8.  What [getData] never does: it sends no request, writes neither the
    cache nor a remote store, and leaves every object of the page as it is;
    and when the memory cache already holds a truthy value, it changes
    nothing at all, IndexedDB included. *)
Theorem getData_is_local (e : env) (s : state) :
  requests (snd (getData e s)) = requests s
  /\ localStorage (snd (getData e s)) = localStorage s
  /\ supabase (snd (getData e s)) = supabase s
  /\ blobs (snd (getData e s)) = blobs s
  /\ (forall l v, heap s !! l = Some v ->
                  heap (snd (getData e s)) !! l = Some v)
  /\ (truthy (authoritative s) = true -> snd (getData e s) = s).
Proof.
  assert (forall s0 : state,
    let r := (getDataFromLocalStorage e ≫= fun cached =>
                modify (with_memoryCache (Some cached));;
                try_catch (dbSave e cached;; mret tt) (mret tt);;
                mret cached) s0 in
    requests (snd r) = requests s0 /\ localStorage (snd r) = localStorage s0
    /\ supabase (snd r) = supabase s0 /\ blobs (snd r) = blobs s0
    /\ (forall l v, heap s0 !! l = Some v -> heap (snd r) !! l = Some v))
    as Hfall.
  { intros s0. destruct (getDataFromLocalStorage_runs e s0) as (v & E & _).
    cbv zeta. erewrite bind_ret by exact E.
    unfold dbSave. destruct (idb_open_ok e && idb_put_ok e); run;
      repeat split; trivial; intros l x Hx; now apply lookup_app_l_Some. }
  unfold authoritative.
  destruct (memoryCache s) as [l|] eqn:Hm.
  - destruct (truthy (heap s !! l)) eqn:Ht.
    + rewrite (getData_cached e s l Hm Ht). simpl. auto 10.
    + assert (getData e s
              = (getDataFromLocalStorage e ≫= fun cached =>
                   modify (with_memoryCache (Some cached));;
                   try_catch (dbSave e cached;; mret tt) (mret tt);;
                   mret cached) s) as ->
        by (unfold getData; run; rewrite Hm; simpl; now rewrite Ht).
      destruct (Hfall s) as (H1 & H2 & H3 & H4 & H5).
      repeat split; trivial. discriminate.
  - assert (getData e s
            = (getDataFromLocalStorage e ≫= fun cached =>
                 modify (with_memoryCache (Some cached));;
                 try_catch (dbSave e cached;; mret tt) (mret tt);;
                 mret cached) s) as ->
      by (unfold getData; run; now rewrite Hm).
    destruct (Hfall s) as (H1 & H2 & H3 & H4 & H5).
    repeat split; trivial. discriminate.
Qed.

(** X9.  The save counter counts the saves.  Take a valid document that
    holds finite numbers only and whose save counter is absent or an
    integer [z] from [-2^53] to [2^53 - 2].  Saving it, taking what
    [getData] returns and saving that again leaves an authoritative
    document whose [backupCount] is [z + 2], with the fields other than
    [metadata] still those of the original.  (From [2^53] on the counter
    does not move any more, and a document with an infinite star count is
    refused the second time.) *)
Theorem two_saves_count_two (e e' : env) (s : state) (data : loc)
    (doc : value) (z : Z) :
  heap s !! data = Some doc ->
  validateDataStructure (Some doc) = Ret true ->
  backupCount_of doc = Some (Finite z) ->
  json_clone doc = doc ->
  - 2 ^ 53 <= z <= 2 ^ 53 - 2 ->
  exists l1 s1 l2 s2 doc2,
    save_then_get e data s = (Ret l1, s1)
    /\ save_then_get e' l1 s1 = (Ret l2, s2)
    /\ heap s2 !! l2 = Some doc2
    /\ metadata_field doc2 "backupCount" = Some (VNum (z + 2))
    /\ (forall k, k <> "metadata" -> field doc2 k = field doc k).
Proof.
  intros Hd Hv Hn Hj Hz.
  destruct (validateDataStructure_object _ Hv) as (fs & [= ->]).
  destruct (saveData_valid e data s fs z Hd Hv Hn)
    as (b1 & s1 & E1 & _ & Hc1 & Hm1 & _).
  rewrite (saved_copy_finite e z fs Hj) in Hc1 by lia.
  set (fs1 := assoc_set "metadata" (stamp e (VNum (z + 1))) fs) in *.
  assert (validateDataStructure (Some (VObj fs1)) = Ret true) as Hv1
    by (unfold fs1; now rewrite validateDataStructure_set_metadata).
  assert (backupCount_of (VObj fs1) = Some (Finite (z + 1))) as Hn1
    by (unfold fs1; simpl; now rewrite assoc_set_same).
  assert (json_clone (VObj fs1) = VObj fs1) as Hj1.
  { unfold fs1. simpl in Hj |- *. injection Hj as Hj.
    now rewrite json_clone_assoc_set, Hj. }
  destruct (saveData_valid e' (length (heap s)) s1 fs1 (z + 1) Hc1 Hv1 Hn1)
    as (b2 & s2 & E2 & _ & Hc2 & Hm2 & _).
  rewrite (saved_copy_finite e' (z + 1) fs1 Hj1) in Hc2 by lia.
  exists (length (heap s)), s1, (length (heap s1)), s2. eexists.
  split; [|split; [|split; [exact Hc2|]]].
  - unfold save_then_get. erewrite bind_ret by exact E1.
    apply getData_cached; [exact Hm1|]. now rewrite Hc1.
  - unfold save_then_get. erewrite bind_ret by exact E2.
    apply getData_cached; [exact Hm2|]. now rewrite Hc2.
  - simpl. rewrite assoc_set_same. simpl. split.
    + do 3 f_equal. lia.
    + intros k Hk. unfold fs1. now rewrite !assoc_set_other.
Qed.

Lemma two_saves_count_two_witness :
  exists l1 s1 l2 s2 doc2,
    save_then_get all_well 0%nat (page_with first_document) = (Ret l1, s1)
    /\ save_then_get offline l1 s1 = (Ret l2, s2)
    /\ heap s2 !! l2 = Some doc2
    /\ metadata_field doc2 "backupCount" = Some (VNum (0 + 2))
    /\ (forall k, k <> "metadata" -> field doc2 k = field first_document k).
Proof.
  apply (two_saves_count_two all_well offline (page_with first_document) 0%nat
           first_document 0); try reflexivity. split; discriminate.
Defined.

(** ** The load protocol, exactly *)

Lemma tryLoadFrom_exact (e : env) (t : tier) (s : state) :
  exists s',
    tryLoadFrom e t s
    = (Ret (match delivered e t s with
            | Some _ => Some (length (heap s))
            | None => None
            end), s')
    /\ heap s' = match delivered e t s with
                 | Some d => (heap s ++ [d])%list
                 | None => heap s
                 end
    /\ memoryCache s' = memoryCache s /\ currentClass s' = currentClass s
    /\ idb s' = idb s /\ localStorage s' = localStorage s
    /\ requests s' = (requests s ++ [Fetch t GET])%list
    /\ supabase s' = match t with Primary => seeded e s | Legacy => supabase s end
    /\ blobs s' = blobs s.
Proof.
  unfold tryLoadFrom, fetch, delivered, get_payload, seeded, link_of, stored_at.
  run. destruct t; simpl.
  - destruct (primary e) as [|[|]]; simpl;
      try (eexists; split; [reflexivity|]; simpl; auto 10; fail).
    unfold SupabaseFn.handler. simpl.
    destruct (supabase s) as [d|]; simpl.
    + destruct (validateDataStructure_cases
                  (Some (json_clone
                           (if truthy (Some d) then d
                            else default_document (server_now e)))))
        as [V|[V|V]]; rewrite V; simpl;
        (eexists; split; [reflexivity|]; simpl; auto 10).
    + eexists; split; [reflexivity|]; simpl; auto 10.
  - destruct (legacy e) as [|[|]]; simpl;
      try (eexists; split; [reflexivity|]; simpl; auto 10; fail).
    unfold StarboardFn.handler. simpl.
    destruct (blobs s) as [d|]; simpl.
    + destruct (truthy (Some d)); simpl.
      * destruct (validateDataStructure_cases (Some (json_clone d)))
          as [V|[V|V]];
          rewrite V; simpl; (eexists; split; [reflexivity|]; simpl; auto 10).
      * eexists; split; [reflexivity|]; simpl; auto 10.
    + eexists; split; [reflexivity|]; simpl; auto 10.
Qed.

Lemma delivered_valid (e : env) (t : tier) (s : state) (d : value) :
  delivered e t s = Some d -> validateDataStructure (Some d) = Ret true.
Proof.
  unfold delivered. destruct (link_of e t) as [|[|]]; try discriminate.
  destruct (validateDataStructure (Some (get_payload e t s))) as [[|]| |] eqn:V;
    try discriminate.
  now intros [= <-].
Qed.

Lemma delivered_finite (e : env) (t : tier) (s : state) (d : value) :
  delivered e t s = Some d -> json_clone d = d.
Proof.
  unfold delivered. destruct (link_of e t) as [|[|]]; try discriminate.
  destruct (validateDataStructure (Some (get_payload e t s))) as [[|]| |];
    try discriminate.
  intros [= <-]. apply json_clone_idempotent.
Qed.

Lemma local_choice_truthy (e : env) (s : state) :
  truthy (Some (local_choice e s)) = true.
Proof.
  unfold local_choice. destruct (idb s) as [record|]; [|reflexivity].
  destruct (truthy (Some record)) eqn:Ht; [exact Ht|reflexivity].
Qed.

(** Start-up when the local stores work: what is adopted, and what every
    store holds afterwards. *)
Lemma startup_exact (e : env) (s : state) :
  local_stores_work e ->
  exists s',
    initializeDataStorage e s = (Ret tt, s')
    /\ authoritative s' = Some (startup_choice e s)
    /\ idb s' = Some (startup_choice e s)
    /\ supabase s' = seeded e s
    /\ blobs s' = blobs s
    /\ localStorage s'
       = match delivered e Primary s, delivered e Legacy s with
         | None, None => localStorage s
         | _, _ => Some (Json (startup_choice e s))
         end
    /\ requests s'
       = (requests s
          ++ Fetch Primary GET
             :: match delivered e Primary s with
                | Some _ => []
                | None => [Fetch Legacy GET]
                end)%list.
Proof.
  intros (H1 & H2 & H3 & H4).
  destruct (tryLoadFrom_exact e Primary s)
    as (s1 & E1 & Hh1 & Hm1 & Hc1 & Hi1 & Hl1 & Hr1 & Hs1 & Hb1).
  unfold initializeDataStorage, tryLoadFromSupabase, tryLoadFromNetlify,
    startup_choice.
  destruct (delivered e Primary s) as [p|] eqn:Dp.
  - assert (heap s1 !! length (heap s) = Some p) as Hp
      by (rewrite Hh1, lookup_app_r, Nat.sub_diag by lia; reflexivity).
    pose proof (delivered_finite _ _ _ _ Dp) as Hjp.
    erewrite bind_ret
      by (apply (adopt_from_some e (tryLoadFrom e Primary) s s1
                   (length (heap s)) p); assumption).
    eexists. split; [reflexivity|]. unfold authoritative. simpl.
    rewrite Hp, Hs1, Hb1, Hr1. auto 10.
  - erewrite bind_ret by (apply adopt_from_none; exact E1). cbv iota beta.
    destruct (tryLoadFrom_exact e Legacy s1)
      as (s2 & E2 & Hh2 & Hm2 & Hc2 & Hi2 & Hl2 & Hr2 & Hs2 & Hb2).
    assert (delivered e Legacy s1 = delivered e Legacy s) as Dl1.
    { unfold delivered, get_payload, stored_at. now rewrite Hb1. }
    rewrite Dl1 in *.
    destruct (delivered e Legacy s) as [q|] eqn:Dl.
    + assert (heap s2 !! length (heap s1) = Some q) as Hq
        by (rewrite Hh2, lookup_app_r, Nat.sub_diag by lia; reflexivity).
      pose proof (delivered_finite _ _ _ _ Dl) as Hjq.
      erewrite bind_ret
        by (apply (adopt_from_some e (tryLoadFrom e Legacy) s1 s2
                     (length (heap s1)) q); assumption).
      eexists. split; [reflexivity|]. unfold authoritative. simpl.
      rewrite Hq, Hs2, Hb2, Hr2, Hs1, Hb1, Hr1, <- app_assoc. auto 10.
    + erewrite bind_ret by (apply adopt_from_none; exact E2). cbv iota beta.
      unfold dbInit, dbLoad, createDefaultData, dbSave, local_choice. run.
      rewrite H1, H2, H3. simpl. rewrite Hi2, Hi1.
      destruct (idb s) as [record|] eqn:Hrec; simpl.
      * destruct (truthy (Some record)) eqn:Ht; simpl.
        -- eexists. split; [reflexivity|]. unfold authoritative. simpl.
           rewrite lookup_app_r, Nat.sub_diag by lia. simpl.
           rewrite Hi2, Hi1, Hs2, Hs1, Hb2, Hb1, Hl2, Hl1, Hr2, Hr1,
             <- app_assoc. auto 10.
        -- rewrite lookup_app_r, Nat.sub_diag by lia. simpl.
           eexists. split; [reflexivity|]. unfold authoritative. simpl.
           rewrite lookup_app_r, Nat.sub_diag by lia. simpl.
           rewrite Hs2, Hs1, Hb2, Hb1, Hl2, Hl1, Hr2, Hr1, <- app_assoc.
           auto 10.
      * rewrite lookup_app_r, Nat.sub_diag by lia. simpl.
        eexists. split; [reflexivity|]. unfold authoritative. simpl.
        rewrite lookup_app_r, Nat.sub_diag by lia. simpl.
        rewrite Hs2, Hs1, Hb2, Hb1, Hl2, Hl1, Hr2, Hr1, <- app_assoc.
        auto 10.
Qed.

(** X10.  The load protocol in full, when the local stores work.  Start-up
    adopts the first document it finds in this order: the primary tier's
    answer if it passes the validator, else the legacy tier's answer if it
    passes the validator, else the IndexedDB record if it is truthy (it is
    not validated), else the default document.  IndexedDB ends up holding
    the adopted document in every case; the cache is refreshed only when the
    document came from a remote tier; and the legacy tier is asked only when
    the primary tier delivered nothing. *)
Theorem startup_precedence (e : env) (s : state) :
  local_stores_work e ->
  exists s',
    initializeDataStorage e s = (Ret tt, s')
    /\ authoritative s' = Some (startup_choice e s)
    /\ idb s' = Some (startup_choice e s)
    /\ localStorage s'
       = match delivered e Primary s, delivered e Legacy s with
         | None, None => localStorage s
         | _, _ => Some (Json (startup_choice e s))
         end
    /\ requests s'
       = (requests s
          ++ Fetch Primary GET
             :: match delivered e Primary s with
                | Some _ => []
                | None => [Fetch Legacy GET]
                end)%list.
Proof.
  intros H. destruct (startup_exact e s H) as (s' & E & Ha & Hi & _ & _ & Hl & Hr).
  exists s'. auto.
Qed.

Lemma startup_precedence_witness :
  exists s',
    initializeDataStorage all_well two_remotes = (Ret tt, s')
    /\ authoritative s' = Some (startup_choice all_well two_remotes)
    /\ idb s' = Some (startup_choice all_well two_remotes)
    /\ localStorage s'
       = match delivered all_well Primary two_remotes,
               delivered all_well Legacy two_remotes with
         | None, None => localStorage two_remotes
         | _, _ => Some (Json (startup_choice all_well two_remotes))
         end
    /\ requests s'
       = (requests two_remotes
          ++ Fetch Primary GET
             :: match delivered all_well Primary two_remotes with
                | Some _ => []
                | None => [Fetch Legacy GET]
                end)%list.
Proof.
  apply (startup_precedence all_well two_remotes). repeat split.
Defined.

Lemma seeded_delivers_the_same (e : env) (s s1 : state)
    (page_clock function_clock : string) :
  (forall t, link_of e t = Served true -> makes_default t s = false) ->
  supabase s1 = seeded e s -> blobs s1 = blobs s ->
  let e' := at_time e page_clock function_clock in
  delivered e' Primary s1 = delivered e Primary s
  /\ delivered e' Legacy s1 = delivered e Legacy s
  /\ seeded e' s1 = seeded e s.
Proof.
  intros Hd Hs Hb e'.
  pose proof (Hd Primary) as Hp. pose proof (Hd Legacy) as Hl.
  unfold delivered, get_payload, stored_at, seeded, link_of, makes_default in *.
  simpl. rewrite Hs, Hb. repeat split.
  - destruct (primary e) as [|[|]]; trivial. specialize (Hp eq_refl).
    destruct (supabase s) as [d|]; [|reflexivity].
    apply negb_false_iff in Hp. now rewrite Hp.
  - destruct (legacy e) as [|[|]]; trivial. specialize (Hl eq_refl).
    destruct (blobs s) as [d|]; [|discriminate Hl].
    apply negb_false_iff in Hl. now rewrite Hl.
  - destruct (primary e) as [|[|]]; trivial.
    destruct (supabase s); reflexivity.
Qed.

(** X11.  Start-up is idempotent when the local stores work: run a second
    time, at any later time, in surroundings that are otherwise the same, it
    adopts a document equal to the one the first run adopted and leaves
    IndexedDB, the cache and both remote stores exactly as the first run left
    them; provided no tier that answers makes up a default document for the
    occasion without storing it, as the legacy function does when its store
    is empty and the primary one when its row holds no document (the time of
    creation of such a document is the time of the request). *)
Theorem startup_idempotent (e : env) (s : state)
    (page_clock function_clock : string) :
  local_stores_work e ->
  (forall t, link_of e t = Served true -> makes_default t s = false) ->
  exists s1 s2,
    initializeDataStorage e s = (Ret tt, s1)
    /\ initializeDataStorage (at_time e page_clock function_clock) s1
       = (Ret tt, s2)
    /\ authoritative s2 = authoritative s1
    /\ idb s2 = idb s1 /\ localStorage s2 = localStorage s1
    /\ supabase s2 = supabase s1 /\ blobs s2 = blobs s1.
Proof.
  intros H Hd. set (e' := at_time e page_clock function_clock).
  assert (local_stores_work e') as H' by exact H.
  destruct (startup_exact e s H) as (s1 & E1 & A1 & I1 & S1 & B1 & L1 & _).
  destruct (startup_exact e' s1 H') as (s2 & E2 & A2 & I2 & S2 & B2 & L2 & _).
  destruct (seeded_delivers_the_same e s s1 page_clock function_clock Hd S1 B1)
    as (Dp & Dl & Ds).
  fold e' in Dp, Dl, Ds.
  assert (startup_choice e' s1 = startup_choice e s) as Hc.
  { unfold startup_choice. rewrite Dp, Dl.
    destruct (delivered e Primary s) eqn:Dp'; trivial.
    destruct (delivered e Legacy s) eqn:Dl'; trivial.
    assert (idb s1 = Some (local_choice e s)) as Hi
      by (rewrite I1; unfold startup_choice; now rewrite Dp', Dl').
    unfold local_choice at 1. rewrite Hi.
    now rewrite local_choice_truthy. }
  exists s1, s2. split; [exact E1|]. split; [exact E2|].
  rewrite A2, I2, L2, S2, B2, Hc, Dp, Dl, Ds, A1, I1, S1, L1.
  repeat split; trivial.
  destruct (delivered e Primary s); trivial.
  destruct (delivered e Legacy s); trivial.
Qed.

Lemma startup_idempotent_witness :
  exists s1 s2,
    initializeDataStorage all_well two_remotes = (Ret tt, s1)
    /\ initializeDataStorage
         (at_time all_well "2024-05-02T08:00:00.000Z"
            "2024-05-02T08:00:01.000Z") s1
       = (Ret tt, s2)
    /\ authoritative s2 = authoritative s1
    /\ idb s2 = idb s1 /\ localStorage s2 = localStorage s1
    /\ supabase s2 = supabase s1 /\ blobs s2 = blobs s1.
Proof.
  apply (startup_idempotent all_well two_remotes).
  - repeat split.
  - intros [] _; reflexivity.
Defined.

(** ** Start-up in any surroundings *)

Lemma adopt_from_any (e : env) (t : tier) (s : state) :
  exists b s',
    adopt_from e (tryLoadFrom e t) s = (Ret b, s')
    /\ adopted_valid_or_nothing s s'.
Proof.
  destruct (tryLoadFrom_exact e t s)
    as (s1 & E & Hh & Hm & _ & Hi & _).
  destruct (delivered e t s) as [d|] eqn:D.
  - pose proof (delivered_valid e t s d D) as V.
    assert (forall l v, heap s !! l = Some v -> heap s1 !! l = Some v) as Hpre
      by (intros l v Hl; rewrite Hh; now apply lookup_app_l_Some).
    assert (heap s1 !! length (heap s) = Some d) as Hd
      by (rewrite Hh, lookup_app_r, Nat.sub_diag by lia; reflexivity).
    unfold adopt_from, dbInit, dbSave, setItem, adopted_valid_or_nothing. run.
    rewrite E. simpl.
    destruct (idb_open_ok e); simpl;
      [destruct (idb_put_ok e); simpl;
       [rewrite Hd; destruct (ls_set_ok e); simpl|]|];
      do 2 eexists; (split; [reflexivity|]); unfold authoritative; simpl;
      rewrite ?Hd, ?Hi; eauto 10.
  - rewrite (adopt_from_none e _ s s1 E). do 2 eexists. split; [reflexivity|].
    unfold adopted_valid_or_nothing. rewrite Hh, Hm, Hi. auto.
Qed.

Lemma adopted_valid_or_nothing_trans (s1 s2 s3 : state) :
  (forall l, memoryCache s2 = Some l -> is_Some (heap s2 !! l)) ->
  adopted_valid_or_nothing s1 s2 -> adopted_valid_or_nothing s2 s3 ->
  adopted_valid_or_nothing s1 s3.
Proof.
  intros Hin (M1 & I1 & H1) (M2 & I2 & H2). repeat split.
  - destruct M2 as [M2|M2]; [|auto]. destruct M1 as [M1|M1]; [left; congruence|].
    right. unfold authoritative in *. rewrite M2.
    destruct (memoryCache s2) as [l|] eqn:Hl; [|exact M1].
    destruct (Hin l eq_refl) as (v & Hv). rewrite (H2 _ _ Hv). now rewrite <- Hv.
  - destruct I2 as [I2|I2]; [|auto]. destruct I1 as [I1|I1]; [left; congruence|].
    right. now rewrite I2.
  - auto.
Qed.

Lemma valid_is_some (v : option value) :
  validateDataStructure v = Ret true -> is_Some v.
Proof. intros H. destruct (validateDataStructure_object _ H) as (fs & ->). eauto. Qed.

(** Start-up of a fresh page in any surroundings: it may raise, but what it
    leaves in the memory cache is nothing, a document that passes the
    validator, or the truthy record IndexedDB held. *)
Lemma startup_any (e : env) (s : state) :
  memoryCache s = None ->
  exists o s',
    initializeDataStorage e s = (o, s')
    /\ (memoryCache s' = None
        \/ validateDataStructure (authoritative s') = Ret true
        \/ exists record, idb s = Some record
                          /\ truthy (Some record) = true
                          /\ authoritative s' = Some record).
Proof.
  intros Hfresh.
  destruct (adopt_from_any e Primary s) as (b1 & s1 & E1 & A1).
  unfold initializeDataStorage, tryLoadFromSupabase, tryLoadFromNetlify.
  erewrite bind_ret by exact E1.
  destruct b1.
  { do 2 eexists. split; [reflexivity|].
    destruct A1 as ([M|M] & _); [left; congruence|auto]. }
  destruct (adopt_from_any e Legacy s1) as (b2 & s2 & E2 & A2).
  erewrite bind_ret by exact E2.
  assert (adopted_valid_or_nothing s s2) as (M & I & H).
  { apply (adopted_valid_or_nothing_trans s s1 s2); trivial.
    intros l Hl. destruct A1 as ([M|M] & _); [congruence|].
    apply valid_is_some in M. unfold authoritative in M. now rewrite Hl in M. }
  clear A1 A2 E1 E2.
  destruct b2.
  { do 2 eexists. split; [reflexivity|].
    destruct M as [M|M]; [left; congruence|auto]. }
  assert (memoryCache s2 = None
          \/ validateDataStructure (authoritative s2) = Ret true) as M'
    by (destruct M as [M|M]; [left; congruence|auto]).
  unfold dbInit, dbLoad, createDefaultData, dbSave. run.
  destruct (idb_open_ok e); simpl;
    [|do 2 eexists; split; [reflexivity|]; tauto].
  destruct (idb_get_ok e); simpl;
    [|do 2 eexists; split; [reflexivity|]; tauto].
  assert (forall h : list value,
            (h ++ [default_document (now e)])%list !! length h
            = Some (default_document (now e))) as Hdef
    by (intros h; rewrite lookup_app_r, Nat.sub_diag by lia; reflexivity).
  destruct (idb s2) as [v|] eqn:Hv; simpl.
  - destruct (truthy (Some v)) eqn:Ht; simpl.
    + do 2 eexists. split; [reflexivity|]. right.
      unfold authoritative. simpl.
      rewrite lookup_app_r, Nat.sub_diag by lia. simpl.
      destruct I as [I|(w & I & Hw)].
      * right. exists v. rewrite <- I. auto.
      * left. now injection I as ->.
    + destruct (idb_put_ok e); simpl; rewrite ?Hdef;
        do 2 eexists; (split; [reflexivity|]); right; left;
        unfold authoritative; simpl; now rewrite Hdef.
  - destruct (idb_put_ok e); simpl; rewrite ?Hdef;
      do 2 eexists; (split; [reflexivity|]); right; left;
      unfold authoritative; simpl; now rewrite Hdef.
Qed.

(** X12.  Whatever happens at start-up, the page ends up with a document.
    For a page that starts afresh, in any surroundings (tiers down, IndexedDB
    or the cache refusing every operation, start-up ending in an exception),
    the [getData] that follows returns a document, and that document passes
    the validator unless it is the truthy record that IndexedDB held before
    start-up, which is adopted as it is. *)
Theorem getData_after_any_startup (e e' : env) (s : state) :
  memoryCache s = None ->
  exists l s',
    getData e' (snd (initializeDataStorage e s)) = (Ret l, s')
    /\ memoryCache s' = Some l
    /\ (validateDataStructure (heap s' !! l) = Ret true
        \/ exists record, idb s = Some record
                          /\ truthy (Some record) = true
                          /\ heap s' !! l = Some record).
Proof.
  intros Hfresh.
  destruct (startup_any e s Hfresh) as (o & s1 & E & H). rewrite E. simpl snd.
  destruct H as [H|H].
  - destruct (getDataFromLocalStorage_runs e' s1) as (v & El & V).
    assert ((heap s1 ++ [v])%list !! length (heap s1) = Some v) as Hv
      by (rewrite lookup_app_r, Nat.sub_diag by lia; reflexivity).
    unfold getData. run. rewrite H. unfold mbind, M_bind in El |- *.
    rewrite El. unfold dbSave. run.
    destruct (idb_open_ok e' && idb_put_ok e'); simpl;
      do 2 eexists; (split; [reflexivity|]); simpl; rewrite Hv; auto.
  - assert (truthy (authoritative s1) = true) as Ht.
    { destruct H as [H|(r & _ & Hr & ->)]; [now apply valid_truthy|exact Hr]. }
    unfold authoritative in *.
    destruct (memoryCache s1) as [l|] eqn:Hm; [|discriminate Ht].
    exists l, s1. rewrite (getData_cached e' s1 l Hm Ht).
    auto.
Qed.

Lemma getData_after_any_startup_witness :
  exists l s',
    getData offline_no_idb
      (snd (initializeDataStorage offline_no_idb empty_world)) = (Ret l, s')
    /\ memoryCache s' = Some l
    /\ (validateDataStructure (heap s' !! l) = Ret true
        \/ exists record, idb empty_world = Some record
                          /\ truthy (Some record) = true
                          /\ heap s' !! l = Some record).
Proof.
  apply (getData_after_any_startup offline_no_idb offline_no_idb empty_world).
  reflexivity.
Defined.

(** ** The validator, exactly *)

Ltac refuse :=
  split; [discriminate | intros [H _]; discriminate H].

Lemma check_students_passing (entries : list (string * value)) :
  check_students entries = Ret true
  <-> forallb (fun p => passing_student (snd p)) entries = true.
Proof.
  induction entries as [|[k student] rest IH]; simpl; [tauto|].
  rewrite andb_true_iff, <- IH. clear IH.
  unfold get.
  destruct student as [| b | n | s | items | fs];
    rewrite ?own_entries_named by reflexivity; simpl;
    change (truthy None) with false; simpl; try refuse.
  destruct (assoc "name" fs) as [name|]; simpl;
    change (truthy None) with false; simpl; [|refuse].
  destruct (truthy (Some name)); simpl; [|refuse].
  destruct (assoc "stars" fs) as [[| b | n | s | items | sf]|]; simpl;
    try refuse.
  unfold at_most. destruct (below n 0); simpl; [refuse|tauto].
Qed.

Lemma check_students_not_passing (entries : list (string * value)) :
  forallb (fun p => passing_student (snd p)) entries = false ->
  check_students entries <> Ret true.
Proof.
  intros H E. apply check_students_passing in E. congruence.
Qed.

Lemma check_classes_passing (entries : list (string * value)) :
  check_classes entries = Ret true
  <-> forallb (fun p => passing_class (snd p)) entries = true.
Proof.
  induction entries as [|[k classData] rest IH]; simpl; [tauto|].
  rewrite andb_true_iff, <- IH. clear IH.
  unfold get.
  destruct classData as [| b | n | s | items | cf];
    rewrite ?own_entries_named by reflexivity; simpl;
    change (truthy None) with false; simpl; try refuse.
  destruct (assoc "students" cf) as [students|]; simpl;
    change (truthy None) with false; simpl; [|refuse].
  destruct students as [| b | n | s | items | sf]; unfold truthy; simpl;
    try refuse;
    try (match goal with |- context [negb ?c] => destruct c end; simpl; refuse).
  - unfold object_entries. simpl.
    pose proof (check_students_passing (indexed items)) as Hs.
    destruct (forallb (fun p => passing_student (snd p)) (indexed items)).
    + rewrite (proj2 Hs eq_refl). simpl. tauto.
    + destruct (check_students (indexed items)) as [[|]| |]; simpl;
        try refuse.
      destruct Hs as [Hs _]. discriminate (Hs eq_refl).
  - unfold object_entries. simpl.
    pose proof (check_students_passing sf) as Hs.
    destruct (forallb (fun p => passing_student (snd p)) sf).
    + rewrite (proj2 Hs eq_refl). simpl. tauto.
    + destruct (check_students sf) as [[|]| |]; simpl; try refuse.
      destruct Hs as [Hs _]. discriminate (Hs eq_refl).
Qed.

Lemma check_teachers_passing (entries : list (string * value)) :
  check_teachers entries = Ret true
  <-> forallb (fun p => is_string_value (snd p)) entries = true.
Proof.
  induction entries as [|[k password] rest IH]; simpl; [tauto|].
  rewrite andb_true_iff, <- IH.
  destruct password; simpl; try tauto; refuse.
Qed.
Lemma entries_passing (check : list (string * value) -> outcome bool)
    (f : value -> bool) (v : value) :
  (forall es, check es = Ret true <-> forallb (fun p => f (snd p)) es = true) ->
  typeof (Some v) = TObject ->
  (if truthy (Some v) then es ← object_entries (Some v); check es else Ret true)
    = Ret true
  <-> passing_entries f v = true.
Proof.
  intros Hc Ht. unfold truthy, object_entries.
  destruct v; try discriminate Ht; simpl; try apply Hc. tauto.
Qed.

#[local] Arguments typeof : simpl never.

(** The validator answers [true] exactly on the documents that pass. *)
Lemma valid_iff_passing (data : option value) :
  validateDataStructure data = Ret true <-> passing data = true.
Proof.
  split.
  - intros V. destruct (validateDataStructure_object _ V) as [fs ->].
    revert V. unfold validateDataStructure, passing.
    change (truthy (Some (VObj fs))) with true.
    change (typeof (Some (VObj fs))) with TObject. simpl.
    unfold hasOwnProperty, get. simpl.
    destruct (assoc "hasOwnProperty" fs); [discriminate|].
    destruct (assoc "classes" fs) as [classes|]; simpl; [|discriminate].
    destruct (jstype_eqb (typeof (Some classes)) TObject) eqn:Tc; simpl;
      [|discriminate].
    destruct (assoc "teachers" fs) as [teachers|]; simpl; [|discriminate].
    destruct (jstype_eqb (typeof (Some teachers)) TObject) eqn:Tt; simpl;
      [|discriminate].
    destruct (assoc "settings" fs) as [settings|]; simpl; [|discriminate].
    destruct (jstype_eqb (typeof (Some settings)) TObject) eqn:Ts; simpl;
      [|discriminate].
    assert (typeof (Some classes) = TObject) as Tc'
      by (destruct (typeof (Some classes)); trivial; discriminate Tc).
    assert (typeof (Some teachers) = TObject) as Tt'
      by (destruct (typeof (Some teachers)); trivial; discriminate Tt).
    pose proof (entries_passing check_classes passing_class classes
                  check_classes_passing Tc') as Hc.
    pose proof (entries_passing check_teachers is_string_value teachers
                  check_teachers_passing Tt') as Hteach.
    destruct (if truthy (Some classes) then _ else _) as [[|]| |];
      simpl; try discriminate.
    destruct (if truthy (Some teachers) then _ else _) as [[|]| |];
      simpl; try discriminate.
    intros _. rewrite (proj1 Hc eq_refl), (proj1 Hteach eq_refl). reflexivity.
  - unfold passing. destruct data as [[| b | n | s | items | fs]|];
      try discriminate.
    destruct (assoc "hasOwnProperty" fs) eqn:Eh; [discriminate|].
    destruct (assoc "classes" fs) as [classes|] eqn:Ec; [|discriminate].
    destruct (assoc "teachers" fs) as [teachers|] eqn:Et; [|discriminate].
    destruct (assoc "settings" fs) as [settings|] eqn:Es; [|discriminate].
    intros P. apply andb_true_iff in P as [P Ts].
    apply andb_true_iff in P as [Pc Pt].
    assert (typeof (Some classes) = TObject) as Tc
      by (destruct classes; trivial; discriminate Pc).
    assert (typeof (Some teachers) = TObject) as Tt
      by (destruct teachers; trivial; discriminate Pt).
    apply (entries_passing check_classes passing_class classes
             check_classes_passing Tc) in Pc.
    apply (entries_passing check_teachers is_string_value teachers
             check_teachers_passing Tt) in Pt.
    unfold validateDataStructure.
    change (truthy (Some (VObj fs))) with true.
    change (typeof (Some (VObj fs))) with TObject. simpl.
    unfold hasOwnProperty, get. simpl.
    rewrite Eh, Ec, Et, Es. simpl. rewrite Tc, Tt, Ts. simpl.
    rewrite Pc. simpl. rewrite Pt. reflexivity.
Qed.

(** X13.  The validator answers [true] exactly on the documents that are
    objects without an own [hasOwnProperty], whose [classes], [teachers] and
    [settings] are own properties of type object, whose classes (if not
    [null]) are objects with an object or array of students, each an object
    with a truthy name and a number of stars that is not negative, and whose
    teachers (if not [null]) all have a string for password.  On every other
    document it answers [false] or raises. *)
Theorem validateDataStructure_exactly (data : option value) :
  (validateDataStructure data = Ret true <-> passing data = true)
  /\ (passing data = false ->
      validateDataStructure data = Ret false
      \/ validateDataStructure data = Throw).
Proof.
  split; [apply valid_iff_passing|].
  intros Hp. destruct (validateDataStructure_cases data) as [H|H]; [|exact H].
  apply valid_iff_passing in H. congruence.
Qed.

(** ** Achievements *)

Ltac by_cases :=
  repeat match goal with
         | |- context [(?a <? ?b)] => destruct (Z.ltb_spec a b)
         | |- context [(?a <=? ?b)] => destruct (Z.leb_spec a b)
         end.


(** X15.  Badges against announcements.  When a count does not decrease,
    every badge shown for the new count and not for the old one has had its
    milestone announced.  Gold and silver are never shown together, so a
    count that drops from 50 or more into the silver range shows a silver
    badge that was not shown before, with no announcement. *)
Theorem new_badges_are_announced (old new : Z) :
  old <= new ->
  exists before after announced,
    getAchievementBadges (Some (VNum old)) = Ret before
    /\ getAchievementBadges (Some (VNum new)) = Ret after
    /\ checkAchievements (Some (VNum old)) (Some (VNum new)) = Ret announced
    /\ (forall b, In b after -> ~ In b before ->
                  In (badge_milestone b) announced)
    /\ ~ (In gold after /\ In silver after)
    /\ (forall high low, 50 <= high -> 25 <= low < 50 ->
          exists shown,
            getAchievementBadges (Some (VNum low)) = Ret shown
            /\ In silver shown
            /\ getAchievementBadges (Some (VNum high)) = Ret [gold; bronze]
            /\ checkAchievements (Some (VNum high)) (Some (VNum low)) = Ret []).
Proof.
  intros Hle. eexists _, _, _.
  split; [reflexivity|]. split; [reflexivity|]. split; [reflexivity|].
  split; [|split].
  - intros b. simpl. unfold at_most. simpl.
    by_cases; simpl; try lia; intuition (try discriminate);
      subst; simpl; auto.
  - simpl. unfold at_most. simpl. by_cases; simpl; intuition discriminate.
  - intros high low Hh Hl. eexists. split; [reflexivity|].
    split; [|split].
    + simpl. unfold at_most. simpl. by_cases; simpl; try lia. auto.
    + unfold getAchievementBadges. simpl. unfold at_most. simpl.
      by_cases; simpl; try lia. reflexivity.
    + unfold checkAchievements. simpl. unfold at_most. simpl.
      by_cases; simpl; try lia; reflexivity.
Qed.

Lemma new_badges_are_announced_witness :
  exists before after announced,
    getAchievementBadges (Some (VNum 24)) = Ret before
    /\ getAchievementBadges (Some (VNum 25)) = Ret after
    /\ checkAchievements (Some (VNum 24)) (Some (VNum 25)) = Ret announced
    /\ (forall b, In b after -> ~ In b before ->
                  In (badge_milestone b) announced)
    /\ ~ (In gold after /\ In silver after)
    /\ (forall high low, 50 <= high -> 25 <= low < 50 ->
          exists shown,
            getAchievementBadges (Some (VNum low)) = Ret shown
            /\ In silver shown
            /\ getAchievementBadges (Some (VNum high)) = Ret [gold; bronze]
            /\ checkAchievements (Some (VNum high)) (Some (VNum low)) = Ret []).
Proof. apply (new_badges_are_announced 24 25). lia. Defined.

(** ** The welcome figures *)

Lemma round53_large (z : Z) : 2 ^ 53 <= z -> 2 ^ 53 <= round53 z.
Proof.
  intros Hz. unfold round53.
  assert (0 < 2 ^ 53) as Hp by (apply Z.pow_pos_nonneg; lia).
  rewrite (Z.abs_eq z) by lia.
  destruct (Z.ltb_spec z (2 ^ 53)) as [Hlt|_]; [lia|].
  set (k := Z.log2 z - 52).
  assert (0 < z) as Hpos by lia.
  destruct (Z.log2_spec z Hpos) as [Hlow _].
  assert (53 <= Z.log2 z) as Hlog
    by (apply Z.log2_le_pow2; [exact Hpos|exact Hz]).
  assert (0 < 2 ^ k) as Hk by (apply Z.pow_pos_nonneg; unfold k; lia).
  assert (2 ^ 52 <= z / 2 ^ k) as Hq.
  { apply Z.div_le_lower_bound; [exact Hk|].
    rewrite <- Z.pow_add_r by (unfold k; lia).
    replace (k + 52) with (Z.log2 z) by (unfold k; lia). exact Hlow. }
  assert (2 ^ 53 <= 2 ^ 52 * 2 ^ k) as Hb.
  { rewrite <- Z.pow_add_r by (unfold k; lia).
    apply Z.pow_le_mono_r; unfold k; lia. }
  assert (Z.sgn z = 1) as -> by (apply Z.sgn_pos; exact Hpos).
  destruct (if z mod 2 ^ k <? 2 ^ (k - 1) then false
            else if 2 ^ (k - 1) <? z mod 2 ^ k then true
                 else Z.odd (z / 2 ^ k)); nia.
Qed.

Lemma of_integer_large (z : Z) :
  2 ^ 53 <= z -> below (of_integer z) (2 ^ 53) = false.
Proof.
  intros Hz. pose proof (round53_large z Hz) as Hr. unfold of_integer.
  destruct (Z.leb_spec (2 ^ 1024) (round53 z)); [reflexivity|].
  assert (0 < 2 ^ 1024) by (apply Z.pow_pos_nonneg; lia).
  destruct (Z.leb_spec (round53 z) (- 2 ^ 1024)); [lia|].
  simpl. now apply Z.ltb_ge.
Qed.

Lemma increment_stops (count : Z) :
  0 <= count <= 2 ^ 53 -> increment count = Z.min (count + 1) (2 ^ 53).
Proof.
  intros H. unfold increment.
  destruct (Z.eq_dec count (2 ^ 53)) as [->|Hne]; [reflexivity|].
  rewrite round53_safe by lia. lia.
Qed.

Lemma or_zero_number (n : number) :
  or_zero (Some (VNum n)) = Some (VNum n).
Proof.
  unfold or_zero, truthy. destruct (nonzero n) eqn:E; [reflexivity|].
  now rewrite (add_int_zero n E).
Qed.

(** One more student with a star count that is not negative. *)
Lemma add_consistent (acc : stats) (n : number) :
  consistent acc ->
  at_most 0 n = true ->
  exists total,
    add (totalStars acc) n = Some total
    /\ consistent
         (mkStats (increment (totalStudents acc)) total
            (if at_most 10 n then increment (totalAchievements acc)
             else totalAchievements acc)).
Proof.
  intros (Ha & Hs & H0 & H10) Hn. unfold consistent. simpl.
  assert (0 < 2 ^ 53) as Hp by (apply Z.pow_pos_nonneg; lia).
  rewrite (increment_stops (totalStudents acc)) by lia.
  rewrite (increment_stops (totalAchievements acc)) by lia.
  assert (forall b : bool,
             0 <= (if b then Z.min (totalAchievements acc + 1) (2 ^ 53)
                   else totalAchievements acc)
             <= Z.min (totalStudents acc + 1) (2 ^ 53)) as Hcount
    by (intros []; lia).
  destruct (totalStars acc) as [t| |] eqn:Et, n as [m| |];
    try discriminate H0; try discriminate Hn; simpl;
    [|(eexists; split; [reflexivity|];
       split; [first [apply Hcount|apply (Hcount true)]|]; split; [lia|]; split; [reflexivity|];
       simpl; discriminate)..].
  unfold at_most in H0, Hn, H10. simpl in H0, Hn, H10.
  apply negb_true_iff, Z.ltb_ge in H0, Hn.
  eexists. split; [reflexivity|].
  split; [apply Hcount|]. split; [lia|].
  destruct (Z.lt_ge_cases (t + m) (2 ^ 53)) as [Hsmall|Hbig].
  - rewrite of_integer_safe by lia. unfold at_most. simpl.
    split; [apply negb_true_iff, Z.ltb_ge; lia|]. intros _.
    assert ((t <? 2 ^ 53) = true) as Ht by (apply Z.ltb_lt; lia).
    specialize (H10 Ht). apply negb_true_iff, Z.ltb_ge in H10.
    apply negb_true_iff, Z.ltb_ge.
    destruct (Z.ltb_spec m 10); simpl; lia.
  - pose proof (of_integer_large (t + m) Hbig) as Hl. split.
    + unfold at_most. destruct (of_integer (t + m)) as [r| |];
        try reflexivity; simpl in *; [|discriminate Hl].
      apply negb_true_iff, Z.ltb_ge. apply Z.ltb_ge in Hl. lia.
    + rewrite Hl. discriminate.
Qed.

Lemma count_students_consistent (students : list (string * value)) :
  forall acc,
    forallb (fun p => passing_student (snd p)) students = true ->
    consistent acc ->
    exists st, count_students (map snd students) acc = Ret st
               /\ consistent st.
Proof.
  induction students as [|[k student] rest IH]; intros acc Hp Hc.
  - exists acc. simpl. auto.
  - simpl in Hp. apply andb_true_iff in Hp as [Hs Hrest].
    destruct student as [| | | | |sf]; try discriminate Hs.
    simpl in Hs. apply andb_true_iff in Hs as [_ Hs].
    destruct (assoc "stars" sf) as [[| |n| | |]|] eqn:E; try discriminate Hs.
    simpl map. simpl count_students. unfold get. simpl. rewrite E. simpl.
    rewrite or_zero_number.
    destruct (add_consistent acc n Hc Hs) as (total & Hadd & Hnext).
    simpl. rewrite Hadd. simpl. now apply IH.
Qed.

Lemma count_classes_consistent (classes : list (string * value)) :
  forall acc,
    forallb (fun p => passing_class (snd p)) classes = true ->
    consistent acc ->
    exists st, count_classes (map snd classes) acc = Ret st /\ consistent st.
Proof.
  induction classes as [|[k classData] rest IH]; intros acc Hp Hc.
  - exists acc. simpl. auto.
  - simpl in Hp. apply andb_true_iff in Hp as [Hs Hrest].
    destruct classData as [| | | | |cf]; try discriminate Hs.
    simpl in Hs.
    destruct (assoc "students" cf) as [students|] eqn:E; [|discriminate Hs].
    apply andb_true_iff in Hs as [Ho Hs].
    simpl map. simpl count_classes. unfold get. simpl. rewrite E. simpl.
    assert (truthy (Some students) = true) as ->
      by (destruct students; try discriminate Ho; reflexivity).
    assert (object_values (Some students) = Ret (map snd (own_entries students)))
      as -> by (destruct students; try discriminate Ho; reflexivity).
    simpl.
    destruct (count_students_consistent _ acc Hs Hc) as (st & -> & Hcons).
    simpl. now apply IH.
Qed.

(** X16.  The welcome figures fit together on every document that passes
    the validator: [updateWelcomeStats] returns without touching anything,
    the achievement count is at most the student count, and the star total
    is not negative and at least ten times the achievement count, for any
    achievement count up to [2^53 / 10] and whenever the total is below
    [2^53] (where sums of star counts are exact; beyond, a sum of doubles
    can stop growing).  (A student with a text for a star count, which only
    an unvalidated document can hold, would turn the total into a text.) *)
Theorem welcome_figures_consistent (e : env) (s : state) (l : loc) (doc : value) :
  memoryCache s = Some l ->
  heap s !! l = Some doc ->
  validateDataStructure (Some doc) = Ret true ->
  exists st,
    updateWelcomeStats e s = (Ret st, s)
    /\ 0 <= totalAchievements st <= totalStudents st
    /\ at_most 0 (totalStars st) = true
    /\ (below (totalStars st) (2 ^ 53) = true ->
        at_most (10 * totalAchievements st) (totalStars st) = true)
    /\ (10 * totalAchievements st <= 2 ^ 53 ->
        at_most (10 * totalAchievements st) (totalStars st) = true).
Proof.
  intros Hm Hd Hv.
  assert (consistent (mkStats 0 0 0)) as H0
    by (unfold consistent; simpl; repeat split; try lia; apply Z.pow_nonneg; lia).
  assert (exists st, welcome_stats (Some doc) = Ret st /\ consistent st)
    as (st & Hst & Hcons).
  { apply valid_iff_passing in Hv. unfold passing in Hv.
    destruct doc as [| | | | |fs]; try discriminate Hv.
    destruct (assoc "hasOwnProperty" fs); [discriminate Hv|].
    destruct (assoc "classes" fs) as [classes|] eqn:Ec; [|discriminate Hv].
    destruct (assoc "teachers" fs); [|discriminate Hv].
    destruct (assoc "settings" fs); [|discriminate Hv].
    apply andb_true_iff in Hv as [Hv _]. apply andb_true_iff in Hv as [Hc _].
    unfold welcome_stats, get. simpl. rewrite Ec. simpl.
    destruct classes as [| | | |items|cf]; try discriminate Hc.
    - exists (mkStats 0 0 0). split; [reflexivity|exact H0].
    - change (truthy (Some (VArr items))) with true. cbv iota.
      change (object_values (Some (VArr items)))
        with (Ret (map snd (own_entries (VArr items)))).
      simpl mbind. now apply count_classes_consistent.
    - change (truthy (Some (VObj cf))) with true. cbv iota.
      change (object_values (Some (VObj cf)))
        with (Ret (map snd (own_entries (VObj cf)))).
      simpl mbind. now apply count_classes_consistent. }
  exists st. split.
  - unfold updateWelcomeStats.
    erewrite bind_ret
      by (apply getData_cached;
          [exact Hm | rewrite Hd; eapply valid_truthy; exact Hv]).
    unfold mbind, M_bind, deref, gets, lift. now rewrite Hd, Hst.
  - destruct Hcons as (Ha & _ & Hs & Hx). repeat split; trivial; try tauto.
    intros Hle.
    destruct (below (totalStars st) (2 ^ 53)) eqn:Eb; [now apply Hx|].
    unfold at_most, below in Eb |- *.
    destruct (totalStars st) as [z| |]; simpl in *; trivial;
      try discriminate Eb.
    apply Z.ltb_ge in Eb. apply negb_true_iff, Z.ltb_ge. lia.
Qed.

Lemma welcome_figures_consistent_witness :
  exists st,
    updateWelcomeStats offline
      (mkState [math_class] (Some 0%nat) (Some "Math") None None None None [])
    = (Ret st,
       mkState [math_class] (Some 0%nat) (Some "Math") None None None None [])
    /\ 0 <= totalAchievements st <= totalStudents st
    /\ at_most 0 (totalStars st) = true
    /\ (below (totalStars st) (2 ^ 53) = true ->
        at_most (10 * totalAchievements st) (totalStars st) = true)
    /\ (10 * totalAchievements st <= 2 ^ 53 ->
        at_most (10 * totalAchievements st) (totalStars st) = true).
Proof.
  apply (welcome_figures_consistent offline
           (mkState [math_class] (Some 0%nat) (Some "Math") None None None
              None [])
           0%nat math_class); reflexivity.
Defined.

(** ** Authentication *)

(** X17.  Who gets in.  With a teachers object in the authoritative
    document, [handleLogin] opens the dashboard exactly when the user name is
    an own property of that object whose value is the password typed, and
    that password is not empty: an account stored with an empty password
    cannot be used, and the names every object inherits ([constructor],
    [toString], ...) are no accounts.  Nothing is written and no request is
    sent.  With [teachers: null], which the validator lets through, the login
    raises. *)
Theorem login_needs_the_stored_password (e : env) (s : state) (l : loc)
    (fs : list (string * value)) (teachers : value)
    (username password : string) :
  memoryCache s = Some l ->
  heap s !! l = Some (VObj fs) ->
  assoc "teachers" fs = Some teachers ->
  (forall accounts, teachers = VObj accounts ->
     exists opened,
       handleLogin e username password s = (Ret opened, s)
       /\ (opened = true
           <-> assoc username accounts = Some (VStr password)
               /\ password <> EmptyString))
  /\ (teachers = VNull -> handleLogin e username password s = (Throw, s)).
Proof.
  intros Hm Hd Ht.
  assert (forall k : option value -> M bool,
            (data ← getData e; doc ← deref data; k doc) s
            = k (Some (VObj fs)) s) as Hstart.
  { intros k. erewrite bind_ret
      by (apply getData_cached; [exact Hm | now rewrite Hd]).
    unfold mbind, M_bind, deref, gets. now rewrite Hd. }
  split.
  - intros accounts ->.
    assert (handleLogin e username password s
            = (Ret (let entry :=
                      match assoc username accounts with
                      | Some x => Own x
                      | None => if inherited username then Inherited else Missing
                      end in
                    found_truthy entry && found_is entry password), s)) as ->.
    { unfold handleLogin. rewrite Hstart.
      unfold mbind, M_bind, lift, get. simpl. rewrite Ht. simpl.
      now destruct (assoc username accounts). }
    eexists. split; [reflexivity|].
    simpl. destruct (assoc username accounts) as [x|]; simpl.
    + destruct x as [| | |p| |]; simpl;
        try (split; [rewrite ?andb_false_r; discriminate|intros [[=] _]]).
      unfold truthy. rewrite andb_true_iff, negb_true_iff.
      destruct (String.eqb_spec p password) as [->|Hne];
        destruct (String.eqb_spec password EmptyString) as [Hp|Hp].
      * split; [intros [[=] _]|intros [_ H]; now elim H].
      * split; [auto|intros _; split; reflexivity].
      * split; [intros [_ [=]]|intros [[= ->] _]; now elim Hne].
      * split; [intros [_ [=]]|intros [[= ->] _]; now elim Hne].
    + destruct (inherited username); simpl;
        (split; [discriminate|intros [[=] _]]).
  - intros ->. unfold handleLogin. rewrite Hstart.
    unfold mbind, M_bind, lift, get. simpl. rewrite Ht. reflexivity.
Qed.

Lemma login_needs_the_stored_password_witness :
  (forall accounts, VObj [("teacher", VStr "starboard")] = VObj accounts ->
     exists opened,
       handleLogin offline "teacher" "starboard"
         (mkState [default_document "t0"] (Some 0%nat) None None None None
            None [])
       = (Ret opened,
          mkState [default_document "t0"] (Some 0%nat) None None None None
            None [])
       /\ (opened = true
           <-> assoc "teacher" accounts = Some (VStr "starboard")
               /\ "starboard" <> EmptyString))
  /\ (VObj [("teacher", VStr "starboard")] = VNull ->
      handleLogin offline "teacher" "starboard"
        (mkState [default_document "t0"] (Some 0%nat) None None None None
           None [])
      = (Throw,
         mkState [default_document "t0"] (Some 0%nat) None None None None
           None [])).
Proof.
  eapply (login_needs_the_stored_password offline
            (mkState [default_document "t0"] (Some 0%nat) None None None None
               None [])
            0%nat _ (VObj [("teacher", VStr "starboard")])
            "teacher" "starboard"); reflexivity.
Defined.

(** ** The periodic sweep *)

Lemma assoc_set_id (k : string) (x : value) (fs : list (string * value)) :
  assoc k fs = Some x -> assoc_set k x fs = fs.
Proof.
  induction fs as [|[k' v] rest IH]; simpl; [discriminate|].
  destruct (String.eqb_spec k k') as [->|Hne].
  - now intros [= ->].
  - intros H. now rewrite IH.
Qed.

Lemma assoc_set_twice (k : string) (x y : value) (fs : list (string * value)) :
  assoc_set k y (assoc_set k x fs) = assoc_set k y fs.
Proof.
  induction fs as [|[k' v] rest IH]; simpl.
  - now rewrite String.eqb_refl.
  - destruct (String.eqb_spec k k') as [->|Hne]; simpl.
    + now rewrite String.eqb_refl.
    + destruct (String.eqb_spec k k'); [contradiction|]. now rewrite IH.
Qed.

(** The sweep of one student that is an object. *)
Lemma sweep_student_object (sf : list (string * value)) :
  sweep_student (VObj sf)
  = if negb (truthy (assoc "name" sf))
       || negb (jstype_eqb (typeof (assoc "name" sf)) TString)
    then Ret (None, true)
    else if negb (jstype_eqb (typeof (assoc "stars" sf)) TNumber)
            || negative (assoc "stars" sf)
         then Ret (Some (VObj (assoc_set "stars" (VNum 0) sf)), true)
         else Ret (Some (VObj sf), false).
Proof.
  unfold sweep_student, get. simpl own_entries.
  assert (forall o : option value,
            match o with
            | Some x => Ret (Some x)
            | None => Ret None
            end = Ret o) as Hopt by (now intros [x|]).
  change (if ("stars" =? "length")%string then length_of (VObj sf) else None)
    with (None : option value).
  change (if ("name" =? "length")%string then length_of (VObj sf) else None)
    with (None : option value).
  rewrite Hopt. simpl mbind.
  destruct (negb (jstype_eqb (typeof (assoc "stars" sf)) TNumber)
            || negative (assoc "stars" sf)); simpl.
  - rewrite assoc_set_other by discriminate.
    change (if ("name" =? "length")%string
            then length_of (VObj (assoc_set "stars" (VNum 0) sf)) else None)
      with (None : option value).
    rewrite Hopt. simpl. reflexivity.
  - change (if ("name" =? "length")%string then length_of (VObj sf) else None)
      with (None : option value).
    rewrite Hopt. simpl. reflexivity.
Qed.

Lemma position_named (k : string) (items : list value) :
  numeral k = false -> forall i, position i k items = None.
Proof.
  intros Hk. induction items as [|v rest IH]; intros i; simpl; trivial.
  destruct (String.eqb_spec k (index_key i)) as [->|_].
  - now rewrite index_key_numeral in Hk.
  - now rewrite IH.
Qed.

Lemma sweep_student_returns (student : value) (r : option value * bool) :
  sweep_student student = Ret r -> exists sf, student = VObj sf.
Proof.
  unfold sweep_student, get.
  destruct student as [| b | n | s | items | sf];
    rewrite ?own_entries_named by reflexivity; simpl;
    rewrite ?position_named by reflexivity; try discriminate.
  eauto.
Qed.

Lemma sweep_student_kept (student student' : value) (changed : bool) :
  sweep_student student = Ret (Some student', changed) ->
  clean_student student' = true /\ (changed = false -> student' = student).
Proof.
  intros H. destruct (sweep_student_returns _ _ H) as (sf & ->).
  rewrite sweep_student_object in H. revert H.
  unfold clean_student, truthy, typeof, negative.
  destruct (assoc "name" sf) as [[| | |name| |]|] eqn:En; simpl;
    rewrite ?orb_true_r, ?orb_false_r; try discriminate.
  destruct (name =? EmptyString)%string eqn:Ene; simpl; [discriminate|].
  destruct (assoc "stars" sf) as [[| |n| | |]|] eqn:Es; simpl;
    try (intros [= <- <-];
         rewrite (assoc_set_other "name" "stars") by discriminate;
         rewrite En, assoc_set_same, Ene;
         split; [reflexivity|discriminate]).
  destruct (below n 0) eqn:Eb; simpl; intros [= <- <-].
  - rewrite (assoc_set_other "name" "stars") by discriminate.
    rewrite En, assoc_set_same, Ene. split; [reflexivity|discriminate].
  - rewrite En, Es, Ene. split; [|reflexivity]. unfold at_most.
    now rewrite Eb.
Qed.

Lemma sweep_student_clean (student : value) :
  clean_student student = true -> sweep_student student = Ret (Some student, false).
Proof.
  unfold clean_student. destruct student as [| | | | |sf]; try discriminate.
  rewrite sweep_student_object. unfold truthy, typeof, negative.
  destruct (assoc "name" sf) as [[| | |name| |]|]; try discriminate.
  destruct (assoc "stars" sf) as [[| |n| | |]|]; try discriminate.
  intros H. apply andb_true_iff in H as [Hn Hs]. rewrite Hn. simpl.
  unfold at_most in Hs. apply negb_true_iff in Hs. now rewrite Hs.
Qed.

Lemma sweep_student_deleted (student : value) (changed : bool) :
  sweep_student student = Ret (None, changed) -> changed = true.
Proof.
  intros H. destruct (sweep_student_returns _ _ H) as (sf & ->).
  rewrite sweep_student_object in H. revert H.
  repeat case_match; now intros [=].
Qed.

(** The inner loop, when it ends without an exception: the students it
    leaves are clean, they are among those it found, and without a change
    they are those it found. *)
Lemma sweep_students_ended (entries : list (string * value)) :
  forall entries' changed,
    sweep_students entries = (entries', Ret changed) ->
    forallb (fun p => clean_student (snd p)) entries' = true
    /\ (changed = false -> entries' = entries)
    /\ (length entries' <= length entries)%nat
    /\ (length entries' = length entries ->
        map fst entries' = map fst entries).
Proof.
  induction entries as [|[studentId student] rest IH]; intros entries' changed.
  - simpl. intros [= <- <-]. auto.
  - simpl. destruct (sweep_student student) as [[kept c]| |] eqn:Es;
      try discriminate.
    destruct (sweep_students rest) as [rest' ended] eqn:Er.
    destruct ended as [later| |]; simpl; try discriminate.
    intros [= <- <-].
    destruct (IH _ _ eq_refl) as (Hc & Hsame & Hlen & Hkeys).
    destruct kept as [student'|].
    + destruct (sweep_student_kept _ _ _ Es) as [Hclean Hid].
      simpl. rewrite Hclean, Hc. repeat split; trivial.
      * intros Hf. apply orb_false_iff in Hf as [-> ->].
        now rewrite Hid, Hsame.
      * lia.
      * intros [= Hl]. now rewrite Hkeys.
    + rewrite (sweep_student_deleted _ _ Es). simpl.
      split; [exact Hc|]. split; [discriminate|]. split; lia.
Qed.

Lemma sweep_students_clean (entries : list (string * value)) :
  forallb (fun p => clean_student (snd p)) entries = true ->
  sweep_students entries = (entries, Ret false).
Proof.
  induction entries as [|[studentId student] rest IH]; simpl; trivial.
  intros H. apply andb_true_iff in H as [Hs Hr].
  now rewrite (sweep_student_clean _ Hs), (IH Hr).
Qed.

Lemma indexed_keys (entries : list (string * value)) :
  forall i items,
    map fst entries = map fst (indexed_from i items) ->
    indexed_from i (map snd entries) = entries.
Proof.
  induction entries as [|[k v] rest IH]; intros i items; simpl; trivial.
  destruct items as [|x items]; simpl; [discriminate|].
  intros [= -> H]. now rewrite (IH _ _ H).
Qed.

Lemma length_indexed_from (items : list value) :
  forall i, length (indexed_from i items) = length items.
Proof. induction items as [|v rest IH]; intros i; simpl; auto. Qed.

Lemma map_snd_indexed_from (items : list value) :
  forall i, map snd (indexed_from i items) = items.
Proof.
  induction items as [|v rest IH]; intros i; simpl; [reflexivity|].
  now rewrite IH.
Qed.

(** A string that is not empty, taken for a container of students, makes
    the inner loop raise on its first character. *)
Lemma sweep_students_string (s : string) :
  truthy (Some (VStr s)) = true ->
  snd (sweep_students (own_entries (VStr s))) = Throw.
Proof.
  destruct s as [|a rest]; [discriminate|]. intros _. reflexivity.
Qed.

Lemma chars_strings (s : string) :
  forall i, Forall (fun p => exists c, snd p = VStr c) (indexed_from i (chars s)).
Proof.
  unfold chars. induction (list_ascii_of_string s) as [|a l IH]; intros i;
    simpl; constructor; simpl; eauto.
Qed.

(** The body of the outer loop, when it ends without an exception. *)
Lemma sweep_class_ended (classData classData' : value) (changed : bool) :
  sweep_class classData = (classData', Ret changed) ->
  clean_class classData' = true
  /\ (changed = false -> classData' = classData)
  /\ sweep_class classData' = (classData', Ret false).
Proof.
  destruct classData as [| b | n | s | items | cf]; simpl;
    try discriminate; try (intros [= <- <-]; auto).
  destruct (assoc "students" cf) as [students|] eqn:Ec.
  2: { intros [= <- <-]. unfold clean_class. simpl. rewrite Ec. auto. }
  destruct (truthy (Some students)) eqn:Tr.
  2: { intros [= <- <-]. unfold clean_class. simpl. rewrite Ec, Tr. auto. }
  destruct (sweep_students (own_entries students)) as [entries ended] eqn:Es.
  assert (forall students',
            ended = Ret changed ->
            truthy (Some students') = true ->
            own_entries students' = entries ->
            with_entries students' entries = Some students' ->
            (changed = false -> students' = students) ->
            let c' := VObj (assoc_set "students" students' cf) in
            clean_class c' = true
            /\ (changed = false -> c' = VObj cf)
            /\ sweep_class c' = (c', Ret false)) as Hgen.
  { intros students' -> Tr' Ho Hw Hid c'.
    destruct (sweep_students_ended _ _ _ Es) as (Hc & _).
    split; [|split].
    - unfold clean_class, c'. simpl. rewrite assoc_set_same, Ho, Hc.
      apply orb_true_r.
    - intros Hf. unfold c'. now rewrite (Hid Hf), assoc_set_id.
    - unfold c'. simpl. rewrite assoc_set_same, Tr', Ho.
      rewrite (sweep_students_clean _ Hc), Hw.
      now rewrite assoc_set_twice. }
  destruct students as [| b | n | s | items | sf]; simpl with_entries.
  - discriminate Tr.
  - simpl in Es. injection Es as <- <-. intros [= <- <-].
    apply Hgen; auto.
  - simpl in Es. injection Es as <- <-. intros [= <- <-].
    apply Hgen; auto.
  - intros [= <- ->]. pose proof (sweep_students_string s Tr) as Hs.
    rewrite Es in Hs. discriminate Hs.
  - destruct (Nat.eqb_spec (length entries) (length items)) as [Hl|Hl];
      [|discriminate].
    intros [= <- ->].
    destruct (sweep_students_ended _ _ _ Es) as (_ & Hsame & _ & Hkeys).
    assert (indexed (map snd entries) = entries) as Hi.
    { apply (indexed_keys _ 0%nat items), Hkeys.
      simpl. unfold indexed. now rewrite length_indexed_from. }
    apply Hgen; trivial.
    + simpl. now rewrite length_map, Nat.eqb_refl.
    + intros Hf. rewrite (Hsame Hf). simpl. unfold indexed.
      now rewrite map_snd_indexed_from.
  - intros [= <- ->].
    destruct (sweep_students_ended _ _ _ Es) as (_ & Hsame & _).
    apply Hgen; trivial. intros Hf. now rewrite (Hsame Hf).
Qed.

(** The outer loop, when it ends without an exception: it deletes no
    class, the classes it leaves have clean students only, and a second pass
    finds nothing to do. *)
Lemma sweep_classes_ended (entries : list (string * value)) :
  forall entries' changed,
    sweep_classes entries = (entries', Ret changed) ->
    forallb (fun p => clean_class (snd p)) entries' = true
    /\ (changed = false -> entries' = entries)
    /\ map fst entries' = map fst entries
    /\ sweep_classes entries' = (entries', Ret false).
Proof.
  induction entries as [|[className classData] rest IH]; intros entries' changed.
  - simpl. intros [= <- <-]. auto.
  - simpl. destruct (sweep_class classData) as [classData' [c| |]] eqn:Ec;
      try discriminate.
    destruct (sweep_classes rest) as [rest' [later| |]] eqn:Er; simpl;
      try discriminate.
    intros [= <- <-].
    destruct (IH _ _ eq_refl) as (Hc & Hsame & Hkeys & Hagain).
    destruct (sweep_class_ended _ _ _ Ec) as (Hclean & Hid & Hcagain).
    simpl. rewrite Hclean, Hc, Hkeys, Hcagain, Hagain. simpl.
    repeat split; trivial.
    intros Hf. apply orb_false_iff in Hf as [-> ->]. now rewrite Hid, Hsame.
Qed.

Lemma sweep_classes_strings (entries : list (string * value)) :
  Forall (fun p => exists c, snd p = VStr c) entries ->
  sweep_classes entries = (entries, Ret false).
Proof.
  induction 1 as [|[k v] rest (c & Hv) _ IH]; simpl; trivial.
  simpl in Hv. subst v. simpl. now rewrite IH.
Qed.

(** Both loops on a document, when they end without an exception. *)
Lemma sweep_ended (d d' : value) (changed : bool) :
  sweep d = (d', Ret changed) ->
  clean_classes (Some d') = true
  /\ (changed = false -> d' = d)
  /\ sweep d' = (d', Ret false)
  /\ (forall k, k <> "classes" -> field d' k = field d k).
Proof.
  destruct d as [| b | n | s | items | fs]; simpl; try discriminate.
  destruct (assoc "classes" fs) as [classes|] eqn:Ec; [|discriminate].
  destruct (sweep_classes (own_entries classes)) as [entries ended] eqn:Es.
  assert (forall classes',
            classes' <> VNull ->
            ended = Ret changed ->
            own_entries classes' = entries ->
            with_entries classes' entries = Some classes' ->
            (changed = false -> classes' = classes) ->
            let r := VObj (assoc_set "classes" classes' fs) in
            clean_classes (Some r) = true
            /\ (changed = false -> r = VObj fs)
            /\ sweep r = (r, Ret false)
            /\ (forall k, k <> "classes" -> field r k = field (VObj fs) k))
    as Hgen.
  { intros classes' Hnn -> Ho Hw Hid r.
    destruct (sweep_classes_ended _ _ _ Es) as (Hc & _ & _ & Hagain).
    split; [|split; [|split]].
    - unfold r. simpl. now rewrite assoc_set_same, Ho.
    - intros Hf. unfold r. now rewrite (Hid Hf), assoc_set_id.
    - unfold r. simpl. rewrite assoc_set_same, Ho, Hagain, Hw.
      rewrite assoc_set_twice. now destruct classes'.
    - intros k Hk. unfold r. simpl. now apply assoc_set_other. }
  destruct classes as [| b | n | s | items | cf]; simpl with_entries.
  - discriminate.
  - simpl in Es. injection Es as <- <-. intros [= <- <-].
    apply Hgen; auto; discriminate.
  - simpl in Es. injection Es as <- <-. intros [= <- <-].
    apply Hgen; auto; discriminate.
  - rewrite sweep_classes_strings in Es by apply chars_strings.
    injection Es as <- <-. intros [= <- <-]. apply Hgen; auto; discriminate.
  - destruct ended as [c| |].
    + destruct (sweep_classes_ended _ _ _ Es) as (_ & Hsame & Hkeys & _).
      assert (length entries = length items) as Hl.
      { rewrite <- (length_map fst), Hkeys, length_map. simpl.
        unfold indexed. apply length_indexed_from. }
      rewrite Hl, Nat.eqb_refl. intros [= <- <-].
      apply Hgen; trivial; try discriminate.
      * simpl. now apply (indexed_keys _ 0%nat items).
      * simpl. now rewrite length_map, Nat.eqb_refl.
      * intros Hf. rewrite (Hsame Hf). simpl. unfold indexed.
        now rewrite map_snd_indexed_from.
    + destruct (length entries =? length items)%nat; discriminate.
    + destruct (length entries =? length items)%nat; discriminate.
  - intros [= <- ->].
    destruct (sweep_classes_ended _ _ _ Es) as (_ & Hsame & _).
    apply Hgen; trivial; try discriminate. intros Hf. now rewrite (Hsame Hf).
Qed.

Lemma sweep_ended_object (d d' : value) (ended : outcome bool) :
  sweep d = (d', ended) -> ended <> Throw ->
  exists fs fs', d = VObj fs /\ d' = VObj fs'.
Proof.
  destruct d as [| b | n | s | items | fs]; simpl;
    try (intros [= <- <-] H; now elim H).
  destruct (assoc "classes" fs) as [classes|];
    [|intros [= <- <-] H; now elim H].
  destruct (sweep_classes (own_entries classes)) as [entries e'].
  destruct classes; try (intros [= <- <-] H; now elim H);
    simpl; try (intros [= <- <-] _; eauto).
  destruct (length entries =? length items)%nat; intros [= <- <-]; eauto.
Qed.

(** Stamping a swept document leaves it swept. *)
Lemma sweep_stamped (m : value) (fs : list (string * value)) :
  sweep (VObj fs) = (VObj fs, Ret false) ->
  sweep (VObj (assoc_set "metadata" m fs))
  = (VObj (assoc_set "metadata" m fs), Ret false).
Proof.
  simpl. rewrite (assoc_set_other "classes" "metadata") by discriminate.
  destruct (assoc "classes" fs) as [classes|] eqn:Ec; [|discriminate].
  destruct classes; try discriminate;
    destruct (sweep_classes _) as [entries ended];
    destruct (with_entries _ entries) as [classes'|]; try discriminate;
    intros [= H ->];
    (assert (assoc "classes" (assoc_set "classes" classes' fs) = Some classes')
       as Hs by apply assoc_set_same);
    rewrite H, Ec in Hs; injection Hs as <-;
    rewrite assoc_set_id; trivial;
    now rewrite (assoc_set_other "classes" "metadata") by discriminate.
Qed.

Lemma clean_classes_stamped (m : value) (fs : list (string * value)) :
  clean_classes (Some (VObj (assoc_set "metadata" m fs)))
  = clean_classes (Some (VObj fs)).
Proof.
  simpl. now rewrite (assoc_set_other "classes" "metadata") by discriminate.
Qed.

Lemma with_heap_same (s : state) (l : loc) (v : value) :
  heap s !! l = Some v -> with_heap (<[l := v]> (heap s)) s = s.
Proof.
  intros H. rewrite list_insert_id by exact H. now destruct s.
Qed.

(** *** The sweep keeps numbers finite *)

Lemma finite_fields (fs : list (string * value)) :
  json_clone (VObj fs) = VObj fs
  <-> Forall (fun p => json_clone (snd p) = snd p) fs.
Proof.
  simpl. split.
  - intros [= H]. induction fs as [|[k x] fs IH]; constructor;
      simpl in *; injection H as Hx Hfs; auto.
  - intros H. f_equal. induction H as [|[k x] fs Hx _ IH]; simpl; trivial.
    simpl in Hx. now rewrite Hx, IH.
Qed.

Lemma finite_items (items : list value) :
  json_clone (VArr items) = VArr items
  <-> Forall (fun x => json_clone x = x) items.
Proof.
  simpl. split.
  - intros [= H]. induction items as [|x items IH]; constructor;
      simpl in *; injection H as Hx Hitems; auto.
  - intros H. f_equal. induction H as [|x items Hx _ IH]; simpl; trivial.
    now rewrite Hx, IH.
Qed.

Lemma finite_indexed (items : list value) :
  Forall (fun x => json_clone x = x) items ->
  forall i, Forall (fun p => json_clone (snd p) = snd p) (indexed_from i items).
Proof. induction 1; intros i; simpl; constructor; auto. Qed.

Lemma finite_entries (v : value) :
  json_clone v = v ->
  Forall (fun p => json_clone (snd p) = snd p) (own_entries v).
Proof.
  destruct v as [| b | n | s | items | fs]; intros H; simpl;
    try constructor.
  - eapply Forall_impl; [apply chars_strings|].
    intros p (c & ->). reflexivity.
  - now apply finite_indexed, finite_items.
  - now apply finite_fields.
Qed.

Lemma finite_assoc_set (k : string) (x : value) (fs : list (string * value)) :
  json_clone x = x ->
  Forall (fun p => json_clone (snd p) = snd p) fs ->
  Forall (fun p => json_clone (snd p) = snd p) (assoc_set k x fs).
Proof.
  intros Hx. induction 1 as [|[k' v] fs Hv Hfs IH]; simpl.
  - constructor; [exact Hx|constructor].
  - destruct (k =? k')%string; constructor; auto.
Qed.

Lemma finite_set (k : string) (x : value) (fs : list (string * value)) :
  json_clone (VObj fs) = VObj fs -> json_clone x = x ->
  json_clone (VObj (assoc_set k x fs)) = VObj (assoc_set k x fs).
Proof.
  intros Hfs Hx. apply finite_fields, finite_assoc_set; [exact Hx|].
  now apply finite_fields.
Qed.

Lemma finite_field (fs : list (string * value)) (k : string) (x : value) :
  json_clone (VObj fs) = VObj fs -> assoc k fs = Some x -> json_clone x = x.
Proof.
  intros H E. apply finite_fields in H.
  induction H as [|[k' v] fs Hv Hfs IH]; simpl in E; [discriminate|].
  destruct (k =? k')%string; [now injection E as <-|auto].
Qed.

Lemma sweep_students_finite (entries : list (string * value)) :
  Forall (fun p => json_clone (snd p) = snd p) entries ->
  Forall (fun p => json_clone (snd p) = snd p) (fst (sweep_students entries)).
Proof.
  induction 1 as [|[studentId student] rest Hs Hrest IH]; simpl;
    [constructor|].
  simpl in Hs.
  destruct (sweep_student student) as [[kept c]| |] eqn:Es; simpl;
    try (constructor; assumption).
  destruct (sweep_students rest) as [rest' ended]. simpl in *.
  destruct kept as [student'|]; [|exact IH]. constructor; [|exact IH].
  simpl. destruct (sweep_student_returns _ _ Es) as (sf & ->).
  rewrite sweep_student_object in Es.
  repeat case_match; try discriminate; injection Es as <- <-; trivial.
  now apply finite_set.
Qed.

Lemma with_entries_finite (container container' : value)
    (entries : list (string * value)) :
  json_clone container = container ->
  Forall (fun p => json_clone (snd p) = snd p) entries ->
  with_entries container entries = Some container' ->
  json_clone container' = container'.
Proof.
  intros Hc He.
  destruct container as [| b | n | s | items | fs]; simpl;
    try (intros [= <-]; exact Hc).
  - destruct (length entries =? length items)%nat; [|discriminate].
    intros [= <-]. apply finite_items.
    induction He; simpl; constructor; auto.
  - intros [= <-]. now apply finite_fields.
Qed.

Lemma sweep_class_finite (classData : value) :
  json_clone classData = classData ->
  json_clone (fst (sweep_class classData)) = fst (sweep_class classData).
Proof.
  intros H. destruct classData as [| b | n | s | items | cf]; trivial.
  simpl. destruct (assoc "students" cf) as [students|] eqn:Ec; [|exact H].
  destruct (truthy (Some students)); [|exact H].
  pose proof (finite_field _ _ _ H Ec) as Hs.
  pose proof (sweep_students_finite _ (finite_entries _ Hs)) as He.
  destruct (sweep_students (own_entries students)) as [entries ended].
  destruct (with_entries students entries) as [students'|] eqn:Ew; [|exact H].
  simpl. apply finite_set; [exact H|].
  exact (with_entries_finite _ _ _ Hs He Ew).
Qed.

Lemma sweep_classes_finite (entries : list (string * value)) :
  Forall (fun p => json_clone (snd p) = snd p) entries ->
  Forall (fun p => json_clone (snd p) = snd p) (fst (sweep_classes entries)).
Proof.
  induction 1 as [|[className classData] rest Hc Hrest IH]; simpl;
    [constructor|].
  simpl in Hc. pose proof (sweep_class_finite _ Hc) as Hc'.
  destruct (sweep_class classData) as [classData' [c| |]]; simpl in *;
    try (constructor; assumption).
  destruct (sweep_classes rest) as [rest' ended]. simpl in *.
  constructor; assumption.
Qed.

Lemma sweep_finite (doc : value) :
  json_clone doc = doc -> json_clone (fst (sweep doc)) = fst (sweep doc).
Proof.
  intros H. destruct doc as [| b | n | s | items | fs]; trivial.
  simpl. destruct (assoc "classes" fs) as [classes|] eqn:Ec; [|exact H].
  pose proof (finite_field _ _ _ H Ec) as Hs.
  pose proof (sweep_classes_finite _ (finite_entries _ Hs)) as He.
  destruct (sweep_classes (own_entries classes)) as [entries ended].
  destruct classes as [| b | n | s | items | cf]; try exact H;
    (destruct (with_entries _ entries) as [classes'|] eqn:Ew; [|exact H]);
    simpl; (apply finite_set; [exact H|]);
    exact (with_entries_finite _ _ _ Hs He Ew).
Qed.

(** *** Without arrays of students, the sweep is followed to its end *)

Lemma sweep_student_settles (student : value) :
  not_array student = true -> sweep_student student <> Beyond.
Proof.
  destruct student as [| b | n | s | items | sf]; try discriminate; intros _;
    try (rewrite sweep_student_object; repeat case_match; discriminate);
    unfold sweep_student, get;
    rewrite ?own_entries_named by reflexivity; simpl;
    rewrite ?position_named by reflexivity; discriminate.
Qed.

Lemma sweep_students_settles (entries : list (string * value)) :
  forallb (fun p => not_array (snd p)) entries = true ->
  snd (sweep_students entries) <> Beyond.
Proof.
  induction entries as [|[studentId student] rest IH]; simpl;
    [discriminate|].
  intros H. apply andb_true_iff in H as [Hs Hr].
  pose proof (sweep_student_settles _ Hs) as Hne.
  destruct (sweep_student student) as [[kept c]| |]; simpl;
    try discriminate; [|contradiction].
  specialize (IH Hr). destruct (sweep_students rest) as [rest' ended].
  simpl in *. destruct ended; simpl; try discriminate. contradiction.
Qed.

Lemma sweep_class_settles (classData : value) :
  no_student_array classData = true -> snd (sweep_class classData) <> Beyond.
Proof.
  destruct classData as [| b | n | s | items | cf]; simpl; try discriminate.
  unfold no_student_array. simpl.
  destruct (assoc "students" cf) as [students|]; [|discriminate].
  intros H. apply andb_true_iff in H as [Ha He].
  destruct (truthy (Some students)); [|discriminate].
  pose proof (sweep_students_settles _ He) as Hne.
  destruct (sweep_students (own_entries students)) as [entries ended].
  destruct students; try discriminate Ha; exact Hne.
Qed.

Lemma sweep_classes_length (entries : list (string * value)) :
  length (fst (sweep_classes entries)) = length entries.
Proof.
  induction entries as [|[className classData] rest IH]; simpl; trivial.
  destruct (sweep_class classData) as [classData' [c| |]]; simpl; trivial.
  destruct (sweep_classes rest) as [rest' ended]. simpl in *. now rewrite IH.
Qed.

Lemma sweep_classes_settles (entries : list (string * value)) :
  forallb (fun p => no_student_array (snd p)) entries = true ->
  snd (sweep_classes entries) <> Beyond.
Proof.
  induction entries as [|[className classData] rest IH]; simpl;
    [discriminate|].
  intros H. apply andb_true_iff in H as [Hc Hr].
  pose proof (sweep_class_settles _ Hc) as Hne.
  destruct (sweep_class classData) as [classData' [c| |]]; simpl in *;
    try discriminate; [|contradiction].
  specialize (IH Hr). destruct (sweep_classes rest) as [rest' ended].
  simpl in *. destruct ended; simpl; try discriminate. contradiction.
Qed.

Lemma sweep_settles (doc : value) :
  no_student_arrays doc = true -> snd (sweep doc) <> Beyond.
Proof.
  destruct doc as [| b | n | s | items | fs]; simpl; try discriminate.
  unfold no_student_arrays. simpl.
  destruct (assoc "classes" fs) as [classes|]; [|discriminate].
  intros H. pose proof (sweep_classes_settles _ H) as Hne.
  pose proof (sweep_classes_length (own_entries classes)) as Hl.
  destruct (sweep_classes (own_entries classes)) as [entries ended].
  simpl in *.
  destruct classes as [| b | n | s | items | cf]; simpl; try discriminate;
    try exact Hne.
  simpl in Hl. unfold indexed in Hl. rewrite length_indexed_from in Hl.
  rewrite Hl, Nat.eqb_refl. exact Hne.
Qed.

(** The copy of a stamped document that holds finite numbers only. *)
Lemma json_clone_stamped (m : value) (fs : list (string * value)) :
  json_clone (VObj fs) = VObj fs ->
  json_clone (VObj (assoc_set "metadata" m fs))
  = VObj (assoc_set "metadata" (json_clone m) fs).
Proof.
  simpl. intros [= H]. now rewrite json_clone_assoc_set, H.
Qed.

(** A run of the sweep on a page whose memory cache holds a document with
    finite numbers and without arrays of students: it raises, or it
    completes and leaves a swept document in the memory cache. *)
Lemma sweep_run (e : env) (s : state) (l : loc) (doc : value) :
  memoryCache s = Some l -> heap s !! l = Some doc ->
  truthy (Some doc) = true ->
  no_student_arrays doc = true ->
  json_clone doc = doc ->
  exists o s',
    validateAndCleanupData e s = (o, s')
    /\ o <> Beyond
    /\ (o = Ret tt ->
        exists l' fs',
          memoryCache s' = Some l'
          /\ heap s' !! l' = Some (VObj fs')
          /\ sweep (VObj fs') = (VObj fs', Ret false)
          /\ clean_classes (Some (VObj fs')) = true).
Proof.
  intros Hm Hd Ht Ha Hf. unfold validateAndCleanupData.
  erewrite bind_ret by (apply getData_cached; [exact Hm | now rewrite Hd]).
  unfold mbind at 1, M_bind, deref, gets. rewrite Hd.
  pose proof (sweep_settles _ Ha) as Hne.
  pose proof (sweep_finite _ Hf) as Hf'.
  destruct (sweep doc) as [d' ended] eqn:Es. simpl fst in *. simpl snd in *.
  unfold mbind at 1, M_bind, store, modify.
  set (s1 := with_heap (<[l := d']> (heap s)) s).
  unfold mbind at 1, M_bind, lift.
  destruct ended as [changed| |]; [|do 2 eexists; split; [reflexivity|];
                                    split; discriminate|contradiction].
  destruct (sweep_ended _ _ _ Es) as (Hclean & Hsame & Hagain & _).
  destruct (sweep_ended_object _ _ _ Es) as (fs & fs' & -> & ->);
    [discriminate|].
  assert (heap s1 !! l = Some (VObj fs')) as Hl1.
  { simpl. apply list_lookup_insert_eq. eapply lookup_lt_Some, Hd. }
  destruct changed.
  - destruct (saveData_runs e l s1)
      as [E|(fs2 & count & b & s2 & Hd2 & Hv & Hc & E & W & _)].
    + erewrite bind_ret by exact E. do 2 eexists.
      split; [reflexivity|]. split; [discriminate|]. intros _.
      exists l, fs'. repeat split; trivial.
    + erewrite bind_ret by exact E. do 2 eexists.
      split; [reflexivity|]. split; [discriminate|]. intros _.
      rewrite Hl1 in Hd2. injection Hd2 as <-.
      destruct (stamped_page_alias s1 l
                  (VObj (assoc_set "metadata" (stamp e count) fs')) _ Hl1)
        as (_ & Hcopy & _).
      rewrite (json_clone_stamped _ _ Hf') in Hcopy.
      pose proof (wrote_heap _ _ _ (length (heap s1)) W) as Hh.
      destruct W as (_ & Hm' & _).
      exists (length (heap s1)),
        (assoc_set "metadata" (json_clone (stamp e count)) fs').
      split; [now rewrite Hm'|]. split; [now rewrite Hh|].
      split; [now apply sweep_stamped|]. now rewrite clean_classes_stamped.
  - do 2 eexists. split; [reflexivity|]. split; [discriminate|]. intros _.
    specialize (Hsame eq_refl). injection Hsame as ->.
    exists l, fs. unfold s1. rewrite with_heap_same by exact Hd.
    repeat split; trivial.
Qed.

(** X18.  What the sweep leaves behind.  Take a page whose memory cache
    holds a document with finite numbers only and with no array where the
    students of a class, or a student, are expected.  Then
    [validateAndCleanupData] either raises or completes, and when it
    completes, every student of every class of the authoritative document
    has a name that is a string and not empty, and a number of stars that is
    not negative: the students the validator lets through with a number or
    an object for a name have been deleted. *)
Theorem sweep_leaves_clean_students (e : env) (s : state) (l : loc)
    (doc : value) :
  memoryCache s = Some l -> heap s !! l = Some doc ->
  truthy (Some doc) = true ->
  no_student_arrays doc = true ->
  json_clone doc = doc ->
  exists o s',
    validateAndCleanupData e s = (o, s')
    /\ (o = Throw \/ o = Ret tt)
    /\ (o = Ret tt -> clean_classes (authoritative s') = true).
Proof.
  intros Hm Hd Ht Ha Hf.
  destruct (sweep_run e s l doc Hm Hd Ht Ha Hf) as (o & s' & E & Hne & H).
  exists o, s'. split; [exact E|]. split.
  - destruct o as [[]| |]; auto. now elim Hne.
  - intros Ho. destruct (H Ho) as (l' & fs' & Hm' & Hd' & _ & Hc).
    unfold authoritative. now rewrite Hm', Hd'.
Qed.

Lemma sweep_leaves_clean_students_witness :
  exists o s',
    validateAndCleanupData offline (page_with untidy) = (o, s')
    /\ (o = Throw \/ o = Ret tt)
    /\ (o = Ret tt -> clean_classes (authoritative s') = true).
Proof.
  apply (sweep_leaves_clean_students offline (page_with untidy) 0%nat untidy);
    reflexivity.
Defined.

(** X19.  The sweep is idempotent.  On a page as in X18 (a document in the
    memory cache with finite numbers only and no array where the students of
    a class, or a student, are expected), a sweep raises or completes, and
    after one that completed a second one, in whatever surroundings, finds
    nothing to change and does nothing at all: it saves nothing, sends no
    request and leaves the page and every store as they are. *)
Theorem sweep_twice_is_sweep_once (e e' : env) (s : state) (l : loc)
    (doc : value) :
  memoryCache s = Some l -> heap s !! l = Some doc ->
  truthy (Some doc) = true ->
  no_student_arrays doc = true ->
  json_clone doc = doc ->
  exists o s1,
    validateAndCleanupData e s = (o, s1)
    /\ (o = Throw \/ o = Ret tt)
    /\ (o = Ret tt -> validateAndCleanupData e' s1 = (Ret tt, s1)).
Proof.
  intros Hm Hd Ht Ha Hf.
  destruct (sweep_run e s l doc Hm Hd Ht Ha Hf) as (o & s1 & E & Hne & H).
  exists o, s1. split; [exact E|]. split.
  - destruct o as [[]| |]; auto. now elim Hne.
  - intros Ho. destruct (H Ho) as (l' & fs' & Hm' & Hd' & Hagain & _).
    unfold validateAndCleanupData.
    erewrite bind_ret by (apply getData_cached; [exact Hm' | now rewrite Hd']).
    unfold mbind at 1, M_bind, deref, gets. rewrite Hd', Hagain. simpl fst.
    simpl snd. unfold mbind, M_bind, store, modify, lift.
    now rewrite with_heap_same.
Qed.

Lemma sweep_twice_is_sweep_once_witness :
  exists o s1,
    validateAndCleanupData offline (page_with untidy) = (o, s1)
    /\ (o = Throw \/ o = Ret tt)
    /\ (o = Ret tt -> validateAndCleanupData all_well s1 = (Ret tt, s1)).
Proof.
  apply (sweep_twice_is_sweep_once offline all_well (page_with untidy) 0%nat
           untidy); reflexivity.
Defined.

(** ** The sweep after the validator *)

Lemma sweep_student_passing (student : value) :
  passing_student student = true ->
  sweep_student student
  = Ret (if string_named student then Some student else None,
         negb (string_named student)).
Proof.
  destruct student as [| | | | |sf]; try discriminate.
  unfold passing_student, string_named. simpl field.
  rewrite sweep_student_object. intros H.
  apply andb_true_iff in H as [Hn Hs]. rewrite Hn.
  destruct (assoc "stars" sf) as [[| |n| | |]|]; try discriminate Hs.
  unfold at_most in Hs. apply negb_true_iff in Hs.
  unfold typeof at 2, negative. simpl. rewrite Hs.
  destruct (assoc "name" sf) as [[| | | | |]|]; reflexivity.
Qed.

Lemma sweep_students_passing (entries : list (string * value)) :
  forallb (fun p => passing_student (snd p)) entries = true ->
  sweep_students entries
  = (List.filter (fun p => string_named (snd p)) entries,
     Ret (negb (forallb (fun p => string_named (snd p)) entries))).
Proof.
  induction entries as [|[studentId student] rest IH]; simpl; trivial.
  intros H. apply andb_true_iff in H as [Hs Hr].
  rewrite (sweep_student_passing _ Hs), (IH Hr). simpl.
  destruct (string_named student); simpl; trivial.
Qed.

Lemma sweep_class_passing (classData : value) :
  passing_class classData = true -> object_students classData = true ->
  sweep_class classData
  = (tidy_class classData,
     Ret (negb (forallb (fun q => string_named (snd q))
                  (own_entries
                     (default VNull (field classData "students"))))))
  /\ passing_class (tidy_class classData) = true.
Proof.
  destruct classData as [| | | | |cf]; try discriminate.
  unfold object_students. simpl.
  destruct (assoc "students" cf) as [[| | | | |sf]|] eqn:Ec; try discriminate.
  intros Hp _. change (truthy (Some (VObj sf))) with true. cbv iota.
  simpl own_entries. simpl in Hp. rewrite (sweep_students_passing _ Hp).
  simpl. split; [reflexivity|]. rewrite assoc_set_same. simpl.
  clear Ec. induction sf as [|[k st] rest IH]; simpl; trivial.
  simpl in Hp. apply andb_true_iff in Hp as [Hs Hr].
  destruct (string_named st); simpl; [rewrite Hs|]; auto.
Qed.

Lemma sweep_classes_passing (classes : list (string * value)) :
  forallb (fun p => passing_class (snd p)) classes = true ->
  forallb (fun p => object_students (snd p)) classes = true ->
  sweep_classes classes
  = (tidy_classes classes, Ret (negb (all_string_named classes)))
  /\ forallb (fun p => passing_class (snd p)) (tidy_classes classes) = true.
Proof.
  induction classes as [|[className classData] rest IH]; simpl; auto.
  intros Hp Ho. apply andb_true_iff in Hp as [Hp Hpr].
  apply andb_true_iff in Ho as [Ho Hor].
  destruct (sweep_class_passing _ Hp Ho) as [-> ->].
  destruct (IH Hpr Hor) as [-> ->]. simpl. split; [|reflexivity].
  now rewrite negb_andb.
Qed.

(** X20.  The sweep after the validator.  On a document that passes the
    validator, with its classes and their students held in objects, the
    sweep resets no star count and deletes no class: it deletes the students
    whose name is not a string, which the validator let through, and nothing
    else.  It reports a change exactly when there was such a student, and
    what it leaves passes the validator again.  With [classes: null], which
    the validator lets through as well, the sweep raises. *)
Theorem sweep_after_the_validator (d : value) (fs : list (string * value)) :
  d = VObj fs ->
  validateDataStructure (Some d) = Ret true ->
  (forall classes,
     assoc "classes" fs = Some (VObj classes) ->
     forallb (fun p => object_students (snd p)) classes = true ->
     sweep d
     = (VObj (assoc_set "classes" (VObj (tidy_classes classes)) fs),
        Ret (negb (all_string_named classes)))
     /\ validateDataStructure
          (Some (VObj (assoc_set "classes" (VObj (tidy_classes classes)) fs)))
        = Ret true)
  /\ (assoc "classes" fs = Some VNull -> sweep d = (d, Throw)).
Proof.
  intros -> Hv. split.
  - intros classes Ec Ho. apply valid_iff_passing in Hv.
    rewrite valid_iff_passing. revert Hv. unfold passing.
    rewrite (assoc_set_other "hasOwnProperty" "classes") by discriminate.
    rewrite (assoc_set_other "teachers" "classes") by discriminate.
    rewrite (assoc_set_other "settings" "classes") by discriminate.
    rewrite assoc_set_same.
    destruct (assoc "hasOwnProperty" fs); [discriminate|]. rewrite Ec.
    destruct (assoc "teachers" fs); [|discriminate].
    destruct (assoc "settings" fs); [|discriminate].
    intros H. apply andb_true_iff in H as [H Hs].
    apply andb_true_iff in H as [Hc Ht]. simpl in Hc.
    destruct (sweep_classes_passing _ Hc Ho) as [Hsweep Hpass].
    split.
    + simpl. rewrite Ec. simpl own_entries. now rewrite Hsweep.
    + simpl passing_entries at 1. now rewrite Hpass, Ht, Hs.
  - intros Ec. simpl. now rewrite Ec.
Qed.

Lemma sweep_after_the_validator_witness :
  (forall classes,
     assoc "classes"
       [("classes", VObj [("Math", class_of (VNum 42) (VNum 0))]);
        ("teachers", VObj []); ("settings", VObj [])]
     = Some (VObj classes) ->
     forallb (fun p => object_students (snd p)) classes = true ->
     sweep numeric_name
     = (VObj (assoc_set "classes" (VObj (tidy_classes classes))
                [("classes", VObj [("Math", class_of (VNum 42) (VNum 0))]);
                 ("teachers", VObj []); ("settings", VObj [])]),
        Ret (negb (all_string_named classes)))
     /\ validateDataStructure
          (Some (VObj (assoc_set "classes" (VObj (tidy_classes classes))
                         [("classes",
                           VObj [("Math", class_of (VNum 42) (VNum 0))]);
                          ("teachers", VObj []); ("settings", VObj [])])))
        = Ret true)
  /\ (assoc "classes"
        [("classes", VObj [("Math", class_of (VNum 42) (VNum 0))]);
         ("teachers", VObj []); ("settings", VObj [])]
      = Some VNull ->
      sweep numeric_name = (numeric_name, Throw)).
Proof.
  apply (sweep_after_the_validator numeric_name
           [("classes", VObj [("Math", class_of (VNum 42) (VNum 0))]);
            ("teachers", VObj []); ("settings", VObj [])]);
    reflexivity.
Defined.

(** ** The teacher's operations *)

(** *** Lists of properties under the operations *)

Lemma assoc_app_none (k : string) (x : value) (fs : list (string * value)) :
  forall k', assoc k' (fs ++ [(k, x)])%list
             = match assoc k' fs with
               | Some y => Some y
               | None => if (k' =? k)%string then Some x else None
               end.
Proof.
  intros k'. induction fs as [|[k2 v] rest IH]; simpl; trivial.
  now destruct (k' =? k2)%string.
Qed.

Lemma assoc_insert_index (n : N) (k : string) (x : value)
    (fs : list (string * value)) :
  assoc k fs = None ->
  forall k', assoc k' (insert_index n k x fs)
             = if (k' =? k)%string then Some x else assoc k' fs.
Proof.
  intros Hk k'. induction fs as [|[k2 v] rest IH]; simpl.
  - now destruct (k' =? k)%string.
  - simpl in Hk. destruct (String.eqb_spec k k2) as [->|Hne]; [discriminate|].
    assert (assoc k' ((k, x) :: (k2, v) :: rest)
            = if (k' =? k)%string then Some x
              else if (k' =? k2)%string then Some v else assoc k' rest) as Hhere
      by reflexivity.
    destruct (array_index k2) as [m|]; [destruct (m <? n)%N|]; trivial.
    simpl. rewrite (IH Hk).
    destruct (String.eqb_spec k' k2) as [->|H2]; trivial.
    now destruct (String.eqb_spec k2 k); [congruence|].
Qed.

(** A property that is added is found, and hides no other. *)
Lemma assoc_add_property (k : string) (x : value) (fs : list (string * value)) :
  assoc k fs = None ->
  forall k', assoc k' (add_property k x fs)
             = if (k' =? k)%string then Some x else assoc k' fs.
Proof.
  intros Hk k'. unfold add_property. destruct (array_index k) as [n|].
  - now apply assoc_insert_index.
  - rewrite assoc_app_none.
    destruct (String.eqb_spec k' k) as [->|H]; [now rewrite Hk|].
    now destruct (assoc k' fs).
Qed.

Lemma assoc_filter (k : string) (fs : list (string * value)) :
  forall k', assoc k' (List.filter (fun p => negb (fst p =? k)%string) fs)
             = if (k' =? k)%string then None else assoc k' fs.
Proof.
  intros k'. induction fs as [|[k2 v] rest IH]; simpl.
  - now destruct (k' =? k)%string.
  - destruct (String.eqb_spec k2 k) as [->|H2]; simpl.
    + rewrite IH. destruct (String.eqb_spec k' k); trivial.
    + destruct (String.eqb_spec k' k2) as [->|H']; trivial.
      destruct (String.eqb_spec k2 k); [contradiction|trivial].
Qed.

Lemma all_pass_assoc (f : value -> bool) (fs : list (string * value))
    (k : string) (x : value) :
  all_pass f fs = true -> assoc k fs = Some x -> f x = true.
Proof.
  unfold all_pass. induction fs as [|[k' v] rest IH]; simpl; [discriminate|].
  intros H. apply andb_true_iff in H as [Hv Hr].
  destruct (k =? k')%string; [now intros [= <-]|now apply IH].
Qed.

Lemma all_pass_assoc_set (f : value -> bool) (fs : list (string * value))
    (k : string) (x : value) :
  f x = true -> all_pass f fs = true -> all_pass f (assoc_set k x fs) = true.
Proof.
  unfold all_pass. intros Hx.
  induction fs as [|[k' v] rest IH]; simpl; [now rewrite Hx|].
  intros H. apply andb_true_iff in H as [Hv Hr].
  destruct (k =? k')%string; simpl; [now rewrite Hx|now rewrite Hv, IH].
Qed.

Lemma all_pass_add_property (f : value -> bool) (fs : list (string * value))
    (k : string) (x : value) :
  f x = true -> all_pass f fs = true -> all_pass f (add_property k x fs) = true.
Proof.
  unfold all_pass, add_property. intros Hx H. destruct (array_index k) as [n|].
  - induction fs as [|[k' v] rest IH]; simpl; [now rewrite Hx|].
    simpl in H. apply andb_true_iff in H as [Hv Hr].
    destruct (array_index k') as [m|]; [destruct (m <? n)%N|]; simpl;
      rewrite ?Hx, ?Hv, ?Hr, ?IH; trivial.
  - rewrite forallb_app, H. simpl. now rewrite Hx.
Qed.

Lemma assign_finite (fs fs' : list (string * value)) (k : string) (x : value) :
  assign (Some (VObj fs)) k x = Ret (VObj fs') ->
  finite_value (VObj fs) = true -> finite_value x = true ->
  finite_value (VObj fs') = true.
Proof.
  simpl. destruct (assoc k fs).
  - intros [= <-] H Hx. now apply (all_pass_assoc_set finite_value).
  - destruct (k =? "__proto__")%string; [discriminate|].
    intros [= <-] H Hx. now apply (all_pass_add_property finite_value).
Qed.

Lemma all_pass_filter (f : value -> bool) (g : string * value -> bool)
    (fs : list (string * value)) :
  all_pass f fs = true -> all_pass f (List.filter g fs) = true.
Proof.
  unfold all_pass. induction fs as [|p rest IH]; simpl; trivial.
  intros H. apply andb_true_iff in H as [Hv Hr].
  destruct (g p); simpl; [now rewrite Hv, IH|now apply IH].
Qed.

(** *** What passes the validator, under the operations *)

Lemma passing_entries_object (f : value -> bool) (c : value) :
  is_object_value c = true ->
  passing_entries f c = all_pass f (own_entries c).
Proof. now destruct c. Qed.

Lemma passing_class_inv (classData : value) :
  passing_class classData = true ->
  exists cf students,
    classData = VObj cf /\ assoc "students" cf = Some students
    /\ is_object_value students = true
    /\ passing_entries passing_student students = true.
Proof.
  destruct classData as [| | | | |cf]; try discriminate.
  intros H. simpl in H.
  destruct (assoc "students" cf) as [students|] eqn:E; [|discriminate].
  apply andb_true_iff in H as [Ho Hs].
  exists cf, students. repeat split; trivial.
  now rewrite passing_entries_object.
Qed.

Lemma passing_inv (fs : list (string * value)) :
  passing (Some (VObj fs)) = true ->
  exists classes,
    assoc "classes" fs = Some classes
    /\ passing_entries passing_class classes = true.
Proof.
  unfold passing. destruct (assoc "hasOwnProperty" fs); [discriminate|].
  destruct (assoc "classes" fs) as [classes|]; [|discriminate].
  destruct (assoc "teachers" fs); [|discriminate].
  destruct (assoc "settings" fs); [|discriminate].
  intros H. apply andb_true_iff in H as [H _].
  apply andb_true_iff in H as [H _]. eauto.
Qed.

Lemma passing_classes (fs : list (string * value)) (classes' : value) :
  passing (Some (VObj fs)) = true ->
  passing_entries passing_class classes' = true ->
  passing (Some (VObj (assoc_set "classes" classes' fs))) = true.
Proof.
  unfold passing.
  rewrite (assoc_set_other "hasOwnProperty" "classes") by discriminate.
  rewrite (assoc_set_other "teachers" "classes") by discriminate.
  rewrite (assoc_set_other "settings" "classes") by discriminate.
  rewrite assoc_set_same.
  destruct (assoc "hasOwnProperty" fs); [discriminate|].
  destruct (assoc "classes" fs) as [classes|]; [|discriminate].
  destruct (assoc "teachers" fs); [|discriminate].
  destruct (assoc "settings" fs); [|discriminate].
  intros H Hc. apply andb_true_iff in H as [H Hs].
  apply andb_true_iff in H as [_ Ht]. now rewrite Hc, Ht, Hs.
Qed.

(** The end of every operation: the changed document is put where the old
    one was and handed to [saveData]; whether the save goes through or not,
    the page holds the changed document: itself when the save was refused,
    the copy of the stamped document when it went through. *)
Lemma store_and_save {A : Type} (e : env) (s : state) (l : loc)
    (fs fs' : list (string * value)) (k : bool -> M A) :
  memoryCache s = Some l -> heap s !! l = Some (VObj fs) ->
  exists b s' l' held,
    (store l (VObj fs');; (saveData e l ≫= k)) s = k b s'
    /\ memoryCache s' = Some l'
    /\ heap s' !! l' = Some held
    /\ currentClass s' = currentClass s
    /\ (held = VObj fs'
        \/ exists m,
             held = json_clone (VObj (assoc_set "metadata" m fs'))
             /\ validateDataStructure (Some (VObj fs')) = Ret true).
Proof.
  intros Hm Hd. unfold mbind at 1, M_bind, store, modify.
  set (s1 := with_heap (<[l := VObj fs']> (heap s)) s).
  assert (heap s1 !! l = Some (VObj fs')) as Hl1.
  { simpl. apply list_lookup_insert_eq. eapply lookup_lt_Some, Hd. }
  destruct (saveData_runs e l s1)
    as [E|(fs2 & count & b & s2 & Hd2 & Hv & Hc & E & W & _)].
  - exists false, s1, l, (VObj fs'). erewrite bind_ret by exact E.
    repeat split; auto.
  - rewrite Hl1 in Hd2. injection Hd2 as <-.
    destruct (stamped_page_alias s1 l
                (VObj (assoc_set "metadata" (stamp e count) fs')) _ Hl1)
      as (_ & Hcopy & _).
    pose proof (wrote_heap _ _ _ (length (heap s1)) W) as Hh.
    destruct W as (_ & Hm' & Hc' & _).
    exists b, s2, (length (heap s1)),
      (json_clone (VObj (assoc_set "metadata" (stamp e count) fs'))).
    erewrite bind_ret by exact E.
    split; [reflexivity|]. split; [now rewrite Hm'|].
    split; [now rewrite Hh|]. split; [now rewrite Hc'|]. eauto.
Qed.

(** *** Steps of an operation *)

Lemma lift_bind {A B : Type} (o : outcome A) (k : A -> M B) (s : state) :
  (lift o ≫= k) s
  = match o with
    | Ret a => k a s
    | Throw => (Throw, s)
    | Beyond => (Beyond, s)
    end.
Proof. unfold mbind, M_bind, lift. now destruct o. Qed.

Lemma gets_bind {A B : Type} (f : state -> A) (k : A -> M B) (s : state) :
  (gets f ≫= k) s = k (f s) s.
Proof. reflexivity. Qed.

(** The start of an operation on a page that holds a document. *)
Lemma getData_deref {A : Type} (e : env) (s : state) (l : loc) (d : value)
    (k : loc -> option value -> M A) :
  memoryCache s = Some l -> heap s !! l = Some d -> truthy (Some d) = true ->
  (data ← getData e; doc ← deref data; k data doc) s = k l (Some d) s.
Proof.
  intros Hm Hd Ht.
  erewrite bind_ret by (apply getData_cached; [exact Hm | now rewrite Hd]).
  unfold deref. now rewrite gets_bind, Hd.
Qed.

Lemma store_bind {A : Type} (l : loc) (v : value) (k : M A) (s : state) :
  (store l v;; k) s = k (with_heap (<[l := v]> (heap s)) s).
Proof. reflexivity. Qed.

Lemma classes_of_held (s : state) (l : loc) (fs : list (string * value))
    (classes : value) :
  memoryCache s = Some l -> heap s !! l = Some (VObj fs) ->
  assoc "classes" fs = Some classes ->
  classes_of s = Some classes.
Proof.
  intros Hm Hd Ec. unfold classes_of, authoritative. now rewrite Hm, Hd.
Qed.

(** *** What the operations keep *)

Lemma finite_value_clone (v : value) :
  finite_value v = true <-> json_clone v = v.
Proof.
  induction v as [| b | n | s | items IH | fs IH] using value_nested_ind;
    simpl; try tauto.
  - destruct n; split; try discriminate; trivial.
  - split.
    + intros H. f_equal.
      induction IH as [|x items Hx _ IHitems]; simpl in *; trivial.
      apply andb_true_iff in H as [H1 H2].
      now rewrite (proj1 Hx H1), IHitems.
    + intros [= H].
      induction IH as [|x items Hx _ IHitems]; simpl in *; trivial.
      injection H as H1 H2. now rewrite (proj2 Hx H1), IHitems.
  - split.
    + intros H. f_equal.
      induction IH as [|[k x] fs Hx _ IHfs]; simpl in *; trivial.
      apply andb_true_iff in H as [H1 H2].
      now rewrite (proj1 Hx H1), IHfs.
    + intros [= H].
      induction IH as [|[k x] fs Hx _ IHfs]; simpl in *; trivial.
      injection H as H1 H2. now rewrite (proj2 Hx H1), IHfs.
Qed.

Lemma all_pass_weaken (f g : value -> bool) (fs : list (string * value)) :
  (forall x, f x = true -> g x = true) ->
  all_pass f fs = true -> all_pass g fs = true.
Proof.
  unfold all_pass. intros Hfg. induction fs as [|[k x] fs IH]; simpl; trivial.
  intros H. apply andb_true_iff in H as [Hx Hr]. now rewrite (Hfg _ Hx), IH.
Qed.

Lemma all_pass_both (f g : value -> bool) (fs : list (string * value)) :
  all_pass f fs = true -> all_pass g fs = true ->
  all_pass (fun x => f x && g x) fs = true.
Proof.
  unfold all_pass. induction fs as [|[k x] fs IH]; simpl; trivial.
  intros H G. apply andb_true_iff in H as [Hx Hr].
  apply andb_true_iff in G as [Gx Gr]. now rewrite Hx, Gx, IH.
Qed.

Lemma kept_class_inv (classData : value) :
  kept_class classData = true ->
  exists cdf sf,
    classData = VObj cdf /\ assoc "students" cdf = Some (VObj sf)
    /\ all_pass kept_student sf = true
    /\ finite_value (VObj cdf) = true.
Proof.
  unfold kept_class. intros H. apply andb_true_iff in H as [H Hf].
  apply andb_true_iff in H as [Hp Ho].
  destruct classData as [| | | | |cdf]; try discriminate.
  unfold object_students in Ho. simpl in Hp, Ho.
  destruct (assoc "students" cdf) as [[| | | | |sf]|] eqn:Es; try discriminate.
  exists cdf, sf. repeat split; trivial.
  apply all_pass_both; [exact Hp|].
  exact (all_pass_assoc finite_value cdf "students" (VObj sf) Hf Es).
Qed.

Lemma kept_class_students (cdf sf' : list (string * value)) :
  finite_value (VObj cdf) = true ->
  all_pass kept_student sf' = true ->
  kept_class (VObj (assoc_set "students" (VObj sf') cdf)) = true.
Proof.
  intros Hf Hs.
  assert (all_pass passing_student sf' = true) as Hp
    by (eapply all_pass_weaken; [|exact Hs]; unfold kept_student;
        intros x Hx; now apply andb_true_iff in Hx as [-> _]).
  assert (all_pass finite_value sf' = true) as Hfs
    by (eapply all_pass_weaken; [|exact Hs]; unfold kept_student;
        intros x Hx; now apply andb_true_iff in Hx as [_ ->]).
  unfold kept_class. repeat (apply andb_true_iff; split).
  - simpl. rewrite assoc_set_same. exact Hp.
  - unfold object_students. simpl. now rewrite assoc_set_same.
  - now apply (all_pass_assoc_set finite_value).
Qed.

Lemma kept_page_inv (s : state) :
  kept_page s ->
  exists l fs cf,
    memoryCache s = Some l /\ heap s !! l = Some (VObj fs)
    /\ passing (Some (VObj fs)) = true
    /\ finite_value (VObj fs) = true
    /\ assoc "classes" fs = Some (VObj cf)
    /\ all_pass kept_class cf = true.
Proof.
  unfold kept_page, kept, authoritative. intros (Hv & Hj & Ho).
  destruct (validateDataStructure_object _ Hv) as (fs & Hd).
  destruct (memoryCache s) as [l|]; [|discriminate].
  rewrite Hd in *. simpl in Hj, Ho. injection Hj as Hj.
  apply valid_iff_passing in Hv.
  assert (finite_value (VObj fs) = true) as Hf
    by (apply finite_value_clone; simpl; now rewrite Hj).
  destruct (assoc "classes" fs) as [[| | | | |cf]|] eqn:Ec; try discriminate.
  exists l, fs, cf. repeat split; trivial.
  destruct (passing_inv _ Hv) as (classes & Ec' & Hc).
  rewrite Ec in Ec'. injection Ec' as <-.
  pose proof (all_pass_assoc finite_value fs "classes" (VObj cf) Hf Ec) as Hfc.
  unfold kept_class.
  apply (all_pass_both (fun x => passing_class x && object_students x));
    [|exact Hfc].
  now apply (all_pass_both passing_class object_students).
Qed.

(** The end of an operation on a page that keeps its document: the changed
    classes are put in the document, which is stored where the old one was
    and handed to [saveData]. *)
Lemma finish_kept {A : Type} (e : env) (s : state) (l : loc)
    (fs0 fs cf' : list (string * value)) (k : bool -> M A) :
  memoryCache s = Some l -> heap s !! l = Some (VObj fs0) ->
  passing (Some (VObj fs)) = true ->
  finite_value (VObj fs) = true ->
  all_pass kept_class cf' = true ->
  exists b s2,
    (store l (VObj (assoc_set "classes" (VObj cf') fs));; (saveData e l ≫= k)) s
    = k b s2
    /\ kept_page s2
    /\ currentClass s2 = currentClass s.
Proof.
  intros Hm Hd Hp Hf Hc.
  set (fs' := assoc_set "classes" (VObj cf') fs).
  assert (all_pass passing_class cf' = true) as Hpc.
  { eapply all_pass_weaken; [|exact Hc]. unfold kept_class. intros x Hx.
    apply andb_true_iff in Hx as [Hx _]. now apply andb_true_iff in Hx as [-> _]. }
  assert (all_pass object_students cf' = true) as Hoc.
  { eapply all_pass_weaken; [|exact Hc]. unfold kept_class. intros x Hx.
    apply andb_true_iff in Hx as [Hx _]. now apply andb_true_iff in Hx as [_ ->]. }
  assert (finite_value (VObj cf') = true) as Hfc.
  { apply (all_pass_weaken kept_class finite_value); [|exact Hc].
    unfold kept_class. intros x Hx. now apply andb_true_iff in Hx as [_ Hx]. }
  assert (passing (Some (VObj fs')) = true) as Hp' by now apply passing_classes.
  assert (json_clone (VObj fs') = VObj fs') as Hj'.
  { apply finite_value_clone. now apply (all_pass_assoc_set finite_value). }
  destruct (store_and_save e s l fs0 fs' k Hm Hd)
    as (b & s2 & l' & held & E & Hm' & Hd' & Hcur & Hheld).
  exists b, s2. split; [exact E|]. split; [|exact Hcur].
  unfold kept_page, kept, authoritative. rewrite Hm', Hd'.
  destruct Hheld as [->|(m & -> & Hv)].
  - split; [now apply valid_iff_passing|]. split; [simpl in *; now rewrite Hj'|].
    unfold fs'. simpl. now rewrite assoc_set_same.
  - rewrite (json_clone_stamped _ _ Hj'). split; [|split].
    + now rewrite validateDataStructure_set_metadata.
    + simpl fmap. f_equal. apply finite_set; [exact Hj'|].
      apply json_clone_idempotent.
    + unfold fs'. simpl.
      rewrite (assoc_set_other "classes" "metadata") by discriminate.
      now rewrite assoc_set_same.
Qed.

(** The operation has ended, with or without an exception, and the page is
    as it was. *)
Ltac as_it_was V :=
  do 2 eexists; split; [reflexivity|]; split; [discriminate|exact V].

Lemma kept_class_truthy (cf : list (string * value)) (k : string) (c : value) :
  all_pass kept_class cf = true -> assoc k cf = Some c ->
  kept_class c = true /\ truthy (Some c) = true.
Proof.
  intros Hc Ea. pose proof (all_pass_assoc _ _ _ _ Hc Ea) as Hk.
  split; [exact Hk|]. now destruct (kept_class_inv _ Hk) as (cdf & sf & -> & _).
Qed.

Lemma not_inherited_proto (k : string) :
  inherited k = false -> (k =? "__proto__")%string = false.
Proof.
  intros H.
  destruct (String.eqb_spec k "__proto__") as [->|]; [discriminate H|reflexivity].
Qed.

Lemma createClass_kept (e : env) (className : string) (s : state) :
  kept_page s ->
  exists o s', createClass e className s = (o, s')
               /\ o <> Beyond /\ kept_page s'.
Proof.
  intros V.
  destruct (kept_page_inv _ V) as (l & fs & cf & Hm & Hd & Hp & Hf & Ec & Hc).
  unfold createClass.
  destruct (className =? EmptyString)%string; [as_it_was V|].
  rewrite (getData_deref e s l (VObj fs)) by auto.
  rewrite lift_bind, (get_object _ _ _ Ec).
  rewrite lift_bind. simpl find.
  destruct (assoc className cf) as [c|] eqn:Ea.
  - destruct (kept_class_truthy _ _ _ Hc Ea) as [_ Ht].
    change (found_truthy (Own c)) with (truthy (Some c)). rewrite Ht.
    as_it_was V.
  - destruct (inherited className) eqn:Hi; [as_it_was V|].
    change (found_truthy Missing) with false. cbv iota.
    rewrite lift_bind. simpl assign. rewrite Ea, (not_inherited_proto _ Hi).
    rewrite lift_bind. simpl set. cbv iota.
    destruct (finish_kept e s l fs fs
                (add_property className
                   (VObj [("students", VObj []); ("created", VStr (now e))])
                   cf)
                (fun _ => mret tt) Hm Hd Hp Hf)
      as (b & s2 & E & V2 & _).
    { now apply all_pass_add_property. }
    rewrite E. exists (Ret tt), s2. split; [reflexivity|].
    split; [discriminate|exact V2].
Qed.

Lemma deleteClass_kept (e : env) (s : state) :
  kept_page s ->
  exists o s', deleteClass e s = (o, s') /\ o <> Beyond /\ kept_page s'.
Proof.
  intros V.
  destruct (kept_page_inv _ V) as (l & fs & cf & Hm & Hd & Hp & Hf & Ec & Hc).
  unfold deleteClass. rewrite gets_bind.
  destruct (no_class (currentClass s)); [as_it_was V|].
  rewrite (getData_deref e s l (VObj fs)) by auto.
  rewrite lift_bind, (get_object _ _ _ Ec).
  rewrite lift_bind. simpl remove. cbv iota.
  rewrite lift_bind. simpl set. cbv iota.
  destruct (finish_kept e s l fs fs
              (List.filter
                 (fun p => negb (fst p =? class_key (currentClass s))%string) cf)
              (fun _ => modify (with_currentClass (Some EmptyString)))
              Hm Hd Hp Hf)
    as (b & s2 & E & V2 & _).
  { now apply all_pass_filter. }
  rewrite E. exists (Ret tt), (with_currentClass (Some EmptyString) s2).
  split; [reflexivity|]. split; [discriminate|exact V2].
Qed.

Lemma has_class_held (s : state) (l : loc) (fs cf : list (string * value))
    (k : string) :
  memoryCache s = Some l -> heap s !! l = Some (VObj fs) ->
  assoc "classes" fs = Some (VObj cf) ->
  has_class s k = match assoc k cf with Some _ => true | None => false end.
Proof.
  intros Hm Hd Ec. unfold has_class.
  now rewrite (classes_of_held s l fs (VObj cf) Hm Hd Ec).
Qed.

Lemma renameClass_kept (e : env) (newName : string) (s : state) :
  kept_page s -> allowed (RenameClass newName) s = true ->
  exists o s', renameClass e newName s = (o, s')
               /\ o <> Beyond /\ kept_page s'.
Proof.
  intros V Ha.
  destruct (kept_page_inv _ V) as (l & fs & cf & Hm & Hd & Hp & Hf & Ec & Hc).
  simpl in Ha. apply andb_true_iff in Ha as [Hi Hhas].
  apply negb_true_iff in Hi.
  unfold renameClass. rewrite gets_bind.
  destruct (no_class (currentClass s)) eqn:Hno; [as_it_was V|].
  destruct ((newName =? EmptyString)%string || _); [as_it_was V|].
  simpl in Hhas. rewrite (has_class_held s l fs cf _ Hm Hd Ec) in Hhas.
  set (key := class_key (currentClass s)) in *.
  destruct (assoc key cf) as [classData|] eqn:Ea; [|discriminate Hhas].
  destruct (kept_class_truthy _ _ _ Hc Ea) as [Hk _].
  rewrite (getData_deref e s l (VObj fs)) by auto.
  rewrite lift_bind, (get_object _ _ _ Ec).
  rewrite lift_bind. simpl find. rewrite Ea. cbv iota.
  assert (exists cf1,
             assign (Some (VObj cf)) newName classData = Ret (VObj cf1)
             /\ all_pass kept_class cf1 = true) as (cf1 & Eas & Hc1).
  { simpl. destruct (assoc newName cf).
    - eexists. split; [reflexivity|]. now apply all_pass_assoc_set.
    - rewrite (not_inherited_proto _ Hi). eexists. split; [reflexivity|].
      now apply all_pass_add_property. }
  rewrite lift_bind, Eas. rewrite lift_bind. simpl set. cbv iota.
  rewrite store_bind.
  set (s1 := with_heap (<[l := VObj (assoc_set "classes" (VObj cf1) fs)]>
                          (heap s)) s).
  assert (heap s1 !! l = Some (VObj (assoc_set "classes" (VObj cf1) fs)))
    as Hd1.
  { simpl. apply list_lookup_insert_eq. eapply lookup_lt_Some, Hd. }
  rewrite lift_bind. simpl remove. cbv iota.
  rewrite lift_bind. simpl set. cbv iota. rewrite assoc_set_twice.
  destruct (finish_kept e s1 l _ fs
              (List.filter (fun p => negb (fst p =? key)%string) cf1)
              (fun _ => modify (with_currentClass (Some newName)))
              Hm Hd1 Hp Hf)
    as (b & s2 & E & V2 & _).
  { now apply all_pass_filter. }
  rewrite E. exists (Ret tt), (with_currentClass (Some newName) s2).
  split; [reflexivity|]. split; [discriminate|exact V2].
Qed.

Lemma new_student_kept (name t : string) :
  (name =? EmptyString)%string = false ->
  kept_student
    (VObj [("name", VStr name); ("stars", VNum 0); ("created", VStr t)])
  = true.
Proof. intros H. unfold kept_student. simpl. unfold truthy. now rewrite H. Qed.

(** A class of a kept document, with a student put in or replaced. *)
Lemma kept_class_put (cf cdf sf : list (string * value)) (key id : string)
    (student' : value) :
  all_pass kept_class cf = true ->
  assoc key cf = Some (VObj cdf) -> assoc "students" cdf = Some (VObj sf) ->
  kept_student student' = true ->
  forall sf', sf' = assoc_set id student' sf
              \/ sf' = add_property id student' sf ->
    all_pass kept_class
      (assoc_set key (VObj (assoc_set "students" (VObj sf') cdf)) cf) = true.
Proof.
  intros Hc Ea Es Hst sf' Hsf'.
  destruct (kept_class_truthy _ _ _ Hc Ea) as [Hk _].
  destruct (kept_class_inv _ Hk) as (cdf0 & sf0 & [= <-] & Es0 & Hs & Hf).
  rewrite Es in Es0. injection Es0 as <-.
  apply all_pass_assoc_set; [|exact Hc].
  apply kept_class_students; [exact Hf|].
  destruct Hsf' as [->| ->];
    [now apply all_pass_assoc_set|now apply all_pass_add_property].
Qed.

(** The rest of [addStudent] once the class is there. *)
Lemma addStudent_in_class (e : env) (s : state) (l : loc)
    (fs0 fs cf1 : list (string * value)) (key studentName studentId : string)
    (c : value) :
  memoryCache s = Some l -> heap s !! l = Some (VObj fs0) ->
  passing (Some (VObj fs)) = true -> finite_value (VObj fs) = true ->
  all_pass kept_class cf1 = true -> assoc key cf1 = Some c ->
  (studentName =? EmptyString)%string = false ->
  inherited studentId = false ->
  exists o s',
    (classData ← lift (class_of_page (Some (VObj cf1)) key);
     students ← lift (get (Some classData) "students");
     students' ← lift (assign students studentId
                         (VObj [("name", VStr studentName);
                                ("stars", VNum 0);
                                ("created", VStr (now e))]));
     classData' ← lift (set (Some classData) "students" students');
     classes' ← lift (assign (Some (VObj cf1)) key classData');
     doc' ← lift (set (Some (VObj fs)) "classes" classes');
     store l doc';;
     saveData e l;;
     mret tt) s = (o, s')
    /\ o <> Beyond /\ kept_page s'.
Proof.
  intros Hm Hd Hp Hf Hc Ea En Hi.
  destruct (kept_class_truthy _ _ _ Hc Ea) as [Hk _].
  destruct (kept_class_inv _ Hk) as (cdf & sf & -> & Es & Hs & Hfc).
  assert (class_of_page (Some (VObj cf1)) key = Ret (VObj cdf)) as Ecp
    by (unfold class_of_page; simpl; now rewrite Ea).
  rewrite lift_bind, Ecp.
  rewrite lift_bind, (get_object _ _ _ Es).
  assert (exists sf',
             assign (Some (VObj sf)) studentId
               (VObj [("name", VStr studentName); ("stars", VNum 0);
                      ("created", VStr (now e))]) = Ret (VObj sf')
             /\ (sf' = assoc_set studentId
                         (VObj [("name", VStr studentName); ("stars", VNum 0);
                                ("created", VStr (now e))]) sf
                 \/ sf' = add_property studentId
                            (VObj [("name", VStr studentName);
                                   ("stars", VNum 0);
                                   ("created", VStr (now e))]) sf))
    as (sf' & Eas & Hsf').
  { simpl. destruct (assoc studentId sf); [eauto|].
    rewrite (not_inherited_proto _ Hi). eauto. }
  rewrite lift_bind, Eas. rewrite lift_bind. simpl set. cbv iota.
  rewrite lift_bind. simpl assign. rewrite Ea.
  rewrite lift_bind. simpl set. cbv iota.
  destruct (finish_kept e s l fs0 fs
              (assoc_set key (VObj (assoc_set "students" (VObj sf') cdf)) cf1)
              (fun _ => mret tt) Hm Hd Hp Hf)
    as (b & s2 & E & V2 & _).
  { apply (kept_class_put cf1 cdf sf key studentId
             (VObj [("name", VStr studentName); ("stars", VNum 0);
                    ("created", VStr (now e))]) Hc Ea Es);
      [now apply new_student_kept|exact Hsf']. }
  rewrite E. exists (Ret tt), s2. split; [reflexivity|].
  split; [discriminate|exact V2].
Qed.

Lemma addStudent_kept (e : env) (studentName studentId : string) (s : state) :
  kept_page s -> allowed (AddStudent studentName studentId) s = true ->
  exists o s', addStudent e studentName studentId s = (o, s')
               /\ o <> Beyond /\ kept_page s'.
Proof.
  intros V Ha. simpl in Ha. apply negb_true_iff in Ha.
  destruct (kept_page_inv _ V) as (l & fs & cf & Hm & Hd & Hp & Hf & Ec & Hc).
  unfold addStudent.
  destruct (studentName =? EmptyString)%string eqn:En; [as_it_was V|].
  rewrite gets_bind.
  destruct (no_class (currentClass s)); [as_it_was V|].
  rewrite (getData_deref e s l (VObj fs)) by auto.
  rewrite lift_bind, (get_object _ _ _ Ec).
  rewrite lift_bind. simpl find.
  set (key := class_key (currentClass s)).
  destruct (assoc key cf) as [c|] eqn:Ea.
  - destruct (kept_class_truthy _ _ _ Hc Ea) as [_ Ht].
    change (found_truthy (Own c)) with (truthy (Some c)). rewrite Ht.
    rewrite lift_bind. cbv iota.
    exact (addStudent_in_class e s l fs fs cf key studentName studentId c
             Hm Hd Hp Hf Hc Ea En Ha).
  - destruct (inherited key) eqn:Hik.
    + change (found_truthy Inherited) with true. rewrite lift_bind. cbv iota.
      rewrite lift_bind. unfold class_of_page. simpl find. rewrite Ea, Hik.
      as_it_was V.
    + change (found_truthy Missing) with false. rewrite lift_bind.
      simpl assign. rewrite Ea, (not_inherited_proto _ Hik). simpl mbind.
      cbv iota.
      apply (addStudent_in_class e s l fs fs _ key studentName studentId
               (VObj [("students", VObj [])])); trivial.
      * now apply all_pass_add_property.
      * rewrite assoc_add_property by exact Ea. now rewrite String.eqb_refl.
Qed.

(** The reads that lead to a student of the current class, in a kept
    document. *)
Lemma student_of_page_kept (fs cf : list (string * value))
    (key studentId : string) :
  assoc "classes" fs = Some (VObj cf) -> all_pass kept_class cf = true ->
  student_of_page (Some (VObj fs)) key studentId = Throw
  \/ exists cdf sf,
       assoc key cf = Some (VObj cdf)
       /\ assoc "students" cdf = Some (VObj sf)
       /\ all_pass kept_student sf = true
       /\ student_of_page (Some (VObj fs)) key studentId
          = Ret match assoc studentId sf with
                | Some student => Own student
                | None => if inherited studentId then Inherited else Missing
                end.
Proof.
  intros Ec Hc. unfold student_of_page, class_of_page.
  rewrite (get_object _ _ _ Ec). simpl mbind. simpl find.
  destruct (assoc key cf) as [c|] eqn:Ea;
    [|left; now destruct (inherited key)].
  destruct (kept_class_truthy _ _ _ Hc Ea) as [Hk _].
  destruct (kept_class_inv _ Hk) as (cdf & sf & -> & Es & Hs & Hfc).
  right. exists cdf, sf. repeat split; trivial.
  simpl mbind. rewrite (get_object _ _ _ Es). simpl.
  now destruct (assoc studentId sf).
Qed.

Lemma put_student_kept (fs cf cdf sf : list (string * value))
    (key studentId : string) (student student' : value) :
  assoc "classes" fs = Some (VObj cf) -> all_pass kept_class cf = true ->
  assoc key cf = Some (VObj cdf) -> assoc "students" cdf = Some (VObj sf) ->
  assoc studentId sf = Some student ->
  kept_student student' = true ->
  exists cf',
    put_student (Some (VObj fs)) key studentId student'
    = Ret (VObj (assoc_set "classes" (VObj cf') fs))
    /\ all_pass kept_class cf' = true.
Proof.
  intros Ec Hc Ea Es Est Hst. unfold put_student, class_of_page.
  rewrite (get_object _ _ _ Ec). simpl mbind. simpl find. rewrite Ea.
  simpl mbind. rewrite (get_object _ _ _ Es). simpl mbind.
  rewrite Est. simpl mbind.
  eexists. split; [reflexivity|].
  apply (kept_class_put cf cdf sf key studentId student' Hc Ea Es Hst).
  now left.
Qed.

Lemma drop_student_kept (fs cf cdf sf : list (string * value))
    (key studentId : string) :
  assoc "classes" fs = Some (VObj cf) -> all_pass kept_class cf = true ->
  assoc key cf = Some (VObj cdf) -> assoc "students" cdf = Some (VObj sf) ->
  exists cf',
    drop_student (Some (VObj fs)) key studentId
    = Ret (VObj (assoc_set "classes" (VObj cf') fs))
    /\ all_pass kept_class cf' = true.
Proof.
  intros Ec Hc Ea Es. unfold drop_student, class_of_page.
  rewrite (get_object _ _ _ Ec). simpl mbind. simpl find. rewrite Ea.
  simpl mbind. rewrite (get_object _ _ _ Es). simpl mbind.
  eexists. split; [reflexivity|].
  destruct (kept_class_truthy _ _ _ Hc Ea) as [Hk _].
  destruct (kept_class_inv _ Hk) as (cdf0 & sf0 & [= <-] & Es0 & Hs & Hf).
  rewrite Es in Es0. injection Es0 as <-.
  apply all_pass_assoc_set; [|exact Hc].
  apply kept_class_students; [exact Hf|]. now apply all_pass_filter.
Qed.

Lemma kept_student_inv (student : value) :
  kept_student student = true ->
  exists sf n,
    student = VObj sf /\ truthy (assoc "name" sf) = true
    /\ assoc "stars" sf = Some (VNum n) /\ at_most 0 n = true
    /\ finite_value (VObj sf) = true.
Proof.
  unfold kept_student. intros H. apply andb_true_iff in H as [Hp Hf].
  destruct student as [| | | | |sf]; try discriminate. simpl in Hp.
  apply andb_true_iff in Hp as [Hn Hs].
  destruct (assoc "stars" sf) as [[| |n| | |]|] eqn:Est; try discriminate.
  exists sf, n. auto.
Qed.

Lemma editStudent_kept (e : env) (studentId newName : string) (s : state) :
  kept_page s -> allowed (EditStudent studentId newName) s = true ->
  exists o s', editStudent e studentId newName s = (o, s')
               /\ o <> Beyond /\ kept_page s'.
Proof.
  intros V Ha. simpl in Ha. apply negb_true_iff in Ha.
  destruct (kept_page_inv _ V) as (l & fs & cf & Hm & Hd & Hp & Hf & Ec & Hc).
  unfold editStudent.
  rewrite (getData_deref e s l (VObj fs)) by auto. rewrite gets_bind.
  set (key := class_key (currentClass s)).
  destruct (student_of_page_kept fs cf key studentId Ec Hc)
    as [E|(cdf & sf & Ea & Es & Hs & E)]; rewrite lift_bind, E;
    [as_it_was V|].
  rewrite Ha.
  destruct (assoc studentId sf) as [student|] eqn:Est; [|as_it_was V].
  pose proof (all_pass_assoc _ _ _ _ Hs Est) as Hst.
  destruct (kept_student_inv _ Hst) as (stf & n & -> & Hn & Estars & Hpos & Hfs).
  change (negb (truthy (Some (VObj stf)))) with false. cbv iota.
  destruct (newName =? EmptyString)%string eqn:En; [as_it_was V|].
  rewrite lift_bind. unfold other_name.
  assert (exists name, get (Some (VObj stf)) "name" = Ret name)
    as (name & ->).
  { unfold get. simpl. destruct (assoc "name" stf); eauto. }
  simpl mbind. cbv iota.
  match goal with |- context [negb ?b] => destruct b end;
    [|as_it_was V].
  change (negb true) with false. cbv iota.
  rewrite lift_bind. simpl set. cbv iota.
  destruct (put_student_kept fs cf cdf sf key studentId (VObj stf)
              (VObj (assoc_set "name" (VStr newName) stf)) Ec Hc Ea Es Est)
    as (cf' & Eput & Hc').
  { unfold kept_student. apply andb_true_iff. split.
    - simpl. rewrite assoc_set_same.
      rewrite (assoc_set_other "stars" "name") by discriminate.
      rewrite Estars, Hpos. unfold truthy. now rewrite En.
    - now apply (all_pass_assoc_set finite_value). }
  rewrite lift_bind, Eput.
  destruct (finish_kept e s l fs fs cf' (fun _ => mret tt) Hm Hd Hp Hf Hc')
    as (b & s2 & E2 & V2 & _).
  rewrite E2. exists (Ret tt), s2. split; [reflexivity|].
  split; [discriminate|exact V2].
Qed.

Lemma removeStudent_kept (e : env) (studentId : string) (s : state) :
  kept_page s ->
  exists o s', removeStudent e studentId s = (o, s')
               /\ o <> Beyond /\ kept_page s'.
Proof.
  intros V.
  destruct (kept_page_inv _ V) as (l & fs & cf & Hm & Hd & Hp & Hf & Ec & Hc).
  unfold removeStudent.
  rewrite (getData_deref e s l (VObj fs)) by auto. rewrite gets_bind.
  set (key := class_key (currentClass s)).
  destruct (student_of_page_kept fs cf key studentId Ec Hc)
    as [E|(cdf & sf & Ea & Es & Hs & E)]; rewrite lift_bind, E;
    [as_it_was V|].
  match goal with |- context [negb ?b] => destruct b end;
    [|as_it_was V].
  change (negb true) with false. cbv iota.
  destruct (drop_student_kept fs cf cdf sf key studentId Ec Hc Ea Es)
    as (cf' & Edrop & Hc').
  rewrite lift_bind, Edrop.
  destruct (finish_kept e s l fs fs cf' (fun _ => mret tt) Hm Hd Hp Hf Hc')
    as (b & s2 & E2 & V2 & _).
  rewrite E2. exists (Ret tt), s2. split; [reflexivity|].
  split; [discriminate|exact V2].
Qed.

Lemma get_object_none (fs : list (string * value)) (k : string) :
  assoc k fs = None -> get (Some (VObj fs)) k = Ret None.
Proof.
  intros H. unfold get. simpl. rewrite H.
  now destruct (k =? "length")%string.
Qed.

(** The count [modifyStars] writes, for a count that is finite and not
    negative and an amount that does not take it beyond [2^53]. *)
Lemma new_count_kept (z amount : Z) :
  0 <= z -> z + amount <= 2 ^ 53 ->
  exists z', max0 (add_int z amount) = Finite z' /\ 0 <= z'.
Proof.
  intros H0 Hle. unfold max0. simpl.
  destruct (Z.lt_ge_cases (z + amount) 0) as [Hneg|Hpos].
  - rewrite (of_integer_negative _ Hneg). exists 0. split; [reflexivity|lia].
  - rewrite of_integer_safe by lia. simpl.
    destruct (Z.ltb_spec (z + amount) 0); [lia|]. eauto.
Qed.

Lemma modifyStars_kept (e : env) (studentId : string) (amount : Z)
    (s : state) :
  kept_page s -> allowed (ModifyStars studentId amount) s = true ->
  exists o s', modifyStars e studentId amount s = (o, s')
               /\ o <> Beyond /\ kept_page s'.
Proof.
  intros V Ha. simpl in Ha. apply andb_true_iff in Ha as [Hi Hbound].
  apply negb_true_iff in Hi.
  destruct (kept_page_inv _ V) as (l & fs & cf & Hm & Hd & Hp & Hf & Ec & Hc).
  unfold authoritative in Hbound. rewrite Hm, Hd in Hbound.
  unfold modifyStars.
  rewrite (getData_deref e s l (VObj fs)) by auto. rewrite gets_bind.
  set (key := class_key (currentClass s)) in *.
  rewrite lift_bind, (get_object _ _ _ Ec).
  destruct (assoc key cf) as [c|] eqn:Ea.
  2: { rewrite lift_bind, (get_object_none _ _ Ea). as_it_was V. }
  destruct (kept_class_truthy _ _ _ Hc Ea) as [Hk _].
  destruct (kept_class_inv _ Hk) as (cdf & sf & -> & Es & Hs & Hfc).
  rewrite lift_bind, (get_object _ _ _ Ea).
  rewrite lift_bind, (get_object _ _ _ Es).
  destruct (assoc studentId sf) as [student|] eqn:Est.
  2: { rewrite lift_bind, (get_object_none _ _ Est).
       change (negb (truthy None)) with true. cbv iota.
       unfold inherited_member.
       assert (find (Some (VObj sf)) studentId = Ret Missing) as ->
         by (unfold find; simpl; now rewrite Est, Hi).
       do 2 eexists. split; [reflexivity|]. split; [discriminate|exact V]. }
  pose proof (all_pass_assoc _ _ _ _ Hs Est) as Hst.
  destruct (kept_student_inv _ Hst) as (stf & n & -> & Hn & Estars & Hpos & Hfs).
  rewrite lift_bind, (get_object _ _ _ Est).
  change (negb (truthy (Some (VObj stf)))) with false. cbv iota.
  rewrite lift_bind, (get_object _ _ _ Estars).
  pose proof (all_pass_assoc finite_value stf "stars" (VNum n) Hfs Estars)
    as Hfn.
  destruct n as [z| |]; try discriminate Hfn.
  assert (stars_at (Some (VObj fs)) key studentId = Ret (Some (VNum z)))
    as Hstars.
  { unfold stars_at. rewrite (get_object _ _ _ Ec). simpl mbind.
    rewrite (get_object _ _ _ Ea). simpl mbind.
    rewrite (get_object _ _ _ Es). simpl mbind.
    rewrite (get_object _ _ _ Est). simpl mbind.
    now apply get_object. }
  rewrite Hstars in Hbound. apply Z.leb_le in Hbound.
  unfold at_most in Hpos. simpl in Hpos.
  apply negb_true_iff, Z.ltb_ge in Hpos.
  destruct (new_count_kept z amount Hpos Hbound) as (z' & Hnew & Hpos').
  rewrite lift_bind.
  change (max0_plus (Some (VNum z)) amount)
    with (Ret (VNum (max0 (add_int z amount)))).
  rewrite Hnew. cbv iota.
  rewrite lift_bind. simpl set. cbv iota.
  rewrite lift_bind. simpl set. cbv iota.
  rewrite lift_bind. simpl set. cbv iota.
  rewrite lift_bind. simpl set. cbv iota.
  rewrite lift_bind. simpl set. cbv iota.
  destruct (finish_kept e s l fs fs
              (assoc_set key
                 (VObj (assoc_set "students"
                          (VObj (assoc_set studentId
                                   (VObj (assoc_set "stars" (VNum z') stf))
                                   sf)) cdf)) cf)
              (fun _ => (if redraw_ok e then mret tt else throw);;
                        lift (checkAchievements (Some (VNum z))
                                (Some (VNum z'))))
              Hm Hd Hp Hf)
    as (b & s2 & E & V2 & _).
  { apply (kept_class_put cf cdf sf key studentId
             (VObj (assoc_set "stars" (VNum z') stf)) Hc Ea Es);
      [|now left].
    unfold kept_student. apply andb_true_iff. split.
    - simpl. rewrite assoc_set_same.
      rewrite (assoc_set_other "name" "stars") by discriminate.
      rewrite Hn. unfold at_most. simpl.
      apply negb_true_iff, Z.ltb_ge. exact Hpos'.
    - now apply (all_pass_assoc_set finite_value). }
  rewrite E. unfold mbind, M_bind, mret, M_ret, throw, lift.
  destruct (redraw_ok e);
    [|do 2 eexists; split; [reflexivity|]; split; [discriminate|exact V2]].
  exists (Ret (List.filter
                 (fun milestone => less_than (Some (Finite z)) milestone
                                   && at_least (Some (Finite z')) milestone)
                 milestones)), s2.
  split; [reflexivity|]. split; [discriminate|exact V2].
Qed.

(** A kept document with other classes, kept as well. *)
Lemma kept_classes (s : state) (l : loc) (fs cf' : list (string * value)) :
  memoryCache s = Some l ->
  heap s !! l = Some (VObj (assoc_set "classes" (VObj cf') fs)) ->
  passing (Some (VObj fs)) = true ->
  finite_value (VObj fs) = true ->
  all_pass kept_class cf' = true ->
  kept_page s.
Proof.
  intros Hm Hd Hp Hf Hc.
  unfold kept_page, kept, authoritative. rewrite Hm, Hd.
  assert (all_pass passing_class cf' = true) as Hpc.
  { eapply all_pass_weaken; [|exact Hc]. unfold kept_class. intros x Hx.
    apply andb_true_iff in Hx as [Hx _]. now apply andb_true_iff in Hx as [-> _]. }
  assert (all_pass object_students cf' = true) as Hoc.
  { eapply all_pass_weaken; [|exact Hc]. unfold kept_class. intros x Hx.
    apply andb_true_iff in Hx as [Hx _]. now apply andb_true_iff in Hx as [_ ->]. }
  assert (finite_value (VObj cf') = true) as Hfc.
  { apply (all_pass_weaken kept_class finite_value); [|exact Hc].
    unfold kept_class. intros x Hx. now apply andb_true_iff in Hx as [_ Hx]. }
  split; [apply valid_iff_passing; now apply passing_classes|].
  split.
  - assert (json_clone (VObj (assoc_set "classes" (VObj cf') fs))
            = VObj (assoc_set "classes" (VObj cf') fs)) as Hj
      by (apply finite_value_clone;
          now apply (all_pass_assoc_set finite_value)).
    simpl in *. now rewrite Hj.
  - simpl. now rewrite assoc_set_same.
Qed.

Lemma tidy_classes_kept (cf : list (string * value)) :
  all_pass kept_class cf = true -> all_pass kept_class (tidy_classes cf) = true.
Proof.
  unfold all_pass, tidy_classes.
  induction cf as [|[k c] cf IH]; simpl; trivial.
  intros H. apply andb_true_iff in H as [Hk Hr]. rewrite (IH Hr).
  destruct (kept_class_inv _ Hk) as (cdf & sf & -> & Es & Hs & Hf).
  simpl. rewrite Es.
  rewrite kept_class_students; trivial. now apply all_pass_filter.
Qed.

Lemma sweep_kept (e : env) (s : state) :
  kept_page s ->
  exists o s', validateAndCleanupData e s = (o, s')
               /\ o <> Beyond /\ kept_page s'.
Proof.
  intros V.
  destruct (kept_page_inv _ V) as (l & fs & cf & Hm & Hd & Hp & Hf & Ec & Hc).
  assert (all_pass passing_class cf = true) as Hpc.
  { eapply all_pass_weaken; [|exact Hc]. unfold kept_class. intros x Hx.
    apply andb_true_iff in Hx as [Hx _]. now apply andb_true_iff in Hx as [-> _]. }
  assert (all_pass object_students cf = true) as Hoc.
  { eapply all_pass_weaken; [|exact Hc]. unfold kept_class. intros x Hx.
    apply andb_true_iff in Hx as [Hx _]. now apply andb_true_iff in Hx as [_ ->]. }
  destruct (sweep_classes_passing cf Hpc Hoc) as [Hsweep _].
  assert (sweep (VObj fs)
          = (VObj (assoc_set "classes" (VObj (tidy_classes cf)) fs),
             Ret (negb (all_string_named cf)))) as Es.
  { simpl. rewrite Ec. simpl own_entries. now rewrite Hsweep. }
  pose proof (tidy_classes_kept cf Hc) as Hc'.
  unfold validateAndCleanupData.
  rewrite (getData_deref e s l (VObj fs)) by auto. rewrite Es.
  simpl fst. simpl snd. rewrite store_bind, lift_bind.
  set (s1 := with_heap
               (<[l := VObj (assoc_set "classes" (VObj (tidy_classes cf)) fs)]>
                  (heap s)) s).
  assert (heap s1 !! l
          = Some (VObj (assoc_set "classes" (VObj (tidy_classes cf)) fs)))
    as Hd1.
  { simpl. apply list_lookup_insert_eq. eapply lookup_lt_Some, Hd. }
  destruct (negb (all_string_named cf)).
  - destruct (finish_kept e s l fs fs (tidy_classes cf) (fun _ => mret tt)
                Hm Hd Hp Hf Hc')
      as (b & s2 & E & V2 & _).
    rewrite store_bind in E. fold s1 in E. rewrite E.
    exists (Ret tt), s2. split; [reflexivity|].
    split; [discriminate|exact V2].
  - exists (Ret tt), s1. split; [reflexivity|]. split; [discriminate|].
    exact (kept_classes s1 l fs (tidy_classes cf) Hm Hd1 Hp Hf Hc').
Qed.

Lemma perform_kept (e : env) (a : action) (s : state) :
  kept_page s -> allowed a s = true ->
  exists o s', perform e a s = (o, s') /\ o <> Beyond /\ kept_page s'.
Proof.
  intros V Ha. destruct a; simpl perform.
  - exists (Ret tt), (with_currentClass (Some className) s).
    split; [reflexivity|]. split; [discriminate|exact V].
  - now apply createClass_kept.
  - now apply renameClass_kept.
  - now apply deleteClass_kept.
  - now apply addStudent_kept.
  - destruct (modifyStars_kept e studentId amount s V Ha)
      as (o & s' & E & Ho & V').
    unfold mbind, M_bind. rewrite E.
    destruct o as [announced| |]; [| |now elim Ho];
      do 2 eexists; (split; [reflexivity|]); (split; [discriminate|exact V']).
  - now apply editStudent_kept.
  - now apply removeStudent_kept.
  - now apply sweep_kept.
Qed.

(** X21.  No operation of the page spoils the document.  Start from a page
    whose authoritative document passes the validator, holds finite numbers
    only, and keeps its classes and the students of each class in objects.
    Let any sequence of the page's operations run on it (selecting, creating,
    renaming and deleting classes, adding, editing and removing students,
    changing star counts, the periodic sweep), each in surroundings of its
    own, with these restrictions on what they are given: no new class name
    and no student id is a name every object inherits ([constructor],
    [toString], [__proto__], ...), a class is renamed only while the
    document has it, and no star count is raised beyond [2^53].  Then every
    operation returns or raises, and at the end the authoritative document
    again passes the validator, holds finite numbers only and keeps its
    classes and students in objects, so that the next [saveData] is not
    refused for its structure. *)
Theorem operations_keep_the_document_valid (steps : list (env * action))
    (s : state) :
  kept_page s ->
  session_allowed steps s = true ->
  exists o s',
    session steps s = (o, s')
    /\ (o = Ret tt \/ o = Throw)
    /\ validateDataStructure (authoritative s') = Ret true
    /\ json_clone <$> authoritative s' = authoritative s'
    /\ object_classes (authoritative s') = true.
Proof.
  revert s. induction steps as [|[e a] rest IH]; intros s V Hs; simpl.
  - exists (Ret tt), s. split; [reflexivity|]. split; [now left|exact V].
  - simpl in Hs. apply andb_true_iff in Hs as [Ha Hrest].
    destruct (perform_kept e a s V Ha) as (o & s1 & E & Ho & V1).
    rewrite E in Hrest |- *. simpl in Hrest.
    destruct (IH s1 V1 Hrest) as (o' & s' & E' & Ho' & V').
    exists o', s'. split; [|split; [exact Ho'|exact V']].
    destruct o as [[]| |]; [exact E'|exact E'|now elim Ho].
Qed.

Lemma operations_keep_the_document_valid_witness :
  exists o s',
    session morning (page_with math_class) = (o, s')
    /\ (o = Ret tt \/ o = Throw)
    /\ validateDataStructure (authoritative s') = Ret true
    /\ json_clone <$> authoritative s' = authoritative s'
    /\ object_classes (authoritative s') = true.
Proof.
  apply (operations_keep_the_document_valid morning (page_with math_class)).
  - repeat split.
  - vm_compute. reflexivity.
Defined.

(** *** What the operations on classes do *)

Lemma up_to_json_again (held copy built : value) :
  up_to_json held copy -> up_to_json copy built -> up_to_json held built.
Proof.
  intros [->| ->] [->| ->]; unfold up_to_json;
    rewrite ?json_clone_idempotent; auto.
Qed.

Lemma up_to_json_finite (held built : value) :
  up_to_json held built -> json_clone built = built -> held = built.
Proof. intros [->| ->] H; [reflexivity|exact H]. Qed.

Lemma store_save_classes {A : Type} (e : env) (s : state) (l : loc)
    (fs : list (string * value)) (classes' : value) (k : bool -> M A) :
  memoryCache s = Some l -> heap s !! l = Some (VObj fs) ->
  exists b s2 l2 fs2 held,
    (store l (VObj (assoc_set "classes" classes' fs));; (saveData e l ≫= k)) s
    = k b s2
    /\ memoryCache s2 = Some l2
    /\ heap s2 !! l2 = Some (VObj fs2)
    /\ assoc "classes" fs2 = Some held
    /\ up_to_json held classes'
    /\ currentClass s2 = currentClass s.
Proof.
  intros Hm Hd.
  destruct (store_and_save e s l fs (assoc_set "classes" classes' fs) k Hm Hd)
    as (b & s2 & l' & held & E & Hm' & Hd' & Hc & [->|(m & -> & _)]).
  - exists b, s2, l', (assoc_set "classes" classes' fs), classes'.
    repeat split; trivial; [apply assoc_set_same|now left].
  - exists b, s2, l',
      (map (fun p => (fst p, json_clone (snd p)))
         (assoc_set "metadata" m (assoc_set "classes" classes' fs))),
      (json_clone classes').
    split; [exact E|]. split; [exact Hm'|]. split; [exact Hd'|].
    split; [|split; [now right|exact Hc]].
    rewrite assoc_map_clone.
    rewrite (assoc_set_other "classes" "metadata") by discriminate.
    now rewrite assoc_set_same.
Qed.

(** [createClass] with a name that is free. *)
Lemma createClass_run (e : env) (s : state) (l : loc)
    (fs cf : list (string * value)) (className : string) :
  memoryCache s = Some l ->
  heap s !! l = Some (VObj fs) ->
  assoc "classes" fs = Some (VObj cf) ->
  className <> EmptyString ->
  assoc className cf = None -> inherited className = false ->
  exists s' l' fs' held,
    createClass e className s = (Ret tt, s')
    /\ memoryCache s' = Some l'
    /\ heap s' !! l' = Some (VObj fs')
    /\ assoc "classes" fs' = Some held
    /\ up_to_json held
         (VObj (add_property className
                  (VObj [("students", VObj []);
                         ("created", VStr (now e))]) cf))
    /\ currentClass s' = currentClass s.
Proof.
  intros Hm Hd Ec Hn Ea Hi. apply String.eqb_neq in Hn.
  assert ((className =? "__proto__")%string = false) as Hproto.
  { destruct (String.eqb_spec className "__proto__") as [->|];
      [discriminate Hi|reflexivity]. }
  destruct (store_save_classes e s l fs
              (VObj (add_property className
                       (VObj [("students", VObj []);
                              ("created", VStr (now e))]) cf))
              (fun _ => mret tt) Hm Hd)
    as (b & s2 & l2 & fs2 & held & E & Hm2 & Hd2 & Ec2 & Hup & Hcur).
  exists s2, l2, fs2, held. repeat split; trivial.
  unfold createClass. rewrite Hn.
  rewrite (getData_deref e s l (VObj fs)) by auto.
  rewrite lift_bind, (get_object _ _ _ Ec).
  rewrite lift_bind. simpl find. rewrite Ea, Hi.
  change (found_truthy Missing) with false. cbv iota.
  rewrite lift_bind. simpl assign.
  rewrite Ea, Hproto. rewrite lift_bind. simpl set. cbv iota. exact E.
Qed.

(** X22.  What [createClass] does, whether or not the document passes the
    validator and whatever the surroundings.  A class of that name is never
    replaced: when the name is taken, nothing at all happens, and the names
    every object inherits ([constructor], [toString], ...) count as taken.
    Otherwise the authoritative document gets one more class, with no
    students and the creation time, under that name, and every other class
    is as before.  (The page holds these classes as they are, or as the copy
    through JSON that a save which went through leaves, in which an infinite
    number has become [null]: as they are, when the classes hold finite
    numbers only.) *)
Theorem createClass_adds_an_empty_class (e : env) (s : state) (l : loc)
    (fs cf : list (string * value)) (className : string) :
  memoryCache s = Some l ->
  heap s !! l = Some (VObj fs) ->
  assoc "classes" fs = Some (VObj cf) ->
  className <> EmptyString ->
  (forall c, assoc className cf = Some c -> truthy (Some c) = true ->
             createClass e className s = (Ret tt, s))
  /\ (assoc className cf = None -> inherited className = true ->
      createClass e className s = (Ret tt, s))
  /\ (assoc className cf = None -> inherited className = false ->
      exists s' cf' held,
        createClass e className s = (Ret tt, s')
        /\ classes_of s' = Some held
        /\ up_to_json held (VObj cf')
        /\ currentClass s' = currentClass s
        /\ (forall k,
             assoc k cf'
             = if (k =? className)%string
               then Some (VObj [("students", VObj []);
                                ("created", VStr (now e))])
               else assoc k cf)
        /\ (json_clone (VObj cf) = VObj cf -> held = VObj cf')).
Proof.
  intros Hm Hd Ec Hn. apply String.eqb_neq in Hn.
  assert (createClass e className s
          = (existing ← lift (find (Some (VObj cf)) className);
             if found_truthy existing then mret tt
             else
               classes' ← lift (assign (Some (VObj cf)) className
                                  (VObj [("students", VObj []);
                                         ("created", VStr (now e))]));
               doc' ← lift (set (Some (VObj fs)) "classes" classes');
               store l doc';; saveData e l;; mret tt) s) as Hrun.
  { unfold createClass. rewrite Hn.
    rewrite (getData_deref e s l (VObj fs)) by auto.
    now rewrite lift_bind, (get_object _ _ _ Ec). }
  split; [|split].
  - intros c Ea Ht. rewrite Hrun, lift_bind. simpl find. rewrite Ea. simpl.
    now rewrite Ht.
  - intros Ea Hi. rewrite Hrun, lift_bind. simpl find. now rewrite Ea, Hi.
  - intros Ea Hi.
    destruct (createClass_run e s l fs cf className Hm Hd Ec) as
      (s' & l' & fs' & held & E & Hm' & Hd' & Ec' & Hup & Hcur); trivial.
    { now apply String.eqb_neq. }
    exists s', (add_property className
                  (VObj [("students", VObj []); ("created", VStr (now e))]) cf),
      held.
    split; [exact E|].
    split; [eapply classes_of_held; eauto|].
    split; [exact Hup|].
    split; [exact Hcur|]. split; [now apply assoc_add_property|].
    intros Hj. apply (up_to_json_finite _ _ Hup), finite_value_clone.
    apply finite_value_clone in Hj.
    now apply (all_pass_add_property finite_value).
Qed.

Lemma createClass_adds_an_empty_class_witness :
  (forall c, assoc "Art" [("Math", class_of (VStr "Ada") (VNum 3))] = Some c ->
             truthy (Some c) = true ->
             createClass offline "Art" (page_with math_class)
             = (Ret tt, page_with math_class))
  /\ (assoc "Art" [("Math", class_of (VStr "Ada") (VNum 3))] = None ->
      inherited "Art" = true ->
      createClass offline "Art" (page_with math_class)
      = (Ret tt, page_with math_class))
  /\ (assoc "Art" [("Math", class_of (VStr "Ada") (VNum 3))] = None ->
      inherited "Art" = false ->
      exists s' cf' held,
        createClass offline "Art" (page_with math_class) = (Ret tt, s')
        /\ classes_of s' = Some held
        /\ up_to_json held (VObj cf')
        /\ currentClass s' = currentClass (page_with math_class)
        /\ (forall k,
             assoc k cf'
             = if (k =? "Art")%string
               then Some (VObj [("students", VObj []);
                                ("created", VStr (now offline))])
               else assoc k [("Math", class_of (VStr "Ada") (VNum 3))])
        /\ (json_clone (VObj [("Math", class_of (VStr "Ada") (VNum 3))])
            = VObj [("Math", class_of (VStr "Ada") (VNum 3))] ->
            held = VObj cf')).
Proof.
  eapply (createClass_adds_an_empty_class offline (page_with math_class) 0%nat);
    [reflexivity | reflexivity | reflexivity | discriminate].
Defined.

Lemma assign_object (cf : list (string * value)) (k : string) (x : value) :
  (assoc k cf = None -> k <> "__proto__") ->
  exists cf',
    assign (Some (VObj cf)) k x = Ret (VObj cf')
    /\ forall k', assoc k' cf' = if (k' =? k)%string then Some x else assoc k' cf.
Proof.
  intros Hk. simpl. destruct (assoc k cf) as [y|] eqn:Ea.
  - eexists. split; [reflexivity|]. intros k'.
    destruct (String.eqb_spec k' k) as [->|Hne].
    + apply assoc_set_same.
    + now apply assoc_set_other.
  - destruct (String.eqb_spec k "__proto__") as [->|_]; [now elim Hk|].
    eexists. split; [reflexivity|]. now apply assoc_add_property.
Qed.

(** X23.  What [renameClass] does, with a class selected that the document
    has, and a new name that is not empty, not the old one and, when no
    class has it yet, not [__proto__] (which names no property of an object).
    The class is put under the new name and deleted under the old one, its
    students untouched, and the new name becomes the current class; every
    class of another name is as before.  There is no check that the new name
    is free: a class that had it is replaced, its students gone.  (The page
    holds these classes as they are, or as the copy through JSON that a save
    which went through leaves, in which an infinite number has become
    [null]: as they are, when the classes hold finite numbers only.) *)
Theorem renameClass_moves_the_class (e : env) (s : state) (l : loc)
    (fs cf : list (string * value)) (name newName : string) (classData : value) :
  memoryCache s = Some l ->
  heap s !! l = Some (VObj fs) ->
  assoc "classes" fs = Some (VObj cf) ->
  currentClass s = Some name -> name <> EmptyString ->
  assoc name cf = Some classData ->
  newName <> EmptyString -> newName <> name ->
  (assoc newName cf = None -> newName <> "__proto__") ->
  exists s' cf' held,
    renameClass e newName s = (Ret tt, s')
    /\ currentClass s' = Some newName
    /\ classes_of s' = Some held
    /\ up_to_json held (VObj cf')
    /\ (forall k,
         assoc k cf'
         = if (k =? name)%string then None
           else if (k =? newName)%string then Some classData
           else assoc k cf)
    /\ (json_clone (VObj cf) = VObj cf -> held = VObj cf').
Proof.
  intros Hm Hd Ec Hcur Hname Ea Hnew Hne Hproto.
  apply String.eqb_neq in Hname, Hnew, Hne.
  destruct (assign_object cf newName classData Hproto) as (cf1 & Eas & Hcf1).
  set (fs1 := assoc_set "classes" (VObj cf1) fs).
  set (s1 := with_heap (<[l := VObj fs1]> (heap s)) s).
  assert (heap s1 !! l = Some (VObj fs1)) as Hd1.
  { simpl. apply list_lookup_insert_eq. eapply lookup_lt_Some, Hd. }
  set (cf2 := List.filter (fun p => negb (fst p =? name)%string) cf1).
  destruct (store_save_classes e s1 l fs1 (VObj cf2)
              (fun _ => modify (with_currentClass (Some newName)))
              Hm Hd1)
    as (b & s2 & l2 & fs2 & held & E & Hm2 & Hd2 & Ec2 & Hup & _).
  exists (with_currentClass (Some newName) s2), cf2, held.
  split; [|split; [|split; [|split; [|split]]]].
  - unfold renameClass. rewrite gets_bind, Hcur.
    change (no_class (Some name)) with (name =? EmptyString)%string.
    change (class_key (Some name)) with name.
    rewrite Hname, Hnew, Hne. change (false || false) with false. cbv iota.
    rewrite (getData_deref e s l (VObj fs)) by auto.
    rewrite lift_bind, (get_object _ _ _ Ec).
    rewrite lift_bind. simpl find. rewrite Ea. cbv iota.
    rewrite lift_bind, Eas. rewrite lift_bind. simpl set. cbv iota.
    rewrite store_bind. fold fs1. fold s1.
    rewrite lift_bind. simpl remove. fold cf2. cbv iota.
    rewrite lift_bind. exact E.
  - reflexivity.
  - apply (classes_of_held _ l2 fs2); trivial.
  - exact Hup.
  - intros k. unfold cf2. rewrite assoc_filter, Hcf1. reflexivity.
  - intros Hj. apply (up_to_json_finite _ _ Hup), finite_value_clone.
    apply finite_value_clone in Hj.
    apply (all_pass_filter finite_value).
    apply (assign_finite cf cf1 newName classData Eas Hj).
    exact (all_pass_assoc finite_value cf name classData Hj Ea).
Qed.

Lemma renameClass_moves_the_class_witness :
  exists s' cf' held,
    renameClass offline "Maths"
      (mkState [math_class] (Some 0%nat) (Some "Math") None None None None [])
    = (Ret tt, s')
    /\ currentClass s' = Some "Maths"
    /\ classes_of s' = Some held
    /\ up_to_json held (VObj cf')
    /\ (forall k,
         assoc k cf'
         = if (k =? "Math")%string then None
           else if (k =? "Maths")%string
                then Some (class_of (VStr "Ada") (VNum 3))
                else assoc k [("Math", class_of (VStr "Ada") (VNum 3))])
    /\ (json_clone (VObj [("Math", class_of (VStr "Ada") (VNum 3))])
        = VObj [("Math", class_of (VStr "Ada") (VNum 3))] ->
        held = VObj cf').
Proof.
  eapply (renameClass_moves_the_class offline
            (mkState [math_class] (Some 0%nat) (Some "Math") None None None
               None [])
            0%nat);
    try reflexivity; discriminate.
Defined.

Lemma filter_absent (k : string) (fs : list (string * value)) :
  assoc k fs = None ->
  List.filter (fun p => negb (fst p =? k)%string) fs = fs.
Proof.
  induction fs as [|[k' v] rest IH]; simpl; trivial.
  rewrite (String.eqb_sym k' k).
  destruct (k =? k')%string; [discriminate|]. intros H. simpl. now rewrite IH.
Qed.

(** Deleting a property that was just added gives the properties back, in
    their order. *)
Lemma filter_add_property (k : string) (x : value) (fs : list (string * value)) :
  assoc k fs = None ->
  List.filter (fun p => negb (fst p =? k)%string) (add_property k x fs) = fs.
Proof.
  intros Hk. unfold add_property. destruct (array_index k) as [n|].
  - induction fs as [|[k' v] rest IH]; simpl.
    + now rewrite String.eqb_refl.
    + simpl in Hk. destruct (String.eqb_spec k k') as [->|Hne]; [discriminate|].
      assert ((k' =? k)%string = false) as Hne'
        by (apply String.eqb_neq; congruence).
      assert (List.filter (fun p => negb (fst p =? k)%string)
                ((k, x) :: (k', v) :: rest) = (k', v) :: rest) as Hhere.
      { simpl. rewrite String.eqb_refl, Hne'. simpl.
        now rewrite filter_absent. }
      destruct (array_index k') as [m|]; [destruct (m <? n)%N|]; trivial.
      simpl. rewrite Hne'. simpl. now rewrite IH.
  - rewrite List.filter_app. simpl. rewrite String.eqb_refl. simpl.
    now rewrite filter_absent, app_nil_r.
Qed.

(** The copy through JSON keeps the names of the properties, so deleting
    one before or after the copy is the same. *)
Lemma filter_json_clone (k : string) (fs : list (string * value)) :
  List.filter (fun p => negb (fst p =? k)%string)
    (map (fun p => (fst p, json_clone (snd p))) fs)
  = map (fun p => (fst p, json_clone (snd p)))
      (List.filter (fun p => negb (fst p =? k)%string) fs).
Proof.
  induction fs as [|[k' v] rest IH]; simpl; trivial.
  destruct (negb (k' =? k)%string); simpl; now rewrite IH.
Qed.

(** [deleteClass] when a class is selected. *)
Lemma deleteClass_run (e : env) (s : state) (l : loc)
    (fs cf : list (string * value)) (name : string) :
  memoryCache s = Some l ->
  heap s !! l = Some (VObj fs) ->
  assoc "classes" fs = Some (VObj cf) ->
  currentClass s = Some name -> name <> EmptyString ->
  exists s' l' fs' held,
    deleteClass e s = (Ret tt, with_currentClass (Some EmptyString) s')
    /\ memoryCache s' = Some l'
    /\ heap s' !! l' = Some (VObj fs')
    /\ assoc "classes" fs' = Some held
    /\ up_to_json held
         (VObj (List.filter (fun p => negb (fst p =? name)%string) cf)).
Proof.
  intros Hm Hd Ec Hcur Hname. apply String.eqb_neq in Hname.
  destruct (store_save_classes e s l fs
              (VObj (List.filter (fun p => negb (fst p =? name)%string) cf))
              (fun _ => modify (with_currentClass (Some EmptyString))) Hm Hd)
    as (b & s2 & l2 & fs2 & held & E & Hm2 & Hd2 & Ec2 & Hup & _).
  exists s2, l2, fs2, held. repeat split; trivial.
  unfold deleteClass. rewrite gets_bind, Hcur.
  change (no_class (Some name)) with (name =? EmptyString)%string.
  change (class_key (Some name)) with name. rewrite Hname.
  rewrite (getData_deref e s l (VObj fs)) by auto.
  rewrite lift_bind, (get_object _ _ _ Ec).
  rewrite lift_bind. simpl remove. cbv iota.
  rewrite lift_bind. exact E.
Qed.

(** X24.  Creating a class and deleting it again gives the classes back.
    For a name that is free, [createClass], the selection of the new class
    and [deleteClass], each in surroundings of its own, leave the
    authoritative document with the classes it had, in their order, whether
    the two saves went through or not; no class is selected at the end.
    (The page holds the classes as they were, or as the copy through JSON
    that a save which went through leaves, in which an infinite number has
    become [null]: as they were, when they hold finite numbers only.) *)
Theorem create_then_delete (e1 e2 e3 : env) (s : state) (l : loc)
    (fs cf : list (string * value)) (className : string) :
  memoryCache s = Some l ->
  heap s !! l = Some (VObj fs) ->
  assoc "classes" fs = Some (VObj cf) ->
  className <> EmptyString ->
  assoc className cf = None -> inherited className = false ->
  exists s' held,
    session [(e1, CreateClass className);
             (e2, SelectTeacherClass className);
             (e3, DeleteClass)] s = (Ret tt, s')
    /\ classes_of s' = Some held
    /\ up_to_json held (VObj cf)
    /\ currentClass s' = Some EmptyString
    /\ (json_clone (VObj cf) = VObj cf -> classes_of s' = Some (VObj cf)).
Proof.
  intros Hm Hd Ec Hn Ea Hi.
  destruct (createClass_run e1 s l fs cf className Hm Hd Ec Hn Ea Hi)
    as (s1 & l1 & fs1 & held1 & E1 & Hm1 & Hd1 & Ec1 & Hup1 & _).
  assert (exists cf1,
             held1 = VObj cf1
             /\ up_to_json
                  (VObj (List.filter
                           (fun p => negb (fst p =? className)%string) cf1))
                  (VObj cf)) as (cf1 & -> & Hback).
  { destruct Hup1 as [->| ->]; eexists; (split; [reflexivity|]).
    - left. now rewrite filter_add_property.
    - right. simpl. now rewrite filter_json_clone, filter_add_property. }
  destruct (deleteClass_run e3 (with_currentClass (Some className) s1) l1 fs1
              cf1 className Hm1 Hd1 Ec1 eq_refl Hn)
    as (s3 & l3 & fs3 & held & E3 & Hm3 & Hd3 & Ec3 & Hup3).
  assert (classes_of (with_currentClass (Some EmptyString) s3) = Some held)
    as Hheld by (apply (classes_of_held _ l3 fs3); trivial).
  pose proof (up_to_json_again _ _ _ Hup3 Hback) as Hup.
  exists (with_currentClass (Some EmptyString) s3), held.
  split; [|split; [exact Hheld|split; [exact Hup|split; [reflexivity|]]]].
  - simpl. rewrite E1. unfold selectTeacherClass, modify. now rewrite E3.
  - intros Hj. now rewrite Hheld, (up_to_json_finite _ _ Hup Hj).
Qed.

Lemma create_then_delete_witness :
  exists s' held,
    session [(offline, CreateClass "Art");
             (all_well, SelectTeacherClass "Art");
             (online_no_idb, DeleteClass)] (page_with math_class)
    = (Ret tt, s')
    /\ classes_of s' = Some held
    /\ up_to_json held (VObj [("Math", class_of (VStr "Ada") (VNum 3))])
    /\ currentClass s' = Some EmptyString
    /\ (json_clone (VObj [("Math", class_of (VStr "Ada") (VNum 3))])
        = VObj [("Math", class_of (VStr "Ada") (VNum 3))] ->
        classes_of s'
        = Some (VObj [("Math", class_of (VStr "Ada") (VNum 3))])).
Proof.
  apply (create_then_delete offline all_well online_no_idb
           (page_with math_class) 0%nat
           [("classes", VObj [("Math", class_of (VStr "Ada") (VNum 3))]);
            ("teachers", VObj []); ("settings", VObj [])]);
    try reflexivity; discriminate.
Defined.

(** ** Export and import *)

Lemma alloc_run (v : value) (s : state) :
  alloc v s = (Ret (length (heap s)), with_heap (heap s ++ [v]) s).
Proof. reflexivity. Qed.

Lemma authoritative_alloc (v : value) (s : state) :
  authoritative s <> None ->
  authoritative (with_heap (heap s ++ [v]) s) = authoritative s.
Proof.
  unfold authoritative. simpl. destruct (memoryCache s) as [l|]; trivial.
  intros H. destruct (heap s !! l) as [d|] eqn:Hd; [|now elim H].
  now apply lookup_app_l_Some.
Qed.

(** X25.  What an import can do to the page.  On a page that holds a
    document, whatever the file holds, [handleFileImport] (with "Import"
    pressed when the dialog is offered) returns, and the authoritative
    document afterwards is either the one the page had, or the copy through
    JSON of the file's document with fresh metadata (the document itself but
    for the metadata, except that a number too large for a double, [1e999]
    say, has become [null]); the second only when the file is the text of a
    document that passes the validator and whose [classes] is truthy.  A file
    that gets past the check of the dialog and not past the validator
    (classes and nothing else, say) leaves the document as it was. *)
Theorem import_needs_a_valid_file (e : env) (s : state) (content : text) :
  authoritative s <> None ->
  exists offered s',
    handleFileImport e content s = (Ret offered, s')
    /\ (authoritative s' = authoritative s
        \/ exists fs count classes,
             content = Json (VObj fs)
             /\ validateDataStructure (Some (VObj fs)) = Ret true
             /\ assoc "classes" fs = Some classes
             /\ truthy (Some classes) = true
             /\ offered = true
             /\ next_backupCount (Some (VObj fs)) = Ret count
             /\ authoritative s'
                = Some (json_clone
                          (VObj (assoc_set "metadata" (stamp e count) fs)))).
Proof.
  intros Ha. unfold handleFileImport.
  destruct content as [|importedData].
  { exists false, s. split; [reflexivity|now left]. }
  assert (forall s0 : state,
            try_catch (throw (A := bool)) (mret false) s0 = (Ret false, s0))
    as Hthrow by reflexivity.
  unfold try_catch. rewrite lift_bind.
  destruct (get (Some importedData) "classes") as [classes| |] eqn:Eg.
  - destruct (negb (truthy classes)
              || negb (jstype_eqb (typeof classes) TObject)) eqn:Echeck.
    + exists false, s. split; [reflexivity|now left].
    + apply orb_false_iff in Echeck as [Et Eo].
      apply negb_false_iff in Et, Eo.
      erewrite bind_ret by apply alloc_run.
      set (s1 := with_heap (heap s ++ [importedData]) s).
      assert (heap s1 !! length (heap s) = Some importedData) as Hl.
      { simpl. rewrite lookup_app_r, Nat.sub_diag by lia. reflexivity. }
      destruct (saveData_runs e (length (heap s)) s1)
        as [E|(fs & count & b & s2 & Hd & Hv & Hc & E & W & _)].
      * erewrite bind_ret by exact E. exists true, s1.
        split; [reflexivity|]. left. now apply authoritative_alloc.
      * erewrite bind_ret by exact E. exists true, s2.
        split; [reflexivity|]. right.
        rewrite Hl in Hd. injection Hd as ->.
        destruct classes as [classes|]; [|discriminate Et].
        exists fs, count, classes.
        assert (assoc "classes" fs = Some classes) as Ec.
        { apply get_named in Eg as (fs' & [= <-] & Ec); trivial. }
        repeat split; trivial.
        destruct (stamped_page_alias s1 (length (heap s))
                    (VObj (assoc_set "metadata" (stamp e count) fs)) _ Hl)
          as (_ & Hcopy & _).
        pose proof (wrote_heap _ _ _ (length (heap s1)) W) as Hh.
        destruct W as (_ & Hm' & _). unfold authoritative.
        assert (memoryCache s2 = Some (length (heap s1))) as ->
          by now rewrite Hm'.
        now rewrite Hh, Hcopy.
  - exists false, s. split; [reflexivity|now left].
  - pose proof (get_settled (Some importedData) "classes"). contradiction.
Qed.

Lemma import_needs_a_valid_file_witness :
  exists offered s',
    handleFileImport offline (Json classes_only) (page_with math_class)
    = (Ret offered, s')
    /\ (authoritative s' = authoritative (page_with math_class)
        \/ exists fs count classes,
             Json classes_only = Json (VObj fs)
             /\ validateDataStructure (Some (VObj fs)) = Ret true
             /\ assoc "classes" fs = Some classes
             /\ truthy (Some classes) = true
             /\ offered = true
             /\ next_backupCount (Some (VObj fs)) = Ret count
             /\ authoritative s'
                = Some (json_clone
                          (VObj (assoc_set "metadata" (stamp offline count)
                                   fs)))).
Proof.
  apply (import_needs_a_valid_file offline (page_with math_class)
           (Json classes_only)).
  discriminate.
Defined.

(** X26.  Export and import again.  The file [exportData] writes holds the
    authoritative document as JSON writes it (with [null] for an infinite
    number).  Imported on the same page, in whatever surroundings, it gives
    the document back with fresh metadata, the save counter one higher,
    provided the document passes the validator, holds finite numbers only,
    has a save counter that is absent or an integer from [-2^53] to
    [2^53 - 1], and its [classes] is not [null].  A document with
    [classes: null], which the validator lets through, cannot be imported
    back: the file is turned away as "Invalid file format" and nothing
    changes. *)
Theorem export_then_import (e e' : env) (s : state) (l : loc) (doc : value)
    (z : Z) :
  memoryCache s = Some l ->
  heap s !! l = Some doc ->
  validateDataStructure (Some doc) = Ret true ->
  exists file,
    exportData e s = (Ret file, s)
    /\ file = Json (json_clone doc)
    /\ (json_clone doc = doc ->
        backupCount_of doc = Some (Finite z) -> - 2 ^ 53 <= z < 2 ^ 53 ->
        field doc "classes" <> Some VNull ->
        exists s',
          handleFileImport e' file s = (Ret true, s')
          /\ authoritative s' = Some (stamped_with e' (z + 1) doc))
    /\ (field doc "classes" = Some VNull ->
        handleFileImport e' file s = (Ret false, s)).
Proof.
  intros Hm Hd Hv. exists (Json (json_clone doc)).
  pose proof (valid_truthy _ Hv) as Ht.
  split; [|split; [reflexivity|]].
  { unfold exportData. rewrite (getData_deref e s l doc) by auto. reflexivity. }
  destruct (validateDataStructure_object _ Hv) as (fs & [= ->]).
  pose proof Hv as Hp. apply valid_iff_passing in Hp.
  destruct (passing_inv _ Hp) as (classes & Ec & Hc).
  split.
  - intros Hj Hn Hz Hnn. rewrite Hj.
    unfold handleFileImport, try_catch. rewrite lift_bind.
    rewrite (get_object _ _ _ Ec). simpl field in Hnn. rewrite Ec in Hnn.
    assert (negb (truthy (Some classes))
            || negb (jstype_eqb (typeof (Some classes)) TObject) = false) as ->.
    { destruct classes; try discriminate Hc; trivial. now elim Hnn. }
    erewrite bind_ret by apply alloc_run.
    set (s1 := with_heap (heap s ++ [VObj fs]) s).
    assert (heap s1 !! length (heap s) = Some (VObj fs)) as Hl.
    { simpl. rewrite lookup_app_r, Nat.sub_diag by lia. reflexivity. }
    destruct (saveData_valid e' (length (heap s)) s1 fs z Hl Hv Hn)
      as (b & s2 & E & _ & Hcopy & Hm2 & _).
    erewrite bind_ret by exact E. exists s2. split; [reflexivity|].
    unfold authoritative. rewrite Hm2, Hcopy.
    now rewrite (saved_copy_finite e' z fs Hj Hz).
  - intros Hnull. simpl field in Hnull.
    unfold handleFileImport, try_catch. rewrite lift_bind.
    assert (get (Some (json_clone (VObj fs))) "classes" = Ret (Some VNull))
      as -> by (apply (get_json_clone (VObj fs) "classes" VNull);
                now apply get_object).
    reflexivity.
Qed.

Lemma export_then_import_witness :
  exists file,
    exportData offline (page_with math_class) = (Ret file, page_with math_class)
    /\ file = Json (json_clone math_class)
    /\ (json_clone math_class = math_class ->
        backupCount_of math_class = Some (Finite 0) ->
        - 2 ^ 53 <= 0 < 2 ^ 53 ->
        field math_class "classes" <> Some VNull ->
        exists s',
          handleFileImport all_well file (page_with math_class) = (Ret true, s')
          /\ authoritative s' = Some (stamped_with all_well (0 + 1) math_class))
    /\ (field math_class "classes" = Some VNull ->
        handleFileImport all_well file (page_with math_class)
        = (Ret false, page_with math_class)).
Proof.
  apply (export_then_import offline all_well (page_with math_class) 0%nat
           math_class 0); reflexivity.
Defined.

(** ** The figures of a class *)

(** [<=] on numbers is a total order. *)
Lemma at_most_refl (a : number) : at_most a a = true.
Proof.
  unfold at_most. destruct a; simpl; trivial. now rewrite Z.ltb_irrefl.
Qed.

Lemma at_most_trans (a b c : number) :
  at_most a b = true -> at_most b c = true -> at_most a c = true.
Proof.
  unfold at_most. destruct a, b, c; simpl; trivial; try discriminate.
  rewrite !negb_true_iff, !Z.ltb_ge. lia.
Qed.

Lemma below_at_most (a b : number) : below a b = true -> at_most a b = true.
Proof.
  unfold at_most. destruct a, b; simpl; trivial; try discriminate.
  rewrite negb_true_iff, Z.ltb_lt, Z.ltb_ge. lia.
Qed.

Lemma not_below_at_most (a b : number) :
  below a b = false -> at_most b a = true.
Proof. unfold at_most. now intros ->. Qed.

Lemma round53_not_negative (z : Z) : 0 <= z -> 0 <= round53 z.
Proof.
  intros Hz. assert (0 < 2 ^ 53) by (apply Z.pow_pos_nonneg; lia).
  destruct (Z.lt_ge_cases z (2 ^ 53)) as [Hs|Hl].
  - now rewrite round53_safe by lia.
  - pose proof (round53_large z Hl). lia.
Qed.

Lemma of_integer_not_negative (z : Z) :
  0 <= z -> at_most 0 (of_integer z) = true.
Proof.
  intros Hz. pose proof (round53_not_negative z Hz) as Hr.
  unfold of_integer, at_most.
  destruct (Z.leb_spec (2 ^ 1024) (round53 z)); [reflexivity|].
  assert (0 < 2 ^ 1024) by (apply Z.pow_pos_nonneg; lia).
  destruct (Z.leb_spec (round53 z) (- 2 ^ 1024)); [lia|].
  simpl. apply negb_true_iff, Z.ltb_ge. exact Hr.
Qed.

Lemma passing_student_stars (student : value) :
  passing_student student = true ->
  get (Some student) "stars" = Ret (Some (VNum (stars_of student)))
  /\ at_most 0 (stars_of student) = true.
Proof.
  destruct student as [| | | | |sf]; try discriminate. simpl.
  intros H. apply andb_true_iff in H as [_ Hs]. unfold stars_of. simpl.
  destruct (assoc "stars" sf) as [[| |n| | |]|] eqn:E; try discriminate Hs.
  split; [now apply get_object|exact Hs].
Qed.

(** The sum is a number, and not a negative one. *)
Lemma sum_stars_passing (students : list value) :
  forall sum,
    forallb passing_student students = true ->
    at_most 0 sum = true ->
    exists total,
      sum_stars students sum = Ret total /\ at_most 0 total = true.
Proof.
  induction students as [|student rest IH]; intros sum; simpl.
  - intros _ H0. eauto.
  - intros H H0. apply andb_true_iff in H as [Hs Hr].
    destruct (passing_student_stars _ Hs) as [-> Hpos]. simpl.
    assert (exists sum', add sum (stars_of student) = Some sum'
                         /\ at_most 0 sum' = true) as (sum' & -> & H0').
    { destruct sum as [x| |], (stars_of student) as [y| |];
        try discriminate H0; try discriminate Hpos; simpl; eauto.
      eexists. split; [reflexivity|]. apply of_integer_not_negative.
      unfold at_most in H0, Hpos. simpl in H0, Hpos.
      apply negb_true_iff, Z.ltb_ge in H0, Hpos. lia. }
    simpl. now apply IH.
Qed.

Lemma stars_total_not_negative (students : list value) :
  forallb passing_student students = true -> 0 <= stars_total students.
Proof.
  induction students as [|student rest IH]; simpl; [lia|].
  intros H. apply andb_true_iff in H as [Hs Hr].
  destruct (passing_student_stars _ Hs) as [_ Hpos]. specialize (IH Hr).
  unfold whole_stars. destruct (stars_of student) as [z| |]; try lia.
  unfold at_most in Hpos. simpl in Hpos.
  apply negb_true_iff, Z.ltb_ge in Hpos. lia.
Qed.

(** The sum is exact as long as it stays within [2^53]. *)
Lemma sum_stars_exact (students : list value) :
  forall sum : Z,
    forallb passing_student students = true ->
    (forall student, In student students ->
                     exists z, stars_of student = Finite z) ->
    0 <= sum -> sum + stars_total students <= 2 ^ 53 ->
    sum_stars students sum = Ret (Finite (sum + stars_total students)).
Proof.
  induction students as [|student rest IH]; intros sum; simpl.
  - intros _ _ _ _. now rewrite Z.add_0_r.
  - intros H Hfin H0 Hle. apply andb_true_iff in H as [Hs Hr].
    destruct (passing_student_stars _ Hs) as [-> Hpos]. simpl.
    destruct (Hfin student (or_introl eq_refl)) as (z & Hz).
    pose proof (stars_total_not_negative _ Hr) as Hrest.
    unfold whole_stars in *. rewrite Hz in *.
    unfold at_most in Hpos. simpl in Hpos.
    apply negb_true_iff, Z.ltb_ge in Hpos.
    simpl. rewrite of_integer_safe by lia. simpl.
    rewrite IH; auto; [do 2 f_equal; lia|lia|lia].
Qed.

Lemma more_stars_passing (student top : value) :
  passing_student student = true -> passing_student top = true ->
  more_stars student top = Ret (below (stars_of top) (stars_of student)).
Proof.
  intros Hs Ht. unfold more_stars.
  destruct (passing_student_stars _ Hs) as [-> _].
  destruct (passing_student_stars _ Ht) as [-> _]. reflexivity.
Qed.

Lemma best_of_passing (students : list value) :
  forall top,
    forallb passing_student students = true -> passing_student top = true ->
    exists best,
      best_of students top = Ret best
      /\ passing_student best = true
      /\ (best = top \/ In best students)
      /\ at_most (stars_of top) (stars_of best) = true
      /\ forall student, In student students ->
                         at_most (stars_of student) (stars_of best) = true.
Proof.
  induction students as [|student rest IH]; intros top; simpl.
  - intros _ Ht. exists top.
    split; [reflexivity|]. split; [exact Ht|]. split; [now left|].
    split; [apply at_most_refl|]. intros student [].
  - intros H Ht. apply andb_true_iff in H as [Hs Hr].
    rewrite (more_stars_passing _ _ Hs Ht). simpl.
    destruct (below (stars_of top) (stars_of student)) eqn:Hlt.
    + destruct (IH student Hr Hs) as (best & -> & Hb & Hin & Hle & Hall).
      exists best. repeat split; trivial.
      * destruct Hin as [->|Hin]; auto.
      * eapply at_most_trans; [apply below_at_most; exact Hlt|exact Hle].
      * intros st [<-|Hst]; auto.
    + destruct (IH top Hr Ht) as (best & -> & Hb & Hin & Hle & Hall).
      exists best. repeat split; trivial.
      * destruct Hin as [->|Hin]; auto.
      * intros st [<-|Hst]; [|auto].
        eapply at_most_trans; [apply not_below_at_most; exact Hlt|exact Hle].
Qed.

Lemma stars_total_bounds (students : list value) (top : value) :
  (forall student, In student students ->
                   0 <= whole_stars student <= whole_stars top) ->
  In top students ->
  whole_stars top <= stars_total students
  <= Z.of_nat (length students) * whole_stars top.
Proof.
  induction students as [|student rest IH]; [contradiction|].
  intros Hall Hin. simpl stars_total. simpl length.
  assert (0 <= stars_total rest <= Z.of_nat (length rest) * whole_stars top)
    as Hr.
  { clear IH Hin. induction rest as [|x rest IH]; simpl; [lia|].
    assert (0 <= whole_stars x <= whole_stars top)
      by (apply Hall; simpl; auto).
    assert (0 <= stars_total rest <= Z.of_nat (length rest) * whole_stars top).
    { apply IH. intros st [<-|Hst]; apply Hall; simpl; auto. }
    lia. }
  assert (0 <= whole_stars student <= whole_stars top)
    by (apply Hall; simpl; auto).
  destruct Hin as [->|Hin]; [lia|].
  assert (whole_stars top <= stars_total rest).
  { apply IH; trivial. intros st Hst. apply Hall. simpl. auto. }
  lia.
Qed.

(** X27.  The figures of a class.  For a document that passes the validator
    and a current class found among its classes, [updateClassStatistics]
    returns without touching anything, and its figures are those of the
    class: the number of its students, a total of stars that is a number and
    not negative, and for top performer (none when the class is empty) one
    of its students whom no student of the class exceeds.  The total is
    computed in doubles: when every star count is a finite integer and
    their sum is at most [2^53], it is that sum, and it lies between the top
    performer's stars and that many stars for every student. *)
Theorem class_figures_are_right (e : env) (s : state) (l : loc)
    (fs cf : list (string * value)) (name : string) (classData : value) :
  memoryCache s = Some l ->
  heap s !! l = Some (VObj fs) ->
  validateDataStructure (Some (VObj fs)) = Ret true ->
  assoc "classes" fs = Some (VObj cf) ->
  currentClass s = Some name -> name <> EmptyString ->
  assoc name cf = Some classData ->
  exists held students figures,
    field classData "students" = Some held
    /\ students = map snd (own_entries held)
    /\ updateClassStatistics e s = (Ret (Some figures), s)
    /\ figure_students figures = Z.of_nat (length students)
    /\ at_most 0 (figure_stars figures) = true
    /\ (students = [] -> figure_top figures = None)
    /\ (students <> [] ->
        exists top,
          figure_top figures = Some top
          /\ In top students
          /\ (forall student, In student students ->
                at_most (stars_of student) (stars_of top) = true))
    /\ ((forall student, In student students ->
                         exists z, stars_of student = Finite z) ->
        stars_total students <= 2 ^ 53 ->
        figure_stars figures = Finite (stars_total students)
        /\ forall top, figure_top figures = Some top ->
             whole_stars top <= stars_total students
             <= figure_students figures * whole_stars top).
Proof.
  intros Hm Hd Hv Ec Hcur Hname Ea. apply String.eqb_neq in Hname.
  apply valid_iff_passing in Hv.
  destruct (passing_inv _ Hv) as (classes & Ec' & Hc).
  rewrite Ec in Ec'. injection Ec' as <-.
  pose proof (all_pass_assoc _ _ _ _ Hc Ea) as Hcd.
  destruct (passing_class_inv _ Hcd) as (cdf & held & -> & Es & Ho & Hs).
  rewrite (passing_entries_object _ _ Ho) in Hs.
  assert (forallb passing_student (map snd (own_entries held)) = true) as Hall.
  { unfold all_pass in *. clear -Hs.
    induction (own_entries held) as [|p rest IH]; simpl in *; trivial.
    apply andb_true_iff in Hs as [-> Hr]. now rewrite IH. }
  remember (map snd (own_entries held)) as students eqn:Hst.
  destruct (sum_stars_passing students 0 Hall eq_refl) as (total & Hsum & Hpos).
  assert ((forall student, In student students ->
                           exists z, stars_of student = Finite z) ->
          stars_total students <= 2 ^ 53 ->
          total = Finite (stars_total students)) as Hexact.
  { intros Hfin Hle.
    pose proof (sum_stars_exact students 0 Hall Hfin) as Hx.
    rewrite Z.add_0_l in Hx. rewrite Hx in Hsum by (trivial; lia).
    now injection Hsum as <-. }
  assert (forall r,
            (topPerformer ←
               match students with
               | [] => Ret None
               | first :: _ => top ← best_of students first; Ret (Some top)
               end;
             Ret (Some (mkFigures (Z.of_nat (length students))
                          total topPerformer))) = Ret r ->
            updateClassStatistics e s = (Ret r, s)) as Hrun.
  { intros r Hr. unfold updateClassStatistics. rewrite gets_bind, Hcur.
    change (no_class (Some name)) with (name =? EmptyString)%string.
    rewrite Hname. rewrite (getData_deref e s l (VObj fs)) by auto.
    unfold class_statistics. change (class_key (Some name)) with name.
    rewrite (get_object _ _ _ Ec). simpl. rewrite Ea. simpl.
    rewrite (get_object _ _ _ Es). simpl.
    assert (truthy (Some held) = true) as -> by now destruct held.
    simpl.
    assert (object_values (Some held) = Ret students) as ->
      by (rewrite Hst; now destruct held).
    simpl. rewrite Hsum. simpl. now rewrite Hr. }
  exists held, students.
  destruct students as [|first rest].
  - eexists. split; [exact Es|]. split; [exact Hst|].
    split; [apply Hrun; reflexivity|]. simpl.
    split; [reflexivity|]. split; [exact Hpos|]. split; [reflexivity|].
    split; [intros H; now elim H|].
    intros Hfin Hle. split; [now apply Hexact|]. discriminate.
  - simpl in Hall. pose proof Hall as Hall'.
    apply andb_true_iff in Hall' as [Hf _].
    destruct (best_of_passing (first :: rest) first Hall Hf)
      as (best & Eb & Hb & Hin & _ & Hmax).
    assert (In best (first :: rest)) as Hin'
      by (destruct Hin as [->|Hin]; simpl; auto).
    eexists. split; [exact Es|]. split; [exact Hst|].
    split; [apply Hrun; rewrite Eb; reflexivity|]. simpl figure_students.
    simpl figure_stars. simpl figure_top.
    split; [reflexivity|]. split; [exact Hpos|]. split; [discriminate|].
    split.
    + intros _. exists best. auto.
    + intros Hfin Hle. split; [now apply Hexact|].
      intros top [= <-].
      apply (stars_total_bounds (first :: rest) best); trivial.
      intros st Hin2.
      assert (forallb passing_student (first :: rest) = true) as Hall2
        by exact Hall.
      rewrite forallb_forall in Hall2.
      destruct (passing_student_stars _ (Hall2 _ Hin2)) as [_ H0].
      pose proof (Hmax _ Hin2) as Hle2.
      destruct (Hfin _ Hin2) as (z & Hz). destruct (Hfin _ Hin') as (zb & Hzb).
      unfold whole_stars. rewrite Hz, Hzb in *.
      unfold at_most in H0, Hle2. simpl in H0, Hle2.
      apply negb_true_iff, Z.ltb_ge in H0, Hle2. lia.
Qed.

Lemma class_figures_are_right_witness :
  exists held students figures,
    field (class_of (VStr "Ada") (VNum 3)) "students" = Some held
    /\ students = map snd (own_entries held)
    /\ updateClassStatistics offline
         (mkState [math_class] (Some 0%nat) (Some "Math") None None None None [])
       = (Ret (Some figures),
          mkState [math_class] (Some 0%nat) (Some "Math") None None None None [])
    /\ figure_students figures = Z.of_nat (length students)
    /\ at_most 0 (figure_stars figures) = true
    /\ (students = [] -> figure_top figures = None)
    /\ (students <> [] ->
        exists top,
          figure_top figures = Some top
          /\ In top students
          /\ (forall student, In student students ->
                at_most (stars_of student) (stars_of top) = true))
    /\ ((forall student, In student students ->
                         exists z, stars_of student = Finite z) ->
        stars_total students <= 2 ^ 53 ->
        figure_stars figures = Finite (stars_total students)
        /\ forall top, figure_top figures = Some top ->
             whole_stars top <= stars_total students
             <= figure_students figures * whole_stars top).
Proof.
  eapply (class_figures_are_right offline
            (mkState [math_class] (Some 0%nat) (Some "Math") None None None
               None [])
            0%nat _ _ "Math");
    try reflexivity; discriminate.
Defined.

(** ** The leaderboard *)

Lemma same_count_eq (a b : number) : same_count a b = true <-> a = b.
Proof.
  destruct a, b; simpl; split; try discriminate; trivial.
  - now intros ->%Z.eqb_eq.
  - intros [= ->]. apply Z.eqb_refl.
Qed.

Lemma place_Permutation (x : number * value) (l : list (number * value)) :
  Permutation (place x l) (x :: l).
Proof.
  induction l as [|y rest IH]; simpl; [reflexivity|].
  destruct (at_most (fst y) (fst x)); [reflexivity|].
  rewrite IH. apply perm_swap.
Qed.

Lemma place_descending (x : number * value) (l : list (number * value)) :
  descending (map fst l) -> descending (map fst (place x l)).
Proof.
  induction l as [|y rest IH]; simpl; [auto|].
  intros [Hy Hrest]. destruct (at_most (fst y) (fst x)) eqn:Hle; simpl.
  - split; [|auto]. constructor; [exact Hle|].
    eapply Forall_impl; [exact Hy|]. simpl. intros k Hk.
    now apply (at_most_trans k (fst y)).
  - split; [|auto].
    assert (at_most (fst x) (fst y) = true) as Hxy.
    { unfold at_most in Hle. apply negb_false_iff in Hle.
      now apply below_at_most. }
    assert (Forall (fun k' => at_most k' (fst y) = true) (map fst (x :: rest)))
      as H by (constructor; [exact Hxy|exact Hy]).
    rewrite List.Forall_forall in *. intros k Hk. apply H.
    rewrite in_map_iff in *. destruct Hk as (p & <- & Hp).
    exists p. split; [reflexivity|].
    eapply Permutation_in; [apply place_Permutation|exact Hp].
Qed.

Lemma place_stable (n : number) (x : number * value)
    (l : list (number * value)) :
  List.filter (fun p => same_count (fst p) n) (place x l)
  = List.filter (fun p => same_count (fst p) n) (x :: l).
Proof.
  induction l as [|y rest IH]; [reflexivity|].
  simpl place. destruct (at_most (fst y) (fst x)) eqn:Hle; [reflexivity|].
  simpl in *. rewrite IH.
  destruct (same_count (fst x) n) eqn:Ex, (same_count (fst y) n) eqn:Ey;
    trivial.
  apply same_count_eq in Ex, Ey. rewrite Ex, Ey, at_most_refl in Hle.
  discriminate Hle.
Qed.

(** The sort: the same rows, the counts going down, and rows of equal
    count in the order they had. *)
Lemma sorted_keys (keyed : list (number * value)) :
  Permutation (fold_right place [] keyed) keyed
  /\ descending (map fst (fold_right place [] keyed))
  /\ forall n, List.filter (fun p => same_count (fst p) n)
                 (fold_right place [] keyed)
               = List.filter (fun p => same_count (fst p) n) keyed.
Proof.
  induction keyed as [|x rest (Hp & Hd & Hs)]; simpl.
  - repeat split; auto.
  - split; [|split].
    + rewrite place_Permutation. now constructor.
    + now apply place_descending.
    + intros n. rewrite place_stable. simpl. now rewrite Hs.
Qed.

Lemma consistent_keys (rows : list value) (l : list (number * value)) :
  Permutation l (keyed_rows rows) ->
  Forall (fun p => fst p = stars_of (snd p)) l.
Proof.
  intros Hp. rewrite List.Forall_forall. intros p Hin.
  eapply Permutation_in in Hin; [|exact Hp].
  unfold keyed_rows in Hin. rewrite in_map_iff in Hin.
  now destruct Hin as (row & <- & _).
Qed.

Lemma map_snd_keyed (rows : list value) : map snd (keyed_rows rows) = rows.
Proof.
  unfold keyed_rows. induction rows as [|r rest IH]; simpl; [|rewrite IH];
    reflexivity.
Qed.

Lemma filter_keyed (n : number) (l : list (number * value)) :
  Forall (fun p => fst p = stars_of (snd p)) l ->
  List.filter (fun row => same_count (stars_of row) n) (map snd l)
  = map snd (List.filter (fun p => same_count (fst p) n) l).
Proof.
  induction 1 as [|p rest Hp _ IH]; simpl; [reflexivity|].
  rewrite <- Hp, IH. now destruct (same_count (fst p) n).
Qed.

Lemma map_stars_keyed (l : list (number * value)) :
  Forall (fun p => fst p = stars_of (snd p)) l ->
  map stars_of (map snd l) = map fst l.
Proof.
  induction 1 as [|p rest Hp _ IH]; simpl; [reflexivity|].
  now rewrite <- Hp, IH.
Qed.

(** The rows made of students that pass the validator. *)
Lemma entry_stars (className studentId : string) (student : value) :
  passing_student student = true ->
  get (Some (leaderboard_entry className studentId student)) "stars"
  = Ret (Some (VNum (stars_of student)))
  /\ stars_of (leaderboard_entry className studentId student)
     = stars_of student.
Proof.
  destruct student as [| | | | |sf]; try discriminate. simpl.
  intros H. apply andb_true_iff in H as [_ Hs]. unfold stars_of. simpl.
  rewrite (assoc_set_other "stars" "id") by discriminate.
  rewrite (assoc_set_other "stars" "className") by discriminate.
  destruct (assoc "stars" sf) as [[| |n| | |]|] eqn:E; try discriminate Hs.
  split; [|reflexivity]. apply get_object.
  rewrite (assoc_set_other "stars" "id") by discriminate.
  now rewrite (assoc_set_other "stars" "className") by discriminate.
Qed.

Lemma star_keys_passing (className : string) (students : list (string * value)) :
  all_pass passing_student students = true ->
  star_keys (map (fun p => leaderboard_entry className (fst p) (snd p)) students)
  = Ret (keyed_rows
           (map (fun p => leaderboard_entry className (fst p) (snd p)) students)).
Proof.
  unfold all_pass. induction students as [|[k st] rest IH]; simpl;
    [reflexivity|].
  intros H. apply andb_true_iff in H as [Hs Hr].
  destruct (entry_stars className k st Hs) as [-> ->]. simpl.
  now rewrite (IH Hr).
Qed.

Lemma sort_by_stars_passing (className : string)
    (students : list (string * value)) :
  all_pass passing_student students = true ->
  let rows := map (fun p => leaderboard_entry className (fst p) (snd p))
                students in
  sort_by_stars rows = Ret (map snd (fold_right place [] (keyed_rows rows))).
Proof.
  intros Hp rows. pose proof (star_keys_passing className students Hp) as Hk.
  fold rows in Hk. unfold sort_by_stars.
  destruct rows as [|r1 [|r2 rest]] eqn:E; try reflexivity.
  now rewrite Hk.
Qed.

(** X28.  The leaderboard of a class.  For a document that passes the
    validator and a current class found among its classes, with no search
    text, [updateLeaderboard] returns without touching anything and lists
    every student of the class once (with the class name and the student's
    id added), the star counts going down the list, students with the same
    count in the order of the document. *)
Theorem leaderboard_of_a_class (e : env) (s : state) (l : loc)
    (fs cf : list (string * value)) (name : string) (classData : value) :
  memoryCache s = Some l ->
  heap s !! l = Some (VObj fs) ->
  validateDataStructure (Some (VObj fs)) = Ret true ->
  assoc "classes" fs = Some (VObj cf) ->
  currentClass s = Some name -> name <> EmptyString ->
  assoc name cf = Some classData ->
  exists held rows,
    field classData "students" = Some held
    /\ updateLeaderboard e false EmptyString s = (Ret (Some rows), s)
    /\ Permutation rows (entries_of_class name held)
    /\ descending (map stars_of rows)
    /\ forall n,
         List.filter (fun row => same_count (stars_of row) n) rows
         = List.filter (fun row => same_count (stars_of row) n)
             (entries_of_class name held).
Proof.
  intros Hm Hd Hv Ec Hcur Hname Ea. apply String.eqb_neq in Hname.
  apply valid_iff_passing in Hv.
  destruct (passing_inv _ Hv) as (classes & Ec' & Hc).
  rewrite Ec in Ec'. injection Ec' as <-.
  pose proof (all_pass_assoc _ _ _ _ Hc Ea) as Hcd.
  destruct (passing_class_inv _ Hcd) as (cdf & held & -> & Es & Ho & Hs).
  rewrite (passing_entries_object _ _ Ho) in Hs.
  set (rows := entries_of_class name held).
  destruct (sorted_keys (keyed_rows rows)) as (Hperm & Hdesc & Hstable).
  pose proof (consistent_keys rows _ Hperm) as Hcons.
  exists held, (map snd (fold_right place [] (keyed_rows rows))).
  split; [exact Es|]. split; [|split; [|split]].
  - unfold updateLeaderboard.
    rewrite (getData_deref e s l (VObj fs)) by auto.
    rewrite gets_bind, Hcur. unfold leaderboard.
    change (no_class (Some name)) with (name =? EmptyString)%string.
    change (class_key (Some name)) with name. rewrite Hname.
    rewrite (get_object _ _ _ Ec). simpl. rewrite Ea. simpl.
    rewrite (get_object _ _ _ Es). simpl.
    assert (truthy (Some held) = true) as -> by now destruct held.
    simpl. fold rows.
    pose proof (sort_by_stars_passing name (own_entries held) Hs) as Hsort.
    simpl in Hsort. unfold entries_of_class in rows. fold rows in Hsort.
    now rewrite Hsort.
  - transitivity (map snd (keyed_rows rows)); [now apply Permutation_map|].
    now rewrite map_snd_keyed.
  - now rewrite map_stars_keyed.
  - intros n. rewrite filter_keyed, Hstable by exact Hcons.
    rewrite <- filter_keyed, map_snd_keyed; [reflexivity|].
    now apply (consistent_keys rows).
Qed.

Lemma leaderboard_of_a_class_witness :
  exists held rows,
    field (VObj [("students", VObj three_students)]) "students" = Some held
    /\ updateLeaderboard offline false EmptyString class_of_three
       = (Ret (Some rows), class_of_three)
    /\ Permutation rows (entries_of_class "Math" held)
    /\ descending (map stars_of rows)
    /\ forall n,
         List.filter (fun row => same_count (stars_of row) n) rows
         = List.filter (fun row => same_count (stars_of row) n)
             (entries_of_class "Math" held).
Proof.
  eapply (leaderboard_of_a_class offline class_of_three 0%nat _ _ "Math");
    try reflexivity; discriminate.
Defined.

(** *** What the operations on students do *)

Lemma class_of_page_own (cf : list (string * value)) (key : string)
    (classData : value) :
  assoc key cf = Some classData ->
  class_of_page (Some (VObj cf)) key = Ret classData.
Proof. intros H. unfold class_of_page. simpl. now rewrite H. Qed.

(** [addStudent] in a class that has a students object. *)
Lemma addStudent_run (e : env) (s : state) (l : loc)
    (fs cf cdf sf : list (string * value))
    (name studentName studentId : string) :
  memoryCache s = Some l ->
  heap s !! l = Some (VObj fs) ->
  assoc "classes" fs = Some (VObj cf) ->
  currentClass s = Some name -> name <> EmptyString ->
  assoc name cf = Some (VObj cdf) ->
  assoc "students" cdf = Some (VObj sf) ->
  studentName <> EmptyString ->
  (assoc studentId sf = None -> studentId <> "__proto__") ->
  exists s' l' fs' sf' held,
    addStudent e studentName studentId s = (Ret tt, s')
    /\ memoryCache s' = Some l'
    /\ heap s' !! l' = Some (VObj fs')
    /\ assoc "classes" fs' = Some held
    /\ up_to_json held
         (VObj (assoc_set name
                  (VObj (assoc_set "students" (VObj sf') cdf)) cf))
    /\ currentClass s' = currentClass s
    /\ assign (Some (VObj sf)) studentId (new_student e studentName)
       = Ret (VObj sf')
    /\ forall id, assoc id sf'
                  = if (id =? studentId)%string
                    then Some (new_student e studentName)
                    else assoc id sf.
Proof.
  intros Hm Hd Ec Hcur Hname Ea Es Hsn Hproto.
  apply String.eqb_neq in Hname, Hsn.
  destruct (assign_object sf studentId (new_student e studentName) Hproto)
    as (sf' & Eas & Hsf').
  destruct (store_save_classes e s l fs
              (VObj (assoc_set name
                       (VObj (assoc_set "students" (VObj sf') cdf)) cf))
              (fun _ => mret tt) Hm Hd)
    as (b & s2 & l2 & fs2 & held & E & Hm2 & Hd2 & Ec2 & Hup & Hcur2).
  exists s2, l2, fs2, sf', held. repeat split; trivial.
  unfold addStudent. rewrite Hsn, gets_bind, Hcur.
  change (no_class (Some name)) with (name =? EmptyString)%string.
  change (class_key (Some name)) with name. rewrite Hname.
  rewrite (getData_deref e s l (VObj fs)) by auto.
  rewrite lift_bind, (get_object _ _ _ Ec).
  rewrite lift_bind. simpl find. rewrite Ea.
  change (found_truthy (Own (VObj cdf))) with true. cbv iota.
  rewrite lift_bind. cbv iota.
  rewrite lift_bind, (class_of_page_own _ _ _ Ea).
  rewrite lift_bind, (get_object _ _ _ Es).
  rewrite lift_bind. fold (new_student e studentName). rewrite Eas.
  rewrite lift_bind. simpl set. cbv iota.
  rewrite lift_bind. simpl assign. rewrite Ea.
  rewrite lift_bind. simpl set. cbv iota. exact E.
Qed.

(** [removeStudent] of a student of the class. *)
Lemma removeStudent_run (e : env) (s : state) (l : loc)
    (fs cf cdf sf : list (string * value)) (name studentId : string)
    (student : value) :
  memoryCache s = Some l ->
  heap s !! l = Some (VObj fs) ->
  assoc "classes" fs = Some (VObj cf) ->
  currentClass s = Some name ->
  assoc name cf = Some (VObj cdf) ->
  assoc "students" cdf = Some (VObj sf) ->
  assoc studentId sf = Some student -> truthy (Some student) = true ->
  exists s' l' fs' held,
    removeStudent e studentId s = (Ret tt, s')
    /\ memoryCache s' = Some l'
    /\ heap s' !! l' = Some (VObj fs')
    /\ assoc "classes" fs' = Some held
    /\ up_to_json held
         (VObj (assoc_set name
                  (VObj (assoc_set "students"
                           (VObj (List.filter
                                    (fun p => negb (fst p =? studentId)%string)
                                    sf)) cdf)) cf))
    /\ currentClass s' = currentClass s.
Proof.
  intros Hm Hd Ec Hcur Ea Es Est Ht.
  destruct (store_save_classes e s l fs
              (VObj (assoc_set name
                       (VObj (assoc_set "students"
                                (VObj (List.filter
                                         (fun p => negb (fst p =? studentId)%string)
                                         sf)) cdf)) cf))
              (fun _ => mret tt) Hm Hd)
    as (b & s2 & l2 & fs2 & held & E & Hm2 & Hd2 & Ec2 & Hup & Hcur2).
  exists s2, l2, fs2, held. repeat split; trivial.
  unfold removeStudent.
  rewrite (getData_deref e s l (VObj fs)) by auto.
  rewrite gets_bind, Hcur. change (class_key (Some name)) with name.
  assert (student_of_page (Some (VObj fs)) name studentId
          = Ret (Own student)) as ->.
  { unfold student_of_page. rewrite (get_object _ _ _ Ec). simpl.
    rewrite (class_of_page_own _ _ _ Ea). simpl.
    rewrite (get_object _ _ _ Es). simpl. now rewrite Est. }
  rewrite lift_bind. change (found_truthy (Own student)) with (truthy (Some student)).
  rewrite Ht. change (negb true) with false. cbv iota.
  assert (drop_student (Some (VObj fs)) name studentId
          = Ret (VObj (assoc_set "classes"
                        (VObj (assoc_set name
                                 (VObj (assoc_set "students"
                                          (VObj (List.filter
                                                   (fun p => negb (fst p =? studentId)%string)
                                                   sf)) cdf)) cf)) fs))) as ->.
  { unfold drop_student. rewrite (get_object _ _ _ Ec). simpl.
    rewrite (class_of_page_own _ _ _ Ea). simpl.
    rewrite (get_object _ _ _ Es). simpl. now rewrite Ea. }
  rewrite lift_bind. exact E.
Qed.

(** The students of a class, in given classes. *)
Lemma students_at_classes (s : state) (l : loc) (fs : list (string * value))
    (classes : value) (name : string) :
  memoryCache s = Some l -> heap s !! l = Some (VObj fs) ->
  assoc "classes" fs = Some classes ->
  students_at s name
  = match field classes name with
    | Some classData => field classData "students"
    | None => None
    end.
Proof.
  intros Hm Hd Ec. unfold students_at.
  now rewrite (classes_of_held s l fs classes Hm Hd Ec).
Qed.

Lemma students_json_clone (classes : value) (name : string) :
  match field (json_clone classes) name with
  | Some classData => field classData "students"
  | None => None
  end
  = json_clone <$> match field classes name with
                   | Some classData => field classData "students"
                   | None => None
                   end.
Proof.
  rewrite field_json_clone. destruct (field classes name) as [classData|];
    simpl; [apply field_json_clone|reflexivity].
Qed.

(** X29.  What [addStudent] does in a class that has a students object,
    whatever the surroundings and whether or not the save goes through: the
    class gets the student under the id that [generateId] returned, with the
    name typed, no stars and the creation time; every other student of the
    class, and every other class, is as before.  Nothing checks that the id
    is free: a student who had it is replaced.  (The id is not [__proto__]
    unless a student has it.  The page holds the students as they are, or as
    the copy through JSON that a save which went through leaves, in which an
    infinite number has become [null].) *)
Theorem addStudent_adds_a_student (e : env) (s : state) (l : loc)
    (fs cf cdf sf : list (string * value))
    (name studentName studentId : string) :
  memoryCache s = Some l ->
  heap s !! l = Some (VObj fs) ->
  assoc "classes" fs = Some (VObj cf) ->
  currentClass s = Some name -> name <> EmptyString ->
  assoc name cf = Some (VObj cdf) ->
  assoc "students" cdf = Some (VObj sf) ->
  studentName <> EmptyString ->
  (assoc studentId sf = None -> studentId <> "__proto__") ->
  exists s' sf' held,
    addStudent e studentName studentId s = (Ret tt, s')
    /\ students_at s' name = Some held
    /\ up_to_json held (VObj sf')
    /\ (forall id, assoc id sf'
                   = if (id =? studentId)%string
                     then Some (new_student e studentName)
                     else assoc id sf)
    /\ (forall other, other <> name ->
                      students_at s' other = students_at s other
                      \/ students_at s' other
                         = json_clone <$> students_at s other)
    /\ currentClass s' = currentClass s.
Proof.
  intros Hm Hd Ec Hcur Hname Ea Es Hsn Hproto.
  destruct (addStudent_run e s l fs cf cdf sf name studentName studentId
              Hm Hd Ec Hcur Hname Ea Es Hsn Hproto)
    as (s' & l' & fs' & sf' & held & E & Hm' & Hd' & Ec' & Hup & Hcur' & _
        & Hsf').
  set (cf' := assoc_set name (VObj (assoc_set "students" (VObj sf') cdf)) cf)
    in *.
  assert (forall k,
             match field (VObj cf') k with
             | Some classData => field classData "students"
             | None => None
             end
             = if (k =? name)%string then Some (VObj sf')
               else students_at s k) as Hbuilt.
  { intros k. rewrite (students_at_classes s l fs (VObj cf) k Hm Hd Ec).
    unfold cf'. simpl. destruct (String.eqb_spec k name) as [->|Hne].
    - rewrite assoc_set_same. simpl. apply assoc_set_same.
    - now rewrite assoc_set_other. }
  assert (forall k,
             students_at s' k
             = (if (k =? name)%string then Some (VObj sf')
                else students_at s k)
             \/ students_at s' k
                = json_clone <$> (if (k =? name)%string then Some (VObj sf')
                                  else students_at s k)) as Hheld.
  { intros k. rewrite (students_at_classes s' l' fs' held k Hm' Hd' Ec').
    destruct Hup as [->| ->]; [left|right].
    - apply Hbuilt.
    - rewrite students_json_clone. now rewrite Hbuilt. }
  destruct (Hheld name) as [Hn|Hn]; rewrite String.eqb_refl in Hn.
  - exists s', sf', (VObj sf'). split; [exact E|]. split; [exact Hn|].
    split; [now left|]. split; [exact Hsf'|]. split; [|exact Hcur'].
    intros other Hne. apply String.eqb_neq in Hne.
    specialize (Hheld other). now rewrite Hne in Hheld.
  - exists s', sf', (json_clone (VObj sf')). split; [exact E|].
    split; [exact Hn|].
    split; [now right|]. split; [exact Hsf'|]. split; [|exact Hcur'].
    intros other Hne. apply String.eqb_neq in Hne.
    specialize (Hheld other). now rewrite Hne in Hheld.
Qed.

Lemma addStudent_adds_a_student_witness :
  exists s' sf' held,
    addStudent offline "Bob" "lq3x8k2f0a" class_of_three = (Ret tt, s')
    /\ students_at s' "Math" = Some held
    /\ up_to_json held (VObj sf')
    /\ (forall id, assoc id sf'
                   = if (id =? "lq3x8k2f0a")%string
                     then Some (new_student offline "Bob")
                     else assoc id three_students)
    /\ (forall other, other <> "Math" ->
                      students_at s' other = students_at class_of_three other
                      \/ students_at s' other
                         = json_clone <$> students_at class_of_three other)
    /\ currentClass s' = currentClass class_of_three.
Proof.
  eapply (addStudent_adds_a_student offline class_of_three 0%nat);
    try reflexivity; discriminate.
Defined.

(** X30.  Adding a student and removing the student again gives the classes
    back.  For an id that is free (and not [__proto__]), [addStudent] and
    then [removeStudent] of that id, each in surroundings of its own, leave
    the authoritative document with the classes it had, every student in
    place, whether the two saves went through or not.  (The page holds the
    classes as they were, or as the copy through JSON that a save which went
    through leaves, in which an infinite number has become [null].) *)
Theorem add_then_remove (e1 e2 : env) (s : state) (l : loc)
    (fs cf cdf sf : list (string * value))
    (name studentName studentId : string) :
  memoryCache s = Some l ->
  heap s !! l = Some (VObj fs) ->
  assoc "classes" fs = Some (VObj cf) ->
  currentClass s = Some name -> name <> EmptyString ->
  assoc name cf = Some (VObj cdf) ->
  assoc "students" cdf = Some (VObj sf) ->
  studentName <> EmptyString ->
  assoc studentId sf = None -> studentId <> "__proto__" ->
  exists s' held,
    session [(e1, AddStudent studentName studentId);
             (e2, RemoveStudent studentId)] s = (Ret tt, s')
    /\ classes_of s' = Some held
    /\ up_to_json held (VObj cf)
    /\ currentClass s' = Some name.
Proof.
  intros Hm Hd Ec Hcur Hname Ea Es Hsn Hfree Hproto.
  destruct (addStudent_run e1 s l fs cf cdf sf name studentName studentId
              Hm Hd Ec Hcur Hname Ea Es Hsn (fun _ => Hproto))
    as (s1 & l1 & fs1 & sf' & held1 & E1 & Hm1 & Hd1 & Ec1 & Hup1 & Hcur1
        & Eas & Hsf').
  assert (sf' = add_property studentId (new_student e1 studentName) sf) as ->.
  { simpl in Eas. rewrite Hfree in Eas.
    destruct (studentId =? "__proto__")%string; [discriminate|].
    now injection Eas as <-. }
  rewrite Hcur in Hcur1.
  set (clone := fun p : string * value => (fst p, json_clone (snd p))).
  set (sf1 := add_property studentId (new_student e1 studentName) sf) in *.
  assert (exists cf1 cdf1 sf2,
             held1 = VObj cf1
             /\ assoc name cf1 = Some (VObj cdf1)
             /\ assoc "students" cdf1 = Some (VObj sf2)
             /\ assoc studentId sf2 = Some (new_student e1 studentName)
             /\ up_to_json
                  (VObj (assoc_set name
                           (VObj (assoc_set "students"
                                    (VObj (List.filter
                                             (fun p => negb (fst p =? studentId)%string)
                                             sf2)) cdf1)) cf1))
                  (VObj cf))
    as (cf1 & cdf1 & sf2 & -> & Ea1 & Es1 & Est1 & Hback).
  { assert (assoc studentId sf1 = Some (new_student e1 studentName)) as Hst
      by (rewrite Hsf'; now rewrite String.eqb_refl).
    destruct Hup1 as [->| ->].
    - exists (assoc_set name (VObj (assoc_set "students" (VObj sf1) cdf)) cf),
        (assoc_set "students" (VObj sf1) cdf), sf1. split; [reflexivity|].
      split; [apply assoc_set_same|]. split; [apply assoc_set_same|].
      split; [exact Hst|]. left. unfold sf1.
      rewrite filter_add_property by exact Hfree.
      rewrite !assoc_set_twice.
      now rewrite (assoc_set_id _ _ _ Es), (assoc_set_id _ _ _ Ea).
    - exists (map clone
                (assoc_set name (VObj (assoc_set "students" (VObj sf1) cdf))
                   cf)),
        (map clone (assoc_set "students" (VObj sf1) cdf)),
        (map clone sf1).
      split; [reflexivity|].
      split; [unfold clone; rewrite assoc_map_clone, assoc_set_same;
              reflexivity|].
      split; [unfold clone; rewrite assoc_map_clone, assoc_set_same;
              reflexivity|].
      split; [unfold clone; rewrite assoc_map_clone, Hst; reflexivity|].
      right. simpl. f_equal. unfold clone, sf1.
      rewrite filter_json_clone, filter_add_property by exact Hfree.
      rewrite !json_clone_assoc_set. simpl.
      rewrite !assoc_set_twice.
      change (VObj (map (fun p => (fst p, json_clone (snd p))) sf))
        with (json_clone (VObj sf)).
      rewrite <- json_clone_assoc_set, (assoc_set_id _ _ _ Es).
      change (VObj (map (fun p => (fst p, json_clone (snd p))) cdf))
        with (json_clone (VObj cdf)).
      now rewrite <- json_clone_assoc_set, (assoc_set_id _ _ _ Ea). }
  destruct (removeStudent_run e2 s1 l1 fs1 cf1 cdf1 sf2 name studentId
              (new_student e1 studentName) Hm1 Hd1 Ec1 Hcur1 Ea1 Es1 Est1
              eq_refl)
    as (s2 & l2 & fs2 & held & E2 & Hm2 & Hd2 & Ec2 & Hup2 & Hcur2).
  exists s2, held. split; [|split; [|split]].
  - simpl. now rewrite E1, E2.
  - eapply classes_of_held; eauto.
  - exact (up_to_json_again _ _ _ Hup2 Hback).
  - now rewrite Hcur2.
Qed.

Lemma add_then_remove_witness :
  exists s' held,
    session [(offline, AddStudent "Bob" "lq3x8k2f0a");
             (all_well, RemoveStudent "lq3x8k2f0a")] class_of_three
    = (Ret tt, s')
    /\ classes_of s' = Some held
    /\ up_to_json held
         (VObj [("Math", VObj [("students", VObj three_students)])])
    /\ currentClass s' = Some "Math".
Proof.
  eapply (add_then_remove offline all_well class_of_three 0%nat);
    try reflexivity; discriminate.
Defined.
